(** * pevents: WIN32 events for POSIX, a shallow embedding of [pevents.cpp]

    The model follows the translation unit as it is compiled with [WFMO]
    defined.  Every pthread primitive is assumed to succeed (return 0) except
    the timed condition wait, which may also return [ETIMEDOUT]; under this
    assumption the [PTHREADCHK] branches are dead code and are not modelled.

    - Pointers are indices into a store ([heap]); [new] appends a cell and
      [delete] leaves a tombstone, so an address is never reused.
    - Every call made on a mutex or a condition variable is appended to the
      calling thread's [trace]; the data protected by the locks lives in the
      store.
    - A blocking condition wait hands control to the other threads: the
      calling thread carries a schedule ([sched]) that lists, for each of its
      future wakeups, what the other threads did to the store in the meantime
      and whether the deadline had passed.  A thread that is still waiting
      when its schedule is exhausted is [Blocked].
    - [DestroyEvent] deletes the event without a look at its queue; a deleted
      event reads as the null cell. *)

From Stdlib Require Import ZArith List Bool Lia.
From stdpp Require Import base list.
Import ListNotations.

Local Open Scope Z_scope.

(** ** Machine integers *)

Module Int.
(** [int]: 32 bits, two's complement. *)
Definition wrap (z : Z) : Z := (z + 2 ^ 31) mod 2 ^ 32 - 2 ^ 31.
Definition max : Z := 2 ^ 31 - 1.
Definition incr (z : Z) : Z := wrap (z + 1).
Definition decr (z : Z) : Z := wrap (z - 1).
End Int.

Module U64.
(** [uint64_t]: arithmetic modulo 2^64. *)
Definition modulus : Z := 2 ^ 64.
Definition of_Z (z : Z) : Z := z mod modulus.
Definition add (a b : Z) : Z := (a + b) mod modulus.
Definition sub (a b : Z) : Z := (a - b) mod modulus.
Definition mul (a b : Z) : Z := (a * b) mod modulus.
End U64.

(** [<errno.h>] on Linux; the code relies only on the value being non-zero. *)
Definition ETIMEDOUT : Z := 110.

(** [(uint64_t) -1], the infinite timeout. *)
Definition INFINITE : Z := U64.of_Z (-1).

(** ** Data model *)

(** [neosmart_wfmo_t_].  The anonymous union [Status] holds two [int]
    members, [FiredEvent] and [EventsLeft], in the same storage: one field. *)
Record neosmart_wfmo_t_ := mk_wfmo {
  Status : Z;
  StillWaiting : bool;
  RefCount : Z;
  WaitAll : bool
}.

Record neosmart_wfmo_info_t_ := mk_info {
  Waiter : nat;
  WaitIndex : Z
}.

Record neosmart_event_t_ := mk_event {
  AutoReset : bool;
  State : bool;
  RegisteredWaits : list neosmart_wfmo_info_t_
}.

Record heap := mk_heap {
  events : list neosmart_event_t_;
  wfmos : list (option neosmart_wfmo_t_)
}.

Record timeval := mk_timeval { tv_sec : Z; tv_usec : Z }.
Record timespec := mk_timespec { ts_sec : Z; ts_nsec : Z }.

(** The object a mutex or a condition variable belongs to. *)
Inductive sync_obj :=
| EventObj (e : nat)
| WfmoObj (w : nat).

Inductive pthread_call :=
| pthread_mutex_init (o : sync_obj)
| pthread_cond_init (o : sync_obj)
| pthread_mutex_lock (o : sync_obj)
| pthread_mutex_unlock (o : sync_obj)
| pthread_mutex_destroy (o : sync_obj)
| pthread_cond_destroy (o : sync_obj)
| pthread_cond_signal (o : sync_obj)
| pthread_cond_broadcast (o : sync_obj)
| pthread_cond_wait (o : sync_obj)
| pthread_cond_timedwait (o : sync_obj) (ts : timespec)
| delete_wfmo (w : nat)
| assert_failed.

(** What another thread may do while the caller sleeps in a condition wait. *)
Inductive other_op :=
| OtherSetEvent (e : nat)
| OtherResetEvent (e : nat).

Record wakeup := mk_wakeup {
  others : list other_op;
  timed_out : bool
}.

Record thread := mk_thread {
  mem : heap;
  clock : timeval;
  sched : list wakeup;
  trace : list pthread_call
}.

(** ** The monad of a thread's code *)

Inductive outcome (A : Type) :=
| Returned (a : A) (t : thread)
| Blocked (t : thread).
Arguments Returned {A} a t.
Arguments Blocked {A} t.

Definition M (A : Type) : Type := thread -> outcome A.

Definition ret {A} (a : A) : M A := fun t => Returned a t.

Definition bind {A B} (m : M A) (k : A -> M B) : M B :=
  fun t => match m t with
           | Returned a t' => k a t'
           | Blocked t' => Blocked t'
           end.

Notation "x <- m ;; k" := (bind m (fun x => k))
  (at level 100, m at next level, right associativity).
Notation "m ;;; k" := (bind m (fun _ => k))
  (at level 100, right associativity).

Definition final {A} (r : outcome A) : thread :=
  match r with Returned _ t => t | Blocked t => t end.

Definition call (c : pthread_call) : M unit :=
  fun t => Returned tt (mk_thread (mem t) (clock t) (sched t) (trace t ++ [c])).

Definition update (f : heap -> heap) : M unit :=
  fun t => Returned tt (mk_thread (f (mem t)) (clock t) (sched t) (trace t)).

Definition read {A} (f : heap -> A) : M A :=
  fun t => Returned (f (mem t)) t.

Definition gettimeofday : M timeval := fun t => Returned (clock t) t.

(** [assert(b)]. *)
Definition assert (b : bool) : M unit :=
  if b then ret tt else call assert_failed.

(** ** Store accesses *)

Definition null_event : neosmart_event_t_ := mk_event false false [].
Definition null_wfmo : neosmart_wfmo_t_ := mk_wfmo 0 false 0 false.

(** [*event] and [*wfmo]; a dangling pointer reads as the null cell. *)
Definition event_at (h : heap) (e : nat) : neosmart_event_t_ :=
  default null_event (events h !! e).
Definition wfmo_at (h : heap) (w : nat) : neosmart_wfmo_t_ :=
  default null_wfmo (mjoin (wfmos h !! w)).

Definition upd_event (e : nat) (f : neosmart_event_t_ -> neosmart_event_t_)
    (h : heap) : heap :=
  mk_heap (alter f e (events h)) (wfmos h).

Definition upd_wfmo (w : nat) (f : neosmart_wfmo_t_ -> neosmart_wfmo_t_)
    (h : heap) : heap :=
  mk_heap (events h) (alter (fmap f) w (wfmos h)).

Definition free_wfmo (w : nat) (h : heap) : heap :=
  mk_heap (events h) (alter (fun _ => None) w (wfmos h)).

Definition set_State (b : bool) (ev : neosmart_event_t_) : neosmart_event_t_ :=
  mk_event (AutoReset ev) b (RegisteredWaits ev).
Definition set_RegisteredWaits (q : list neosmart_wfmo_info_t_)
    (ev : neosmart_event_t_) : neosmart_event_t_ :=
  mk_event (AutoReset ev) (State ev) q.
Definition pop_front (ev : neosmart_event_t_) : neosmart_event_t_ :=
  set_RegisteredWaits (tail (RegisteredWaits ev)) ev.
Definition push_back (i : neosmart_wfmo_info_t_) (ev : neosmart_event_t_)
    : neosmart_event_t_ :=
  set_RegisteredWaits (RegisteredWaits ev ++ [i]) ev.

Definition set_Status (z : Z) (r : neosmart_wfmo_t_) : neosmart_wfmo_t_ :=
  mk_wfmo z (StillWaiting r) (RefCount r) (WaitAll r).
Definition set_StillWaiting (b : bool) (r : neosmart_wfmo_t_) : neosmart_wfmo_t_ :=
  mk_wfmo (Status r) b (RefCount r) (WaitAll r).
Definition set_RefCount (z : Z) (r : neosmart_wfmo_t_) : neosmart_wfmo_t_ :=
  mk_wfmo (Status r) (StillWaiting r) z (WaitAll r).

(** [--x->Status.EventsLeft], [--x->RefCount], [++x->RefCount]. *)
Definition decr_Status (r : neosmart_wfmo_t_) := set_Status (Int.decr (Status r)) r.
Definition decr_RefCount (r : neosmart_wfmo_t_) := set_RefCount (Int.decr (RefCount r)) r.
Definition incr_RefCount (r : neosmart_wfmo_t_) := set_RefCount (Int.incr (RefCount r)) r.

(** [neosmart_wfmo_t_::Destroy]. *)
Definition Destroy (w : nat) : M unit :=
  call (pthread_mutex_destroy (WfmoObj w));;;
  call (pthread_cond_destroy (WfmoObj w)).

(** [delete wfmo]. *)
Definition delete (w : nat) : M unit :=
  update (free_wfmo w);;; call (delete_wfmo w).

(** ** [SetEvent] and [ResetEvent] *)

(** What a signaler does to a waiter that is still waiting
    (the same text in both branches of [SetEvent]). *)
Definition notify (i : neosmart_wfmo_info_t_) : M unit :=
  r <- read (fun h => wfmo_at h (Waiter i));;
  if WaitAll r then
    update (upd_wfmo (Waiter i) decr_Status);;;
    r' <- read (fun h => wfmo_at h (Waiter i));;
    assert (0 <=? Status r')
  else
    update (upd_wfmo (Waiter i) (set_Status (WaitIndex i)));;;
    update (upd_wfmo (Waiter i) (set_StillWaiting false)).

(** What a signaler does to a waiter that has left, once it holds the
    waiter's mutex and has dropped its reference. *)
Definition release (w : nat) : M unit :=
  r <- read (fun h => wfmo_at h w);;
  if RefCount r =? 0 then
    Destroy w;;; delete w
  else
    call (pthread_mutex_unlock (WfmoObj w)).

(** The [while(!event->RegisteredWaits.empty())] loop of the auto-reset
    branch.  [q] is the content of the queue on entry of the iteration; every
    iteration that continues pops the front.  [Some result] is the [return]
    inside the loop, [None] is the loop running to its end. *)
Fixpoint SetEvent_auto (event : nat) (q : list neosmart_wfmo_info_t_)
    : M (option Z) :=
  match q with
  | [] => ret None
  | i :: q' =>
      call (pthread_mutex_lock (WfmoObj (Waiter i)));;;
      update (upd_wfmo (Waiter i) decr_RefCount);;;
      r <- read (fun h => wfmo_at h (Waiter i));;
      if negb (StillWaiting r) then
        release (Waiter i);;;
        update (upd_event event pop_front);;;
        SetEvent_auto event q'
      else
        update (upd_event event (set_State false));;;
        notify i;;;
        call (pthread_mutex_unlock (WfmoObj (Waiter i)));;;
        call (pthread_cond_signal (WfmoObj (Waiter i)));;;
        update (upd_event event pop_front);;;
        call (pthread_mutex_unlock (EventObj event));;;
        ret (Some 0)
  end.

(** The [for] loop of the manual-reset branch over [RegisteredWaits[i]]. *)
Fixpoint SetEvent_manual (q : list neosmart_wfmo_info_t_) : M unit :=
  match q with
  | [] => ret tt
  | info :: q' =>
      call (pthread_mutex_lock (WfmoObj (Waiter info)));;;
      update (upd_wfmo (Waiter info) decr_RefCount);;;
      r <- read (fun h => wfmo_at h (Waiter info));;
      (if negb (StillWaiting r) then
         release (Waiter info)
       else
         notify info;;;
         call (pthread_mutex_unlock (WfmoObj (Waiter info)));;;
         call (pthread_cond_signal (WfmoObj (Waiter info))));;;
      SetEvent_manual q'
  end.

Definition SetEvent (event : nat) : M Z :=
  call (pthread_mutex_lock (EventObj event));;;
  update (upd_event event (set_State true));;;
  ev <- read (fun h => event_at h event);;
  if AutoReset ev then
    r <- SetEvent_auto event (RegisteredWaits ev);;
    match r with
    | Some result => ret result
    | None =>
        ev' <- read (fun h => event_at h event);;
        if State ev' then
          call (pthread_mutex_unlock (EventObj event));;;
          call (pthread_cond_signal (EventObj event));;;
          ret 0
        else ret 0
    end
  else
    SetEvent_manual (RegisteredWaits ev);;;
    update (upd_event event (set_RegisteredWaits []));;;
    call (pthread_mutex_unlock (EventObj event));;;
    call (pthread_cond_broadcast (EventObj event));;;
    ret 0.

Definition ResetEvent (event : nat) : M Z :=
  call (pthread_mutex_lock (EventObj event));;;
  update (upd_event event (set_State false));;;
  call (pthread_mutex_unlock (EventObj event));;;
  ret 0.

(** ** Condition waits *)

(** The effect on the store of one operation of another thread. *)
Definition run_other (h : heap) (op : other_op) : heap :=
  match op with
  | OtherSetEvent e => mem (final (SetEvent e (mk_thread h (mk_timeval 0 0) [] [])))
  | OtherResetEvent e => mem (final (ResetEvent e (mk_thread h (mk_timeval 0 0) [] [])))
  end.

Definition run_others (ops : list other_op) (h : heap) : heap :=
  fold_left run_other ops h.

(** The call a wait makes: timed when a deadline is given. *)
Definition wait_call (o : sync_obj) (ts : option timespec) : pthread_call :=
  match ts with
  | Some d => pthread_cond_timedwait o d
  | None => pthread_cond_wait o
  end.

(** The thread sleeps and there is no wakeup left for it. *)
Definition sleep (o : sync_obj) (ts : option timespec) (t : thread) : thread :=
  mk_thread (mem t) (clock t) [] (trace t ++ [wait_call o ts]).

(** The thread sleeps, the others run, and the wait returns: [ETIMEDOUT]
    from a timed wait whose deadline has passed, 0 otherwise. *)
Definition wake (o : sync_obj) (ts : option timespec) (w : wakeup)
    (ws : list wakeup) (t : thread) : Z * thread :=
  (if bool_decide (is_Some ts) && timed_out w then ETIMEDOUT else 0,
   mk_thread (run_others (others w) (mem t)) (clock t) ws
             (trace t ++ [wait_call o ts])).

(** ** Deadlines *)

(** [nanoseconds], then [ts.tv_sec] and [ts.tv_nsec], as computed in
    [UnlockedWaitForEvent] and again in [WaitForMultipleEvents].  The two
    results are below 2^64 / 10^9 and below 10^9, so that their conversion to
    the 64-bit [time_t] and [long] of [timespec] changes nothing. *)
Definition deadline (tv : timeval) (milliseconds : Z) : timespec :=
  let nanoseconds :=
    U64.add
      (U64.add
         (U64.mul (U64.mul (U64.mul (U64.of_Z (tv_sec tv)) 1000) 1000) 1000)
         (U64.mul (U64.mul milliseconds 1000) 1000))
      (U64.mul (U64.of_Z (tv_usec tv)) 1000) in
  let sec := nanoseconds / 1000 / 1000 / 1000 in
  mk_timespec sec
    (U64.sub nanoseconds
       (U64.mul (U64.mul (U64.mul (U64.of_Z sec) 1000) 1000) 1000)).

(** ** Waiting for one event *)

(** The [do ... while(result == 0 && !event->State)] loop; [ws] is the
    thread's schedule on entry of the iteration. *)
Fixpoint wait_until_set (event : nat) (ts : option timespec)
    (ws : list wakeup) (t : thread) : outcome Z :=
  match ws with
  | [] => Blocked (sleep (EventObj event) ts t)
  | w :: ws' =>
      let '(result, t') := wake (EventObj event) ts w ws' t in
      if (result =? 0) && negb (State (event_at (mem t') event))
      then wait_until_set event ts ws' t'
      else Returned result t'
  end.

Definition UnlockedWaitForEvent (event : nat) (milliseconds : Z) : M Z :=
  ev <- read (fun h => event_at h event);;
  if negb (State ev) then
    if milliseconds =? 0 then ret ETIMEDOUT
    else
      ts <- (if negb (milliseconds =? INFINITE) then
               tv <- gettimeofday;; ret (Some (deadline tv milliseconds))
             else ret None);;
      result <- (fun t => wait_until_set event ts (sched t) t);;
      ev' <- read (fun h => event_at h event);;
      if (result =? 0) && AutoReset ev' then
        update (upd_event event (set_State false));;; ret result
      else ret result
  else if AutoReset ev then
    update (upd_event event (set_State false));;; ret 0
  else ret 0.

Definition WaitForEvent (event : nat) (milliseconds : Z) : M Z :=
  call (pthread_mutex_lock (EventObj event));;;
  result <- UnlockedWaitForEvent event milliseconds;;
  call (pthread_mutex_unlock (EventObj event));;;
  ret result.

(** ** Waiting for several events *)

(** [new neosmart_wfmo_t_]. *)
Definition new_wfmo : M nat :=
  w <- read (fun h => length (wfmos h));;
  update (fun h => mk_heap (events h) (wfmos h ++ [Some null_wfmo]));;;
  ret w.

Definition set_WaitAll (b : bool) (r : neosmart_wfmo_t_) : neosmart_wfmo_t_ :=
  mk_wfmo (Status r) (StillWaiting r) (RefCount r) b.

(** The registration loop [for(int i = 0; i < count; ++i)]: [es] holds
    [events[i]], [events[i+1]], ...  The value is the flag [done]. *)
Fixpoint register_waits (wfmo : nat) (waitAll : bool) (i : Z) (es : list nat)
    : M bool :=
  match es with
  | [] => ret false
  | e :: es' =>
      call (pthread_mutex_lock (EventObj e));;;
      r <- UnlockedWaitForEvent e 0;;
      if r =? 0 then
        call (pthread_mutex_unlock (EventObj e));;;
        if waitAll then
          update (upd_wfmo wfmo decr_Status);;;
          s <- read (fun h => wfmo_at h wfmo);;
          assert (0 <=? Status s);;;
          register_waits wfmo waitAll (i + 1) es'
        else
          update (upd_wfmo wfmo (set_Status i));;;
          ret true
      else
        update (upd_event e (push_back (mk_info wfmo i)));;;
        update (upd_wfmo wfmo incr_RefCount);;;
        call (pthread_mutex_unlock (EventObj e));;;
        register_waits wfmo waitAll (i + 1) es'
  end.

(** The value given to [done] at the top of the loop [while(!done)]:
    [(waitAll && EventsLeft == 0) || (!waitAll && FiredEvent != -1)]. *)
Definition satisfied (waitAll : bool) (s : neosmart_wfmo_t_) : bool :=
  (waitAll && (Status s =? 0)) || (negb waitAll && negb (Status s =? -1)).

(** The loop [while(!done)], entered with [done] false. *)
Fixpoint wait_until_done (wfmo : nat) (waitAll : bool) (ts : option timespec)
    (result : Z) (ws : list wakeup) (t : thread) : outcome Z :=
  if satisfied waitAll (wfmo_at (mem t) wfmo)
  then Returned result t
  else
    match ws with
    | [] => Blocked (sleep (WfmoObj wfmo) ts t)
    | w :: ws' =>
        let '(result', t') := wake (WfmoObj wfmo) ts w ws' t in
        if negb (result' =? 0) then Returned result' t'
        else wait_until_done wfmo waitAll ts result' ws' t'
    end.

(** The value is the pair of the returned [int] and the out-parameter
    [waitIndex], whose last assignment is the one before the record is
    released.  [events] is the array and [count] the number of its cells the
    caller asks to wait for; the array is taken to have that many cells. *)
Definition WaitForMultipleEvents (events : list nat) (count : Z)
    (waitAll : bool) (milliseconds : Z) : M (Z * Z) :=
  wfmo <- new_wfmo;;
  call (pthread_mutex_init (WfmoObj wfmo));;;
  call (pthread_cond_init (WfmoObj wfmo));;;
  update (upd_wfmo wfmo (set_WaitAll waitAll));;;
  update (upd_wfmo wfmo (set_StillWaiting true));;;
  update (upd_wfmo wfmo (set_RefCount 1));;;
  update (upd_wfmo wfmo (set_Status (if waitAll then count else -1)));;;
  call (pthread_mutex_lock (WfmoObj wfmo));;;
  done <- register_waits wfmo waitAll 0 (take (Z.to_nat count) events);;
  p <- (if negb done then
          if milliseconds =? 0 then ret (ETIMEDOUT, true, None)
          else if negb (milliseconds =? INFINITE) then
            tv <- gettimeofday;; ret (0, false, Some (deadline tv milliseconds))
          else ret (0, false, None)
        else ret (0, true, None));;
  let '(result, done, ts) := p in
  result <- (if done then ret result
             else fun t => wait_until_done wfmo waitAll ts result (sched t) t);;
  s <- read (fun h => wfmo_at h wfmo);;
  let waitIndex := Status s in
  update (upd_wfmo wfmo (set_StillWaiting false));;;
  update (upd_wfmo wfmo decr_RefCount);;;
  s' <- read (fun h => wfmo_at h wfmo);;
  (if RefCount s' =? 0 then
     Destroy wfmo;;; delete wfmo
   else
     call (pthread_mutex_unlock (WfmoObj wfmo)));;;
  ret (result, waitIndex).

(** ** [CreateEvent] *)

(** [new neosmart_event_t_]: the deque starts empty. *)
Definition new_event : M nat :=
  e <- read (fun h => length (events h));;
  update (fun h => mk_heap (events h ++ [null_event]) (wfmos h));;;
  ret e.

Definition set_AutoReset (b : bool) (ev : neosmart_event_t_) : neosmart_event_t_ :=
  mk_event b (State ev) (RegisteredWaits ev).

(** [initialState] is read only under [PTHREADCHK]. *)
Definition CreateEvent (manualReset initialState : bool) : M nat :=
  event <- new_event;;
  call (pthread_cond_init (EventObj event));;;
  call (pthread_mutex_init (EventObj event));;;
  update (upd_event event (set_State false));;;
  update (upd_event event (set_AutoReset (negb manualReset)));;;
  _ <- SetEvent event;;
  ret event.

(** ** The rest of the interface *)

(** The overload of [WaitForMultipleEvents] without the out-parameter: it
    passes a local [unused] and returns the [int] alone. *)
Definition WaitForMultipleEvents_unused (events : list nat) (count : Z)
    (waitAll : bool) (milliseconds : Z) : M Z :=
  p <- WaitForMultipleEvents events count waitAll milliseconds;;
  ret (fst p).

(** [delete event]: the cell, with its queue, is gone; as every dangling
    pointer does, the address reads as the null cell from now on.  The
    records the queue pointed to are not touched. *)
Definition free_event (e : nat) (h : heap) : heap :=
  mk_heap (alter (fun _ => null_event) e (events h)) (wfmos h).

(** [DestroyEvent]. *)
Definition DestroyEvent (event : nat) : M Z :=
  call (pthread_cond_destroy (EventObj event));;;
  call (pthread_mutex_destroy (EventObj event));;;
  update (free_event event);;;
  ret 0.

(** ** Running a program from the empty store *)

Definition empty_heap : heap := mk_heap [] [].
Definition start (h : heap) (now : timeval) (ws : list wakeup) : thread :=
  mk_thread h now ws [].

(** * Vocabulary of the properties *)

(** ** Signals in a trace *)

(** The calls that wake a waiter. *)
Definition wakes_someone (c : pthread_call) : bool :=
  match c with
  | pthread_cond_signal _ | pthread_cond_broadcast _ => true
  | _ => false
  end.

(** The signal and broadcast calls of a trace, in order. *)
Definition signals (tr : list pthread_call) : list pthread_call :=
  List.filter wakes_someone tr.

Ltac run :=
  unfold bind, call, update, read, ret, gettimeofday, assert;
  cbn [mem clock sched trace final].

(** [i->Waiter->StillWaiting]. *)
Definition still_waiting (h : heap) (i : neosmart_wfmo_info_t_) : bool :=
  StillWaiting (wfmo_at h (Waiter i)).

(** ** What the helpers do to the store and to the trace

    Each of the following is the effect of a piece of the code above, in
    closed form; the equations of the next part show that the code computes
    it. *)

(** [release]: the store, and the calls. *)
Definition released (w : nat) (h : heap) : heap :=
  if RefCount (wfmo_at h w) =? 0 then free_wfmo w h else h.

Definition release_calls (w : nat) (h : heap) : list pthread_call :=
  if RefCount (wfmo_at h w) =? 0
  then [pthread_mutex_destroy (WfmoObj w); pthread_cond_destroy (WfmoObj w); delete_wfmo w]
  else [pthread_mutex_unlock (WfmoObj w)].

(** [notify]: the store, and the calls (a failed [assert] at most). *)
Definition notified (i : neosmart_wfmo_info_t_) (h : heap) : heap :=
  if WaitAll (wfmo_at h (Waiter i)) then upd_wfmo (Waiter i) decr_Status h
  else upd_wfmo (Waiter i) (set_StillWaiting false)
         (upd_wfmo (Waiter i) (set_Status (WaitIndex i)) h).

Definition notify_calls (i : neosmart_wfmo_info_t_) (h : heap) : list pthread_call :=
  if WaitAll (wfmo_at h (Waiter i)) &&
     negb (0 <=? Status (wfmo_at (upd_wfmo (Waiter i) decr_Status h) (Waiter i)))
  then [assert_failed] else [].

(** [--i->Waiter->RefCount]. *)
Definition after_decr (i : neosmart_wfmo_info_t_) (h : heap) : heap :=
  upd_wfmo (Waiter i) decr_RefCount h.

(** The record of a waiter that [SetEvent] found waiting, after the call. *)
Definition signalled (i : neosmart_wfmo_info_t_) (r : neosmart_wfmo_t_)
    : neosmart_wfmo_t_ :=
  let r' := decr_RefCount r in
  if WaitAll r' then decr_Status r'
  else set_StillWaiting false (set_Status (WaitIndex i) r').

(** ** Reference counting *)

(** The number of registrations of the record [w] in a queue, and in all
    the queues of the store. *)
Definition refs (w : nat) (q : list neosmart_wfmo_info_t_) : nat :=
  length (List.filter (fun i => Nat.eqb (Waiter i) w) q).

Definition registrations (w : nat) (h : heap) : nat :=
  sum_list_with (fun ev => refs w (RegisteredWaits ev)) (events h).

(** The reference of the waiting thread itself: [owner] is the record of the
    call to [WaitForMultipleEvents] that is in progress, if there is one. *)
Definition own (owner : option nat) (w : nat) : Z :=
  if bool_decide (owner = Some w) then 1 else 0.

(** The invariant: the count of a record in the store is the reference of
    its waiter plus its registrations, it is positive and fits an [int], and
    only the record of the call in progress can still be waiting; an address
    without a record has no reference left. *)
Definition refcount_ok (owner : option nat) (h : heap) : Prop :=
  forall w,
    match wfmos h !! w with
    | Some (Some r) =>
        RefCount r = own owner w + Z.of_nat (registrations w h) /\
        0 < RefCount r <= Int.max /\
        (StillWaiting r = true -> owner = Some w)
    | _ => own owner w + Z.of_nat (registrations w h) = 0
    end.

(** The same with the references split in those of the queue [q] that a
    signaler is walking and the others, [base]. *)
Definition counted (owner : option nat) (base : nat -> Z)
    (q : list neosmart_wfmo_info_t_) (h : heap) : Prop :=
  forall w,
    match wfmos h !! w with
    | Some (Some r) =>
        RefCount r = base w + Z.of_nat (refs w q) /\
        0 < RefCount r <= Int.max /\
        (StillWaiting r = true -> owner = Some w)
    | _ => base w + Z.of_nat (refs w q) = 0
    end.

(** What a signaler does to the records when it visits the registration
    [i], in either branch of [SetEvent]. *)
Definition visited (i : neosmart_wfmo_info_t_) (h : heap) : heap :=
  let h1 := after_decr i h in
  if StillWaiting (wfmo_at h1 (Waiter i)) then notified i h1
  else released (Waiter i) h1.

(** [registrations], on the list of events. *)
Definition regs_in (w : nat) (evs : list neosmart_event_t_) : nat :=
  sum_list_with (fun ev => refs w (RegisteredWaits ev)) evs.

(** ** Effects of the waits *)

(** A successful [UnlockedWaitForEvent] on [e]: an auto-reset event is
    consumed, a manual-reset event is left as it is. *)
Definition consumed (e : nat) (h : heap) : heap :=
  if AutoReset (event_at h e) then upd_event e (set_State false) h else h.

(** The argument of the timed wait, if the wait is timed. *)
Definition timeout_of (tv : timeval) (milliseconds : Z) : option timespec :=
  if negb (milliseconds =? INFINITE) then Some (deadline tv milliseconds) else None.

(** [assert]: the calls. *)
Definition assert_calls (b : bool) : list pthread_call :=
  if b then [] else [assert_failed].

(** ** The phases of [WaitForMultipleEvents] *)

(** The store once the record is built. *)
Definition constructed (count : Z) (waitAll : bool) (h : heap) : heap :=
  mk_heap (events h)
    (wfmos h ++ [Some (mk_wfmo (if waitAll then count else -1) true 1 waitAll)]).

(** The store once the waiter has dropped its reference. *)
Definition finalized (w : nat) (h : heap) : heap :=
  released w (upd_wfmo w decr_RefCount (upd_wfmo w (set_StillWaiting false) h)).

(** The calls of the waiter when it drops its reference. *)
Definition finalize_calls (w : nat) (h : heap) : list pthread_call :=
  release_calls w (upd_wfmo w decr_RefCount (upd_wfmo w (set_StillWaiting false) h)).

(** Phase C: what follows the registration loop, up to the end of the
    [while(!done)] loop. *)
Definition wait_phase (wfmo : nat) (waitAll : bool) (milliseconds : Z) (done : bool)
    (t : thread) : outcome Z :=
  if done then Returned 0 t
  else if milliseconds =? 0 then Returned ETIMEDOUT t
  else wait_until_done wfmo waitAll (timeout_of (clock t) milliseconds) 0 (sched t) t.

(** The call up to and including the registration loop: the record is
    built at the first free address, its mutex is locked, and the loop runs
    over the first [count] events.  The value is the flag [done]. *)
Definition registered (evs : list nat) (count : Z) (waitAll : bool) (t : thread)
    : outcome bool :=
  register_waits (length (wfmos (mem t))) waitAll 0 (take (Z.to_nat count) evs)
    (mk_thread (constructed count waitAll (mem t)) (clock t) (sched t)
       (trace t ++ [pthread_mutex_init (WfmoObj (length (wfmos (mem t))));
                    pthread_cond_init (WfmoObj (length (wfmos (mem t))));
                    pthread_mutex_lock (WfmoObj (length (wfmos (mem t))))])).

(** ** Locks held at destruction *)

Global Instance sync_obj_eq_dec : EqDecision sync_obj.
Proof. solve_decision. Defined.

(** Replaying a trace for the mutex of [o]: the first component tells
    whether the thread holds the mutex, the second whether every
    [pthread_mutex_destroy] and [delete] of [o] so far came while it held it. *)
Definition lock_step (o : sync_obj) (st : bool * bool) (c : pthread_call)
    : bool * bool :=
  match c with
  | pthread_mutex_lock o' => (fst st || bool_decide (o' = o), snd st)
  | pthread_mutex_unlock o' => (fst st && negb (bool_decide (o' = o)), snd st)
  | pthread_mutex_destroy o' => (fst st, snd st && (fst st || negb (bool_decide (o' = o))))
  | delete_wfmo w => (fst st, snd st && (fst st || negb (bool_decide (WfmoObj w = o))))
  | _ => st
  end.

(** The replay of a whole trace from the state [st]. *)
Definition replay (o : sync_obj) (st : bool * bool) (tr : list pthread_call)
    : bool * bool :=
  fold_left (lock_step o) tr st.

(** Every destruction of [o] in the trace came while its mutex was held. *)
Definition destroyed_locked (o : sync_obj) (tr : list pthread_call) : bool :=
  snd (replay o (false, true) tr).

(** ** Condition waits in a trace, and what the others did meanwhile *)

(** The calls that block. *)
Definition is_wait (c : pthread_call) : bool :=
  match c with
  | pthread_cond_wait _ | pthread_cond_timedwait _ _ => true
  | _ => false
  end.

(** The condition waits of a trace, in order. *)
Definition waits (tr : list pthread_call) : list pthread_call :=
  List.filter is_wait tr.

(** The operations of the other threads during the wakeups [k]. *)
Definition others_of (k : list wakeup) : list other_op := flat_map others k.

(** ** The deadline *)

(** The instant, in nanoseconds, that is [milliseconds] after [tv]. *)
Definition instant (tv : timeval) (milliseconds : Z) : Z :=
  tv_sec tv * 10 ^ 9 + milliseconds * 10 ^ 6 + tv_usec tv * 10 ^ 3.

(** The instant a [timespec] denotes, in nanoseconds. *)
Definition nanoseconds_of (ts : timespec) : Z := ts_sec ts * 10 ^ 9 + ts_nsec ts.

(** ** A record that no queue mentions *)

(** What a call returned, if it returned. *)
Definition returned {A} (r : outcome A) : option A :=
  match r with Returned a _ => Some a | Blocked _ => None end.

(** ** A signaled manual-reset event stays signaled *)

(** The event [e] is a manual-reset event and it is signaled. *)
Definition sticky (e : nat) (h : heap) : Prop :=
  AutoReset (event_at h e) = false /\ State (event_at h e) = true.

(** No other thread resets [e] during the wakeups [ws]. *)
Definition no_reset (e : nat) (ws : list wakeup) : Prop :=
  Forall (fun w => Forall (fun op => op <> OtherResetEvent e) (others w)) ws.

(** [f] leaves a signaled manual-reset event as it is. *)
Definition keeps_sticky (f : neosmart_event_t_ -> neosmart_event_t_) : Prop :=
  forall ev, AutoReset ev = false -> State ev = true ->
             AutoReset (f ev) = false /\ State (f ev) = true.

(** ** Further vocabulary *)

(** The thread [t] with the schedule [ws]. *)
Definition with_sched (ws : list wakeup) (t : thread) : thread :=
  mk_thread (mem t) (clock t) ws (trace t).

(** A wakeup during which no other thread did anything and the deadline had
    not passed: a spurious wakeup. *)
Definition spurious (w : wakeup) : Prop := others w = [] /\ timed_out w = false.

(** No record of the store is still waiting: no call to
    [WaitForMultipleEvents] is in progress. *)
Definition quiescent (h : heap) : Prop :=
  forall w, StillWaiting (wfmo_at h w) = false.

(** ** Mutexes held *)

(** [l] without the first occurrence of [o]. *)
Fixpoint release_lock (o : sync_obj) (l : list sync_obj) : list sync_obj :=
  match l with
  | [] => []
  | o' :: l' => if decide (o' = o) then l' else o' :: release_lock o l'
  end.

(** The mutexes the thread holds after the call [c], if it held [l] before:
    a lock adds the mutex, an unlock or the destruction of the mutex takes
    it away; a condition wait returns with its mutex locked again. *)
Definition held_step (l : list sync_obj) (c : pthread_call) : list sync_obj :=
  match c with
  | pthread_mutex_lock o => o :: l
  | pthread_mutex_unlock o => release_lock o l
  | pthread_mutex_destroy o => release_lock o l
  | _ => l
  end.

(** The mutexes the thread holds at the end of the trace, the last locked
    first. *)
Definition held (tr : list pthread_call) : list sync_obj :=
  fold_left held_step tr [].

(** ** Events handed to a waiter *)

(** In [h] the event [e] has gone to a waiter: it is as it was created in
    [h0], unsignaled if it is auto-reset and signaled if it is manual-reset,
    and its queue is empty. *)
Definition taken (h0 h : heap) (e : nat) : Prop :=
  event_at h e =
  mk_event (AutoReset (event_at h0 e)) (negb (AutoReset (event_at h0 e))) [].

(** The event [e], the [m]-th of the wait [w], is still waited for: it is
    not signaled, and the registration of [w] is the last of its queue,
    behind registrations of waits that have left. *)
Definition pending (w : nat) (h0 h : heap) (m : nat) (e : nat) : Prop :=
  exists ev gone,
    events h !! e = Some ev /\
    State ev = false /\
    AutoReset ev = AutoReset (event_at h0 e) /\
    RegisteredWaits ev = gone ++ [mk_info w (Z.of_nat m)] /\
    Forall (fun i => Waiter i <> w /\ still_waiting h i = false) gone.

(** The wait for all [w] over the events [es], registered in [h0], is
    in [h], with the first [k] events handed over and the others pending. *)
Definition handed_over (w : nat) (h0 : heap) (es : list nat) (k : nat) (h : heap)
    : Prop :=
  Status (wfmo_at h w) = Z.of_nat (length es) - Z.of_nat k /\
  StillWaiting (wfmo_at h w) = true /\
  WaitAll (wfmo_at h w) = true /\
  (forall m e, (k <= m)%nat -> es !! m = Some e -> pending w h0 h m e) /\
  (forall m e, (m < k)%nat -> es !! m = Some e -> taken h0 h e).

(** ** The events a wait for all is waiting for *)

(** While the record [w] of a wait for all is waiting, [Status.EventsLeft]
    is the number of its references less the one of the waiter. *)
Definition events_left_ok (w : nat) (h : heap) : Prop :=
  WaitAll (wfmo_at h w) = true ->
  StillWaiting (wfmo_at h w) = true ->
  Status (wfmo_at h w) = RefCount (wfmo_at h w) - 1.

(** ** Setting every event *)

(** The event [ev] after a [SetEvent] that found nobody waiting. *)
Definition set_and_cleared (ev : neosmart_event_t_) : neosmart_event_t_ :=
  mk_event (AutoReset ev) true [].

(** ** The index a wait for any event returns *)

(** Every registration of the record [w] in a queue of [h] carries an
    index in [0, n). *)
Definition indices_ok (w : nat) (n : Z) (h : heap) : Prop :=
  forall e i, i ∈ RegisteredWaits (event_at h e) -> Waiter i = w ->
              0 <= WaitIndex i < n.

(** ** Several waits in progress *)

(** The references of the waiting threads: [O] lists the records of the
    calls to [WaitForMultipleEvents] that are in progress. *)
Definition owns (O : list nat) (w : nat) : Z :=
  if bool_decide (w ∈ O) then 1 else 0.

(** The invariant of the reference counts with any number of calls in
    progress: the count of a record in the store is the reference of its
    waiter, if it is still in its call, plus its registrations, it is
    positive and fits an [int], and only the record of a call in progress can
    still be waiting; an address without a record has no reference left.
    [refcount_ok] is the case of at most one call. *)
Definition refcounts_ok (O : list nat) (h : heap) : Prop :=
  forall w,
    match wfmos h !! w with
    | Some (Some r) =>
        RefCount r = owns O w + Z.of_nat (registrations w h) /\
        0 < RefCount r <= Int.max /\
        (StillWaiting r = true -> w ∈ O)
    | _ => owns O w + Z.of_nat (registrations w h) = 0
    end.

(** The same with the references split in those of the queue [q] that a
    signaler is walking and the others, [base]. *)
Definition counteds (O : list nat) (base : nat -> Z)
    (q : list neosmart_wfmo_info_t_) (h : heap) : Prop :=
  forall w,
    match wfmos h !! w with
    | Some (Some r) =>
        RefCount r = base w + Z.of_nat (refs w q) /\
        0 < RefCount r <= Int.max /\
        (StillWaiting r = true -> w ∈ O)
    | _ => base w + Z.of_nat (refs w q) = 0
    end.

(** The calls in progress once that of the record [w] has finalized. *)
Definition without (w : nat) (O : list nat) : list nat :=
  List.filter (fun x => negb (Nat.eqb x w)) O.

(** ** A wait for any event that nobody has served *)

(** A registration of the wait [w]. *)
Definition ours (w : nat) (i : neosmart_wfmo_info_t_) : Prop :=
  Waiter i = w /\ 0 <= WaitIndex i.

(** [ev'] is [ev] with registrations of [w] behind those of the others. *)
Definition event_unserved (w : nat) (ev ev' : neosmart_event_t_) : Prop :=
  AutoReset ev' = AutoReset ev /\ State ev' = State ev /\
  Forall (fun i => Waiter i <> w) (RegisteredWaits ev) /\
  exists o, RegisteredWaits ev' = RegisteredWaits ev ++ o /\ Forall (ours w) o.

(** The record of a wait for any event that no signaler has reached. *)
Definition unfired (w : nat) (h : heap) : Prop :=
  StillWaiting (wfmo_at h w) = true /\ WaitAll (wfmo_at h w) = false /\
  Status (wfmo_at h w) = -1.

(** [h'] is the store [h] in which the wait [w] has registered and has not
    been served: the events differ by the registrations of [w], the other
    records are the same. *)
Definition unserved (w : nat) (h h' : heap) : Prop :=
  Forall2 (event_unserved w) (events h) (events h') /\
  (forall w', w' <> w -> wfmos h' !! w' = wfmos h !! w') /\
  unfired w h'.

(** A signaler has reached a registration of the wait [w]. *)
Definition served (w : nat) (h : heap) : Prop :=
  0 <= Status (wfmo_at h w) /\ StillWaiting (wfmo_at h w) = false.

(** A signaler has left in the record of the wait [w] the index of one of
    its [n] events. *)
Definition answered (w : nat) (n : Z) (h : heap) : Prop :=
  StillWaiting (wfmo_at h w) = false /\ 0 <= Status (wfmo_at h w) < n.

(** ** Registrations and the records they name *)

(** Every registration in a queue names a record that has been allocated. *)
Definition allocated (h : heap) : Prop :=
  forall e i, i ∈ RegisteredWaits (event_at h e) -> (Waiter i < length (wfmos h))%nat.

(** * Properties *)

Lemma event_at_lookup h e ev : events h !! e = Some ev -> event_at h e = ev.
Proof. unfold event_at. intros ->. reflexivity. Qed.

Lemma event_at_upd_event_eq h e f ev :
  events h !! e = Some ev -> event_at (upd_event e f h) e = f ev.
Proof.
  intros H. unfold event_at, upd_event; cbn.
  rewrite list_lookup_alter, decide_True by reflexivity. rewrite H. reflexivity.
Qed.

Lemma event_at_upd_event_ne h e e' f :
  e <> e' -> event_at (upd_event e f h) e' = event_at h e'.
Proof.
  intros H. unfold event_at, upd_event; cbn.
  rewrite list_lookup_alter_ne by assumption. reflexivity.
Qed.

Lemma event_at_dangling h e : events h !! e = None -> event_at h e = null_event.
Proof. unfold event_at. intros ->. reflexivity. Qed.

Lemma upd_event_dangling h e f : events h !! e = None -> upd_event e f h = h.
Proof.
  intros H. unfold upd_event. destruct h as [evs ws]; cbn in *. f_equal.
  apply list_eq. intros j. destruct (decide (e = j)) as [<-|Hne].
  - rewrite list_lookup_alter, decide_True by reflexivity. rewrite H. reflexivity.
  - apply list_lookup_alter_ne; assumption.
Qed.

Lemma wfmo_at_lookup h w r : wfmos h !! w = Some (Some r) -> wfmo_at h w = r.
Proof. unfold wfmo_at. intros ->. reflexivity. Qed.

Lemma wfmo_at_upd_wfmo_ne h w w' f :
  w <> w' -> wfmo_at (upd_wfmo w f h) w' = wfmo_at h w'.
Proof.
  intros H. unfold wfmo_at, upd_wfmo; cbn.
  rewrite list_lookup_alter_ne by assumption. reflexivity.
Qed.

Lemma wfmo_at_upd_wfmo_eq h w f r :
  wfmos h !! w = Some (Some r) -> wfmo_at (upd_wfmo w f h) w = f r.
Proof.
  intros H. unfold wfmo_at, upd_wfmo; cbn.
  rewrite list_lookup_alter, decide_True by reflexivity. rewrite H. reflexivity.
Qed.

Lemma wfmo_at_upd_wfmo h w w' f :
  wfmo_at (upd_wfmo w f h) w' =
  if decide (w = w') then
    match mjoin (wfmos h !! w) with Some r => f r | None => null_wfmo end
  else wfmo_at h w'.
Proof.
  unfold wfmo_at, upd_wfmo; cbn. rewrite list_lookup_alter.
  destruct (decide (w = w')) as [<-|]; [|reflexivity].
  destruct (wfmos h !! w) as [[r|]|]; reflexivity.
Qed.

Lemma wfmo_at_free_wfmo h w w' :
  wfmo_at (free_wfmo w h) w' = if decide (w = w') then null_wfmo else wfmo_at h w'.
Proof.
  unfold wfmo_at, free_wfmo; cbn. rewrite list_lookup_alter.
  destruct (decide (w = w')) as [<-|]; [|reflexivity].
  destruct (wfmos h !! w) as [[r|]|]; reflexivity.
Qed.

Lemma signals_app tr1 tr2 : signals (tr1 ++ tr2) = signals tr1 ++ signals tr2.
Proof. apply List.filter_app. Qed.

Lemma release_eq w t :
  release w t =
  Returned tt (mk_thread (released w (mem t)) (clock t) (sched t)
                         (trace t ++ release_calls w (mem t))).
Proof.
  unfold release, released, release_calls, Destroy, delete. run.
  destruct (RefCount _ =? 0); run; rewrite <- ?app_assoc; reflexivity.
Qed.

Lemma notify_eq i t :
  notify i t =
  Returned tt (mk_thread (notified i (mem t)) (clock t) (sched t)
                         (trace t ++ notify_calls i (mem t))).
Proof.
  unfold notify, notified, notify_calls. run.
  destruct (WaitAll _); run; cbn [andb].
  - destruct (0 <=? _); cbn [negb]; run; rewrite ?app_nil_r; reflexivity.
  - rewrite app_nil_r. reflexivity.
Qed.

Lemma SetEvent_auto_cons event i q t :
  SetEvent_auto event (i :: q) t =
  let h1 := after_decr i (mem t) in
  if StillWaiting (wfmo_at h1 (Waiter i)) then
    let h2 := upd_event event (set_State false) h1 in
    Returned (Some 0)
      (mk_thread (upd_event event pop_front (notified i h2)) (clock t) (sched t)
         (trace t ++ pthread_mutex_lock (WfmoObj (Waiter i)) :: notify_calls i h2 ++
            [pthread_mutex_unlock (WfmoObj (Waiter i));
             pthread_cond_signal (WfmoObj (Waiter i));
             pthread_mutex_unlock (EventObj event)]))
  else
    SetEvent_auto event q
      (mk_thread (upd_event event pop_front (released (Waiter i) h1)) (clock t) (sched t)
         (trace t ++ pthread_mutex_lock (WfmoObj (Waiter i)) :: release_calls (Waiter i) h1)).
Proof.
  cbn [SetEvent_auto]. unfold after_decr. run.
  destruct (StillWaiting _); cbn [negb].
  - rewrite notify_eq. cbn [mem clock sched trace].
    rewrite <- !app_assoc. reflexivity.
  - rewrite release_eq. cbn [mem clock sched trace].
    rewrite <- !app_assoc. reflexivity.
Qed.

Lemma SetEvent_manual_cons i q t :
  SetEvent_manual (i :: q) t =
  let h1 := after_decr i (mem t) in
  if StillWaiting (wfmo_at h1 (Waiter i)) then
    SetEvent_manual q
      (mk_thread (notified i h1) (clock t) (sched t)
         (trace t ++ pthread_mutex_lock (WfmoObj (Waiter i)) :: notify_calls i h1 ++
            [pthread_mutex_unlock (WfmoObj (Waiter i));
             pthread_cond_signal (WfmoObj (Waiter i))]))
  else
    SetEvent_manual q
      (mk_thread (released (Waiter i) h1) (clock t) (sched t)
         (trace t ++ pthread_mutex_lock (WfmoObj (Waiter i)) :: release_calls (Waiter i) h1)).
Proof.
  cbn [SetEvent_manual]. unfold after_decr. run.
  destruct (StillWaiting _); cbn [negb].
  - rewrite notify_eq. cbn [mem clock sched trace].
    rewrite <- !app_assoc. reflexivity.
  - rewrite release_eq. cbn [mem clock sched trace].
    rewrite <- !app_assoc. reflexivity.
Qed.

Lemma StillWaiting_after_decr i h w :
  StillWaiting (wfmo_at (after_decr i h) w) = StillWaiting (wfmo_at h w).
Proof.
  unfold after_decr. rewrite wfmo_at_upd_wfmo. destruct (decide _) as [<-|]; [|reflexivity].
  unfold wfmo_at. destruct (mjoin _); reflexivity.
Qed.

Lemma signals_release_calls w h : signals (release_calls w h) = [].
Proof. unfold release_calls. destruct (_ =? _); reflexivity. Qed.

Lemma signals_notify_calls i h : signals (notify_calls i h) = [].
Proof. unfold notify_calls. destruct (_ && _); reflexivity. Qed.

Lemma events_released w h : events (released w h) = events h.
Proof. unfold released. destruct (_ =? _); reflexivity. Qed.

Lemma events_notified i h : events (notified i h) = events h.
Proof. unfold notified. destruct (WaitAll _); reflexivity. Qed.

Lemma wfmos_released_ne w w' h : w <> w' -> wfmos (released w h) !! w' = wfmos h !! w'.
Proof.
  intros H. unfold released. destruct (_ =? _); [|reflexivity].
  cbn. apply list_lookup_alter_ne. assumption.
Qed.

Lemma StillWaiting_released w h w' :
  StillWaiting (wfmo_at h w') = false ->
  StillWaiting (wfmo_at (released w h) w') = false.
Proof.
  intros H. unfold released. destruct (_ =? _); [|assumption].
  rewrite wfmo_at_free_wfmo. destruct (decide _); [reflexivity|assumption].
Qed.

Lemma wfmo_at_upd_event e f h w : wfmo_at (upd_event e f h) w = wfmo_at h w.
Proof. reflexivity. Qed.

Lemma wfmos_upd_event e f h : wfmos (upd_event e f h) = wfmos h.
Proof. reflexivity. Qed.

Lemma events_upd_wfmo w f h : events (upd_wfmo w f h) = events h.
Proof. reflexivity. Qed.

Lemma StillWaiting_released_ne w h w' :
  w <> w' -> wfmo_at (released w h) w' = wfmo_at h w'.
Proof.
  intros H. unfold released. destruct (_ =? _); [|reflexivity].
  rewrite wfmo_at_free_wfmo, decide_False by assumption. reflexivity.
Qed.

Lemma SetEvent_auto_skip event gone rest t :
  Forall (fun i => still_waiting (mem t) i = false) gone ->
  exists t1,
    SetEvent_auto event (gone ++ rest) t = SetEvent_auto event rest t1 /\
    events (mem t1) = alter (Nat.iter (length gone) pop_front) event (events (mem t)) /\
    (forall w, StillWaiting (wfmo_at (mem t) w) = true ->
               wfmos (mem t1) !! w = wfmos (mem t) !! w) /\
    (forall w, StillWaiting (wfmo_at (mem t) w) = false ->
               StillWaiting (wfmo_at (mem t1) w) = false) /\
    signals (trace t1) = signals (trace t) /\
    sched t1 = sched t /\ clock t1 = clock t.
Proof.
  revert t. induction gone as [|i gone IH]; intros t Hgone.
  - exists t. cbn. repeat split; try reflexivity; try tauto.
    symmetry. apply list_alter_id. reflexivity.
  - inversion Hgone as [|? ? Hi Hgone']; subst. unfold still_waiting in Hi.
    cbn [app]. rewrite SetEvent_auto_cons. cbv zeta.
    rewrite StillWaiting_after_decr, Hi.
    match goal with |- context [SetEvent_auto event (gone ++ rest) ?t2] =>
      destruct (IH t2) as (t1 & E & Hev & Hlive & Hdead & Hsig & Hsch & Hclk)
    end.
    { cbn [mem]. eapply Forall_impl; [exact Hgone'|]. intros j Hj. unfold still_waiting in *.
      rewrite wfmo_at_upd_event.
      apply StillWaiting_released. rewrite StillWaiting_after_decr. exact Hj. }
    exists t1. cbn [mem clock sched trace] in *. split; [exact E|].
    split; [|split; [|split; [|split; [|split]]]]; try assumption.
    + rewrite Hev. unfold upd_event at 1. cbn [events]. rewrite events_released.
      unfold after_decr. rewrite events_upd_wfmo.
      rewrite list_alter_alter_eq. apply list_alter_ext; [|reflexivity].
      intros ev _. unfold compose. cbn [length]. rewrite Nat.iter_succ_r. reflexivity.
    + intros w Hw.
      assert (Hne : Waiter i <> w) by (intros E0; rewrite <- E0 in Hw; congruence).
      rewrite Hlive.
      * rewrite wfmos_upd_event, wfmos_released_ne by assumption.
        unfold after_decr, upd_wfmo. cbn [wfmos]. apply list_lookup_alter_ne; assumption.
      * rewrite wfmo_at_upd_event, StillWaiting_released_ne by assumption.
        rewrite StillWaiting_after_decr. exact Hw.
    + intros w Hw. apply Hdead. rewrite wfmo_at_upd_event.
      apply StillWaiting_released. rewrite StillWaiting_after_decr. exact Hw.
    + rewrite Hsig, signals_app. cbn. rewrite signals_release_calls, app_nil_r. reflexivity.
Qed.

Lemma alter_as_insert {A} (f : A -> A) (i : nat) (l : list A) (x : A) :
  l !! i = Some x -> alter f i l = <[i := f x]> l.
Proof.
  intros H. apply list_eq. intros j. destruct (decide (i = j)) as [<-|Hne].
  - rewrite list_lookup_alter, decide_True by reflexivity.
    rewrite list_lookup_insert_eq by (eapply lookup_lt_Some; eassumption).
    rewrite H. reflexivity.
  - rewrite list_lookup_alter_ne, list_lookup_insert_ne by assumption. reflexivity.
Qed.

Lemma wfmo_at_cell h w r : mjoin (wfmos h !! w) = Some r -> wfmo_at h w = r.
Proof. unfold wfmo_at. intros ->. reflexivity. Qed.

Lemma cell_upd_wfmo h w f r :
  mjoin (wfmos h !! w) = Some r -> mjoin (wfmos (upd_wfmo w f h) !! w) = Some (f r).
Proof.
  intros H. unfold upd_wfmo. cbn [wfmos].
  rewrite list_lookup_alter, decide_True by reflexivity.
  destruct (wfmos h !! w) as [[r'|]|]; cbn in *; congruence.
Qed.

Lemma iter_pop_front n ev :
  Nat.iter n pop_front ev =
  mk_event (AutoReset ev) (State ev) (drop n (RegisteredWaits ev)).
Proof.
  induction n as [|n IH].
  - destruct ev; reflexivity.
  - rewrite Nat.iter_succ, IH. unfold pop_front, set_RegisteredWaits. cbn.
    f_equal. generalize (RegisteredWaits ev). clear.
    induction n as [|n IH]; intros [|x l]; cbn; try reflexivity; apply IH.
Qed.

Lemma SetEvent_auto_reset_spec (t : thread) (event : nat) (ev : neosmart_event_t_)
    (gone : list neosmart_wfmo_info_t_) :
  events (mem t) !! event = Some ev ->
  AutoReset ev = true ->
  Forall (fun i => still_waiting (mem t) i = false) gone ->
  (RegisteredWaits ev = gone ->
   exists t', SetEvent event t = Returned 0 t' /\
     events (mem t') = <[event := mk_event true true []]> (events (mem t)) /\
     signals (trace t') = signals (trace t) ++ [pthread_cond_signal (EventObj event)] /\
     (forall w, StillWaiting (wfmo_at (mem t) w) = true ->
                wfmos (mem t') !! w = wfmos (mem t) !! w) /\
     sched t' = sched t) /\
  (forall i rest,
   RegisteredWaits ev = gone ++ i :: rest ->
   still_waiting (mem t) i = true ->
   exists t', SetEvent event t = Returned 0 t' /\
     events (mem t') = <[event := mk_event true false rest]> (events (mem t)) /\
     signals (trace t') = signals (trace t) ++ [pthread_cond_signal (WfmoObj (Waiter i))] /\
     wfmo_at (mem t') (Waiter i) = signalled i (wfmo_at (mem t) (Waiter i)) /\
     (forall w, w <> Waiter i -> StillWaiting (wfmo_at (mem t) w) = true ->
                wfmos (mem t') !! w = wfmos (mem t) !! w) /\
     sched t' = sched t).
Proof.
  intros Hev Hauto Hgone.
  assert (Hlen : (event < length (events (mem t)))%nat) by (eapply lookup_lt_Some; eassumption).
  unfold SetEvent. run.
  rewrite (event_at_upd_event_eq _ _ _ _ Hev). cbn [set_State AutoReset RegisteredWaits].
  rewrite Hauto.
  set (t1 := mk_thread _ _ _ _).
  assert (Hgone1 : Forall (fun i => still_waiting (mem t1) i = false) gone) by exact Hgone.
  split.
  - intros Hq.
    destruct (SetEvent_auto_skip event gone [] t1 Hgone1)
      as (t2 & E & Hevs & Hlive & Hdead & Hsig & Hsch & Hclk).
    rewrite app_nil_r in E. rewrite Hq, E. cbn [SetEvent_auto]. run.
    assert (Hev2 : events (mem t2) = <[event := mk_event true true []]> (events (mem t))).
    { rewrite Hevs. subst t1. cbn [mem]. unfold upd_event; cbn [events].
      rewrite list_alter_alter_eq, (alter_as_insert _ _ _ _ Hev). f_equal.
      unfold compose. rewrite iter_pop_front. cbn. rewrite Hauto, Hq, drop_all. reflexivity. }
    assert (Hst : State (event_at (mem t2) event) = true).
    { unfold event_at. rewrite Hev2, list_lookup_insert_eq by assumption. reflexivity. }
    rewrite Hst. run. eexists. split; [reflexivity|]. cbn [mem trace sched].
    split; [exact Hev2|]. split; [|split].
    + rewrite <- app_assoc, signals_app, Hsig. subst t1. cbn [trace].
      rewrite signals_app. cbn. rewrite app_nil_r. reflexivity.
    + intros w Hw. apply Hlive. exact Hw.
    + exact Hsch.
  - intros i rest Hq Hi.
    destruct (SetEvent_auto_skip event gone (i :: rest) t1 Hgone1)
      as (t2 & E & Hevs & Hlive & Hdead & Hsig & Hsch & Hclk).
    rewrite Hq, E, SetEvent_auto_cons. cbv zeta.
    rewrite StillWaiting_after_decr.
    assert (Hcell : mjoin (wfmos (mem t2) !! Waiter i) = mjoin (wfmos (mem t) !! Waiter i)).
    { rewrite Hlive; [reflexivity|exact Hi]. }
    assert (Hat : wfmo_at (mem t2) (Waiter i) = wfmo_at (mem t) (Waiter i)).
    { unfold wfmo_at. rewrite Hcell. reflexivity. }
    rewrite Hat. unfold still_waiting in Hi. rewrite Hi. run.
    eexists. split; [reflexivity|]. cbn [mem trace sched].
    split; [|split; [|split; [|split]]].
    + unfold upd_event at 1. cbn [events]. rewrite events_notified.
      unfold upd_event at 1. cbn [events]. unfold after_decr. rewrite events_upd_wfmo, Hevs.
      subst t1. cbn [mem]. unfold upd_event; cbn [events].
      rewrite !list_alter_alter_eq, (alter_as_insert _ _ _ _ Hev). f_equal.
      unfold compose. rewrite iter_pop_front. cbn. rewrite Hauto, Hq, drop_app_length. reflexivity.
    + rewrite signals_app, Hsig. subst t1. cbn [trace]. rewrite signals_app. cbn.
      rewrite signals_app, signals_notify_calls. cbn. rewrite app_nil_r. reflexivity.
    + assert (Hsome : exists r, mjoin (wfmos (mem t) !! Waiter i) = Some r).
      { unfold wfmo_at in Hi. destruct (mjoin (wfmos (mem t) !! Waiter i)); [eauto|discriminate]. }
      destruct Hsome as [r Hr]. rewrite Hr in Hcell.
      assert (Hr' : wfmo_at (mem t) (Waiter i) = r) by (unfold wfmo_at; rewrite Hr; reflexivity).
      pose proof (cell_upd_wfmo _ _ decr_RefCount _ Hcell) as Hc1. fold (after_decr i (mem t2)) in Hc1.
      rewrite wfmo_at_upd_event. unfold notified, signalled.
      rewrite wfmo_at_upd_event, (wfmo_at_cell _ _ _ Hc1), Hr'.
      destruct (WaitAll (decr_RefCount r)).
      * apply wfmo_at_cell, cell_upd_wfmo. rewrite wfmos_upd_event. exact Hc1.
      * apply wfmo_at_cell, cell_upd_wfmo, cell_upd_wfmo. rewrite wfmos_upd_event. exact Hc1.
    + intros w Hne Hw. rewrite wfmos_upd_event.
      transitivity (wfmos (after_decr i (mem t2)) !! w).
      * unfold notified. destruct (WaitAll _); unfold upd_wfmo; cbn [wfmos events];
          rewrite ?list_lookup_alter_ne by (intros E0; apply Hne; symmetry; exact E0); reflexivity.
      * unfold after_decr, upd_wfmo. cbn [wfmos].
        rewrite list_lookup_alter_ne by (intros E0; apply Hne; symmetry; exact E0).
        apply Hlive. exact Hw.
    + exact Hsch.
Qed.

Lemma refs_cons_eq i q : refs (Waiter i) (i :: q) = S (refs (Waiter i) q).
Proof. unfold refs. cbn. rewrite Nat.eqb_refl. reflexivity. Qed.

Lemma refs_cons_ne w i q : Waiter i <> w -> refs w (i :: q) = refs w q.
Proof.
  intros H. unfold refs. cbn.
  destruct (Nat.eqb_spec (Waiter i) w); [contradiction|reflexivity].
Qed.

Lemma refs_app w q1 q2 : refs w (q1 ++ q2) = (refs w q1 + refs w q2)%nat.
Proof. unfold refs. rewrite List.filter_app, length_app. reflexivity. Qed.

Lemma Int_decr_pos z : 0 < z <= Int.max -> Int.decr z = z - 1.
Proof.
  unfold Int.decr, Int.wrap, Int.max. intros H.
  replace (z - 1 + 2 ^ 31) with (z - 1 + 2 ^ 31 + 0) by lia.
  rewrite Z.mod_small by lia. lia.
Qed.

Lemma Int_incr_small z : 0 <= z < Int.max -> Int.incr z = z + 1.
Proof.
  unfold Int.incr, Int.wrap, Int.max. intros H.
  rewrite Z.mod_small by lia. lia.
Qed.

Lemma wfmos_visited_ne i h w :
  Waiter i <> w -> wfmos (visited i h) !! w = wfmos h !! w.
Proof.
  intros Hne. unfold visited. cbv zeta.
  assert (H1 : wfmos (after_decr i h) !! w = wfmos h !! w).
  { unfold after_decr, upd_wfmo. cbn [wfmos]. apply list_lookup_alter_ne. assumption. }
  destruct (StillWaiting _).
  - unfold notified. destruct (WaitAll _); unfold upd_wfmo; cbn [wfmos];
      rewrite ?list_lookup_alter_ne by assumption; exact H1.
  - rewrite wfmos_released_ne by assumption. exact H1.
Qed.

Lemma visited_counted owner base i q h :
  (forall w, 0 <= base w) ->
  (forall w, owner = Some w -> 1 <= base w) ->
  counted owner base (i :: q) h ->
  counted owner base q (visited i h).
Proof.
  intros Hbase Hown Hc w. specialize (Hc w).
  destruct (decide (Waiter i = w)) as [<-|Hne].
  - rewrite refs_cons_eq in Hc.
    destruct (wfmos h !! Waiter i) as [[r|]|] eqn:Hcell;
      [|specialize (Hbase (Waiter i)); lia..].
    destruct Hc as (Hrc & Hpos & Hsw).
    assert (Hj : mjoin (wfmos h !! Waiter i) = Some r) by (rewrite Hcell; reflexivity).
    pose proof (cell_upd_wfmo _ _ decr_RefCount _ Hj) as Hc1.
    fold (after_decr i h) in Hc1.
    unfold visited. cbv zeta. rewrite (wfmo_at_cell _ _ _ Hc1).
    cbn [decr_RefCount set_RefCount StillWaiting].
    destruct (StillWaiting r) eqn:Hs.
    + specialize (Hown _ (Hsw eq_refl)).
      unfold notified. rewrite (wfmo_at_cell _ _ _ Hc1). cbn [decr_RefCount set_RefCount WaitAll].
      destruct (WaitAll r).
      * pose proof (cell_upd_wfmo _ _ decr_Status _ Hc1) as Hc2.
        destruct (wfmos (upd_wfmo _ _ _) !! Waiter i) as [[r2|]|]; cbn in Hc2; try discriminate.
        injection Hc2 as ->. cbn. rewrite Int_decr_pos by assumption.
        repeat split; try lia; try (intros _; apply Hsw; reflexivity).
      * pose proof (cell_upd_wfmo _ _ (set_StillWaiting false) _
                      (cell_upd_wfmo _ _ (set_Status (WaitIndex i)) _ Hc1)) as Hc2.
        destruct (wfmos (upd_wfmo _ _ _) !! Waiter i) as [[r2|]|]; cbn in Hc2; try discriminate.
        injection Hc2 as ->. cbn. rewrite Int_decr_pos by assumption.
        repeat split; try lia; try discriminate.
    + unfold released. rewrite (wfmo_at_cell _ _ _ Hc1).
      cbn [decr_RefCount set_RefCount RefCount]. rewrite Int_decr_pos by assumption.
      destruct (Z.eqb_spec (RefCount r - 1) 0) as [Hz|Hz].
      * unfold free_wfmo. cbn [wfmos]. rewrite list_lookup_alter, decide_True by reflexivity.
        destruct (wfmos (after_decr i h) !! Waiter i) as [[r2|]|]; cbn; lia.
      * destruct (wfmos (after_decr i h) !! Waiter i) as [[r2|]|]; cbn in Hc1; try discriminate.
        injection Hc1 as ->. cbn. rewrite Int_decr_pos by assumption.
        repeat split; try lia; try congruence.
  - rewrite wfmos_visited_ne by assumption. rewrite refs_cons_ne in Hc by assumption. exact Hc.
Qed.

Lemma wfmos_notified_upd_event i e f h :
  wfmos (notified i (upd_event e f h)) = wfmos (notified i h).
Proof. unfold notified. rewrite wfmo_at_upd_event. destruct (WaitAll _); reflexivity. Qed.

Lemma counted_wfmos owner base q h h' :
  wfmos h' = wfmos h -> counted owner base q h -> counted owner base q h'.
Proof. intros E H w. rewrite E. apply H. Qed.

Section Walks.
Variable owner : option nat.
Variable base : nat -> Z.
Hypothesis base_nonneg : forall w, 0 <= base w.
Hypothesis base_owner : forall w, owner = Some w -> 1 <= base w.

Lemma SetEvent_manual_counted q t :
  counted owner base q (mem t) ->
  exists t', SetEvent_manual q t = Returned tt t' /\
    counted owner base [] (mem t') /\
    events (mem t') = events (mem t) /\
    sched t' = sched t /\ clock t' = clock t.
Proof.
  revert t. induction q as [|i q IH]; intros t Hc.
  - exists t. repeat split; try reflexivity. exact Hc.
  - rewrite SetEvent_manual_cons. cbv zeta.
    pose proof (visited_counted owner base i q (mem t) base_nonneg base_owner Hc) as Hv.
    unfold visited in Hv. cbv zeta in Hv.
    destruct (StillWaiting (wfmo_at (after_decr i (mem t)) (Waiter i))).
    + match goal with |- context [SetEvent_manual q ?t2] =>
        destruct (IH t2 Hv) as (t' & E & Hc' & Hev & Hs & Hk) end.
      exists t'. split; [exact E|]. split; [exact Hc'|].
      cbn [mem sched clock] in *. rewrite Hev, events_notified. repeat split; assumption.
    + match goal with |- context [SetEvent_manual q ?t2] =>
        destruct (IH t2 Hv) as (t' & E & Hc' & Hev & Hs & Hk) end.
      exists t'. split; [exact E|]. split; [exact Hc'|].
      cbn [mem sched clock] in *. rewrite Hev, events_released. repeat split; assumption.
Qed.

Lemma SetEvent_auto_counted event q t :
  counted owner base q (mem t) ->
  exists r t' q' f, SetEvent_auto event q t = Returned r t' /\
    counted owner base q' (mem t') /\
    events (mem t') = alter f event (events (mem t)) /\
    (forall ev, RegisteredWaits ev = q -> RegisteredWaits (f ev) = q') /\
    sched t' = sched t /\ clock t' = clock t.
Proof.
  revert t. induction q as [|i q IH]; intros t Hc.
  - exists None, t, [], (fun ev => ev). repeat split; try reflexivity; try exact Hc.
    + symmetry. apply list_alter_id. reflexivity.
    + tauto.
  - rewrite SetEvent_auto_cons. cbv zeta.
    pose proof (visited_counted owner base i q (mem t) base_nonneg base_owner Hc) as Hv.
    unfold visited in Hv. cbv zeta in Hv.
    destruct (StillWaiting (wfmo_at (after_decr i (mem t)) (Waiter i))).
    + eexists (Some 0), _, q, (fun ev => pop_front (set_State false ev)).
      split; [reflexivity|]. cbn [mem sched clock].
      split; [|split; [|split; [|split]]]; try reflexivity.
      * eapply counted_wfmos; [|exact Hv].
        rewrite wfmos_upd_event. apply wfmos_notified_upd_event.
      * unfold upd_event at 1. cbn [events]. rewrite events_notified.
        unfold upd_event. cbn [events]. rewrite list_alter_alter_eq. reflexivity.
      * intros ev Hq. cbn. rewrite Hq. reflexivity.
    + match goal with |- context [SetEvent_auto event q ?t2] =>
        destruct (IH t2) as (r & t' & q' & f & E & Hc' & Hev & Hf & Hs & Hk) end.
      { cbn [mem]. eapply counted_wfmos; [|exact Hv]. apply wfmos_upd_event. }
      exists r, t', q', (fun ev => f (pop_front ev)).
      split; [exact E|]. split; [exact Hc'|]. cbn [mem sched clock] in *.
      split; [|split; [|split]]; try assumption.
      * rewrite Hev. unfold upd_event. cbn [events]. rewrite events_released.
        rewrite list_alter_alter_eq. reflexivity.
      * intros ev Hq. apply Hf. cbn. rewrite Hq. reflexivity.
Qed.
End Walks.

Lemma regs_in_alter w f evs e ev :
  evs !! e = Some ev ->
  (regs_in w (alter f e evs) + refs w (RegisteredWaits ev) =
   regs_in w evs + refs w (RegisteredWaits (f ev)))%nat.
Proof.
  revert e. induction evs as [|x evs IH]; intros [|e] H; cbn in H; try discriminate.
  - injection H as ->. cbn. unfold regs_in. cbn. lia.
  - specialize (IH e H). unfold regs_in in *. cbn. lia.
Qed.

Lemma regs_in_alter_same w f evs e :
  (forall ev, RegisteredWaits (f ev) = RegisteredWaits ev) ->
  regs_in w (alter f e evs) = regs_in w evs.
Proof.
  intros Hf. revert e. induction evs as [|x evs IH]; intros [|e]; cbn; try reflexivity.
  - unfold regs_in. cbn. rewrite Hf. reflexivity.
  - specialize (IH e). unfold regs_in in *. cbn. rewrite IH. reflexivity.
Qed.

Lemma refs_le_regs_in w evs e ev :
  evs !! e = Some ev -> (refs w (RegisteredWaits ev) <= regs_in w evs)%nat.
Proof.
  revert e. induction evs as [|x evs IH]; intros [|e] H; cbn in H; try discriminate.
  - injection H as ->. unfold regs_in. cbn. lia.
  - specialize (IH e H). unfold regs_in in *. cbn. lia.
Qed.

Lemma alter_dangling {A} (f : A -> A) (i : nat) (l : list A) :
  l !! i = None -> alter f i l = l.
Proof.
  intros H. apply list_eq. intros j. destruct (decide (i = j)) as [<-|Hne].
  - rewrite list_lookup_alter, decide_True by reflexivity. rewrite H. reflexivity.
  - apply list_lookup_alter_ne; assumption.
Qed.

Lemma own_nonneg owner w : 0 <= own owner w.
Proof. unfold own. destruct (bool_decide _); lia. Qed.

Lemma own_owner w : own (Some w) w = 1.
Proof. unfold own. rewrite bool_decide_eq_true_2; reflexivity. Qed.

Lemma SetEvent_refcount_ok owner event t :
  refcount_ok owner (mem t) ->
  exists t', SetEvent event t = Returned 0 t' /\
    refcount_ok owner (mem t') /\ sched t' = sched t /\ clock t' = clock t.
Proof.
  intros Hok. unfold SetEvent. run.
  destruct (events (mem t) !! event) as [ev|] eqn:Hev.
  2:{ rewrite (upd_event_dangling _ _ _ Hev), (event_at_dangling _ _ Hev). cbn.
      run. rewrite (upd_event_dangling _ _ _ Hev). eexists. split; [reflexivity|].
      cbn. repeat split; try reflexivity. exact Hok. }
  rewrite (event_at_upd_event_eq _ _ _ _ Hev). cbn [set_State AutoReset RegisteredWaits].
  set (q := RegisteredWaits ev).
  set (base := fun w => own owner w + Z.of_nat (registrations w (mem t)) - Z.of_nat (refs w q)).
  assert (Hsplit : forall w, (refs w q <= registrations w (mem t))%nat).
  { intros w. exact (refs_le_regs_in w _ _ _ Hev). }
  assert (Hb0 : forall w, 0 <= base w).
  { intros w. subst base. cbn. pose proof (own_nonneg owner w). specialize (Hsplit w). lia. }
  assert (Hb1 : forall w, owner = Some w -> 1 <= base w).
  { intros w ->. subst base. cbn. rewrite own_owner. specialize (Hsplit w). lia. }
  assert (Hc : counted owner base q (upd_event event (set_State true) (mem t))).
  { intros w. rewrite wfmos_upd_event. specialize (Hok w). subst base. cbn.
    destruct (wfmos (mem t) !! w) as [[r|]|]; [|specialize (Hsplit w); lia..].
    destruct Hok as (H1 & H2 & H3). specialize (Hsplit w).
    repeat split; try assumption; try lia. }
  assert (Hev1 : events (upd_event event (set_State true) (mem t)) !! event = Some (set_State true ev)).
  { unfold upd_event. cbn [events]. rewrite list_lookup_alter, decide_True by reflexivity.
    rewrite Hev. reflexivity. }
  assert (Hfinish : forall h' q' f,
    counted owner base q' h' ->
    events h' = alter f event (events (mem t)) ->
    RegisteredWaits (f ev) = q' ->
    refcount_ok owner h').
  { intros h' q' f Hc' He Hq w. specialize (Hc' w). unfold registrations. rewrite He.
    pose proof (regs_in_alter w f (events (mem t)) event ev Hev) as Hr.
    rewrite Hq in Hr. fold q in Hr. unfold regs_in in Hr. subst base. cbn in Hc'.
    unfold registrations in Hc'.
    destruct (wfmos h' !! w) as [[r|]|]; [|lia..].
    destruct Hc' as (H1 & H2 & H3). repeat split; try assumption; lia. }
  destruct (AutoReset ev).
  - match goal with |- context [SetEvent_auto event q ?t1] =>
      destruct (SetEvent_auto_counted owner base Hb0 Hb1 event q t1 Hc)
        as (r & t' & q' & f & E & Hc' & He & Hf & Hs & Hk) end.
    rewrite E. cbn [mem sched clock] in *.
    assert (Hok' : refcount_ok owner (mem t')).
    { apply (Hfinish _ q' (fun ev => f (set_State true ev))); [exact Hc'| |].
      - rewrite He. unfold upd_event. cbn [events]. apply list_alter_alter_eq.
      - apply Hf. reflexivity. }
    destruct r as [r|].
    + assert (r = 0) as ->.
      { clear -E. revert E. generalize (mk_thread (upd_event event (set_State true) (mem t))
          (clock t) (sched t) (trace t ++ [pthread_mutex_lock (EventObj event)])).
        induction q as [|i q IH]; intros t1 E; [discriminate|].
        rewrite SetEvent_auto_cons in E. cbv zeta in E.
        destruct (StillWaiting _); [congruence|]. eapply IH. exact E. }
      run. eexists. split; [reflexivity|]. repeat split; assumption.
    + run. destruct (State (event_at (mem t') event)); run;
        (eexists; split; [reflexivity|]); repeat split; assumption.
  - match goal with |- context [SetEvent_manual q ?t1] =>
      destruct (SetEvent_manual_counted owner base Hb0 Hb1 q t1 Hc)
        as (t' & E & Hc' & He & Hs & Hk) end.
    rewrite E. cbn [mem sched clock] in *. run.
    eexists. split; [reflexivity|]. cbn [mem sched clock].
    split; [|split; assumption].
    apply (Hfinish _ [] (fun ev => set_RegisteredWaits [] (set_State true ev))).
    + eapply counted_wfmos; [|exact Hc']. apply wfmos_upd_event.
    + unfold upd_event at 1. cbn [events]. rewrite He. unfold upd_event. cbn [events].
      apply list_alter_alter_eq.
    + reflexivity.
Qed.

Lemma UnlockedWaitForEvent_zero e t :
  UnlockedWaitForEvent e 0 t =
  if State (event_at (mem t) e)
  then Returned 0 (mk_thread (consumed e (mem t)) (clock t) (sched t) (trace t))
  else Returned ETIMEDOUT t.
Proof.
  unfold UnlockedWaitForEvent, consumed. run.
  destruct (State _); cbn [negb].
  - destruct (AutoReset _); run; [reflexivity|]. destruct t; reflexivity.
  - reflexivity.
Qed.

Lemma UnlockedWaitForEvent_wait e ms t :
  State (event_at (mem t) e) = false -> ms <> 0 ->
  UnlockedWaitForEvent e ms t =
  match wait_until_set e (timeout_of (clock t) ms) (sched t) t with
  | Returned a t' =>
      Returned a
        (mk_thread (if (a =? 0) && AutoReset (event_at (mem t') e)
                    then upd_event e (set_State false) (mem t') else mem t')
                   (clock t') (sched t') (trace t'))
  | Blocked t' => Blocked t'
  end.
Proof.
  intros Hs Hms. unfold UnlockedWaitForEvent, timeout_of. run. rewrite Hs. cbn [negb].
  destruct (Z.eqb_spec ms 0); [contradiction|].
  destruct (negb (ms =? INFINITE)); run;
    (destruct (wait_until_set _ _ _ _) as [a t'|t']; [|reflexivity]);
    (destruct (_ && _); run; [reflexivity|]); destruct t'; reflexivity.
Qed.

Lemma assert_eq b t :
  assert b t = Returned tt (mk_thread (mem t) (clock t) (sched t) (trace t ++ assert_calls b)).
Proof.
  unfold assert, assert_calls. destruct b; run; [|reflexivity].
  rewrite app_nil_r. destruct t; reflexivity.
Qed.

Lemma register_waits_cons wfmo waitAll i e es t :
  register_waits wfmo waitAll i (e :: es) t =
  if State (event_at (mem t) e) then
    if waitAll then
      let h2 := upd_wfmo wfmo decr_Status (consumed e (mem t)) in
      register_waits wfmo waitAll (i + 1) es
        (mk_thread h2 (clock t) (sched t)
           (trace t ++ [pthread_mutex_lock (EventObj e); pthread_mutex_unlock (EventObj e)]
              ++ assert_calls (0 <=? Status (wfmo_at h2 wfmo))))
    else
      Returned true
        (mk_thread (upd_wfmo wfmo (set_Status i) (consumed e (mem t))) (clock t) (sched t)
           (trace t ++ [pthread_mutex_lock (EventObj e); pthread_mutex_unlock (EventObj e)]))
  else
    register_waits wfmo waitAll (i + 1) es
      (mk_thread (upd_wfmo wfmo incr_RefCount
                    (upd_event e (push_back (mk_info wfmo i)) (mem t)))
         (clock t) (sched t)
         (trace t ++ [pthread_mutex_lock (EventObj e); pthread_mutex_unlock (EventObj e)])).
Proof.
  cbn [register_waits]. unfold bind at 1. unfold call at 1. unfold bind at 1.
  rewrite UnlockedWaitForEvent_zero. cbn [mem clock sched trace].
  destruct (State _).
  - cbn [Z.eqb]. destruct waitAll.
    + unfold bind, call, update, read, ret; cbn [mem clock sched trace].
      rewrite assert_eq. cbn [mem clock sched trace]. rewrite <- !app_assoc. reflexivity.
    + run. rewrite <- !app_assoc. reflexivity.
  - change (ETIMEDOUT =? 0) with false. cbv iota. run. rewrite <- !app_assoc. reflexivity.
Qed.

(** ** The invariant across the other operations *)

Lemma registrations_upd_event w e f h :
  (forall ev, RegisteredWaits (f ev) = RegisteredWaits ev) ->
  registrations w (upd_event e f h) = registrations w h.
Proof. intros Hf. apply (regs_in_alter_same w f (events h) e Hf). Qed.

Lemma refcount_ok_upd_event owner e f h :
  (forall ev, RegisteredWaits (f ev) = RegisteredWaits ev) ->
  refcount_ok owner h -> refcount_ok owner (upd_event e f h).
Proof.
  intros Hf Hok w. specialize (Hok w). rewrite wfmos_upd_event.
  rewrite registrations_upd_event by assumption. exact Hok.
Qed.

Lemma refcount_ok_consumed owner e h :
  refcount_ok owner h -> refcount_ok owner (consumed e h).
Proof.
  intros H. unfold consumed. destruct (AutoReset _); [|exact H].
  apply refcount_ok_upd_event; [reflexivity|exact H].
Qed.

Lemma refcount_ok_upd_wfmo owner w f h :
  (forall r, RefCount (f r) = RefCount r) ->
  (forall r, StillWaiting (f r) = true -> StillWaiting r = true) ->
  refcount_ok owner h -> refcount_ok owner (upd_wfmo w f h).
Proof.
  intros Hrc Hsw Hok w'. specialize (Hok w').
  change (registrations w' (upd_wfmo w f h)) with (registrations w' h).
  unfold upd_wfmo. cbn [wfmos]. rewrite list_lookup_alter.
  destruct (decide (w = w')) as [<-|]; [|exact Hok].
  destruct (wfmos h !! w) as [[r|]|]; cbn; try exact Hok.
  rewrite Hrc. destruct Hok as (H1 & H2 & H3).
  split; [exact H1|]. split; [exact H2|].
  intros H. apply H3, Hsw, H.
Qed.

Lemma ResetEvent_eq e t :
  ResetEvent e t =
  Returned 0 (mk_thread (upd_event e (set_State false) (mem t)) (clock t) (sched t)
                (trace t ++ [pthread_mutex_lock (EventObj e); pthread_mutex_unlock (EventObj e)])).
Proof. unfold ResetEvent. run. rewrite <- app_assoc. reflexivity. Qed.

Lemma run_other_refcount_ok owner op h :
  refcount_ok owner h -> refcount_ok owner (run_other h op).
Proof.
  intros H. destruct op as [e|e]; cbn [run_other].
  - destruct (SetEvent_refcount_ok owner e (mk_thread h (mk_timeval 0 0) [] []) H)
      as (t' & E & Hok & _). rewrite E. exact Hok.
  - rewrite ResetEvent_eq. cbn. apply refcount_ok_upd_event; [reflexivity|exact H].
Qed.

Lemma run_others_refcount_ok owner ops h :
  refcount_ok owner h -> refcount_ok owner (run_others ops h).
Proof.
  revert h. induction ops as [|op ops IH]; intros h H; [exact H|].
  cbn. apply IH, run_other_refcount_ok, H.
Qed.

Lemma wait_until_set_refcount_ok owner e ts ws t :
  refcount_ok owner (mem t) ->
  refcount_ok owner (mem (final (wait_until_set e ts ws t))).
Proof.
  revert t. induction ws as [|w ws IH]; intros t H; [exact H|].
  cbn [wait_until_set wake].
  match goal with |- context [if ?c then _ else _] => destruct c end.
  - apply IH. cbn. apply run_others_refcount_ok, H.
  - cbn. apply run_others_refcount_ok, H.
Qed.

Lemma UnlockedWaitForEvent_refcount_ok owner e ms t :
  refcount_ok owner (mem t) ->
  refcount_ok owner (mem (final (UnlockedWaitForEvent e ms t))).
Proof.
  intros H. destruct (State (event_at (mem t) e)) eqn:Hs.
  - unfold UnlockedWaitForEvent. run. rewrite Hs. cbn [negb].
    destruct (AutoReset _); run; [|exact H].
    apply refcount_ok_upd_event; [reflexivity|exact H].
  - destruct (Z.eqb_spec ms 0) as [->|Hms].
    + rewrite UnlockedWaitForEvent_zero, Hs. exact H.
    + rewrite UnlockedWaitForEvent_wait by assumption.
      pose proof (wait_until_set_refcount_ok owner e (timeout_of (clock t) ms) (sched t) t H) as Hw.
      destruct (wait_until_set _ _ _ _) as [a t'|t']; cbn in Hw |- *; [|exact Hw].
      destruct (_ && _); [|exact Hw].
      apply refcount_ok_upd_event; [reflexivity|exact Hw].
Qed.

Lemma WaitForEvent_refcount_ok owner e ms t :
  refcount_ok owner (mem t) ->
  refcount_ok owner (mem (final (WaitForEvent e ms t))).
Proof.
  intros H. unfold WaitForEvent. unfold bind at 1. unfold call at 1. unfold bind at 1.
  match goal with |- context [UnlockedWaitForEvent e ms ?t1] =>
    pose proof (UnlockedWaitForEvent_refcount_ok owner e ms t1 H) as Hu;
    destruct (UnlockedWaitForEvent e ms t1) as [a t'|t'] end; cbn in Hu |- *; exact Hu.
Qed.

Lemma WaitForMultipleEvents_eq evs count waitAll ms t :
  WaitForMultipleEvents evs count waitAll ms t =
  let wfmo := length (wfmos (mem t)) in
  match registered evs count waitAll t with
  | Blocked t2 => Blocked t2
  | Returned done t2 =>
      match wait_phase wfmo waitAll ms done t2 with
      | Blocked t3 => Blocked t3
      | Returned result t3 =>
          Returned (result, Status (wfmo_at (mem t3) wfmo))
            (mk_thread (finalized wfmo (mem t3)) (clock t3) (sched t3)
               (trace t3 ++ finalize_calls wfmo (mem t3)))
      end
  end.
Proof.
  unfold WaitForMultipleEvents, registered, new_wfmo. cbv zeta.
  unfold bind at 1. unfold bind at 1. unfold read at 1.
  unfold bind at 1. unfold bind at 1. unfold update at 1. unfold ret at 1.
  cbn [mem clock sched trace].
  unfold bind at 1. unfold bind at 1. unfold call at 1. cbn [mem clock sched trace].
  unfold bind at 1. unfold bind at 1. unfold call at 1. cbn [mem clock sched trace].
  unfold bind at 1. unfold bind at 1. unfold update at 1. cbn [mem clock sched trace].
  unfold bind at 1. unfold bind at 1. unfold update at 1. cbn [mem clock sched trace].
  unfold bind at 1. unfold bind at 1. unfold update at 1. cbn [mem clock sched trace].
  unfold bind at 1. unfold bind at 1. unfold update at 1. cbn [mem clock sched trace].
  unfold bind at 1. unfold bind at 1. unfold call at 1. cbn [mem clock sched trace].
  unfold bind at 1.
  match goal with |- match register_waits _ _ _ _ ?ta with _ => _ end =
                     match register_waits _ _ _ _ ?tb with _ => _ end =>
    replace ta with tb end.
  2:{ f_equal.
      - unfold upd_wfmo, constructed. cbn [events wfmos]. f_equal.
        replace (length (wfmos (mem t))) with (length (wfmos (mem t)) + 0)%nat at 1 2 3 4 by lia.
        rewrite !alter_app_r. reflexivity.
      - rewrite <- !app_assoc. reflexivity. }
  destruct (register_waits _ _ _ _ _) as [done t2|t2]; [|reflexivity].
  unfold wait_phase, finalized, finalize_calls, timeout_of.
  unfold released, release_calls, Destroy, delete.
  destruct done; cbn [negb].
  - run. destruct (RefCount _ =? 0); run; rewrite <- ?app_assoc; reflexivity.
  - destruct (ms =? 0).
    + run. destruct (RefCount _ =? 0); run; rewrite <- ?app_assoc; reflexivity.
    + destruct (negb (ms =? INFINITE)); run;
        (destruct (wait_until_done _ _ _ _ _ _) as [r t3|t3]; [|reflexivity]);
        run; destruct (RefCount _ =? 0); run; rewrite <- ?app_assoc; reflexivity.
Qed.

Lemma own_other w w' : w <> w' -> own (Some w) w' = 0.
Proof.
  intros H. unfold own. rewrite bool_decide_eq_false_2; [reflexivity|]. congruence.
Qed.

Lemma own_None w : own None w = 0.
Proof. reflexivity. Qed.

Lemma owner_cell w h :
  refcount_ok (Some w) h -> exists r, wfmos h !! w = Some (Some r).
Proof.
  intros H. specialize (H w). rewrite own_owner in H.
  destruct (wfmos h !! w) as [[r|]|]; [eauto|lia..].
Qed.

Lemma constructed_ok count waitAll h :
  refcount_ok None h ->
  refcount_ok (Some (length (wfmos h))) (constructed count waitAll h) /\
  RefCount (wfmo_at (constructed count waitAll h) (length (wfmos h))) = 1.
Proof.
  intros Hok. split.
  - intros w. specialize (Hok w).
    change (registrations w (constructed count waitAll h)) with (registrations w h).
    unfold constructed. cbn [wfmos].
    destruct (lt_eq_lt_dec w (length (wfmos h))) as [[Hlt| -> ]|Hgt].
    + rewrite lookup_app_l by assumption.
      rewrite own_other by lia. rewrite own_None in Hok.
      destruct (wfmos h !! w) as [[r|]|]; [|exact Hok..].
      destruct Hok as (H1 & H2 & H3). split; [exact H1|]. split; [exact H2|].
      intros Hs. specialize (H3 Hs). discriminate.
    + rewrite list_lookup_middle by reflexivity. rewrite own_owner.
      rewrite lookup_ge_None_2 in Hok by lia. rewrite own_None in Hok.
      cbn. unfold Int.max. repeat split; try lia.
    + rewrite lookup_ge_None_2 by (rewrite length_app; cbn; lia).
      rewrite lookup_ge_None_2 in Hok by lia. rewrite own_other by lia. exact Hok.
  - unfold wfmo_at, constructed. cbn [wfmos].
    rewrite list_lookup_middle by reflexivity. reflexivity.
Qed.

Lemma registrations_push_back w e i h ev :
  events h !! e = Some ev ->
  registrations w (upd_event e (push_back i) h) =
  (registrations w h + refs w [i])%nat.
Proof.
  intros H. pose proof (regs_in_alter w (push_back i) (events h) e ev H) as Hr.
  cbn [push_back set_RegisteredWaits RegisteredWaits] in Hr. rewrite refs_app in Hr.
  unfold registrations, upd_event. cbn [events]. unfold regs_in in Hr. lia.
Qed.

Lemma refs_single_eq w i : refs w [mk_info w i] = 1%nat.
Proof. unfold refs. cbn. rewrite Nat.eqb_refl. reflexivity. Qed.

Lemma refs_single_ne w w' i : w <> w' -> refs w' [mk_info w i] = 0%nat.
Proof.
  intros H. unfold refs. cbn. destruct (Nat.eqb_spec w w'); [contradiction|reflexivity].
Qed.

Lemma registered_ok w i e h :
  (e < length (events h))%nat ->
  refcount_ok (Some w) h ->
  RefCount (wfmo_at h w) < Int.max ->
  let h' := upd_wfmo w incr_RefCount (upd_event e (push_back (mk_info w i)) h) in
  refcount_ok (Some w) h' /\ RefCount (wfmo_at h' w) = RefCount (wfmo_at h w) + 1.
Proof.
  intros He Hok Hlt h'.
  destruct (lookup_lt_is_Some_2 _ _ He) as [ev Hev].
  destruct (owner_cell _ _ Hok) as [r Hr].
  assert (Hat : wfmo_at h w = r) by (apply wfmo_at_lookup; exact Hr).
  rewrite Hat in Hlt.
  pose proof (Hok w) as Hw. rewrite Hr, own_owner in Hw. destruct Hw as (H1 & H2 & H3).
  split.
  - intros w'. subst h'.
    change (registrations w' (upd_wfmo w incr_RefCount (upd_event e (push_back (mk_info w i)) h)))
      with (registrations w' (upd_event e (push_back (mk_info w i)) h)).
    rewrite (registrations_push_back _ _ _ _ _ Hev).
    unfold upd_wfmo. cbn [wfmos]. rewrite wfmos_upd_event, list_lookup_alter.
    destruct (decide (w = w')) as [<-|Hne].
    + rewrite Hr, own_owner, refs_single_eq. cbn [fmap option_fmap option_map incr_RefCount
        set_RefCount RefCount StillWaiting].
      rewrite Int_incr_small by lia. repeat split; try lia.
    + rewrite refs_single_ne by exact Hne. rewrite Nat.add_0_r. apply Hok.
  - subst h'. rewrite Hat.
    assert (Hj : mjoin (wfmos (upd_event e (push_back (mk_info w i)) h) !! w) = Some r).
    { rewrite wfmos_upd_event, Hr. reflexivity. }
    rewrite (wfmo_at_cell _ _ _ (cell_upd_wfmo _ _ incr_RefCount _ Hj)). cbn.
    apply Int_incr_small. lia.
Qed.

Lemma length_events_upd_event e f h :
  length (events (upd_event e f h)) = length (events h).
Proof. unfold upd_event. cbn. apply length_alter. Qed.

Lemma length_events_consumed e h : length (events (consumed e h)) = length (events h).
Proof. unfold consumed. destruct (AutoReset _); [apply length_events_upd_event|reflexivity]. Qed.

Lemma RefCount_upd_wfmo w f h w' :
  (forall r, RefCount (f r) = RefCount r) ->
  RefCount (wfmo_at (upd_wfmo w f h) w') = RefCount (wfmo_at h w').
Proof.
  intros Hf. rewrite wfmo_at_upd_wfmo. destruct (decide _) as [<-|]; [|reflexivity].
  unfold wfmo_at. destruct (mjoin _) as [r|]; [apply Hf|reflexivity].
Qed.

Lemma wfmo_at_consumed e h w : wfmo_at (consumed e h) w = wfmo_at h w.
Proof. unfold consumed. destruct (AutoReset _); reflexivity. Qed.

Lemma register_waits_ok w waitAll es : forall i t,
  Forall (fun e => (e < length (events (mem t)))%nat) es ->
  refcount_ok (Some w) (mem t) ->
  RefCount (wfmo_at (mem t) w) <= 1 + i ->
  0 <= i -> i + Z.of_nat (length es) < Int.max ->
  exists done t', register_waits w waitAll i es t = Returned done t' /\
    refcount_ok (Some w) (mem t') /\
    sched t' = sched t /\ clock t' = clock t.
Proof.
  induction es as [|e es IH]; intros i t Hes Hok Hrc Hi Hbound.
  - exists false, t. repeat split; try reflexivity. exact Hok.
  - inversion Hes as [|? ? He Hes']; subst.
    rewrite register_waits_cons. cbn [length] in Hbound.
    destruct (State (event_at (mem t) e)).
    + destruct waitAll.
      * cbv zeta.
        match goal with |- context [register_waits w true (i + 1) es ?t1] =>
          destruct (IH (i + 1) t1) as (done & t' & E & Hok' & Hs & Hk) end;
          cbn [mem sched clock].
        -- eapply Forall_impl; [exact Hes'|]. intros x Hx.
           rewrite events_upd_wfmo, length_events_consumed. exact Hx.
        -- apply refcount_ok_upd_wfmo; [reflexivity|intros r H; exact H|].
           apply refcount_ok_consumed, Hok.
        -- rewrite RefCount_upd_wfmo by reflexivity. rewrite wfmo_at_consumed. lia.
        -- lia.
        -- lia.
        -- exists done, t'. repeat split; assumption.
      * eexists true, _. split; [reflexivity|]. cbn [mem sched clock].
        repeat split; try reflexivity.
        apply refcount_ok_upd_wfmo; [reflexivity|intros r H; exact H|].
        apply refcount_ok_consumed, Hok.
    + destruct (registered_ok w i e (mem t) He Hok) as [Hok1 Hrc1]; [lia|].
      match goal with |- context [register_waits w waitAll (i + 1) es ?t1] =>
        destruct (IH (i + 1) t1) as (done & t' & E & Hok' & Hs & Hk) end;
        cbn [mem sched clock].
      * eapply Forall_impl; [exact Hes'|]. intros x Hx.
        rewrite events_upd_wfmo, length_events_upd_event. exact Hx.
      * exact Hok1.
      * rewrite Hrc1. lia.
      * lia.
      * lia.
      * exists done, t'. repeat split; assumption.
Qed.

Lemma wait_until_done_ok owner w waitAll ts r ws t :
  refcount_ok owner (mem t) ->
  refcount_ok owner (mem (final (wait_until_done w waitAll ts r ws t))).
Proof.
  revert r t. induction ws as [|k ws IH]; intros r t H; cbn [wait_until_done].
  - destruct (satisfied _ _); exact H.
  - destruct (satisfied _ _); [exact H|]. cbn [wake].
    destruct (negb _).
    + cbn. apply run_others_refcount_ok, H.
    + apply IH. cbn. apply run_others_refcount_ok, H.
Qed.

Lemma finalized_ok w h :
  refcount_ok (Some w) h -> refcount_ok None (finalized w h).
Proof.
  intros Hok. destruct (owner_cell _ _ Hok) as [r Hr].
  pose proof (Hok w) as Hw. rewrite Hr, own_owner in Hw. destruct Hw as (H1 & H2 & H3).
  assert (Hj : mjoin (wfmos h !! w) = Some r) by (rewrite Hr; reflexivity).
  pose proof (cell_upd_wfmo _ _ decr_RefCount _
                (cell_upd_wfmo _ _ (set_StillWaiting false) _ Hj)) as Hc.
  unfold finalized, released. rewrite (wfmo_at_cell _ _ _ Hc). cbn [decr_RefCount set_RefCount
    set_StillWaiting RefCount]. rewrite Int_decr_pos by assumption.
  set (h2 := upd_wfmo w decr_RefCount (upd_wfmo w (set_StillWaiting false) h)) in *.
  assert (Hne : forall w', w <> w' -> wfmos h2 !! w' = wfmos h !! w').
  { intros w' Hn. subst h2. unfold upd_wfmo. cbn [wfmos].
    rewrite !list_lookup_alter_ne by assumption. reflexivity. }
  intros w'. rewrite own_None.
  destruct (decide (w = w')) as [<-|Hn].
  - destruct (Z.eqb_spec (RefCount r - 1) 0) as [Hz|Hz].
    + change (registrations w (free_wfmo w h2)) with (registrations w h).
      unfold free_wfmo. cbn [wfmos]. rewrite list_lookup_alter, decide_True by reflexivity.
      destruct (wfmos h2 !! w) as [[r2|]|]; cbn; lia.
    + change (registrations w h2) with (registrations w h).
      destruct (wfmos h2 !! w) as [[r2|]|]; cbn in Hc; try discriminate.
      injection Hc as ->. cbn. rewrite Int_decr_pos by assumption.
      repeat split; try lia; try discriminate.
  - specialize (Hok w'). rewrite own_other in Hok by assumption.
    destruct (Z.eqb_spec (RefCount r - 1) 0) as [Hz|Hz].
    + change (registrations w' (free_wfmo w h2)) with (registrations w' h).
      unfold free_wfmo. cbn [wfmos]. rewrite list_lookup_alter_ne by assumption.
      rewrite Hne by assumption.
      destruct (wfmos h !! w') as [[r'|]|]; try exact Hok.
      destruct Hok as (A & B & C). split; [exact A|]. split; [exact B|].
      intros Hs. specialize (C Hs). congruence.
    + change (registrations w' h2) with (registrations w' h).
      rewrite Hne by assumption.
      destruct (wfmos h !! w') as [[r'|]|]; try exact Hok.
      destruct Hok as (A & B & C). split; [exact A|]. split; [exact B|].
      intros Hs. specialize (C Hs). congruence.
Qed.

Lemma WaitForMultipleEvents_refcount_ok evs count waitAll ms t :
  refcount_ok None (mem t) ->
  Forall (fun e => (e < length (events (mem t)))%nat) evs ->
  count < Int.max ->
  match WaitForMultipleEvents evs count waitAll ms t with
  | Returned _ t' => refcount_ok None (mem t')
  | Blocked t' => refcount_ok (Some (length (wfmos (mem t)))) (mem t')
  end.
Proof.
  intros Hok Hevs Hcount. rewrite WaitForMultipleEvents_eq. cbv zeta.
  destruct (constructed_ok count waitAll _ Hok) as [Hok1 Hrc1].
  unfold registered.
  match goal with |- context [register_waits ?w waitAll 0 ?es ?t1] =>
    destruct (register_waits_ok w waitAll es 0 t1) as (done & t2 & E & Hok2 & Hs & Hk) end;
    cbn [mem sched clock].
  - apply Forall_take. exact Hevs.
  - exact Hok1.
  - rewrite Hrc1. lia.
  - lia.
  - rewrite length_take. unfold Int.max in *. lia.
  - rewrite E. unfold wait_phase.
    destruct done.
    + cbn. apply finalized_ok, Hok2.
    + destruct (ms =? 0).
      * cbn. apply finalized_ok, Hok2.
      * pose proof (wait_until_done_ok _ (length (wfmos (mem t))) waitAll
                      (timeout_of (clock t2) ms) 0 (sched t2) t2 Hok2) as Hw.
        destruct (wait_until_done _ _ _ _ _ _) as [r t3|t3]; cbn in Hw |- *.
        -- apply finalized_ok, Hw.
        -- exact Hw.
Qed.

Lemma replay_app o st tr1 tr2 :
  replay o st (tr1 ++ tr2) = replay o (replay o st tr1) tr2.
Proof. apply fold_left_app. Qed.

Lemma replay_release o st w h :
  snd st = true ->
  snd (replay o st (pthread_mutex_lock (WfmoObj w) :: release_calls w h)) = true.
Proof.
  intros H. destruct st as [held ok]. cbn in H. subst ok.
  unfold release_calls. destruct (_ =? _); cbn; [|reflexivity].
  destruct (bool_decide (WfmoObj w = o)); destruct held; reflexivity.
Qed.

Lemma replay_notify_calls o st i h : replay o st (notify_calls i h) = st.
Proof. unfold notify_calls. destruct (_ && _); reflexivity. Qed.

Lemma replay_no_destroy o st tr :
  Forall (fun c => match c with
                   | pthread_mutex_destroy _ | delete_wfmo _ => False
                   | _ => True end) tr ->
  snd (replay o st tr) = snd st.
Proof.
  revert st. induction tr as [|c tr IH]; intros st H; [reflexivity|].
  inversion H as [|? ? Hc Htr]; subst.
  change (replay o st (c :: tr)) with (replay o (lock_step o st c) tr).
  rewrite IH by assumption.
  destruct c; try reflexivity; contradiction.
Qed.

Lemma SetEvent_auto_destroyed_locked o event q : forall t,
  snd (replay o (false, true) (trace t)) = true ->
  snd (replay o (false, true) (trace (final (SetEvent_auto event q t)))) = true.
Proof.
  induction q as [|i q IH]; intros t H; [exact H|].
  rewrite SetEvent_auto_cons. cbv zeta. destruct (StillWaiting _).
  - cbn [final trace]. rewrite replay_app, replay_no_destroy; [exact H|].
    constructor; [exact I|]. apply Forall_app. split.
    + unfold notify_calls. destruct (_ && _); repeat constructor.
    + repeat constructor.
  - apply IH. cbn [trace]. rewrite replay_app. apply replay_release. exact H.
Qed.

Lemma SetEvent_manual_destroyed_locked o q : forall t,
  snd (replay o (false, true) (trace t)) = true ->
  snd (replay o (false, true) (trace (final (SetEvent_manual q t)))) = true.
Proof.
  induction q as [|i q IH]; intros t H; [exact H|].
  rewrite SetEvent_manual_cons. cbv zeta. destruct (StillWaiting _).
  - apply IH. cbn [trace]. rewrite replay_app, replay_no_destroy; [exact H|].
    constructor; [exact I|]. apply Forall_app. split.
    + unfold notify_calls. destruct (_ && _); repeat constructor.
    + repeat constructor.
  - apply IH. cbn [trace]. rewrite replay_app. apply replay_release. exact H.
Qed.

Lemma SetEvent_destroyed_locked o event t :
  snd (replay o (false, true) (trace t)) = true ->
  snd (replay o (false, true) (trace (final (SetEvent event t)))) = true.
Proof.
  intros H. unfold SetEvent. run.
  set (t1 := mk_thread _ _ _ _).
  assert (H1 : snd (replay o (false, true) (trace t1)) = true).
  { subst t1. cbn [trace]. rewrite replay_app, replay_no_destroy; [exact H|]. repeat constructor. }
  destruct (AutoReset _).
  - pose proof (SetEvent_auto_destroyed_locked o event
                  (RegisteredWaits (event_at (mem t1) event)) t1 H1) as Ha.
    subst t1. cbn [mem] in Ha.
    destruct (SetEvent_auto _ _ _) as [[r|] t'|t']; cbn [final] in Ha |- *; try exact Ha.
    run. destruct (State _); run; [|exact Ha].
    rewrite <- app_assoc, replay_app, replay_no_destroy; [exact Ha|]. repeat constructor.
  - pose proof (SetEvent_manual_destroyed_locked o
                  (RegisteredWaits (event_at (mem t1) event)) t1 H1) as Ha.
    subst t1. cbn [mem] in Ha.
    destruct (SetEvent_manual _ _) as [[] t'|t']; cbn [final] in Ha |- *; try exact Ha.
    run. rewrite <- app_assoc, replay_app, replay_no_destroy; [exact Ha|]. repeat constructor.
Qed.

(** The registration loop and the wait loop leave the mutex of the record
    as it is. *)
Lemma replay_assert_calls o st b : replay o st (assert_calls b) = st.
Proof. destruct b; reflexivity. Qed.

Lemma register_waits_replay w' w waitAll es : forall i t,
  replay (WfmoObj w') (false, true) (trace (final (register_waits w waitAll i es t))) =
  replay (WfmoObj w') (false, true) (trace t).
Proof.
  induction es as [|e es IH]; intros i t; [reflexivity|].
  rewrite register_waits_cons.
  assert (Hpair : forall st, replay (WfmoObj w') st
            [pthread_mutex_lock (EventObj e); pthread_mutex_unlock (EventObj e)] = st).
  { intros [a b]. cbn. rewrite orb_false_r, andb_true_r. reflexivity. }
  destruct (State _); [destruct waitAll|].
  - cbv zeta. rewrite IH. cbn [trace].
    rewrite app_assoc, replay_app, replay_assert_calls, replay_app. apply Hpair.
  - cbn [final trace]. rewrite replay_app. apply Hpair.
  - rewrite IH. cbn [trace]. rewrite replay_app. apply Hpair.
Qed.

Lemma replay_wait_call o st o' ts : replay o st [wait_call o' ts] = st.
Proof. destruct ts; reflexivity. Qed.

Lemma wait_until_done_replay o w waitAll ts ws : forall r t,
  replay o (false, true) (trace (final (wait_until_done w waitAll ts r ws t))) =
  replay o (false, true) (trace t).
Proof.
  induction ws as [|k ws IH]; intros r t; cbn [wait_until_done].
  - destruct (satisfied _ _); [reflexivity|]. unfold sleep; cbn [final trace]. rewrite replay_app. apply replay_wait_call.
  - destruct (satisfied _ _); [reflexivity|]. cbn [wake]. destruct (negb _).
    + unfold sleep; cbn [final trace]. rewrite replay_app. apply replay_wait_call.
    + rewrite IH. unfold sleep; cbn [final trace]. rewrite replay_app. apply replay_wait_call.
Qed.

Lemma wait_until_set_replay o e ts ws : forall t,
  replay o (false, true) (trace (final (wait_until_set e ts ws t))) =
  replay o (false, true) (trace t).
Proof.
  induction ws as [|k ws IH]; intros t; cbn [wait_until_set].
  - unfold sleep; cbn [final trace]. rewrite replay_app. apply replay_wait_call.
  - cbn [wake]. destruct (_ && _).
    + rewrite IH. unfold sleep; cbn [final trace]. rewrite replay_app. apply replay_wait_call.
    + unfold sleep; cbn [final trace]. rewrite replay_app. apply replay_wait_call.
Qed.

Lemma WaitForMultipleEvents_destroyed_locked w' evs count waitAll ms t :
  let o := WfmoObj w' in
  snd (replay o (false, true) (trace t)) = true ->
  snd (replay o (false, true)
         (trace (final (WaitForMultipleEvents evs count waitAll ms t)))) = true.
Proof.
  intros o H. rewrite WaitForMultipleEvents_eq. cbv zeta.
  set (w := length (wfmos (mem t))).
  assert (Hreg : forall st, snd st = true ->
            replay o st [pthread_mutex_init (WfmoObj w); pthread_cond_init (WfmoObj w);
                         pthread_mutex_lock (WfmoObj w)] =
            (fst st || bool_decide (WfmoObj w = o), true)).
  { intros [a b] Hb. cbn in Hb. subst b. reflexivity. }
  assert (Hend : forall tr h,
            replay o (false, true) tr = replay o (false, true)
              (trace t ++ [pthread_mutex_init (WfmoObj w); pthread_cond_init (WfmoObj w);
                           pthread_mutex_lock (WfmoObj w)]) ->
            snd (replay o (false, true) (tr ++ finalize_calls w h)) = true).
  { intros tr h E. rewrite replay_app, E, replay_app, Hreg by exact H.
    unfold finalize_calls, release_calls. destruct (_ =? _); cbn; [|reflexivity].
    destruct (bool_decide (WfmoObj w = o)); destruct (fst _); reflexivity. }
  assert (Hmid : forall tr,
            replay o (false, true) tr = replay o (false, true)
              (trace t ++ [pthread_mutex_init (WfmoObj w); pthread_cond_init (WfmoObj w);
                           pthread_mutex_lock (WfmoObj w)]) ->
            snd (replay o (false, true) tr) = true).
  { intros tr E. rewrite E, replay_app, Hreg by exact H. reflexivity. }
  unfold registered. fold w.
  match goal with |- context [register_waits w waitAll 0 ?es ?t1] =>
    pose proof (register_waits_replay w' w waitAll es 0 t1) as Hr;
    destruct (register_waits w waitAll 0 es t1) as [done t2|t2] end;
    cbn [final trace] in Hr.
  2:{ cbn [final]. apply Hmid, Hr. }
  unfold wait_phase. destruct done; [cbn [final trace]; apply Hend, Hr|].
  destruct (ms =? 0); [cbn [final trace]; apply Hend, Hr|].
  pose proof (wait_until_done_replay o w waitAll (timeout_of (clock t2) ms) (sched t2) 0 t2) as Hw.
  destruct (wait_until_done _ _ _ _ _ _) as [r t3|t3]; cbn [final trace] in Hw |- *.
  - apply Hend. rewrite Hw. exact Hr.
  - apply Hmid. rewrite Hw. exact Hr.
Qed.

Lemma waits_app tr1 tr2 : waits (tr1 ++ tr2) = waits tr1 ++ waits tr2.
Proof. apply List.filter_app. Qed.

Lemma waits_wait_call o ts : waits [wait_call o ts] = [wait_call o ts].
Proof. destruct ts; reflexivity. Qed.

Lemma waits_assert_calls b : waits (assert_calls b) = [].
Proof. destruct b; reflexivity. Qed.

Lemma run_others_app a b h : run_others (a ++ b) h = run_others b (run_others a h).
Proof. apply fold_left_app. Qed.

Lemma wait_until_set_consumed e ts ws : forall t,
  exists k, ws = k ++ sched (final (wait_until_set e ts ws t)) /\
    mem (final (wait_until_set e ts ws t)) = run_others (others_of k) (mem t) /\
    clock (final (wait_until_set e ts ws t)) = clock t.
Proof.
  induction ws as [|w ws IH]; intros t; cbn [wait_until_set].
  - exists []. repeat split; reflexivity.
  - cbn [wake]. destruct (_ && _).
    + match goal with |- context [wait_until_set e ts ws ?t1] =>
        destruct (IH t1) as (k & E & Hm & Hc) end.
      exists (w :: k). cbn [app]. split; [f_equal; exact E|].
      rewrite Hm, Hc. cbn [mem clock others_of flat_map]. rewrite run_others_app.
      split; reflexivity.
    + exists [w]. cbn. rewrite app_nil_r. repeat split; reflexivity.
Qed.

Lemma wait_until_done_consumed w waitAll ts ws : forall r t,
  sched t = ws ->
  exists k, ws = k ++ sched (final (wait_until_done w waitAll ts r ws t)) /\
    mem (final (wait_until_done w waitAll ts r ws t)) = run_others (others_of k) (mem t) /\
    clock (final (wait_until_done w waitAll ts r ws t)) = clock t.
Proof.
  induction ws as [|x ws IH]; intros r t Hs; cbn [wait_until_done].
  - destruct (satisfied _ _).
    + exists []. cbn. rewrite Hs. repeat split; reflexivity.
    + exists []. repeat split; reflexivity.
  - destruct (satisfied _ _).
    + exists []. cbn. rewrite Hs. repeat split; reflexivity.
    + cbn [wake]. destruct (negb _).
      * exists [x]. cbn. rewrite app_nil_r. repeat split; reflexivity.
      * match goal with |- context [wait_until_done w waitAll ts ?r1 ws ?t1] =>
          destruct (IH r1 t1 eq_refl) as (k & E & Hm & Hc) end.
        exists (x :: k). cbn [app]. split; [f_equal; exact E|].
        rewrite Hm, Hc. cbn [mem clock others_of flat_map]. rewrite run_others_app.
        split; reflexivity.
Qed.

Lemma State_upd_event_push_back e i h e' :
  State (event_at (upd_event e (push_back i) h) e') = State (event_at h e').
Proof.
  unfold event_at, upd_event. cbn [events]. rewrite list_lookup_alter.
  destruct (decide (e = e')) as [<-|]; [|reflexivity].
  destruct (events h !! e); reflexivity.
Qed.

Lemma event_at_upd_wfmo w f h e : event_at (upd_wfmo w f h) e = event_at h e.
Proof. reflexivity. Qed.

Lemma live_upd_wfmo w f h w' :
  is_Some (mjoin (wfmos h !! w')) -> is_Some (mjoin (wfmos (upd_wfmo w f h) !! w')).
Proof.
  intros [r Hr]. unfold upd_wfmo. cbn [wfmos]. rewrite list_lookup_alter.
  destruct (decide (w = w')) as [<-|]; [|eauto].
  destruct (wfmos h !! w) as [[r'|]|]; cbn in *; try discriminate. eauto.
Qed.

Lemma live_consumed e h w :
  is_Some (mjoin (wfmos h !! w)) -> is_Some (mjoin (wfmos (consumed e h) !! w)).
Proof. unfold consumed. destruct (AutoReset _); intros H; exact H. Qed.

(** The registration loop neither blocks nor waits; when it leaves [done]
    false in a wait for any event it has consumed nothing, and when it sets
    [done] the record names the event found signaled. *)
Lemma register_waits_frame w waitAll es : forall i t,
  exists done t', register_waits w waitAll i es t = Returned done t' /\
    sched t' = sched t /\ clock t' = clock t /\
    waits (trace t') = waits (trace t) /\
    (waitAll = false -> done = false ->
       forall e, State (event_at (mem t') e) = State (event_at (mem t) e)) /\
    (is_Some (mjoin (wfmos (mem t) !! w)) -> done = true -> 0 <= i ->
       waitAll = false /\ 0 <= Status (wfmo_at (mem t') w)).
Proof.
  induction es as [|e es IH]; intros i t.
  - exists false, t. repeat split; try reflexivity; discriminate.
  - rewrite register_waits_cons. destruct (State (event_at (mem t) e)) eqn:Hst.
    + destruct waitAll.
      * cbv zeta.
        match goal with |- context [register_waits w true (i + 1) es ?t1] =>
          destruct (IH (i + 1) t1) as (done & t' & E & Hs & Hk & Hw & _ & Hd) end.
        exists done, t'. split; [exact E|]. cbn [mem sched clock trace] in *.
        split; [exact Hs|]. split; [exact Hk|]. split; [|split].
        -- rewrite Hw, !waits_app, waits_assert_calls. cbn. rewrite !app_nil_r. reflexivity.
        -- discriminate.
        -- intros Hl Hdone Hi. apply Hd; [|exact Hdone|lia].
           apply live_upd_wfmo, live_consumed, Hl.
      * eexists true, _. split; [reflexivity|]. cbn [mem sched clock trace].
        split; [reflexivity|]. split; [reflexivity|]. split; [|split].
        -- rewrite waits_app. cbn. rewrite app_nil_r. reflexivity.
        -- discriminate.
        -- intros [r Hr] _ Hi. split; [reflexivity|].
           assert (Hc : mjoin (wfmos (consumed e (mem t)) !! w) = Some r).
           { unfold consumed. destruct (AutoReset _); exact Hr. }
           rewrite (wfmo_at_cell _ _ _ (cell_upd_wfmo _ _ (set_Status i) _ Hc)). exact Hi.
    + match goal with |- context [register_waits w waitAll (i + 1) es ?t1] =>
        destruct (IH (i + 1) t1) as (done & t' & E & Hs & Hk & Hw & Hu & Hd) end.
      exists done, t'. split; [exact E|]. cbn [mem sched clock trace] in *.
      split; [exact Hs|]. split; [exact Hk|]. split; [|split].
      * rewrite Hw, waits_app. cbn. rewrite app_nil_r. reflexivity.
      * intros Hwa Hdone e'. rewrite (Hu Hwa Hdone e'), event_at_upd_wfmo.
        apply State_upd_event_push_back.
      * intros Hl Hdone Hi. apply Hd; [|exact Hdone|lia].
        apply live_upd_wfmo. rewrite wfmos_upd_event. exact Hl.
Qed.

Lemma registered_frame evs count waitAll t :
  exists done t2, registered evs count waitAll t = Returned done t2 /\
    sched t2 = sched t /\ clock t2 = clock t /\
    waits (trace t2) = waits (trace t) /\
    (waitAll = false -> done = false ->
       forall e, State (event_at (mem t2) e) = State (event_at (mem t) e)) /\
    (done = true -> satisfied waitAll (wfmo_at (mem t2) (length (wfmos (mem t)))) = true).
Proof.
  unfold registered.
  match goal with |- context [register_waits ?w waitAll 0 ?es ?t1] =>
    destruct (register_waits_frame w waitAll es 0 t1)
      as (done & t2 & E & Hs & Hk & Hw & Hu & Hd) end.
  exists done, t2. split; [exact E|]. cbn [mem sched clock trace] in *.
  split; [exact Hs|]. split; [exact Hk|]. split; [|split].
  - rewrite Hw, waits_app. cbn. rewrite app_nil_r. reflexivity.
  - intros Hwa Hdone e. rewrite (Hu Hwa Hdone e). reflexivity.
  - intros Hdone. destruct Hd as [-> Hpos]; [|exact Hdone|lia|].
    + unfold constructed. cbn [wfmos]. rewrite list_lookup_middle by reflexivity. cbn. eauto.
    + unfold satisfied. cbn. destruct (Z.eqb_spec (Status (wfmo_at (mem t2) (length (wfmos (mem t))))) (-1)); [lia|reflexivity].
Qed.

Lemma WaitForEvent_eq e ms t :
  WaitForEvent e ms t =
  match UnlockedWaitForEvent e ms
          (mk_thread (mem t) (clock t) (sched t)
             (trace t ++ [pthread_mutex_lock (EventObj e)])) with
  | Returned r t' =>
      Returned r (mk_thread (mem t') (clock t') (sched t')
                    (trace t' ++ [pthread_mutex_unlock (EventObj e)]))
  | Blocked t' => Blocked t'
  end.
Proof. unfold WaitForEvent. run. destruct (UnlockedWaitForEvent _ _ _); reflexivity. Qed.

Lemma WaitForEvent_timeout_frame t e ms t1 :
  WaitForEvent e ms t = Returned ETIMEDOUT t1 ->
  exists k, sched t = k ++ sched t1 /\ mem t1 = run_others (others_of k) (mem t).
Proof.
  rewrite WaitForEvent_eq.
  set (t0 := mk_thread _ _ _ _).
  destruct (State (event_at (mem t0) e)) eqn:Hs.
  - unfold UnlockedWaitForEvent. run. fold t0. rewrite Hs. cbn [negb].
    destruct (AutoReset _); run; discriminate.
  - destruct (Z.eqb_spec ms 0) as [->|Hms].
    + rewrite UnlockedWaitForEvent_zero, Hs. intros [= <-]. exists []. split; reflexivity.
    + rewrite UnlockedWaitForEvent_wait by assumption.
      destruct (wait_until_set_consumed e (timeout_of (clock t0) ms) (sched t0) t0)
        as (k & E & Hm & _).
      destruct (wait_until_set _ _ _ _) as [a t'|t']; [|discriminate].
      cbn [final] in E, Hm. intros [= -> <-]. cbn [mem sched].
      exists k. split; [exact E|]. exact Hm.
Qed.

Lemma events_finalized w h : events (finalized w h) = events h.
Proof. unfold finalized. rewrite events_released. reflexivity. Qed.

Lemma WaitForMultipleEvents_timeout_frame t evs count ms idx t2 :
  WaitForMultipleEvents evs count false ms t = Returned (ETIMEDOUT, idx) t2 ->
  exists tr k,
    registered evs count false t = Returned false tr /\
    (forall e, State (event_at (mem tr) e) = State (event_at (mem t) e)) /\
    sched t = k ++ sched t2 /\
    events (mem t2) = events (run_others (others_of k) (mem tr)).
Proof.
  rewrite WaitForMultipleEvents_eq. cbv zeta.
  destruct (registered_frame evs count false t)
    as (done & tr & E & Hs & Hk & Hw & Hu & Hd).
  rewrite E. unfold wait_phase. destruct done; [discriminate|].
  specialize (Hu eq_refl eq_refl).
  destruct (ms =? 0).
  - intros [= _ <-]. exists tr, []. cbn [mem sched]. rewrite events_finalized.
    repeat split; try assumption. symmetry. exact Hs.
  - destruct (wait_until_done_consumed (length (wfmos (mem t))) false
                (timeout_of (clock tr) ms) (sched tr) 0 tr eq_refl) as (k & Ek & Hm & _).
    destruct (wait_until_done _ _ _ _ _ _) as [a t3|t3]; [|discriminate].
    cbn [final] in Ek, Hm. intros [= _ _ <-]. cbn [mem sched]. rewrite events_finalized, Hm.
    exists tr, k. repeat split; try assumption. rewrite <- Hs. exact Ek.
Qed.

Lemma WaitForEvent_zero_unsignaled t e :
  State (event_at (mem t) e) = false ->
  WaitForEvent e 0 t =
  Returned ETIMEDOUT
    (mk_thread (mem t) (clock t) (sched t)
       (trace t ++ [pthread_mutex_lock (EventObj e); pthread_mutex_unlock (EventObj e)])).
Proof.
  intros H. rewrite WaitForEvent_eq, UnlockedWaitForEvent_zero. cbn [mem]. rewrite H.
  cbn [mem clock sched trace]. rewrite <- app_assoc. reflexivity.
Qed.

Lemma waits_release_calls w h : waits (release_calls w h) = [].
Proof. unfold release_calls. destruct (_ =? _); reflexivity. Qed.

Lemma WaitForMultipleEvents_zero t evs count waitAll done t2 :
  registered evs count waitAll t = Returned done t2 ->
  satisfied waitAll (wfmo_at (mem t2) (length (wfmos (mem t)))) = false ->
  exists idx t',
    WaitForMultipleEvents evs count waitAll 0 t = Returned (ETIMEDOUT, idx) t' /\
    sched t' = sched t /\ waits (trace t') = waits (trace t).
Proof.
  intros E Hsat. rewrite WaitForMultipleEvents_eq. cbv zeta. rewrite E.
  destruct (registered_frame evs count waitAll t)
    as (done' & t2' & E' & Hs & Hk & Hw & Hu & Hd).
  rewrite E in E'. injection E' as <- <-.
  destruct done; [rewrite Hd in Hsat by reflexivity; discriminate|].
  unfold wait_phase. cbn [Z.eqb]. eexists _, _. split; [reflexivity|]. cbn [sched trace].
  split; [exact Hs|]. rewrite waits_app. unfold finalize_calls. rewrite waits_release_calls, app_nil_r.
  exact Hw.
Qed.

Lemma deadline_modular tv ms :
  nanoseconds_of (deadline tv ms) = instant tv ms mod 2 ^ 64 /\
  0 <= ts_nsec (deadline tv ms) < 10 ^ 9.
Proof.
  unfold nanoseconds_of, deadline, instant. cbv zeta.
  unfold U64.add, U64.mul, U64.sub, U64.of_Z, U64.modulus. cbn [ts_sec ts_nsec].
  change (10 ^ 9) with 1000000000. change (10 ^ 6) with 1000000. change (10 ^ 3) with 1000.
  set (m := 2 ^ 64). assert (Hm : m = 18446744073709551616) by reflexivity.
  set (S := tv_sec tv * 1000000000 + ms * 1000000 + tv_usec tv * 1000).
  assert (Hns : ((((tv_sec tv mod m * 1000) mod m * 1000) mod m * 1000) mod m
                 + ((ms * 1000) mod m * 1000) mod m) mod m
                + (tv_usec tv mod m * 1000) mod m = 
                ((tv_sec tv * 1000000000) mod m + (ms * 1000000) mod m) mod m
                + (tv_usec tv * 1000) mod m).
  { assert (H3 : forall x, (((x mod m * 1000) mod m * 1000) mod m * 1000) mod m
                           = (x * 1000000000) mod m).
    { intros x. rewrite (Zmult_mod_idemp_l ((x mod m * 1000) mod m * 1000) 1000 m).
      rewrite <- (Z.mul_assoc _ 1000 1000), (Zmult_mod_idemp_l (x mod m * 1000) _ m).
      rewrite <- (Z.mul_assoc _ 1000 (1000 * 1000)), (Zmult_mod_idemp_l x _ m).
      reflexivity. }
    assert (H2 : forall x, ((x * 1000) mod m * 1000) mod m = (x * 1000000) mod m).
    { intros x. rewrite (Zmult_mod_idemp_l (x * 1000) 1000 m), <- Z.mul_assoc. reflexivity. }
    rewrite H3, H2, (Zmult_mod_idemp_l (tv_usec tv) 1000 m). reflexivity. }
  rewrite Hns.
  rewrite <- (Zplus_mod (tv_sec tv * 1000000000) (ms * 1000000) m).
  rewrite <- (Zplus_mod (tv_sec tv * 1000000000 + ms * 1000000) (tv_usec tv * 1000) m).
  fold S.
  set (ns := S mod m).
  assert (Hrange : 0 <= ns < m) by (apply Z.mod_pos_bound; lia).
  rewrite !Z.div_div by lia. change (1000 * (1000 * 1000)) with 1000000000.
  set (sec := ns / 1000000000).
  assert (Hsec : 0 <= sec * 1000000000 <= ns /\ ns - sec * 1000000000 < 1000000000).
  { subst sec. pose proof (Z.div_mod ns 1000000000 ltac:(lia)) as Hd.
    pose proof (Z.mod_pos_bound ns 1000000000 ltac:(lia)) as Hb.
    assert (0 <= ns / 1000000000) by (apply Z.div_pos; lia). lia. }
  assert (H3 : (((sec mod m * 1000) mod m * 1000) mod m * 1000) mod m
                = (sec * 1000000000) mod m).
  { rewrite (Zmult_mod_idemp_l ((sec mod m * 1000) mod m * 1000) 1000 m).
    rewrite <- (Z.mul_assoc _ 1000 1000), (Zmult_mod_idemp_l (sec mod m * 1000) _ m).
    rewrite <- (Z.mul_assoc _ 1000 (1000 * 1000)), (Zmult_mod_idemp_l sec _ m).
    reflexivity. }
  rewrite H3.
  rewrite (Z.mod_small (sec * 1000000000)) by lia.
  rewrite (Z.mod_small (ns - sec * 1000000000)) by lia.
  lia.
Qed.

Lemma deadline_exact tv ms :
  0 <= instant tv ms < 2 ^ 64 ->
  nanoseconds_of (deadline tv ms) = instant tv ms /\
  0 <= ts_nsec (deadline tv ms) < 10 ^ 9.
Proof.
  intros H. destruct (deadline_modular tv ms) as [E B]. split; [|exact B].
  rewrite E. apply Z.mod_small. exact H.
Qed.

(** Every wait of a call with a finite timeout is a timed wait for that
    deadline. *)
Lemma wait_until_set_waits (P : pthread_call -> Prop) e ts ws : forall t,
  P (wait_call (EventObj e) ts) ->
  Forall P (waits (trace t)) ->
  Forall P (waits (trace (final (wait_until_set e ts ws t)))).
Proof.
  intros t Hp. revert t.
  induction ws as [|w ws IH]; intros t H; cbn [wait_until_set].
  - unfold sleep. cbn [final trace]. rewrite waits_app, waits_wait_call.
    apply Forall_app. split; [exact H|]. repeat constructor. exact Hp.
  - cbn [wake]. destruct (_ && _).
    + apply IH. cbn [trace]. rewrite waits_app, waits_wait_call.
      apply Forall_app. split; [exact H|]. repeat constructor. exact Hp.
    + cbn [final trace]. rewrite waits_app, waits_wait_call.
      apply Forall_app. split; [exact H|]. repeat constructor. exact Hp.
Qed.

Lemma wait_until_done_waits (P : pthread_call -> Prop) w waitAll ts ws : forall r t,
  P (wait_call (WfmoObj w) ts) ->
  Forall P (waits (trace t)) ->
  Forall P (waits (trace (final (wait_until_done w waitAll ts r ws t)))).
Proof.
  intros r t Hp. revert r t.
  induction ws as [|x ws IH]; intros r t H; cbn [wait_until_done].
  - destruct (satisfied _ _); [exact H|]. unfold sleep. cbn [final trace].
    rewrite waits_app, waits_wait_call.
    apply Forall_app. split; [exact H|]. repeat constructor. exact Hp.
  - destruct (satisfied _ _); [exact H|]. cbn [wake]. destruct (negb _).
    + cbn [final trace]. rewrite waits_app, waits_wait_call.
      apply Forall_app. split; [exact H|]. repeat constructor. exact Hp.
    + apply IH. cbn [trace]. rewrite waits_app, waits_wait_call.
      apply Forall_app. split; [exact H|]. repeat constructor. exact Hp.
Qed.

Lemma timeout_of_finite tv ms :
  ms <> INFINITE -> timeout_of tv ms = Some (deadline tv ms).
Proof.
  intros H. unfold timeout_of. destruct (Z.eqb_spec ms INFINITE); [contradiction|reflexivity].
Qed.

Lemma WaitForEvent_waits e ms t :
  ms <> INFINITE ->
  waits (trace t) = [] ->
  Forall (fun c => c = pthread_cond_timedwait (EventObj e) (deadline (clock t) ms))
    (waits (trace (final (WaitForEvent e ms t)))).
Proof.
  intros Hfin Hnil. rewrite WaitForEvent_eq.
  set (t0 := mk_thread _ _ _ _).
  assert (H0 : waits (trace t0) = []).
  { subst t0. cbn [trace]. rewrite waits_app, Hnil. reflexivity. }
  assert (Hgoal : Forall (fun c => c = pthread_cond_timedwait (EventObj e) (deadline (clock t) ms))
            (waits (trace (final (UnlockedWaitForEvent e ms t0))))).
  { destruct (State (event_at (mem t0) e)) eqn:Hs.
    - unfold UnlockedWaitForEvent. run. fold t0. rewrite Hs. cbn [negb].
      destruct (AutoReset _); run; rewrite H0; constructor.
    - destruct (Z.eqb_spec ms 0) as [->|Hms].
      + rewrite UnlockedWaitForEvent_zero, Hs. cbn [final]. rewrite H0. constructor.
      + rewrite UnlockedWaitForEvent_wait by assumption.
        rewrite timeout_of_finite by assumption.
        pose proof (wait_until_set_waits
          (fun c => c = pthread_cond_timedwait (EventObj e) (deadline (clock t) ms))
          e (Some (deadline (clock t0) ms)) (sched t0) t0 eq_refl) as Hw.
        rewrite H0 in Hw. specialize (Hw (Forall_nil_2 _)).
        destruct (wait_until_set _ _ _ _) as [a t'|t']; cbn [final trace] in Hw |- *; exact Hw. }
  destruct (UnlockedWaitForEvent e ms t0) as [r t'|t']; cbn [final trace] in Hgoal |- *.
  - rewrite waits_app. cbn. rewrite app_nil_r. exact Hgoal.
  - exact Hgoal.
Qed.

Lemma WaitForMultipleEvents_waits evs count waitAll ms t :
  ms <> INFINITE ->
  waits (trace t) = [] ->
  Forall (fun c => c = pthread_cond_timedwait (WfmoObj (length (wfmos (mem t))))
                         (deadline (clock t) ms))
    (waits (trace (final (WaitForMultipleEvents evs count waitAll ms t)))).
Proof.
  intros Hfin Hnil. rewrite WaitForMultipleEvents_eq. cbv zeta.
  destruct (registered_frame evs count waitAll t)
    as (done & t2 & E & Hs & Hk & Hw & _).
  rewrite E. rewrite Hnil in Hw.
  assert (Hfinal : forall t3, Forall (fun c => c = pthread_cond_timedwait
              (WfmoObj (length (wfmos (mem t)))) (deadline (clock t) ms)) (waits (trace t3)) ->
            Forall (fun c => c = pthread_cond_timedwait
              (WfmoObj (length (wfmos (mem t)))) (deadline (clock t) ms))
              (waits (trace t3 ++ finalize_calls (length (wfmos (mem t))) (mem t3)))).
  { intros t3 H. rewrite waits_app. unfold finalize_calls.
    rewrite waits_release_calls, app_nil_r. exact H. }
  unfold wait_phase. destruct done; [cbn [final trace]; apply Hfinal; rewrite Hw; constructor|].
  destruct (ms =? 0); [cbn [final trace]; apply Hfinal; rewrite Hw; constructor|].
  rewrite timeout_of_finite by assumption. rewrite Hk.
  pose proof (wait_until_done_waits
    (fun c => c = pthread_cond_timedwait (WfmoObj (length (wfmos (mem t)))) (deadline (clock t) ms))
    (length (wfmos (mem t))) waitAll (Some (deadline (clock t) ms)) (sched t2) 0 t2 eq_refl) as Hd.
  rewrite Hw in Hd. specialize (Hd (Forall_nil_2 _)).
  destruct (wait_until_done _ _ _ _ _ _) as [r t3|t3]; cbn [final trace] in Hd |- *;
    [apply Hfinal; exact Hd|exact Hd].
Qed.

Lemma alter_last {A} (f : A -> A) (l : list A) (x : A) :
  alter f (length l) (l ++ [x]) = l ++ [f x].
Proof.
  replace (length l) with (length l + 0)%nat by lia. rewrite alter_app_r. reflexivity.
Qed.

Lemma CreateEvent_eq manualReset initialState t :
  CreateEvent manualReset initialState t =
  let e := length (events (mem t)) in
  match SetEvent e
          (mk_thread (mk_heap (events (mem t) ++ [mk_event (negb manualReset) false []])
                        (wfmos (mem t)))
             (clock t) (sched t)
             (trace t ++ [pthread_cond_init (EventObj e); pthread_mutex_init (EventObj e)])) with
  | Returned _ t' => Returned e t'
  | Blocked t' => Blocked t'
  end.
Proof.
  unfold CreateEvent, new_event. run. unfold upd_event. cbn [events wfmos].
  rewrite !alter_last. cbn [set_State set_AutoReset null_event AutoReset State RegisteredWaits].
  rewrite <- app_assoc. reflexivity.
Qed.

Lemma SetEvent_fresh e ar t :
  events (mem t) !! e = Some (mk_event ar false []) ->
  SetEvent e t =
  Returned 0
    (mk_thread (mk_heap (<[e := mk_event ar true []]> (events (mem t))) (wfmos (mem t)))
       (clock t) (sched t)
       (trace t ++ [pthread_mutex_lock (EventObj e); pthread_mutex_unlock (EventObj e);
                    if ar then pthread_cond_signal (EventObj e)
                    else pthread_cond_broadcast (EventObj e)])).
Proof.
  intros H. unfold SetEvent. run.
  rewrite (event_at_upd_event_eq _ _ _ _ H). cbn [set_State AutoReset RegisteredWaits].
  assert (Hup : upd_event e (set_State true) (mem t) =
                mk_heap (<[e := mk_event ar true []]> (events (mem t))) (wfmos (mem t))).
  { unfold upd_event. rewrite (alter_as_insert _ _ _ _ H). reflexivity. }
  destruct ar.
  - cbn [SetEvent_auto]. run. rewrite (event_at_upd_event_eq _ _ _ _ H). cbn [set_State State].
    run. rewrite Hup, <- !app_assoc. reflexivity.
  - cbn [SetEvent_manual]. run. rewrite Hup, <- !app_assoc.
    unfold upd_event. cbn [events wfmos].
    rewrite (alter_as_insert _ _ _ (mk_event false true [])), list_insert_insert_eq.
    + reflexivity.
    + apply list_lookup_insert_eq. eapply lookup_lt_Some. exact H.
Qed.

Lemma WaitForEvent_signaled e ev ms t :
  events (mem t) !! e = Some ev -> State ev = true ->
  WaitForEvent e ms t =
  Returned 0
    (mk_thread (consumed e (mem t)) (clock t) (sched t)
       (trace t ++ [pthread_mutex_lock (EventObj e); pthread_mutex_unlock (EventObj e)])).
Proof.
  intros H Hs. rewrite WaitForEvent_eq. unfold UnlockedWaitForEvent, consumed. run.
  rewrite (event_at_lookup _ _ _ H), Hs. cbn [negb].
  destruct (AutoReset ev); run; rewrite <- app_assoc; reflexivity.
Qed.

(** C1.  [CreateEvent] calls [SetEvent] whatever [initialState] is: the
    event it returns is always signaled, and a wait with timeout 0 on it
    succeeds, also when [initialState] is false. *)
Theorem CreateEvent_always_signaled (manualReset initialState : bool) (t : thread) :
  let e := length (events (mem t)) in
  exists t',
    CreateEvent manualReset initialState t = Returned e t' /\
    event_at (mem t') e = mk_event (negb manualReset) true [] /\
    exists t'', WaitForEvent e 0 t' = Returned 0 t''.
Proof.
  cbv zeta. rewrite CreateEvent_eq. cbv zeta.
  rewrite (SetEvent_fresh _ (negb manualReset)).
  2:{ cbn [mem events]. apply list_lookup_middle. reflexivity. }
  eexists. split; [reflexivity|]. cbn [mem events].
  assert (Hl : <[length (events (mem t)) := mk_event (negb manualReset) true []]>
                 (events (mem t) ++ [mk_event (negb manualReset) false []])
               !! length (events (mem t)) = Some (mk_event (negb manualReset) true [])).
  { apply list_lookup_insert_eq. rewrite length_app. cbn. lia. }
  split.
  - apply event_at_lookup. exact Hl.
  - eexists. eapply WaitForEvent_signaled; [exact Hl|reflexivity].
Qed.

Lemma regs_in_app w l1 l2 : regs_in w (l1 ++ l2) = (regs_in w l1 + regs_in w l2)%nat.
Proof.
  unfold regs_in. induction l1 as [|x l1 IH]; cbn; [reflexivity|]. rewrite IH. lia.
Qed.

Lemma CreateEvent_refcount_ok owner manualReset initialState t :
  refcount_ok owner (mem t) ->
  refcount_ok owner (mem (final (CreateEvent manualReset initialState t))).
Proof.
  intros H. rewrite CreateEvent_eq. cbv zeta.
  match goal with |- context [SetEvent ?e ?t1] =>
    destruct (SetEvent_refcount_ok owner e t1) as (t' & E & Hok & _) end.
  - intros w. specialize (H w). cbn [mem wfmos].
    replace (registrations w (mk_heap (events (mem t) ++ [mk_event (negb manualReset) false []])
                                (wfmos (mem t))))
      with (registrations w (mem t)); [exact H|].
    unfold registrations. cbn [events].
    change (sum_list_with (fun ev => refs w (RegisteredWaits ev))) with (regs_in w).
    rewrite regs_in_app. unfold regs_in at 3. cbn. lia.
  - rewrite E. exact Hok.
Qed.

(** C2.  The out-parameter is read from the union through [FiredEvent]
    also when the wait is for all events, where the union holds
    [EventsLeft]: a timed-out wait for all of one event returns the index 1,
    and a successful one returns the index 0; neither returns -1. *)
Theorem wait_all_index_is_events_left :
  let timed_out :=
    WaitForMultipleEvents [0%nat] 1 true 0
      (start (mk_heap [mk_event true false []] []) (mk_timeval 0 0) []) in
  let succeeded :=
    WaitForMultipleEvents [0%nat] 1 true 5
      (start (mk_heap [mk_event false true []] []) (mk_timeval 0 0) []) in
  timed_out = Returned (ETIMEDOUT, 1) (final timed_out) /\
  succeeded = Returned (0, 0) (final succeeded).
Proof. vm_compute. split; reflexivity. Qed.

(** C3 fails for a wait for all events: the registration loop consumes the
    signaled auto-reset event 0, finds event 1 not signaled, and the call
    returns [ETIMEDOUT] with event 0 reset.  What holds of the other waits is
    proved in the last part. *)
Lemma wait_all_timeout_has_consumed :
  let h := mk_heap [mk_event true true []; mk_event true false []] [] in
  let r := WaitForMultipleEvents [0%nat; 1%nat] 2 true 0 (start h (mk_timeval 0 0) []) in
  r = Returned (ETIMEDOUT, 1) (final r) /\
  State (event_at h 0) = true /\
  State (event_at (mem (final r)) 0) = false.
Proof. vm_compute. repeat split. Qed.



(** C6.  A wait with timeout 0 does not block.  [WaitForEvent] on an event
    that is not signaled returns [ETIMEDOUT] having called nothing but the
    lock and the unlock of the event's mutex.  [WaitForMultipleEvents] whose
    record is not satisfied when the registration loop ends returns
    [ETIMEDOUT] with its schedule untouched and no condition wait in its
    trace. *)
Theorem zero_timeout_does_not_block
    (t : thread) (e : nat)
    (s s2 : thread) (evs : list nat) (count : Z) (waitAll done : bool) :
  State (event_at (mem t) e) = false ->
  registered evs count waitAll s = Returned done s2 ->
  satisfied waitAll (wfmo_at (mem s2) (length (wfmos (mem s)))) = false ->
  WaitForEvent e 0 t =
    Returned ETIMEDOUT
      (mk_thread (mem t) (clock t) (sched t)
         (trace t ++ [pthread_mutex_lock (EventObj e);
                      pthread_mutex_unlock (EventObj e)])) /\
  exists idx s',
    WaitForMultipleEvents evs count waitAll 0 s = Returned (ETIMEDOUT, idx) s' /\
    sched s' = sched s /\
    waits (trace s') = waits (trace s).
Proof.
  intros Hst Hreg Hsat. split.
  - apply WaitForEvent_zero_unsignaled, Hst.
  - eapply WaitForMultipleEvents_zero; eassumption.
Qed.

(** An event that is not signaled, and a wait for all of two events of
    which only one is signaled. *)
Lemma zero_timeout_does_not_block_witness :
  let h := mk_heap [mk_event true false []; mk_event false true []] [] in
  let t := start h (mk_timeval 0 0) [mk_wakeup [OtherSetEvent 0] false] in
  let s2 := final (registered [1%nat; 0%nat] 2 true t) in
  State (event_at (mem t) 0) = false /\
  registered [1%nat; 0%nat] 2 true t = Returned false s2 /\
  satisfied true (wfmo_at (mem s2) 0) = false /\
  WaitForEvent 0 0 t =
    Returned ETIMEDOUT
      (mk_thread (mem t) (clock t) (sched t)
         (trace t ++ [pthread_mutex_lock (EventObj 0);
                      pthread_mutex_unlock (EventObj 0)])) /\
  exists idx s',
    WaitForMultipleEvents [1%nat; 0%nat] 2 true 0 t = Returned (ETIMEDOUT, idx) s' /\
    sched s' = sched t /\
    waits (trace s') = waits (trace t).
Proof.
  intros h t s2.
  assert (H1 : State (event_at (mem t) 0) = false) by reflexivity.
  assert (H2 : registered [1%nat; 0%nat] 2 true t = Returned false s2)
    by (vm_compute; reflexivity).
  assert (H3 : satisfied true (wfmo_at (mem s2) (length (wfmos (mem t)))) = false)
    by (vm_compute; reflexivity).
  split; [exact H1|]. split; [exact H2|]. split; [exact H3|].
  exact (zero_timeout_does_not_block t 0%nat t s2 [1%nat; 0%nat] 2 true false H1 H2 H3).
Defined.

Lemma WaitForEvent_manual_signaled e ev ms t :
  events (mem t) !! e = Some ev -> AutoReset ev = false -> State ev = true ->
  WaitForEvent e ms t =
  Returned 0
    (mk_thread (mem t) (clock t) (sched t)
       (trace t ++ [pthread_mutex_lock (EventObj e); pthread_mutex_unlock (EventObj e)])).
Proof.
  intros H Ha Hs. rewrite (WaitForEvent_signaled e ev ms t H Hs).
  unfold consumed. rewrite (event_at_lookup _ _ _ H), Ha. reflexivity.
Qed.

(** C7.  A wait for all the events of an array that holds one manual-reset
    event, signaled, with timeout 0: the registration loop finds the event
    signaled and brings [EventsLeft] to 0, and the call returns [ETIMEDOUT]
    all the same, because [done] is only ever set for a wait for any event.
    The state of the event is unchanged. *)
Theorem wait_all_zero_timeout_on_signaled_manual_reset :
  let h := mk_heap [mk_event false true []] [] in
  let r := WaitForMultipleEvents [0%nat] 1 true 0 (start h (mk_timeval 0 0) []) in
  r = Returned (ETIMEDOUT, 0) (final r) /\
  event_at (mem (final r)) 0 = mk_event false true [] /\
  waits (trace (final r)) = [].
Proof. vm_compute. repeat split. Qed.

(** C8 fails for a large finite timeout: with the clock at 1700000000 s,
    584 years expressed in milliseconds make the 64-bit sum wrap, the
    deadline handed to [pthread_cond_timedwait] is not the clock plus the
    timeout, and it even lies before the clock. *)
Lemma deadline_wraps :
  let now := mk_timeval 1700000000 0 in
  let ms := 18446744073709 in
  let h := mk_heap [mk_event true false []] [] in
  0 < ms /\ ms <> INFINITE /\
  waits (trace (final (WaitForEvent 0 ms (start h now [])))) =
    [pthread_cond_timedwait (EventObj 0) (deadline now ms)] /\
  nanoseconds_of (deadline now ms) <> instant now ms /\
  nanoseconds_of (deadline now ms) < instant now 0.
Proof.
  cbv zeta. split; [lia|]. split; [vm_compute; congruence|].
  split; [vm_compute; reflexivity|]. split; vm_compute; congruence.
Qed.

(** C8, amended.  For a finite timeout, whatever it is, every condition
    wait of the call is a [pthread_cond_timedwait] whose deadline is
    [deadline] of the clock and the timeout: its [tv_nsec] is below 10^9 and
    it denotes the clock plus the timeout modulo 2^64 nanoseconds, which is
    the clock plus the timeout, to the nanosecond, whenever that sum is below
    2^64 nanoseconds. *)
Theorem deadline_is_clock_plus_timeout
    (t : thread) (e : nat) (evs : list nat) (count : Z) (waitAll : bool) (ms : Z) :
  ms <> INFINITE ->
  waits (trace t) = [] ->
  Forall (fun c => c = pthread_cond_timedwait (EventObj e) (deadline (clock t) ms))
    (waits (trace (final (WaitForEvent e ms t)))) /\
  Forall (fun c => c = pthread_cond_timedwait (WfmoObj (length (wfmos (mem t))))
                         (deadline (clock t) ms))
    (waits (trace (final (WaitForMultipleEvents evs count waitAll ms t)))) /\
  0 <= ts_nsec (deadline (clock t) ms) < 10 ^ 9 /\
  nanoseconds_of (deadline (clock t) ms) = instant (clock t) ms mod 2 ^ 64 /\
  (0 <= instant (clock t) ms < 2 ^ 64 ->
   nanoseconds_of (deadline (clock t) ms) = instant (clock t) ms) /\
  forall tv ms', nanoseconds_of (deadline tv ms') = instant tv ms' mod 2 ^ 64 /\
                 0 <= ts_nsec (deadline tv ms') < 10 ^ 9.
Proof.
  intros Hfin Hnil.
  split; [apply WaitForEvent_waits; assumption|].
  split; [apply WaitForMultipleEvents_waits; assumption|].
  destruct (deadline_modular (clock t) ms) as [E B].
  split; [exact B|]. split; [exact E|]. split.
  - intros Hrange. apply (deadline_exact (clock t) ms Hrange).
  - intros tv ms'. apply deadline_modular.
Qed.

(** A wait of 1.5 s that is woken once spuriously and then times out; and a
    wait of 584 years, whose deadline wraps: it is still what the call hands
    to [pthread_cond_timedwait], with [tv_nsec] below 10^9. *)
Lemma deadline_is_clock_plus_timeout_witness :
  let now := mk_timeval 1700000000 250000 in
  let h := mk_heap [mk_event true false []] [] in
  let t := start h now [mk_wakeup [] false; mk_wakeup [] true] in
  let long := 18446744073709 in
  1500 <> INFINITE /\
  waits (trace (final (WaitForEvent 0 1500 t))) =
    [pthread_cond_timedwait (EventObj 0) (mk_timespec 1700000001 750000000);
     pthread_cond_timedwait (EventObj 0) (mk_timespec 1700000001 750000000)] /\
  Forall (fun c => c = pthread_cond_timedwait (EventObj 0) (deadline now 1500))
    (waits (trace (final (WaitForEvent 0 1500 t)))) /\
  nanoseconds_of (deadline now 1500) = instant now 1500 /\
  long <> INFINITE /\
  Forall (fun c => c = pthread_cond_timedwait (EventObj 0) (deadline now long))
    (waits (trace (final (WaitForEvent 0 long t)))) /\
  0 <= ts_nsec (deadline now long) < 10 ^ 9 /\
  nanoseconds_of (deadline now long) = instant now long mod 2 ^ 64.
Proof.
  intros now h t long.
  assert (Hfin : 1500 <> INFINITE) by (vm_compute; congruence).
  assert (Hlong : long <> INFINITE) by (vm_compute; congruence).
  assert (Hr : 0 <= instant (clock t) 1500 < 2 ^ 64) by (vm_compute; split; congruence).
  destruct (deadline_is_clock_plus_timeout t 0%nat [0%nat] 1 false 1500 Hfin eq_refl)
    as (H1 & _ & _ & _ & H3 & _).
  destruct (deadline_is_clock_plus_timeout t 0%nat [0%nat] 1 false long Hlong eq_refl)
    as (L1 & _ & L2 & L3 & _).
  split; [exact Hfin|]. split; [vm_compute; reflexivity|]. split; [exact H1|].
  split; [exact (H3 Hr)|]. split; [exact Hlong|]. split; [exact L1|].
  split; [exact L2|exact L3].
Defined.

(** C9.  With no event to wait for, a wait for all events with timeout 0
    returns [ETIMEDOUT], not success: [EventsLeft] starts at 0, and the test
    of the [while] loop that would see it is never reached, because [done]
    is false after the registration loop and the timeout is 0. *)
Theorem wait_all_of_nothing_times_out (evs : list nat) (t : thread) :
  let r := WaitForMultipleEvents evs 0 true 0 t in
  r = Returned (ETIMEDOUT, 0) (final r) /\
  sched (final r) = sched t /\
  waits (trace (final r)) = waits (trace t).
Proof.
  cbv zeta. rewrite WaitForMultipleEvents_eq. cbv zeta.
  unfold registered. change (take (Z.to_nat 0) evs) with (@nil nat).
  cbn [register_waits ret].
  unfold wait_phase. cbn [Z.eqb final mem sched trace].
  assert (Hs : Status (wfmo_at (constructed 0 true (mem t)) (length (wfmos (mem t)))) = 0).
  { unfold wfmo_at, constructed. cbn [wfmos].
    rewrite list_lookup_middle by reflexivity. reflexivity. }
  rewrite Hs. split; [reflexivity|]. split; [reflexivity|].
  rewrite !waits_app. unfold finalize_calls. rewrite waits_release_calls. cbn.
  rewrite !app_nil_r. reflexivity.
Qed.

Lemma wait_all_of_nothing_succeeds_otherwise (evs : list nat) (ms : Z) (t : thread) :
  ms <> 0 ->
  let r := WaitForMultipleEvents evs 0 true ms t in
  r = Returned (0, 0) (final r) /\ sched (final r) = sched t.
Proof.
  intros Hms. cbv zeta. rewrite WaitForMultipleEvents_eq. cbv zeta.
  unfold registered. change (take (Z.to_nat 0) evs) with (@nil nat).
  cbn [register_waits ret].
  unfold wait_phase. destruct (Z.eqb_spec ms 0) as [|_]; [contradiction|].
  cbn [mem sched clock].
  assert (Hs : Status (wfmo_at (constructed 0 true (mem t)) (length (wfmos (mem t)))) = 0).
  { unfold wfmo_at, constructed. cbn [wfmos].
    rewrite list_lookup_middle by reflexivity. reflexivity. }
  assert (Hw : forall ws t1, mem t1 = constructed 0 true (mem t) ->
            wait_until_done (length (wfmos (mem t))) true (timeout_of (clock t) ms) 0 ws t1
            = Returned 0 t1).
  { intros ws t1 E. destruct ws; cbn [wait_until_done]; rewrite E; unfold satisfied;
      rewrite Hs; reflexivity. }
  rewrite Hw by reflexivity. cbn [final mem sched]. rewrite Hs. split; reflexivity.
Qed.

(** C10.  In the trace of a call to [SetEvent] and in the trace of a call
    to [WaitForMultipleEvents], every [pthread_mutex_destroy] and every
    [delete] of a record comes while the calling thread holds the mutex of
    that record: it has locked it and has not unlocked it since. *)
Theorem records_destroyed_locked
    (h : heap) (now : timeval) (ws : list wakeup) (w : nat)
    (event : nat) (evs : list nat) (count : Z) (waitAll : bool) (ms : Z) :
  destroyed_locked (WfmoObj w) (trace (final (SetEvent event (start h now ws)))) = true /\
  destroyed_locked (WfmoObj w)
    (trace (final (WaitForMultipleEvents evs count waitAll ms (start h now ws)))) = true.
Proof.
  split.
  - apply SetEvent_destroyed_locked. reflexivity.
  - apply WaitForMultipleEvents_destroyed_locked. reflexivity.
Qed.

(** Both calls do destroy records, and a trace that unlocks first is
    rejected. *)
Example records_destroyed_locked_examples :
  trace (final (SetEvent 0
    (start (mk_heap [mk_event true false [mk_info 0 0]]
                    [Some (mk_wfmo (-1) false 1 false)]) (mk_timeval 0 0) []))) =
    [pthread_mutex_lock (EventObj 0); pthread_mutex_lock (WfmoObj 0);
     pthread_mutex_destroy (WfmoObj 0); pthread_cond_destroy (WfmoObj 0);
     delete_wfmo 0; pthread_mutex_unlock (EventObj 0);
     pthread_cond_signal (EventObj 0)] /\
  destroyed_locked (WfmoObj 0)
    [pthread_mutex_lock (WfmoObj 0); pthread_mutex_unlock (WfmoObj 0);
     pthread_mutex_destroy (WfmoObj 0)] = false.
Proof. split; vm_compute; reflexivity. Qed.

Lemma refs_cons_zero w i q : refs w (i :: q) = 0%nat -> Waiter i <> w /\ refs w q = 0%nat.
Proof.
  unfold refs. cbn. destruct (Nat.eqb_spec (Waiter i) w); cbn; [discriminate|]. tauto.
Qed.

Lemma SetEvent_manual_untouched w q : forall t,
  refs w q = 0%nat ->
  wfmos (mem (final (SetEvent_manual q t))) !! w = wfmos (mem t) !! w /\
  events (mem (final (SetEvent_manual q t))) = events (mem t).
Proof.
  induction q as [|i q IH]; intros t H; [split; reflexivity|].
  apply refs_cons_zero in H. destruct H as [Hne Hq].
  rewrite SetEvent_manual_cons. cbv zeta.
  pose proof (wfmos_visited_ne i (mem t) w Hne) as Hv. unfold visited in Hv. cbv zeta in Hv.
  destruct (StillWaiting _).
  - match goal with |- context [SetEvent_manual q ?t1] => destruct (IH t1 Hq) as [A B] end.
    rewrite A, B. cbn [mem]. rewrite events_notified. split; [exact Hv|reflexivity].
  - match goal with |- context [SetEvent_manual q ?t1] => destruct (IH t1 Hq) as [A B] end.
    rewrite A, B. cbn [mem]. rewrite events_released. split; [exact Hv|reflexivity].
Qed.

Lemma SetEvent_auto_untouched w event q : forall t,
  refs w q = 0%nat ->
  wfmos (mem (final (SetEvent_auto event q t))) !! w = wfmos (mem t) !! w /\
  exists f, events (mem (final (SetEvent_auto event q t))) = alter f event (events (mem t)) /\
    forall ev, RegisteredWaits ev = q -> refs w (RegisteredWaits (f ev)) = 0%nat.
Proof.
  induction q as [|i q IH]; intros t H.
  - split; [reflexivity|]. exists (fun ev => ev). split.
    + symmetry. apply list_alter_id. reflexivity.
    + intros ev ->. reflexivity.
  - pose proof H as H0. apply refs_cons_zero in H. destruct H as [Hne Hq].
    rewrite SetEvent_auto_cons. cbv zeta.
    pose proof (wfmos_visited_ne i (mem t) w Hne) as Hv. unfold visited in Hv. cbv zeta in Hv.
    destruct (StillWaiting _).
    + cbn [final mem]. split.
      * rewrite wfmos_upd_event, wfmos_notified_upd_event. exact Hv.
      * exists (fun ev => pop_front (set_State false ev)). split.
        -- unfold upd_event at 1. cbn [events]. rewrite events_notified.
           unfold upd_event. cbn [events]. rewrite list_alter_alter_eq. reflexivity.
        -- intros ev E. cbn. rewrite E. exact Hq.
    + match goal with |- context [SetEvent_auto event q ?t1] =>
        destruct (IH t1 Hq) as (A & f & B & C) end.
      rewrite A. cbn [mem]. split; [rewrite wfmos_upd_event; exact Hv|].
      exists (fun ev => f (pop_front ev)). split.
      * rewrite B. cbn [mem]. unfold upd_event. cbn [events]. rewrite events_released.
        rewrite list_alter_alter_eq. reflexivity.
      * intros ev E. apply C. cbn. rewrite E. reflexivity.
Qed.

Lemma SetEvent_untouched w e t :
  registrations w (mem t) = 0%nat ->
  wfmos (mem (final (SetEvent e t))) !! w = wfmos (mem t) !! w /\
  registrations w (mem (final (SetEvent e t))) = 0%nat.
Proof.
  intros Hreg. unfold SetEvent. run.
  destruct (events (mem t) !! e) as [ev|] eqn:Hev.
  2:{ rewrite (upd_event_dangling _ _ _ Hev), (event_at_dangling _ _ Hev).
      cbn [AutoReset null_event RegisteredWaits SetEvent_manual].
      run. rewrite (upd_event_dangling _ _ _ Hev). split; [reflexivity|exact Hreg]. }
  rewrite (event_at_upd_event_eq _ _ _ _ Hev). cbn [set_State AutoReset RegisteredWaits].
  assert (Hq : refs w (RegisteredWaits ev) = 0%nat).
  { pose proof (refs_le_regs_in w _ _ _ Hev) as Hle. unfold registrations in Hreg.
    unfold regs_in in Hle. lia. }
  assert (Hfin : forall h' f, events h' = alter f e (events (mem t)) ->
            refs w (RegisteredWaits (f ev)) = 0%nat -> registrations w h' = 0%nat).
  { intros h' f E Hf. pose proof (regs_in_alter w f _ _ _ Hev) as Hr.
    unfold registrations in *. rewrite E. unfold regs_in in Hr. lia. }
  destruct (AutoReset ev).
  - match goal with |- context [SetEvent_auto e ?q ?t1] =>
      destruct (SetEvent_auto_untouched w e q t1 Hq) as (A & f & B & C) end.
    cbn [mem] in A, B.
    assert (Hreg' : registrations w (mem (final (SetEvent_auto e (RegisteredWaits ev)
              (mk_thread (upd_event e (set_State true) (mem t)) (clock t) (sched t)
                 (trace t ++ [pthread_mutex_lock (EventObj e)]))))) = 0%nat).
    { apply (Hfin _ (fun x => f (set_State true x))).
      - rewrite B. unfold upd_event. cbn [events]. apply list_alter_alter_eq.
      - apply C. reflexivity. }
    destruct (SetEvent_auto _ _ _) as [[r|] t'|t']; cbn [final] in A, Hreg' |- *.
    + run. split; assumption.
    + run. destruct (State _); run; split; assumption.
    + split; assumption.
  - match goal with |- context [SetEvent_manual ?q ?t1] =>
      destruct (SetEvent_manual_untouched w q t1 Hq) as (A & B) end.
    cbn [mem] in A, B.
    destruct (SetEvent_manual _ _) as [[] t'|t']; cbn [final] in A, B |- *.
    + run. split; [exact A|].
      apply (Hfin _ (fun x => set_RegisteredWaits [] (set_State true x))); [|reflexivity].
      unfold upd_event at 1. cbn [events]. rewrite B. unfold upd_event. cbn [events].
      apply list_alter_alter_eq.
    + split; [exact A|].
      apply (Hfin _ (set_State true)); [|exact Hq]. rewrite B. reflexivity.
Qed.

Lemma run_others_untouched w ops : forall h,
  registrations w h = 0%nat ->
  wfmos (run_others ops h) !! w = wfmos h !! w /\
  registrations w (run_others ops h) = 0%nat.
Proof.
  induction ops as [|op ops IH]; intros h H; [split; [reflexivity|exact H]|].
  cbn [run_others fold_left]. fold (run_others ops (run_other h op)).
  assert (H1 : wfmos (run_other h op) !! w = wfmos h !! w /\
               registrations w (run_other h op) = 0%nat).
  { destruct op as [e|e]; cbn [run_other].
    - apply (SetEvent_untouched w e (mk_thread h (mk_timeval 0 0) [] []) H).
    - rewrite ResetEvent_eq. cbn [final mem]. split; [reflexivity|].
      rewrite registrations_upd_event by reflexivity. exact H. }
  destruct H1 as [A B]. destruct (IH _ B) as [C D]. rewrite C, A. split; [reflexivity|exact D].
Qed.

(** A wait for any event on a record that no signaler can reach and that
    names no event: it returns only when a timed wait times out. *)
Lemma wait_until_done_unreachable w ts r0 ws : forall t,
  wfmos (mem t) !! w = Some (Some r0) ->
  Status r0 = -1 ->
  registrations w (mem t) = 0%nat ->
  returned (wait_until_done w false ts 0 ws t) =
  if bool_decide (is_Some ts) && existsb timed_out ws then Some ETIMEDOUT else None.
Proof.
  induction ws as [|x ws IH]; intros t Hcell Hst Hreg; cbn [wait_until_done];
    rewrite (wfmo_at_lookup _ _ _ Hcell);
    change (satisfied false r0) with ((false && (Status r0 =? 0)) || (negb false && negb (Status r0 =? -1)));
    rewrite Hst; change ((false && (-1 =? 0)) || (negb false && negb (-1 =? -1))) with false; cbv iota.
  - cbn [returned existsb]. rewrite andb_false_r. reflexivity.
  - cbn [wake existsb].
    destruct (run_others_untouched w (others x) (mem t) Hreg) as [A B].
    destruct (bool_decide (is_Some ts)); destruct (timed_out x); cbn [andb orb]; cbv iota;
      try (change (negb (ETIMEDOUT =? 0)) with true; cbv iota; reflexivity);
      change (negb (0 =? 0)) with false; cbv iota;
      (rewrite IH; [reflexivity| |exact Hst|exact B]); cbn [mem]; rewrite A; exact Hcell.
Qed.

(** X16.  With no event to wait for, a wait for any event returns only by timing
    out: never with the infinite timeout, and otherwise when (and only when)
    a wakeup of its schedule finds the deadline passed. *)
Lemma wait_any_of_nothing (evs : list nat) (ms : Z) (t : thread) :
  ms <> 0 ->
  registrations (length (wfmos (mem t))) (mem t) = 0%nat ->
  returned (WaitForMultipleEvents evs 0 false ms t) =
  if negb (ms =? INFINITE) && existsb timed_out (sched t)
  then Some (ETIMEDOUT, -1) else None.
Proof.
  intros Hms Hreg. rewrite WaitForMultipleEvents_eq. cbv zeta.
  unfold registered. change (take (Z.to_nat 0) evs) with (@nil nat).
  cbn [register_waits ret]. unfold wait_phase.
  destruct (Z.eqb_spec ms 0) as [|_]; [contradiction|]. cbn [mem sched clock].
  set (w := length (wfmos (mem t))) in *.
  set (t1 := mk_thread _ _ _ _).
  assert (Hcell : wfmos (mem t1) !! w = Some (Some (mk_wfmo (-1) true 1 false))).
  { subst t1. cbn [mem]. unfold constructed. cbn [wfmos].
    apply list_lookup_middle. reflexivity. }
  pose proof (wait_until_done_unreachable w (timeout_of (clock t) ms) _ (sched t) t1
                Hcell eq_refl Hreg) as Hw.
  destruct (wait_until_done_consumed w false (timeout_of (clock t) ms) (sched t) 0 t1 eq_refl)
    as (k & _ & Hm & _).
  assert (Hts : bool_decide (is_Some (timeout_of (clock t) ms)) = negb (ms =? INFINITE)).
  { unfold timeout_of. destruct (negb _); [apply bool_decide_eq_true_2; eauto|].
    apply bool_decide_eq_false_2. intros [? ?]. discriminate. }
  rewrite Hts in Hw.
  destruct (wait_until_done _ _ _ _ _ _) as [a t3|t3]; cbn [returned final] in Hw, Hm |- *.
  - destruct (_ && _); [|discriminate]. injection Hw as ->. do 2 f_equal.
    destruct (run_others_untouched w (others_of k) (mem t1) Hreg) as [A _].
    unfold wfmo_at. rewrite Hm, A, Hcell. reflexivity.
  - destruct (_ && _); [discriminate|reflexivity].
Qed.

Lemma sticky_events e h h' : events h' = events h -> sticky e h -> sticky e h'.
Proof. unfold sticky, event_at. intros ->. tauto. Qed.

Lemma sticky_alter e e' f h h' :
  events h' = alter f e' (events h) ->
  (e' = e -> keeps_sticky f) ->
  sticky e h -> sticky e h'.
Proof.
  unfold sticky, event_at. intros -> Hf [Ha Hs]. rewrite list_lookup_alter.
  destruct (decide (e' = e)) as [->|]; [|tauto].
  destruct (events h !! e) as [ev|]; cbn in *; [|discriminate].
  apply Hf; [reflexivity|assumption..].
Qed.

Lemma sticky_upd_event e e' f h :
  (e' = e -> keeps_sticky f) -> sticky e h -> sticky e (upd_event e' f h).
Proof. apply sticky_alter. reflexivity. Qed.

Lemma SetEvent_manual_events q : forall t,
  events (mem (final (SetEvent_manual q t))) = events (mem t).
Proof.
  induction q as [|i q IH]; intros t; [reflexivity|].
  rewrite SetEvent_manual_cons. cbv zeta.
  destruct (StillWaiting _); rewrite IH; cbn [mem];
    [rewrite events_notified|rewrite events_released]; reflexivity.
Qed.

Lemma SetEvent_auto_events event q : forall t,
  exists f, events (mem (final (SetEvent_auto event q t))) = alter f event (events (mem t)).
Proof.
  induction q as [|i q IH]; intros t.
  - exists (fun ev => ev). symmetry. apply list_alter_id. reflexivity.
  - rewrite SetEvent_auto_cons. cbv zeta. destruct (StillWaiting _).
    + exists (fun ev => pop_front (set_State false ev)). cbn [final mem].
      unfold upd_event at 1. cbn [events]. rewrite events_notified.
      unfold upd_event. cbn [events]. rewrite list_alter_alter_eq. reflexivity.
    + match goal with |- context [SetEvent_auto event q ?t1] =>
        destruct (IH t1) as [f E] end.
      exists (fun ev => f (pop_front ev)). rewrite E. cbn [mem].
      unfold upd_event. cbn [events]. rewrite events_released, list_alter_alter_eq.
      reflexivity.
Qed.

Lemma SetEvent_sticky e e' t :
  sticky e (mem t) -> sticky e (mem (final (SetEvent e' t))).
Proof.
  intros H. unfold SetEvent. run.
  assert (H1 : sticky e (upd_event e' (set_State true) (mem t))).
  { apply sticky_upd_event; [|exact H]. intros _ ev Ha _. tauto. }
  destruct (AutoReset (event_at (upd_event e' (set_State true) (mem t)) e')) eqn:Hauto.
  - assert (Hne : e' <> e).
    { intros ->. destruct H1 as [Ha _]. congruence. }
    match goal with |- context [SetEvent_auto e' ?q ?t1] =>
      destruct (SetEvent_auto_events e' q t1) as [f E];
      assert (H2 : sticky e (mem (final (SetEvent_auto e' q t1))))
        by (eapply sticky_alter; [exact E| |exact H1]; intros; contradiction);
      destruct (SetEvent_auto e' q t1) as [[r|] t'|t'] end; cbn [final] in H2 |- *.
    + exact H2.
    + run. destruct (State _); exact H2.
    + exact H2.
  - match goal with |- context [SetEvent_manual ?q ?t1] =>
      pose proof (SetEvent_manual_events q t1) as E;
      assert (H2 : sticky e (mem (final (SetEvent_manual q t1))))
        by (eapply sticky_events; [exact E|exact H1]);
      destruct (SetEvent_manual q t1) as [[] t'|t'] end; cbn [final] in H2 |- *;
      [|exact H2].
    run. apply sticky_upd_event; [|exact H2]. intros _ ev Ha Hs. tauto.
Qed.

Lemma run_others_sticky e ops : forall h,
  Forall (fun op => op <> OtherResetEvent e) ops ->
  sticky e h -> sticky e (run_others ops h).
Proof.
  induction ops as [|op ops IH]; intros h Hops H; [exact H|].
  inversion Hops as [|? ? Hop Hops']; subst.
  cbn [run_others fold_left]. apply IH; [exact Hops'|].
  destruct op as [e'|e']; cbn [run_other].
  - apply (SetEvent_sticky e e' (mk_thread h (mk_timeval 0 0) [] []) H).
  - rewrite ResetEvent_eq. cbn [final mem]. apply sticky_upd_event; [|exact H].
    intros ->. contradiction.
Qed.

Lemma wait_until_set_sticky e e' ts ws : forall t,
  no_reset e ws -> sticky e (mem t) ->
  sticky e (mem (final (wait_until_set e' ts ws t))).
Proof.
  induction ws as [|w ws IH]; intros t Hn H; [exact H|].
  inversion Hn as [|? ? Hw Hn']; subst. cbn [wait_until_set wake].
  destruct (_ && _).
  - apply IH; [exact Hn'|]. cbn [mem]. apply run_others_sticky; assumption.
  - cbn [final mem]. apply run_others_sticky; assumption.
Qed.

Lemma wait_until_done_sticky e w waitAll ts ws : forall r t,
  no_reset e ws -> sticky e (mem t) ->
  sticky e (mem (final (wait_until_done w waitAll ts r ws t))).
Proof.
  induction ws as [|x ws IH]; intros r t Hn H; cbn [wait_until_done].
  - destruct (satisfied _ _); exact H.
  - inversion Hn as [|? ? Hw Hn']; subst.
    destruct (satisfied _ _); [exact H|]. cbn [wake]. destruct (negb _).
    + cbn [final mem]. apply run_others_sticky; assumption.
    + apply IH; [exact Hn'|]. cbn [mem]. apply run_others_sticky; assumption.
Qed.

Lemma consumed_sticky e e' h : sticky e h -> sticky e (consumed e' h).
Proof.
  intros H. unfold consumed. destruct (AutoReset (event_at h e')) eqn:Ha; [|exact H].
  apply sticky_upd_event; [|exact H]. intros ->. destruct H as [H _]. congruence.
Qed.

Lemma UnlockedWaitForEvent_sticky e e' ms t :
  no_reset e (sched t) -> sticky e (mem t) ->
  sticky e (mem (final (UnlockedWaitForEvent e' ms t))).
Proof.
  intros Hn H. destruct (State (event_at (mem t) e')) eqn:Hs.
  - unfold UnlockedWaitForEvent. run. rewrite Hs. cbn [negb].
    pose proof (consumed_sticky e e' (mem t) H) as Hc. unfold consumed in Hc.
    destruct (AutoReset _); run; [exact Hc|exact H].
  - destruct (Z.eqb_spec ms 0) as [->|Hms].
    + rewrite UnlockedWaitForEvent_zero, Hs. exact H.
    + rewrite UnlockedWaitForEvent_wait by assumption.
      pose proof (wait_until_set_sticky e e' (timeout_of (clock t) ms) (sched t) t Hn H) as Hw.
      destruct (wait_until_set _ _ _ _) as [a t'|t']; cbn [final mem] in Hw |- *; [|exact Hw].
      destruct (a =? 0); cbn [andb]; [|exact Hw].
      pose proof (consumed_sticky e e' (mem t') Hw) as Hc. unfold consumed in Hc.
      destruct (AutoReset _); [exact Hc|exact Hw].
Qed.

Lemma register_waits_sticky e w waitAll es : forall i t,
  sticky e (mem t) -> sticky e (mem (final (register_waits w waitAll i es t))).
Proof.
  induction es as [|e' es IH]; intros i t H; [exact H|].
  rewrite register_waits_cons. destruct (State _); [destruct waitAll|].
  - cbv zeta. apply IH. cbn [mem]. eapply sticky_events; [|apply consumed_sticky, H].
    reflexivity.
  - cbn [final mem]. eapply sticky_events; [|apply consumed_sticky, H]. reflexivity.
  - apply IH. cbn [mem]. eapply sticky_events;
      [|apply (sticky_upd_event e e' (push_back (mk_info w i))); [|exact H]].
    + reflexivity.
    + intros _ ev Ha Hs. tauto.
Qed.

(** X15.  Once a manual-reset event is signaled, [WaitForEvent] on it succeeds at
    once whatever the timeout, and no operation but [ResetEvent] on it makes
    it not signaled: not [SetEvent], not a wait of either kind on any events,
    not what other threads do meanwhile, short of resetting it. *)
Lemma manual_reset_sticks (e : nat) (t : thread) :
  sticky e (mem t) ->
  no_reset e (sched t) ->
  (forall ms, WaitForEvent e ms t =
     Returned 0 (mk_thread (mem t) (clock t) (sched t)
       (trace t ++ [pthread_mutex_lock (EventObj e); pthread_mutex_unlock (EventObj e)]))) /\
  (forall e', sticky e (mem (final (SetEvent e' t)))) /\
  (forall e', e' <> e -> sticky e (mem (final (ResetEvent e' t)))) /\
  (forall e' ms, sticky e (mem (final (WaitForEvent e' ms t)))) /\
  (forall evs count waitAll ms,
     sticky e (mem (final (WaitForMultipleEvents evs count waitAll ms t)))).
Proof.
  intros H Hn. split; [|split; [|split; [|split]]].
  - intros ms. destruct H as [Ha Hs].
    destruct (events (mem t) !! e) as [ev|] eqn:Hev.
    + rewrite (event_at_lookup _ _ _ Hev) in Ha, Hs.
      apply (WaitForEvent_manual_signaled e ev ms t Hev Ha Hs).
    + rewrite (event_at_dangling _ _ Hev) in Hs. discriminate.
  - intros e'. apply SetEvent_sticky, H.
  - intros e' Hne. rewrite ResetEvent_eq. cbn [final mem].
    apply sticky_upd_event; [|exact H]. intros; contradiction.
  - intros e' ms. rewrite WaitForEvent_eq.
    match goal with |- context [UnlockedWaitForEvent e' ms ?t1] =>
      pose proof (UnlockedWaitForEvent_sticky e e' ms t1 Hn H) as Hu;
      destruct (UnlockedWaitForEvent e' ms t1) as [a t'|t'] end; exact Hu.
  - intros evs count waitAll ms. rewrite WaitForMultipleEvents_eq. cbv zeta.
    destruct (registered_frame evs count waitAll t) as (done & t2 & E & Hs & _).
    pose proof (register_waits_sticky e (length (wfmos (mem t))) waitAll
                  (take (Z.to_nat count) evs) 0
                  (mk_thread (constructed count waitAll (mem t)) (clock t) (sched t)
                     (trace t ++ [pthread_mutex_init (WfmoObj (length (wfmos (mem t))));
                                  pthread_cond_init (WfmoObj (length (wfmos (mem t))));
                                  pthread_mutex_lock (WfmoObj (length (wfmos (mem t))))]))) as Hr.
    fold (registered evs count waitAll t) in Hr. rewrite E in *. cbn [final] in Hr.
    specialize (Hr (sticky_events e (mem t) _ eq_refl H)).
    assert (Hfin : forall t3, sticky e (mem t3) ->
              sticky e (finalized (length (wfmos (mem t))) (mem t3))).
    { intros t3 H3. eapply sticky_events; [|exact H3]. apply events_finalized. }
    unfold wait_phase. destruct done; [cbn [final mem]; apply Hfin, Hr|].
    destruct (ms =? 0); [cbn [final mem]; apply Hfin, Hr|].
    rewrite <- Hs in Hn.
    pose proof (wait_until_done_sticky e (length (wfmos (mem t))) waitAll
                  (timeout_of (clock t2) ms) (sched t2) 0 t2 Hn Hr) as Hw.
    destruct (wait_until_done _ _ _ _ _ _) as [a t3|t3]; cbn [final mem] in Hw |- *;
      [apply Hfin, Hw|exact Hw].
Qed.

(** * Further properties *)

(** ** A wait on a signaled event *)

Lemma consumed_events e ev h :
  events h !! e = Some ev ->
  events (consumed e h) =
  <[e := mk_event (AutoReset ev) (negb (AutoReset ev) && State ev) (RegisteredWaits ev)]> (events h).
Proof.
  intros H. unfold consumed. rewrite (event_at_lookup _ _ _ H).
  destruct ev as [a s q]; cbn [AutoReset State RegisteredWaits].
  destruct a; cbn [negb andb].
  - unfold upd_event. cbn [events]. exact (alter_as_insert (set_State false) _ _ _ H).
  - symmetry. apply list_insert_id. exact H.
Qed.

(** X1.  A wait on a signaled event returns 0 at once, whatever the timeout
    is: it consumes no wakeup and makes no condition wait.  It takes an
    auto-reset event (the event is unsignaled afterwards, and an immediate
    second try times out) and leaves a manual-reset event signaled (the
    second try succeeds too); the queue and the records are untouched. *)
Theorem WaitForEvent_takes_signaled_event (e : nat) (ev : neosmart_event_t_)
    (ms : Z) (t : thread) :
  events (mem t) !! e = Some ev ->
  State ev = true ->
  let r := WaitForEvent e ms t in
  returned r = Some 0 /\
  sched (final r) = sched t /\
  waits (trace (final r)) = waits (trace t) /\
  events (mem (final r)) =
    <[e := mk_event (AutoReset ev) (negb (AutoReset ev)) (RegisteredWaits ev)]>
      (events (mem t)) /\
  wfmos (mem (final r)) = wfmos (mem t) /\
  returned (WaitForEvent e 0 (final r)) = Some (if AutoReset ev then ETIMEDOUT else 0).
Proof.
  intros H Hs r. subst r. rewrite (WaitForEvent_signaled e ev ms t H Hs).
  cbn [returned final sched trace mem].
  assert (Hev : events (consumed e (mem t)) =
    <[e := mk_event (AutoReset ev) (negb (AutoReset ev)) (RegisteredWaits ev)]> (events (mem t))).
  { rewrite (consumed_events e ev _ H), Hs, andb_true_r. reflexivity. }
  repeat split.
  - rewrite waits_app. cbn. apply app_nil_r.
  - exact Hev.
  - unfold consumed. destruct (AutoReset (event_at _ _)); reflexivity.
  - set (t1 := mk_thread _ _ _ _).
    assert (H1 : events (mem t1) !! e =
                 Some (mk_event (AutoReset ev) (negb (AutoReset ev)) (RegisteredWaits ev))).
    { subst t1. cbn [mem]. rewrite Hev. apply list_lookup_insert_eq.
      apply (lookup_lt_Some _ _ _ H). }
    destruct (AutoReset ev) eqn:Ha; cbn [negb] in H1.
    + rewrite WaitForEvent_zero_unsignaled; [reflexivity|].
      rewrite (event_at_lookup _ _ _ H1). reflexivity.
    + rewrite (WaitForEvent_signaled e _ 0 t1 H1 eq_refl). reflexivity.
Qed.

Lemma WaitForEvent_takes_signaled_event_witness :
  let h := mk_heap [mk_event true true [mk_info 0 2]] [Some (mk_wfmo 2 false 1 false)] in
  let t := start h (mk_timeval 0 0) [mk_wakeup [OtherResetEvent 0] true] in
  let r := WaitForEvent 0 25 t in
  returned r = Some 0 /\
  sched (final r) = sched t /\
  waits (trace (final r)) = waits (trace t) /\
  events (mem (final r)) = [mk_event true false [mk_info 0 2]] /\
  wfmos (mem (final r)) = wfmos (mem t) /\
  returned (WaitForEvent 0 0 (final r)) = Some ETIMEDOUT.
Proof.
  intros h t.
  assert (H : events (mem t) !! 0%nat = Some (mk_event true true [mk_info 0 2]))
    by reflexivity.
  exact (WaitForEvent_takes_signaled_event 0 _ 25 t H eq_refl).
Defined.

(** ** [ResetEvent] *)

(** X2.  [ResetEvent] returns 0 and leaves the event unsignaled whatever it
    was: a try on it right after times out.  It changes nothing else (the
    queue of the event, the other events, the records) and wakes no one. *)
Theorem ResetEvent_unsignals (e : nat) (ev : neosmart_event_t_) (t : thread) :
  events (mem t) !! e = Some ev ->
  let r := ResetEvent e t in
  returned r = Some 0 /\
  events (mem (final r)) =
    <[e := mk_event (AutoReset ev) false (RegisteredWaits ev)]> (events (mem t)) /\
  wfmos (mem (final r)) = wfmos (mem t) /\
  sched (final r) = sched t /\
  signals (trace (final r)) = signals (trace t) /\
  returned (WaitForEvent e 0 (final r)) = Some ETIMEDOUT.
Proof.
  intros H r. subst r. rewrite ResetEvent_eq. cbn [returned final mem sched trace].
  assert (Hev : events (upd_event e (set_State false) (mem t)) =
                <[e := mk_event (AutoReset ev) false (RegisteredWaits ev)]> (events (mem t))).
  { unfold upd_event. cbn [events]. exact (alter_as_insert (set_State false) _ _ _ H). }
  repeat split.
  - exact Hev.
  - rewrite signals_app. cbn. apply app_nil_r.
  - rewrite WaitForEvent_zero_unsignaled; [reflexivity|]. cbn [mem].
    rewrite (event_at_upd_event_eq _ _ _ _ H). reflexivity.
Qed.

Lemma ResetEvent_unsignals_witness :
  let h := mk_heap [mk_event false true []; mk_event true true [mk_info 0 1]]
                   [Some (mk_wfmo 1 false 1 false)] in
  let t := start h (mk_timeval 0 0) [] in
  let r := ResetEvent 1 t in
  returned r = Some 0 /\
  events (mem (final r)) = [mk_event false true []; mk_event true false [mk_info 0 1]] /\
  wfmos (mem (final r)) = wfmos (mem t) /\
  sched (final r) = sched t /\
  signals (trace (final r)) = signals (trace t) /\
  returned (WaitForEvent 1 0 (final r)) = Some ETIMEDOUT.
Proof.
  intros h t.
  assert (H : events (mem t) !! 1%nat = Some (mk_event true true [mk_info 0 1]))
    by reflexivity.
  exact (ResetEvent_unsignals 1 _ t H).
Defined.

(** ** Spurious wakeups *)

(** The loops read the store only: their value and the store they leave do
    not depend on the trace or on the schedule recorded in the thread. *)
Lemma wait_until_set_mem_only e ts ws : forall t1 t2,
  mem t1 = mem t2 ->
  returned (wait_until_set e ts ws t1) = returned (wait_until_set e ts ws t2) /\
  mem (final (wait_until_set e ts ws t1)) = mem (final (wait_until_set e ts ws t2)).
Proof.
  induction ws as [|x ws IH]; intros t1 t2 H; cbn [wait_until_set].
  - cbn. auto.
  - cbn [wake mem]. rewrite H.
    destruct (_ && _).
    + apply IH. cbn [mem]. reflexivity.
    + cbn. auto.
Qed.

Lemma wait_until_done_mem_only w waitAll ts ws : forall r t1 t2,
  mem t1 = mem t2 ->
  returned (wait_until_done w waitAll ts r ws t1) =
    returned (wait_until_done w waitAll ts r ws t2) /\
  mem (final (wait_until_done w waitAll ts r ws t1)) =
    mem (final (wait_until_done w waitAll ts r ws t2)).
Proof.
  induction ws as [|x ws IH]; intros r t1 t2 H; cbn [wait_until_done]; rewrite H.
  - destruct (satisfied _ _); cbn; auto.
  - destruct (satisfied _ _); [cbn; auto|].
    cbn [wake]. rewrite H. destruct (negb _).
    + cbn. auto.
    + apply IH. reflexivity.
Qed.

Lemma wake_spurious o ts x ws t :
  spurious x ->
  wake o ts x ws t = (0, mk_thread (mem t) (clock t) ws (trace t ++ [wait_call o ts])).
Proof.
  intros [Ho Ht]. unfold wake. rewrite Ho, Ht, andb_false_r. reflexivity.
Qed.

Lemma wait_until_set_spurious e ts q ws : forall t,
  Forall spurious q ->
  State (event_at (mem t) e) = false ->
  returned (wait_until_set e ts (q ++ ws) t) = returned (wait_until_set e ts ws t) /\
  mem (final (wait_until_set e ts (q ++ ws) t)) = mem (final (wait_until_set e ts ws t)).
Proof.
  induction q as [|x q IH]; intros t Hq Hs; [auto|].
  apply Forall_cons in Hq as [Hx Hq].
  change ((x :: q) ++ ws) with (x :: (q ++ ws)). cbn [wait_until_set].
  rewrite (wake_spurious _ _ _ _ _ Hx). cbn [mem]. rewrite Hs. cbn [Z.eqb negb andb].
  destruct (IH (mk_thread (mem t) (clock t) (q ++ ws)
                  (trace t ++ [wait_call (EventObj e) ts])) Hq Hs) as [A B].
  rewrite A, B. apply wait_until_set_mem_only. reflexivity.
Qed.

Lemma wait_until_done_spurious w waitAll ts q ws : forall t,
  Forall spurious q ->
  returned (wait_until_done w waitAll ts 0 (q ++ ws) t) =
    returned (wait_until_done w waitAll ts 0 ws t) /\
  mem (final (wait_until_done w waitAll ts 0 (q ++ ws) t)) =
    mem (final (wait_until_done w waitAll ts 0 ws t)).
Proof.
  induction q as [|x q IH]; intros t Hq; [auto|].
  apply Forall_cons in Hq as [Hx Hq].
  change ((x :: q) ++ ws) with (x :: (q ++ ws)). cbn [wait_until_done].
  destruct (satisfied waitAll (wfmo_at (mem t) w)) eqn:Hsat.
  - destruct ws; cbn [wait_until_done]; rewrite Hsat; cbn; auto.
  - rewrite (wake_spurious _ _ _ _ _ Hx). cbn [Z.eqb negb].
    destruct (IH (mk_thread (mem t) (clock t) (q ++ ws)
                    (trace t ++ [wait_call (WfmoObj w) ts])) Hq) as [A B].
    rewrite A, B. apply wait_until_done_mem_only. reflexivity.
Qed.

(** The registration loop does not read the schedule. *)
Lemma register_waits_with_sched s w waitAll es : forall i t,
  register_waits w waitAll i es (with_sched s t) =
  match register_waits w waitAll i es t with
  | Returned d t' => Returned d (with_sched s t')
  | Blocked t' => Blocked (with_sched s t')
  end.
Proof.
  induction es as [|e es IH]; intros i t; [reflexivity|].
  rewrite !register_waits_cons. cbv zeta. cbn [with_sched mem clock sched trace].
  destruct (State (event_at (mem t) e)); [destruct waitAll|].
  - apply (IH (i + 1) (mk_thread _ _ _ _)).
  - reflexivity.
  - apply (IH (i + 1) (mk_thread _ _ _ _)).
Qed.

Lemma registered_with_sched s evs count waitAll t :
  registered evs count waitAll (with_sched s t) =
  match registered evs count waitAll t with
  | Returned d t' => Returned d (with_sched s t')
  | Blocked t' => Blocked (with_sched s t')
  end.
Proof.
  unfold registered. cbn [with_sched mem clock sched trace].
  apply (register_waits_with_sched s _ _ _ 0 (mk_thread _ _ _ _)).
Qed.

Lemma WaitForEvent_spurious q ws e ms t :
  Forall spurious q ->
  returned (WaitForEvent e ms (with_sched (q ++ ws) t)) =
    returned (WaitForEvent e ms (with_sched ws t)) /\
  mem (final (WaitForEvent e ms (with_sched (q ++ ws) t))) =
    mem (final (WaitForEvent e ms (with_sched ws t))).
Proof.
  intros Hq. rewrite !WaitForEvent_eq. cbn [with_sched mem clock sched trace].
  destruct (State (event_at (mem t) e)) eqn:Hs.
  - unfold UnlockedWaitForEvent. run. rewrite Hs. cbn [negb].
    destruct (AutoReset _); run; auto.
  - destruct (Z.eqb_spec ms 0) as [->|Hms].
    + rewrite !UnlockedWaitForEvent_zero. cbn [mem]. rewrite Hs. cbn. auto.
    + rewrite !UnlockedWaitForEvent_wait by assumption. cbn [clock sched].
      match goal with |- context [wait_until_set e ?ts (q ++ ws) ?t1] =>
        destruct (wait_until_set_spurious e ts q ws t1 Hq Hs) as [A B];
        destruct (wait_until_set_mem_only e ts ws t1
                    (mk_thread (mem t) (clock t) ws
                       (trace t ++ [pthread_mutex_lock (EventObj e)])) eq_refl) as [C D];
        rewrite C in A; rewrite D in B; clear C D;
        destruct (wait_until_set e ts (q ++ ws) t1) as [a t'|t']
      end;
      destruct (wait_until_set e _ ws _) as [a2 t2|t2];
      cbn [returned final mem] in A, B |- *; try discriminate; auto.
      injection A as ->. rewrite B. auto.
Qed.

Lemma WaitForMultipleEvents_spurious q ws evs count waitAll ms t :
  Forall spurious q ->
  returned (WaitForMultipleEvents evs count waitAll ms (with_sched (q ++ ws) t)) =
    returned (WaitForMultipleEvents evs count waitAll ms (with_sched ws t)) /\
  mem (final (WaitForMultipleEvents evs count waitAll ms (with_sched (q ++ ws) t))) =
    mem (final (WaitForMultipleEvents evs count waitAll ms (with_sched ws t))).
Proof.
  intros Hq. rewrite !WaitForMultipleEvents_eq. cbv zeta.
  rewrite !registered_with_sched. cbn [with_sched mem].
  destruct (registered evs count waitAll t) as [done t2|t2]; [|cbn; auto].
  unfold wait_phase. destruct done; [cbn; auto|].
  destruct (ms =? 0); [cbn; auto|].
  cbn [with_sched clock sched].
  match goal with |- context [wait_until_done ?w waitAll ?ts 0 (q ++ ws) ?t1] =>
    destruct (wait_until_done_spurious w waitAll ts q ws t1 Hq) as [A B];
    destruct (wait_until_done_mem_only w waitAll ts ws 0 t1
                (mk_thread (mem t2) (clock t2) ws (trace t2)) eq_refl) as [C D];
    rewrite C in A; rewrite D in B; clear C D;
    destruct (wait_until_done w waitAll ts 0 (q ++ ws) t1) as [a t'|t']
  end;
  destruct (wait_until_done _ waitAll _ 0 ws _) as [a2 t3|t3];
  cbn [returned final mem] in A, B |- *; try discriminate; auto.
  injection A as ->. rewrite B. auto.
Qed.

(** X3.  Spurious wakeups are ignored: wakeups of the condition wait during
    which no other thread did anything and the deadline had not passed change
    neither what a wait returns nor the store it leaves, for the wait for one
    event and for the wait for several. *)
Theorem spurious_wakeups_are_ignored (q ws : list wakeup) (t : thread)
    (e : nat) (evs : list nat) (count : Z) (waitAll : bool) (ms : Z) :
  Forall spurious q ->
  (returned (WaitForEvent e ms (with_sched (q ++ ws) t)) =
     returned (WaitForEvent e ms (with_sched ws t)) /\
   mem (final (WaitForEvent e ms (with_sched (q ++ ws) t))) =
     mem (final (WaitForEvent e ms (with_sched ws t)))) /\
  (returned (WaitForMultipleEvents evs count waitAll ms (with_sched (q ++ ws) t)) =
     returned (WaitForMultipleEvents evs count waitAll ms (with_sched ws t)) /\
   mem (final (WaitForMultipleEvents evs count waitAll ms (with_sched (q ++ ws) t))) =
     mem (final (WaitForMultipleEvents evs count waitAll ms (with_sched ws t)))).
Proof.
  intros Hq. split.
  - apply WaitForEvent_spurious, Hq.
  - apply WaitForMultipleEvents_spurious, Hq.
Qed.

Lemma spurious_wakeups_are_ignored_witness :
  let h := mk_heap [mk_event true false []] [] in
  let t := start h (mk_timeval 0 0) [] in
  let q := [mk_wakeup [] false; mk_wakeup [] false] in
  let ws := [mk_wakeup [OtherSetEvent 0] false] in
  Forall spurious q /\
  returned (WaitForEvent 0 INFINITE (with_sched ws t)) = Some 0 /\
  returned (WaitForEvent 0 INFINITE (with_sched (q ++ ws) t)) = Some 0 /\
  returned (WaitForMultipleEvents [0%nat] 1 false INFINITE (with_sched (q ++ ws) t)) =
    returned (WaitForMultipleEvents [0%nat] 1 false INFINITE (with_sched ws t)).
Proof.
  intros h t q ws.
  assert (Hq : Forall spurious q) by (repeat constructor).
  pose proof (spurious_wakeups_are_ignored q ws t 0 [0%nat] 1 false INFINITE Hq)
    as [[A _] [B _]].
  assert (C : returned (WaitForEvent 0 INFINITE (with_sched ws t)) = Some 0)
    by (vm_compute; reflexivity).
  split; [exact Hq|]. split; [exact C|]. split; [rewrite A; exact C|exact B].
Defined.

(** ** The infinite timeout *)

Lemma wait_until_set_untimed e ws : forall t,
  match wait_until_set e None ws t with Returned a _ => a = 0 | Blocked _ => True end.
Proof.
  induction ws as [|x ws IH]; intros t; cbn [wait_until_set]; [exact I|].
  unfold wake. rewrite bool_decide_eq_false_2 by (intros [? ?]; discriminate).
  cbn [andb]. destruct (_ && _); [apply IH|reflexivity].
Qed.

Lemma wait_until_done_untimed w waitAll ws : forall t,
  match wait_until_done w waitAll None 0 ws t with
  | Returned a _ => a = 0 | Blocked _ => True end.
Proof.
  induction ws as [|x ws IH]; intros t; cbn [wait_until_done];
    destruct (satisfied _ _); try reflexivity; try exact I.
  unfold wake. rewrite bool_decide_eq_false_2 by (intros [? ?]; discriminate).
  cbn [andb Z.eqb negb]. apply IH.
Qed.

Lemma timeout_of_INFINITE tv : timeout_of tv INFINITE = None.
Proof. reflexivity. Qed.

Lemma WaitForEvent_untimed e t :
  match returned (WaitForEvent e INFINITE t) with Some r => r = 0 | None => True end.
Proof.
  rewrite WaitForEvent_eq.
  match goal with |- context [UnlockedWaitForEvent e INFINITE ?t1] => set (t0 := t1) end.
  destruct (State (event_at (mem t0) e)) eqn:Hs.
  - unfold UnlockedWaitForEvent. run. rewrite Hs. cbn [negb].
    destruct (AutoReset _); run; reflexivity.
  - rewrite UnlockedWaitForEvent_wait by (assumption || discriminate).
    rewrite timeout_of_INFINITE.
    pose proof (wait_until_set_untimed e (sched t0) t0) as H.
    destruct (wait_until_set _ _ _ _); cbn [returned]; [exact H|exact I].
Qed.

Lemma WaitForEvent_untimed_waits e t :
  waits (trace t) = [] ->
  Forall (fun c => c = pthread_cond_wait (EventObj e))
    (waits (trace (final (WaitForEvent e INFINITE t)))).
Proof.
  intros Hnil. rewrite WaitForEvent_eq.
  match goal with |- context [UnlockedWaitForEvent e INFINITE ?t1] => set (t0 := t1) end.
  assert (H0 : waits (trace t0) = []).
  { subst t0. cbn [trace]. rewrite waits_app, Hnil. reflexivity. }
  assert (Hgoal : Forall (fun c => c = pthread_cond_wait (EventObj e))
            (waits (trace (final (UnlockedWaitForEvent e INFINITE t0))))).
  { destruct (State (event_at (mem t0) e)) eqn:Hs.
    - unfold UnlockedWaitForEvent. run. rewrite Hs. cbn [negb].
      destruct (AutoReset _); run; rewrite H0; constructor.
    - rewrite UnlockedWaitForEvent_wait by (assumption || discriminate).
      rewrite timeout_of_INFINITE.
      pose proof (wait_until_set_waits (fun c => c = pthread_cond_wait (EventObj e))
                    e None (sched t0) t0 eq_refl) as Hw.
      rewrite H0 in Hw. specialize (Hw (Forall_nil_2 _)).
      destruct (wait_until_set _ _ _ _) as [a t'|t']; cbn [final trace] in Hw |- *; exact Hw. }
  destruct (UnlockedWaitForEvent e INFINITE t0) as [r t'|t']; cbn [final trace] in Hgoal |- *.
  - rewrite waits_app. cbn. rewrite app_nil_r. exact Hgoal.
  - exact Hgoal.
Qed.

Lemma WaitForMultipleEvents_untimed evs count waitAll t :
  match returned (WaitForMultipleEvents evs count waitAll INFINITE t) with
  | Some p => fst p = 0 | None => True end.
Proof.
  rewrite WaitForMultipleEvents_eq. cbv zeta.
  destruct (registered evs count waitAll t) as [done t2|t2]; [|exact I].
  unfold wait_phase. destruct done; [reflexivity|].
  change (INFINITE =? 0) with false. cbv iota. rewrite timeout_of_INFINITE.
  pose proof (wait_until_done_untimed (length (wfmos (mem t))) waitAll (sched t2) t2) as H.
  destruct (wait_until_done _ _ _ _ _ _); cbn [returned fst]; [exact H|exact I].
Qed.

Lemma WaitForMultipleEvents_untimed_waits evs count waitAll t :
  waits (trace t) = [] ->
  Forall (fun c => c = pthread_cond_wait (WfmoObj (length (wfmos (mem t)))))
    (waits (trace (final (WaitForMultipleEvents evs count waitAll INFINITE t)))).
Proof.
  intros Hnil. rewrite WaitForMultipleEvents_eq. cbv zeta.
  destruct (registered_frame evs count waitAll t)
    as (done & t2 & E & Hs & Hk & Hw & _).
  rewrite E. rewrite Hnil in Hw.
  assert (Hfinal : forall t3,
            Forall (fun c => c = pthread_cond_wait (WfmoObj (length (wfmos (mem t)))))
              (waits (trace t3)) ->
            Forall (fun c => c = pthread_cond_wait (WfmoObj (length (wfmos (mem t)))))
              (waits (trace t3 ++ finalize_calls (length (wfmos (mem t))) (mem t3)))).
  { intros t3 H. rewrite waits_app. unfold finalize_calls.
    rewrite waits_release_calls, app_nil_r. exact H. }
  unfold wait_phase. destruct done; [cbn [final trace]; apply Hfinal; rewrite Hw; constructor|].
  change (INFINITE =? 0) with false. cbv iota. rewrite timeout_of_INFINITE.
  pose proof (wait_until_done_waits
    (fun c => c = pthread_cond_wait (WfmoObj (length (wfmos (mem t)))))
    (length (wfmos (mem t))) waitAll None (sched t2) 0 t2 eq_refl) as Hd.
  rewrite Hw in Hd. specialize (Hd (Forall_nil_2 _)).
  destruct (wait_until_done _ _ _ _ _ _) as [r t3|t3]; cbn [final trace] in Hd |- *;
    [apply Hfinal; exact Hd|exact Hd].
Qed.

(** X4.  A wait with the infinite timeout never times out: if it returns,
    it returns 0 (the wait for one event, the wait for several and its
    overload without the out-parameter), and every condition wait it makes is
    the untimed [pthread_cond_wait] on its own condition variable. *)
Theorem infinite_wait_never_times_out (e : nat) (evs : list nat) (count : Z)
    (waitAll : bool) (t : thread) :
  waits (trace t) = [] ->
  match returned (WaitForEvent e INFINITE t) with Some r => r = 0 | None => True end /\
  Forall (fun c => c = pthread_cond_wait (EventObj e))
    (waits (trace (final (WaitForEvent e INFINITE t)))) /\
  match returned (WaitForMultipleEvents evs count waitAll INFINITE t) with
  | Some p => fst p = 0 | None => True end /\
  match returned (WaitForMultipleEvents_unused evs count waitAll INFINITE t) with
  | Some r => r = 0 | None => True end /\
  Forall (fun c => c = pthread_cond_wait (WfmoObj (length (wfmos (mem t)))))
    (waits (trace (final (WaitForMultipleEvents evs count waitAll INFINITE t)))).
Proof.
  intros Hnil. split; [apply WaitForEvent_untimed|].
  split; [apply WaitForEvent_untimed_waits, Hnil|].
  split; [apply WaitForMultipleEvents_untimed|].
  split; [|apply WaitForMultipleEvents_untimed_waits, Hnil].
  pose proof (WaitForMultipleEvents_untimed evs count waitAll t) as H.
  unfold WaitForMultipleEvents_unused, bind.
  destruct (WaitForMultipleEvents _ _ _ _ _) as [p t'|t']; cbn [returned ret] in H |- *;
    [exact H|exact I].
Qed.

Lemma infinite_wait_never_times_out_witness :
  let h := mk_heap [mk_event true false []] [] in
  let t := start h (mk_timeval 0 0)
             [mk_wakeup [] true; mk_wakeup [OtherSetEvent 0] true] in
  waits (trace t) = [] /\
  returned (WaitForEvent 0 INFINITE t) = Some 0 /\
  waits (trace (final (WaitForEvent 0 INFINITE t))) =
    [pthread_cond_wait (EventObj 0); pthread_cond_wait (EventObj 0)] /\
  Forall (fun c => c = pthread_cond_wait (EventObj 0))
    (waits (trace (final (WaitForEvent 0 INFINITE t)))) /\
  returned (WaitForMultipleEvents_unused [0%nat] 1 true INFINITE t) = Some 0.
Proof.
  intros h t.
  assert (H : waits (trace t) = []) by reflexivity.
  pose proof (infinite_wait_never_times_out 0 [0%nat] 1 true t H) as (_ & A & _).
  split; [exact H|]. split; [vm_compute; reflexivity|].
  split; [vm_compute; reflexivity|]. split; [exact A|vm_compute; reflexivity].
Defined.

(** ** No mutex is left locked *)

Lemma held_app tr1 tr2 : held (tr1 ++ tr2) = fold_left held_step tr2 (held tr1).
Proof. unfold held. apply fold_left_app. Qed.

Lemma release_lock_head o l : release_lock o (o :: l) = l.
Proof. cbn. rewrite decide_True by reflexivity. reflexivity. Qed.

Lemma held_release tr w h :
  held (tr ++ pthread_mutex_lock (WfmoObj w) :: release_calls w h) = held tr.
Proof.
  rewrite held_app. unfold release_calls.
  destruct (_ =? _); cbn [fold_left held_step]; apply release_lock_head.
Qed.

Lemma held_notify_calls l i h : fold_left held_step (notify_calls i h) l = l.
Proof. unfold notify_calls. destruct (_ && _); reflexivity. Qed.

Lemma held_assert_calls l b : fold_left held_step (assert_calls b) l = l.
Proof. destruct b; reflexivity. Qed.

Lemma held_notified tr w i h :
  held (tr ++ pthread_mutex_lock (WfmoObj w) :: notify_calls i h ++
          [pthread_mutex_unlock (WfmoObj w); pthread_cond_signal (WfmoObj w)]) = held tr.
Proof.
  rewrite held_app. cbn [fold_left]. rewrite fold_left_app, held_notify_calls.
  cbn [fold_left held_step]. apply release_lock_head.
Qed.

Lemma State_pop_front e h e' :
  State (event_at (upd_event e pop_front h) e') = State (event_at h e').
Proof.
  unfold event_at, upd_event. cbn [events].
  destruct (decide (e = e')) as [->|Hne].
  - rewrite list_lookup_alter, decide_True by reflexivity.
    destruct (events h !! e'); reflexivity.
  - rewrite list_lookup_alter_ne by exact Hne. reflexivity.
Qed.

Lemma event_at_released w h e : event_at (released w h) e = event_at h e.
Proof. unfold event_at. rewrite events_released. reflexivity. Qed.

(** The loop of the auto-reset branch: when it runs to its end the mutex of
    the event is still held and the event is as signaled as before; when it
    returns from inside, the mutex of the event has been unlocked. *)
Lemma SetEvent_auto_held event q : forall t,
  match SetEvent_auto event q t with
  | Returned None t' =>
      held (trace t') = held (trace t) /\
      State (event_at (mem t') event) = State (event_at (mem t) event)
  | Returned (Some r) t' =>
      r = 0 /\ held (trace t') = release_lock (EventObj event) (held (trace t))
  | Blocked _ => False
  end.
Proof.
  induction q as [|i q IH]; intros t; [cbn; auto|].
  rewrite SetEvent_auto_cons. cbv zeta.
  destruct (StillWaiting _).
  - cbn [trace].
    replace (trace t ++ pthread_mutex_lock (WfmoObj (Waiter i)) ::
               notify_calls i (upd_event event (set_State false) (after_decr i (mem t))) ++
               [pthread_mutex_unlock (WfmoObj (Waiter i));
                pthread_cond_signal (WfmoObj (Waiter i));
                pthread_mutex_unlock (EventObj event)])
      with ((trace t ++ pthread_mutex_lock (WfmoObj (Waiter i)) ::
               notify_calls i (upd_event event (set_State false) (after_decr i (mem t))) ++
               [pthread_mutex_unlock (WfmoObj (Waiter i));
                pthread_cond_signal (WfmoObj (Waiter i))]) ++
            [pthread_mutex_unlock (EventObj event)]).
    + rewrite held_app, held_notified. split; reflexivity.
    + rewrite <- !app_assoc. cbn [app]. rewrite <- !app_assoc. reflexivity.
  - match goal with |- context [SetEvent_auto event q ?t1] =>
      specialize (IH t1); destruct (SetEvent_auto event q t1) as [[r|] t'|t'];
      cbn [trace mem] in IH end.
    + destruct IH as [A B]. rewrite B, held_release. auto.
    + destruct IH as [A B]. rewrite A, B, held_release, State_pop_front, event_at_released.
      unfold after_decr. rewrite event_at_upd_wfmo. auto.
    + exact IH.
Qed.

Lemma SetEvent_manual_held q : forall t,
  match SetEvent_manual q t with
  | Returned _ t' => held (trace t') = held (trace t)
  | Blocked _ => False
  end.
Proof.
  induction q as [|i q IH]; intros t; [reflexivity|].
  rewrite SetEvent_manual_cons. cbv zeta.
  destruct (StillWaiting _);
    match goal with |- context [SetEvent_manual q ?t1] =>
      specialize (IH t1); destruct (SetEvent_manual q t1) as [r t'|t'];
      cbn [trace] in IH end; try exact IH.
  - rewrite IH. apply held_notified.
  - rewrite IH. apply held_release.
Qed.

Lemma SetEvent_held e t :
  exists t', SetEvent e t = Returned 0 t' /\ held (trace t') = held (trace t).
Proof.
  unfold SetEvent. run.
  set (h1 := upd_event e (set_State true) (mem t)).
  destruct (AutoReset (event_at h1 e)) eqn:Ha.
  - assert (Hs : State (event_at h1 e) = true).
    { subst h1. destruct (events (mem t) !! e) as [ev|] eqn:Hev.
      - rewrite (event_at_upd_event_eq _ _ _ _ Hev). reflexivity.
      - rewrite (upd_event_dangling _ _ _ Hev), (event_at_dangling _ _ Hev) in Ha.
        discriminate. }
    match goal with |- context [SetEvent_auto e ?q ?t1] =>
      pose proof (SetEvent_auto_held e q t1) as H;
      destruct (SetEvent_auto e q t1) as [[r|] t'|t'] end; cbn [trace mem] in H.
    + destruct H as [-> H]. eexists. split; [reflexivity|].
      rewrite H, held_app. cbn [fold_left held_step]. apply release_lock_head.
    + destruct H as [H B]. rewrite B, Hs. run. eexists. split; [reflexivity|].
      cbn [trace]. rewrite <- app_assoc, held_app. cbn [app fold_left held_step].
      rewrite H, held_app. cbn [fold_left held_step]. apply release_lock_head.
    + contradiction.
  - match goal with |- context [SetEvent_manual ?q ?t1] =>
      pose proof (SetEvent_manual_held q t1) as H;
      destruct (SetEvent_manual q t1) as [r t'|t'] end; cbn [trace] in H; [|contradiction].
    run. eexists. split; [reflexivity|].
    cbn [trace]. rewrite <- app_assoc, held_app. cbn [app fold_left held_step].
    rewrite H, held_app. cbn [fold_left held_step]. apply release_lock_head.
Qed.

Lemma held_wait_until_set e ts ws : forall t,
  held (trace (final (wait_until_set e ts ws t))) = held (trace t).
Proof.
  induction ws as [|x ws IH]; intros t; cbn [wait_until_set].
  - cbn [final sleep trace]. rewrite held_app. destruct ts; reflexivity.
  - cbn [wake]. destruct (_ && _).
    + rewrite IH. cbn [trace]. rewrite held_app. destruct ts; reflexivity.
    + cbn [final trace]. rewrite held_app. destruct ts; reflexivity.
Qed.

Lemma held_wait_until_done w waitAll ts ws : forall r t,
  held (trace (final (wait_until_done w waitAll ts r ws t))) = held (trace t).
Proof.
  induction ws as [|x ws IH]; intros r t; cbn [wait_until_done];
    destruct (satisfied _ _); try reflexivity.
  - cbn [final sleep trace]. rewrite held_app. destruct ts; reflexivity.
  - cbn [wake]. destruct (negb _).
    + cbn [final trace]. rewrite held_app. destruct ts; reflexivity.
    + rewrite IH. cbn [trace]. rewrite held_app. destruct ts; reflexivity.
Qed.

Lemma held_UnlockedWaitForEvent e ms t :
  held (trace (final (UnlockedWaitForEvent e ms t))) = held (trace t).
Proof.
  destruct (State (event_at (mem t) e)) eqn:Hs.
  - unfold UnlockedWaitForEvent. run. rewrite Hs. cbn [negb].
    destruct (AutoReset _); reflexivity.
  - destruct (Z.eqb_spec ms 0) as [->|Hms].
    + rewrite UnlockedWaitForEvent_zero, Hs. reflexivity.
    + rewrite UnlockedWaitForEvent_wait by assumption.
      pose proof (held_wait_until_set e (timeout_of (clock t) ms) (sched t) t) as H.
      destruct (wait_until_set _ _ _ _); exact H.
Qed.

Lemma WaitForEvent_held e ms t :
  match WaitForEvent e ms t with
  | Returned _ t' => held (trace t') = held (trace t)
  | Blocked t' => held (trace t') = EventObj e :: held (trace t)
  end.
Proof.
  rewrite WaitForEvent_eq.
  match goal with |- context [UnlockedWaitForEvent e ms ?t1] =>
    pose proof (held_UnlockedWaitForEvent e ms t1) as H;
    destruct (UnlockedWaitForEvent e ms t1) as [r t'|t'] end;
    cbn [final trace] in H; rewrite held_app in H; cbn [fold_left held_step] in H.
  - cbn [trace]. rewrite held_app, H. cbn [fold_left held_step]. apply release_lock_head.
  - exact H.
Qed.

Lemma register_waits_held w waitAll es : forall i t,
  held (trace (final (register_waits w waitAll i es t))) = held (trace t).
Proof.
  induction es as [|e es IH]; intros i t; [reflexivity|].
  rewrite register_waits_cons. cbv zeta.
  destruct (State _); [destruct waitAll|].
  - rewrite IH. cbn [trace]. rewrite held_app, fold_left_app, held_assert_calls.
    cbn [fold_left held_step]. apply release_lock_head.
  - cbn [final trace]. rewrite held_app. cbn [fold_left held_step]. apply release_lock_head.
  - rewrite IH. cbn [trace]. rewrite held_app.
    cbn [fold_left held_step]. apply release_lock_head.
Qed.

Lemma WaitForMultipleEvents_held evs count waitAll ms t :
  match WaitForMultipleEvents evs count waitAll ms t with
  | Returned _ t' => held (trace t') = held (trace t)
  | Blocked t' => held (trace t') = WfmoObj (length (wfmos (mem t))) :: held (trace t)
  end.
Proof.
  rewrite WaitForMultipleEvents_eq. cbv zeta.
  pose proof (register_waits_held (length (wfmos (mem t))) waitAll
                (take (Z.to_nat count) evs) 0
                (mk_thread (constructed count waitAll (mem t)) (clock t) (sched t)
                   (trace t ++ [pthread_mutex_init (WfmoObj (length (wfmos (mem t))));
                                pthread_cond_init (WfmoObj (length (wfmos (mem t))));
                                pthread_mutex_lock (WfmoObj (length (wfmos (mem t))))]))) as Hr.
  change (register_waits _ _ _ _ _) with (registered evs count waitAll t) in Hr.
  destruct (registered_frame evs count waitAll t) as (done & t2 & E & _).
  rewrite E in *. cbn [final trace] in Hr. rewrite held_app in Hr.
  cbn [fold_left held_step] in Hr.
  set (w := length (wfmos (mem t))) in *.
  assert (Hfin : forall t3, held (trace t3) = WfmoObj w :: held (trace t) ->
            held (trace t3 ++ finalize_calls w (mem t3)) = held (trace t)).
  { intros t3 H. rewrite held_app, H. unfold finalize_calls, release_calls.
    destruct (_ =? _); cbn [fold_left held_step]; apply release_lock_head. }
  unfold wait_phase. destruct done; [apply Hfin, Hr|].
  destruct (ms =? 0); [apply Hfin, Hr|].
  pose proof (held_wait_until_done w waitAll (timeout_of (clock t2) ms) (sched t2) 0 t2) as Hd.
  rewrite Hr in Hd.
  destruct (wait_until_done _ _ _ _ _ _) as [r t3|t3]; cbn [final trace] in Hd |- *;
    [apply Hfin, Hd|exact Hd].
Qed.

(** X5.  No call returns with a mutex locked: when [SetEvent], [ResetEvent],
    [CreateEvent], [WaitForEvent] or [WaitForMultipleEvents] returns, the
    thread holds the mutexes it held before the call and no other (every
    lock of the mutex of an event or of a record is matched by an unlock, or
    by the destruction of the record).  A thread that is blocked in a wait
    holds, besides, only the mutex of the condition variable it sleeps on:
    no mutex of an event while it waits for several. *)
Theorem no_mutex_left_locked (t : thread) (e : nat) (evs : list nat) (count : Z)
    (waitAll manualReset initialState : bool) (ms : Z) :
  held (trace (final (SetEvent e t))) = held (trace t) /\
  held (trace (final (ResetEvent e t))) = held (trace t) /\
  held (trace (final (CreateEvent manualReset initialState t))) = held (trace t) /\
  match WaitForEvent e ms t with
  | Returned _ t' => held (trace t') = held (trace t)
  | Blocked t' => held (trace t') = EventObj e :: held (trace t)
  end /\
  match WaitForMultipleEvents evs count waitAll ms t with
  | Returned _ t' => held (trace t') = held (trace t)
  | Blocked t' => held (trace t') = WfmoObj (length (wfmos (mem t))) :: held (trace t)
  end.
Proof.
  split; [|split; [|split; [|split]]].
  - destruct (SetEvent_held e t) as (t' & -> & H). exact H.
  - rewrite ResetEvent_eq. cbn [final trace]. rewrite held_app.
    cbn [fold_left held_step]. apply release_lock_head.
  - rewrite CreateEvent_eq. cbv zeta.
    match goal with |- context [SetEvent ?e1 ?t1] =>
      destruct (SetEvent_held e1 t1) as (t' & -> & H) end.
    cbn [final]. rewrite H. cbn [trace]. rewrite held_app. reflexivity.
  - apply WaitForEvent_held.
  - apply WaitForMultipleEvents_held.
Qed.

(** ** [SetEvent] on a manual-reset event *)

(** The signal a waiter gets. *)
Lemma live_cell h w :
  StillWaiting (wfmo_at h w) = true -> exists r, mjoin (wfmos h !! w) = Some r.
Proof.
  unfold wfmo_at. destruct (mjoin (wfmos h !! w)); [eauto|discriminate].
Qed.

Lemma visited_signalled i h :
  still_waiting h i = true ->
  wfmo_at (visited i h) (Waiter i) = signalled i (wfmo_at h (Waiter i)).
Proof.
  unfold still_waiting. intros Hi.
  destruct (live_cell _ _ Hi) as [r Hr].
  rewrite (wfmo_at_cell _ _ _ Hr) in *.
  pose proof (cell_upd_wfmo _ _ decr_RefCount _ Hr) as Hc1.
  fold (after_decr i h) in Hc1.
  unfold visited. cbv zeta. rewrite (wfmo_at_cell _ _ _ Hc1).
  cbn [decr_RefCount set_RefCount StillWaiting]. rewrite Hi.
  unfold notified, signalled. rewrite (wfmo_at_cell _ _ _ Hc1).
  destruct (WaitAll (decr_RefCount r)).
  - apply wfmo_at_cell, cell_upd_wfmo. exact Hc1.
  - apply wfmo_at_cell, cell_upd_wfmo, cell_upd_wfmo. exact Hc1.
Qed.

Lemma events_visited i h : events (visited i h) = events h.
Proof.
  unfold visited. cbv zeta. destruct (StillWaiting _).
  - rewrite events_notified. reflexivity.
  - rewrite events_released. reflexivity.
Qed.

(** One iteration of the loop of the manual-reset branch. *)
Lemma SetEvent_manual_visit i q t :
  exists tr,
    SetEvent_manual (i :: q) t =
      SetEvent_manual q (mk_thread (visited i (mem t)) (clock t) (sched t) (trace t ++ tr)) /\
    signals tr = if still_waiting (mem t) i
                 then [pthread_cond_signal (WfmoObj (Waiter i))] else [].
Proof.
  rewrite SetEvent_manual_cons. cbv zeta. unfold visited, still_waiting. cbv zeta.
  rewrite StillWaiting_after_decr.
  destruct (StillWaiting (wfmo_at (mem t) (Waiter i))); eexists; (split; [reflexivity|]).
  - unfold signals. cbn [List.filter wakes_someone].
    fold (signals (notify_calls i (after_decr i (mem t)) ++
                   [pthread_mutex_unlock (WfmoObj (Waiter i));
                    pthread_cond_signal (WfmoObj (Waiter i))])).
    rewrite signals_app, signals_notify_calls. reflexivity.
  - unfold signals. cbn [List.filter wakes_someone].
    apply signals_release_calls.
Qed.

Lemma refs_zero_not_in w q : refs w q = 0%nat -> Forall (fun i => Waiter i <> w) q.
Proof.
  induction q as [|i q IH]; intros H; [constructor|].
  apply refs_cons_zero in H as [A B]. constructor; auto.
Qed.

Lemma not_in_refs_zero w q : w ∉ map Waiter q -> refs w q = 0%nat.
Proof.
  induction q as [|i q IH]; intros H; [reflexivity|].
  cbn [map] in H. apply not_elem_of_cons in H as [A B].
  rewrite refs_cons_ne by congruence. apply IH, B.
Qed.

Lemma SetEvent_manual_spec q : forall t,
  NoDup (map Waiter q) ->
  exists t', SetEvent_manual q t = Returned tt t' /\
    events (mem t') = events (mem t) /\
    signals (trace t') =
      signals (trace t) ++
      map (fun i => pthread_cond_signal (WfmoObj (Waiter i)))
          (List.filter (still_waiting (mem t)) q) /\
    (forall i, i ∈ q -> still_waiting (mem t) i = true ->
       wfmo_at (mem t') (Waiter i) = signalled i (wfmo_at (mem t) (Waiter i))) /\
    (forall w, refs w q = 0%nat -> wfmos (mem t') !! w = wfmos (mem t) !! w) /\
    sched t' = sched t /\ clock t' = clock t.
Proof.
  induction q as [|i q IH]; intros t Hnd.
  - exists t. cbn. rewrite app_nil_r. repeat split; auto.
    intros i Hi. apply elem_of_nil in Hi. contradiction.
  - cbn [map] in Hnd. apply NoDup_cons in Hnd as [Hni Hnd].
    destruct (SetEvent_manual_visit i q t) as (tr & E & Hsig).
    rewrite E. clear E.
    destruct (IH (mk_thread (visited i (mem t)) (clock t) (sched t) (trace t ++ tr)) Hnd)
      as (t' & E & Hev & Hs & Hlive & Hout & Hsch & Hclk).
    cbn [mem trace sched clock] in *.
    exists t'. split; [exact E|]. split; [rewrite Hev; apply events_visited|].
    assert (Hother : forall j, j ∈ q ->
              wfmo_at (visited i (mem t)) (Waiter j) = wfmo_at (mem t) (Waiter j)).
    { intros j Hj. unfold wfmo_at. rewrite wfmos_visited_ne; [reflexivity|].
      intros Heq. apply Hni. rewrite Heq. apply list_elem_of_In, in_map, list_elem_of_In, Hj. }
    assert (Hfilter : List.filter (still_waiting (visited i (mem t))) q =
                      List.filter (still_waiting (mem t)) q).
    { apply List.filter_ext_in. intros j Hj. unfold still_waiting.
      rewrite Hother; [reflexivity|]. apply list_elem_of_In, Hj. }
    split; [|split; [|split; [|split]]].
    + rewrite Hs, signals_app, Hsig, Hfilter, <- app_assoc. cbn [List.filter].
      destruct (still_waiting (mem t) i); reflexivity.
    + intros j Hj Hw. apply elem_of_cons in Hj as [->|Hj].
      * unfold wfmo_at at 1. rewrite Hout by (apply not_in_refs_zero, Hni).
        apply (visited_signalled i (mem t) Hw).
      * rewrite Hlive; [rewrite Hother by exact Hj; reflexivity|exact Hj|].
        unfold still_waiting in *. rewrite Hother by exact Hj. exact Hw.
    + intros w Hw. apply refs_cons_zero in Hw as [Hne Hw].
      rewrite Hout by exact Hw. apply wfmos_visited_ne, Hne.
    + exact Hsch.
    + exact Hclk.
Qed.

(** X6.  [SetEvent] on a manual-reset event wakes every waiter: with the
    records registered in its queue pairwise distinct, it returns 0 with the
    event signaled and its queue empty; each record of the queue that is
    still waiting gets its signal (the index of the event for a wait for any,
    one event less for a wait for all) and one [pthread_cond_signal], in the
    order of the queue, and the condition variable of the event is broadcast
    last; the records that are not in the queue are not touched. *)
Theorem SetEvent_manual_reset_wakes_all (t : thread) (event : nat)
    (ev : neosmart_event_t_) :
  events (mem t) !! event = Some ev ->
  AutoReset ev = false ->
  NoDup (map Waiter (RegisteredWaits ev)) ->
  exists t',
    SetEvent event t = Returned 0 t' /\
    sched t' = sched t /\
    events (mem t') = <[event := mk_event false true []]> (events (mem t)) /\
    signals (trace t') =
      signals (trace t) ++
      map (fun i => pthread_cond_signal (WfmoObj (Waiter i)))
          (List.filter (still_waiting (mem t)) (RegisteredWaits ev)) ++
      [pthread_cond_broadcast (EventObj event)] /\
    (forall i, i ∈ RegisteredWaits ev -> still_waiting (mem t) i = true ->
       wfmo_at (mem t') (Waiter i) = signalled i (wfmo_at (mem t) (Waiter i))) /\
    (forall w, refs w (RegisteredWaits ev) = 0%nat ->
       wfmos (mem t') !! w = wfmos (mem t) !! w).
Proof.
  intros Hev Hman Hnd.
  unfold SetEvent. run.
  rewrite (event_at_upd_event_eq _ _ _ _ Hev). cbn [set_State AutoReset RegisteredWaits].
  rewrite Hman.
  match goal with |- context [SetEvent_manual _ ?t1] =>
    destruct (SetEvent_manual_spec (RegisteredWaits ev) t1 Hnd)
      as (t2 & E & Hevs & Hs & Hlive & Hout & Hsch & Hclk) end.
  rewrite E. cbn [mem trace sched clock] in *.
  eexists. split; [reflexivity|]. cbn [mem trace sched].
  split; [exact Hsch|]. split; [|split; [|split]].
  - unfold upd_event at 1. cbn [events]. rewrite Hevs. unfold upd_event. cbn [events].
    rewrite list_alter_alter_eq. rewrite (alter_as_insert _ _ _ _ Hev). f_equal.
    unfold compose, set_RegisteredWaits, set_State. cbn [AutoReset State].
    rewrite Hman. reflexivity.
  - rewrite <- app_assoc, signals_app, Hs, signals_app. cbn.
    rewrite app_nil_r, <- app_assoc. reflexivity.
  - intros i Hi Hw. rewrite wfmo_at_upd_event. apply Hlive; assumption.
  - intros w Hw. rewrite wfmos_upd_event. apply Hout, Hw.
Qed.

Lemma SetEvent_manual_reset_wakes_all_witness :
  let ev := mk_event false false [mk_info 0 0; mk_info 1 3; mk_info 2 0] in
  let h := mk_heap [ev] [Some (mk_wfmo (-1) false 1 false);
                         Some (mk_wfmo (-1) true 2 false);
                         Some (mk_wfmo 2 true 2 true);
                         Some (mk_wfmo (-1) true 1 false)] in
  let t := start h (mk_timeval 0 0) [] in
  let t' := final (SetEvent 0 t) in
  SetEvent 0 t = Returned 0 t' /\
  events (mem t') = [mk_event false true []] /\
  signals (trace t') = [pthread_cond_signal (WfmoObj 1); pthread_cond_signal (WfmoObj 2);
                        pthread_cond_broadcast (EventObj 0)] /\
  wfmos (mem t') = [None; Some (mk_wfmo 3 false 1 false); Some (mk_wfmo 1 true 1 true);
                    Some (mk_wfmo (-1) true 1 false)].
Proof.
  intros ev h t t'.
  assert (Hev : events (mem t) !! 0%nat = Some ev) by reflexivity.
  assert (Hnd : NoDup (map Waiter (RegisteredWaits ev))).
  { cbn. repeat (apply NoDup_cons; split; [intros H; repeat (apply elem_of_cons in H as [H|H]; [discriminate|]); apply elem_of_nil in H; exact H|]). apply NoDup_nil_2. }
  destruct (SetEvent_manual_reset_wakes_all t 0 ev Hev eq_refl Hnd)
    as (t2 & E & _ & Hevs & Hs & _).
  assert (Et : t' = t2) by (subst t'; rewrite E; reflexivity).
  split; [rewrite Et; exact E|].
  split; [rewrite Et, Hevs; reflexivity|].
  split; [rewrite Et, Hs; reflexivity|].
  vm_compute. reflexivity.
Defined.

(** ** [SetEvent] while nobody waits *)

Lemma quiescent_visited i h : quiescent h -> quiescent (visited i h).
Proof.
  intros H w. unfold visited. cbv zeta. rewrite StillWaiting_after_decr, H.
  apply StillWaiting_released. rewrite StillWaiting_after_decr. apply H.
Qed.

Lemma SetEvent_manual_quiescent q : forall t,
  quiescent (mem t) ->
  exists t', SetEvent_manual q t = Returned tt t' /\
    events (mem t') = events (mem t) /\
    signals (trace t') = signals (trace t) /\
    sched t' = sched t.
Proof.
  induction q as [|i q IH]; intros t H.
  - exists t. cbn. auto.
  - destruct (SetEvent_manual_visit i q t) as (tr & E & Hsig).
    rewrite E. clear E. unfold still_waiting in Hsig. rewrite H in Hsig.
    destruct (IH (mk_thread (visited i (mem t)) (clock t) (sched t) (trace t ++ tr))
                 (quiescent_visited i _ H))
      as (t' & E & Hev & Hs & Hsch).
    cbn [mem trace sched] in *. exists t'. split; [exact E|].
    split; [rewrite Hev; apply events_visited|].
    split; [rewrite Hs, signals_app, Hsig; apply app_nil_r|exact Hsch].
Qed.

Lemma refcount_ok_quiescent h : refcount_ok None h -> quiescent h.
Proof.
  intros H w. specialize (H w). unfold wfmo_at.
  destruct (wfmos h !! w) as [[r|]|]; cbn; try reflexivity.
  destruct H as (_ & _ & Hs). destruct (StillWaiting r); [|reflexivity].
  specialize (Hs eq_refl). discriminate.
Qed.

Lemma refcount_ok_unregistered h w :
  refcount_ok None h -> registrations w h = 0%nat -> mjoin (wfmos h !! w) = None.
Proof.
  intros H Hreg. specialize (H w). rewrite Hreg, own_None in H.
  destruct (wfmos h !! w) as [[r|]|]; cbn; try reflexivity.
  destruct H as (Hrc & Hpos & _). lia.
Qed.

Lemma refcount_ok_registered h w e ev :
  refcount_ok None h -> events h !! e = Some ev -> (0 < refs w (RegisteredWaits ev))%nat ->
  is_Some (mjoin (wfmos h !! w)).
Proof.
  intros H Hev Hpos. specialize (H w). rewrite own_None in H.
  pose proof (refs_le_regs_in w _ _ _ Hev) as Hle.
  change (regs_in w (events h)) with (registrations w h) in Hle.
  destruct (wfmos h !! w) as [[r|]|]; cbn; eauto; lia.
Qed.

(** [SetEvent] on a store where no record is waiting. *)
Lemma SetEvent_quiescent (t : thread) (event : nat) (ev : neosmart_event_t_) :
  refcount_ok None (mem t) ->
  events (mem t) !! event = Some ev ->
  exists t',
    SetEvent event t = Returned 0 t' /\
    sched t' = sched t /\
    refcount_ok None (mem t') /\
    events (mem t') = <[event := mk_event (AutoReset ev) true []]> (events (mem t)) /\
    signals (trace t') =
      signals (trace t) ++
      [if AutoReset ev then pthread_cond_signal (EventObj event)
       else pthread_cond_broadcast (EventObj event)].
Proof.
  intros Hok Hev.
  pose proof (refcount_ok_quiescent _ Hok) as Hq.
  destruct (SetEvent_refcount_ok None event t Hok) as (t' & E & Hok' & Hsch & _).
  exists t'. split; [exact E|]. split; [exact Hsch|]. split; [exact Hok'|].
  destruct (AutoReset ev) eqn:Ha.
  - assert (Hgone : Forall (fun i => still_waiting (mem t) i = false) (RegisteredWaits ev)).
    { apply Forall_forall. intros i _. apply Hq. }
    destruct (SetEvent_auto_reset_spec t event ev (RegisteredWaits ev) Hev Ha Hgone)
      as [H _].
    destruct (H eq_refl) as (t2 & E2 & A & B & _).
    rewrite E in E2. injection E2 as <-. auto.
  - revert E. unfold SetEvent. run.
    rewrite (event_at_upd_event_eq _ _ _ _ Hev).
    cbn [set_State AutoReset RegisteredWaits]. rewrite Ha.
    match goal with |- context [SetEvent_manual ?q ?t1] =>
      destruct (SetEvent_manual_quiescent q t1) as (t2 & E2 & A & B & _) end.
    { intros w. cbn [mem]. rewrite wfmo_at_upd_event. apply Hq. }
    rewrite E2. intros E. injection E as <-. cbn [mem trace] in *. split.
    + unfold upd_event at 1. cbn [events]. rewrite A. unfold upd_event. cbn [events].
      rewrite list_alter_alter_eq, (alter_as_insert _ _ _ _ Hev). f_equal.
      unfold compose, set_RegisteredWaits, set_State. cbn [AutoReset State].
      rewrite Ha. reflexivity.
    + rewrite <- app_assoc, signals_app, B, signals_app. cbn.
      rewrite app_nil_r. reflexivity.
Qed.

(** X7.  [SetEvent] while no wait for several events is in progress: the
    registrations it finds were left by waits that have returned.  It drops
    them all and leaves the event signaled with an empty queue, whatever the
    kind of the event; it wakes no record, only the condition variable of the
    event (signal for auto-reset, broadcast for manual-reset); the reference
    counts stay exact, and every record that was registered nowhere else is
    deleted. *)
Theorem SetEvent_drops_stale_registrations (t : thread) (event : nat)
    (ev : neosmart_event_t_) :
  refcount_ok None (mem t) ->
  events (mem t) !! event = Some ev ->
  exists t',
    SetEvent event t = Returned 0 t' /\
    sched t' = sched t /\
    events (mem t') = <[event := mk_event (AutoReset ev) true []]> (events (mem t)) /\
    signals (trace t') =
      signals (trace t) ++
      [if AutoReset ev then pthread_cond_signal (EventObj event)
       else pthread_cond_broadcast (EventObj event)] /\
    refcount_ok None (mem t') /\
    (forall w, (registrations w (mem t') + refs w (RegisteredWaits ev))%nat =
               registrations w (mem t)) /\
    (forall w, (0 < refs w (RegisteredWaits ev))%nat ->
               is_Some (mjoin (wfmos (mem t) !! w)) /\
               (registrations w (mem t) = refs w (RegisteredWaits ev) ->
                mjoin (wfmos (mem t') !! w) = None)).
Proof.
  intros Hok Hev.
  destruct (SetEvent_quiescent t event ev Hok Hev) as (t' & E & Hsch & Hok' & Hevs & Hsig).
  exists t'. split; [exact E|]. split; [exact Hsch|].
  assert (Hregs : forall w, (registrations w (mem t') + refs w (RegisteredWaits ev))%nat =
                            registrations w (mem t)).
  { intros w. unfold registrations. rewrite Hevs.
    rewrite <- (alter_as_insert (fun _ => mk_event (AutoReset ev) true []) _ _ _ Hev).
    pose proof (regs_in_alter w (fun _ => mk_event (AutoReset ev) true []) _ _ _ Hev) as H.
    unfold regs_in in H. cbv beta in H. cbn [RegisteredWaits] in H.
    change (refs w []) with 0%nat in H. lia. }
  split; [exact Hevs|]. split; [exact Hsig|]. split; [exact Hok'|]. split; [exact Hregs|].
  intros w Hpos. split.
  - apply (refcount_ok_registered _ _ _ _ Hok Hev Hpos).
  - intros Honly. apply (refcount_ok_unregistered _ _ Hok').
    specialize (Hregs w). lia.
Qed.

Lemma SetEvent_drops_stale_registrations_witness :
  let ev := mk_event true false [mk_info 0 0; mk_info 1 1; mk_info 0 2] in
  let h := mk_heap [ev; mk_event false true [mk_info 1 0]]
                   [Some (mk_wfmo 0 false 2 false); Some (mk_wfmo 1 false 2 true)] in
  let t := start h (mk_timeval 0 0) [] in
  let t' := final (SetEvent 0 t) in
  refcount_ok None h /\
  SetEvent 0 t = Returned 0 t' /\
  events (mem t') = [mk_event true true []; mk_event false true [mk_info 1 0]] /\
  wfmos (mem t') = [None; Some (mk_wfmo 1 false 1 true)] /\
  mjoin (wfmos (mem t') !! 0%nat) = None.
Proof.
  intros ev h t t'.
  assert (Hok : refcount_ok None (mem t)).
  { intros [|[|w]]; vm_compute; repeat split; try discriminate; try reflexivity. }
  assert (Hev : events (mem t) !! 0%nat = Some ev) by reflexivity.
  destruct (SetEvent_drops_stale_registrations t 0 ev Hok Hev)
    as (t2 & E & _ & Hevs & _ & _ & _ & Hfree).
  assert (Et : t' = t2) by (subst t'; rewrite E; reflexivity).
  split; [exact Hok|]. split; [rewrite Et; exact E|].
  split; [rewrite Et, Hevs; reflexivity|]. split; [vm_compute; reflexivity|].
  rewrite Et. apply (Hfree 0%nat); vm_compute; [lia|reflexivity].
Defined.

(** ** A blocked wait for one event and the wakeup that follows a [SetEvent] *)

Lemma is_Some_timeout_of tv ms :
  bool_decide (is_Some (timeout_of tv ms)) = negb (ms =? INFINITE).
Proof.
  unfold timeout_of. destruct (negb _); [apply bool_decide_eq_true_2; eauto|].
  apply bool_decide_eq_false_2. intros [? ?]. discriminate.
Qed.

(** X8.  A thread blocked in [WaitForEvent] that wakes up to find the event
    signaled returns 0 and takes the event if it is auto-reset.  But when
    that wakeup is the expiry of a timed wait, the call returns [ETIMEDOUT]
    although the event is signaled, and leaves it signaled: the signal is
    not lost.  In both cases the call consumes this one wakeup only. *)
Theorem WaitForEvent_wakes_on_signal (t : thread) (e : nat) (ms : Z)
    (ops : list other_op) (late : bool) (ws : list wakeup) :
  State (event_at (mem t) e) = false ->
  ms <> 0 ->
  sched t = mk_wakeup ops late :: ws ->
  State (event_at (run_others ops (mem t)) e) = true ->
  let r := WaitForEvent e ms t in
  let expired := negb (ms =? INFINITE) && late in
  returned r = Some (if expired then ETIMEDOUT else 0) /\
  mem (final r) = (if expired then run_others ops (mem t)
                   else consumed e (run_others ops (mem t))) /\
  sched (final r) = ws /\
  waits (trace (final r)) =
    waits (trace t) ++ [wait_call (EventObj e) (timeout_of (clock t) ms)].
Proof.
  intros Hs Hms Hsch Hset r expired. subst r expired.
  rewrite WaitForEvent_eq.
  rewrite UnlockedWaitForEvent_wait by assumption. cbn [clock sched].
  rewrite Hsch. cbn [wait_until_set wake others timed_out mem].
  rewrite Hset, is_Some_timeout_of. cbn [negb]. rewrite andb_false_r.
  cbn [mem clock sched trace].
  assert (Hw : forall tr, waits ((tr ++ [pthread_mutex_lock (EventObj e)]) ++
                                 [wait_call (EventObj e) (timeout_of (clock t) ms)]) =
                          waits tr ++ [wait_call (EventObj e) (timeout_of (clock t) ms)]).
  { intros tr. rewrite !waits_app, waits_wait_call. cbn. rewrite app_nil_r. reflexivity. }
  destruct (negb (ms =? INFINITE) && late); cbn [Z.eqb andb returned final mem sched trace].
  - change (ETIMEDOUT =? 0) with false. cbn [andb].
    repeat split. rewrite waits_app, Hw. cbn. apply app_nil_r.
  - unfold consumed. destruct (AutoReset _); repeat split;
      rewrite waits_app, Hw; cbn; apply app_nil_r.
Qed.

Lemma WaitForEvent_wakes_on_signal_witness :
  let h := mk_heap [mk_event true false []] [] in
  let t := start h (mk_timeval 0 0) [mk_wakeup [OtherSetEvent 0] false] in
  let s := start h (mk_timeval 0 0) [mk_wakeup [OtherSetEvent 0] true] in
  returned (WaitForEvent 0 40 t) = Some 0 /\
  events (mem (final (WaitForEvent 0 40 t))) = [mk_event true false []] /\
  returned (WaitForEvent 0 40 s) = Some ETIMEDOUT /\
  events (mem (final (WaitForEvent 0 40 s))) = [mk_event true true []].
Proof.
  intros h t s.
  assert (H1 : State (event_at (mem t) 0) = false) by reflexivity.
  assert (H2 : 40 <> 0) by discriminate.
  assert (H3 : State (event_at (run_others [OtherSetEvent 0] (mem t)) 0) = true)
    by (vm_compute; reflexivity).
  destruct (WaitForEvent_wakes_on_signal t 0 40 [OtherSetEvent 0] false [] H1 H2 eq_refl H3)
    as (A & B & _).
  destruct (WaitForEvent_wakes_on_signal s 0 40 [OtherSetEvent 0] true [] H1 H2 eq_refl H3)
    as (C & D & _).
  split; [exact A|]. split; [rewrite B; vm_compute; reflexivity|].
  split; [exact C|]. rewrite D. vm_compute. reflexivity.
Defined.

(** ** The registration loop *)

(** Over events that are not signaled the loop registers the record on each
    of them and goes on: it changes the queues of these events and the count
    of the record, and nothing else. *)
Lemma register_waits_unsignaled w waitAll pre es : forall i t,
  Forall (fun e => State (event_at (mem t) e) = false) pre ->
  exists t1,
    register_waits w waitAll i (pre ++ es) t =
      register_waits w waitAll (i + Z.of_nat (length pre)) es t1 /\
    (forall e, State (event_at (mem t1) e) = State (event_at (mem t) e)) /\
    (forall e, AutoReset (event_at (mem t1) e) = AutoReset (event_at (mem t) e)) /\
    (forall e, e ∉ pre -> event_at (mem t1) e = event_at (mem t) e) /\
    (forall e j, NoDup pre -> pre !! j = Some e -> is_Some (events (mem t) !! e) ->
       RegisteredWaits (event_at (mem t1) e) =
       RegisteredWaits (event_at (mem t) e) ++ [mk_info w (i + Z.of_nat j)]) /\
    (forall w', w' <> w -> wfmos (mem t1) !! w' = wfmos (mem t) !! w') /\
    (forall r, mjoin (wfmos (mem t) !! w) = Some r ->
       exists r', mjoin (wfmos (mem t1) !! w) = Some r' /\
         Status r' = Status r /\ StillWaiting r' = StillWaiting r /\ WaitAll r' = WaitAll r) /\
    length (wfmos (mem t1)) = length (wfmos (mem t)) /\
    sched t1 = sched t /\ clock t1 = clock t /\
    waits (trace t1) = waits (trace t).
Proof.
  induction pre as [|e pre IH]; intros i t Hpre.
  - exists t. cbn [app length]. rewrite Z.add_0_r. repeat split; eauto 10.
    intros e j _ Hj. rewrite lookup_nil in Hj. discriminate.
  - apply Forall_cons in Hpre as [He Hpre].
    change ((e :: pre) ++ es) with (e :: (pre ++ es)).
    rewrite register_waits_cons, He.
    set (t0 := mk_thread _ _ _ _).
    assert (HS : forall e', State (event_at (mem t0) e') = State (event_at (mem t) e')).
    { intros e'. subst t0. cbn [mem]. rewrite event_at_upd_wfmo.
      apply State_upd_event_push_back. }
    assert (HA : forall e', AutoReset (event_at (mem t0) e') = AutoReset (event_at (mem t) e')).
    { intros e'. subst t0. cbn [mem]. rewrite event_at_upd_wfmo.
      unfold event_at, upd_event. cbn [events].
      destruct (decide (e = e')) as [->|Hne].
      - rewrite list_lookup_alter, decide_True by reflexivity.
        destruct (events (mem t) !! e'); reflexivity.
      - rewrite list_lookup_alter_ne by exact Hne. reflexivity. }
    destruct (IH (i + 1) t0) as (t1 & E & H1 & H2 & H3 & HQ & H4 & H5 & H6 & H7 & H8 & H9).
    { eapply Forall_impl; [exact Hpre|]. intros e' He'. cbn beta in *. rewrite HS. exact He'. }
    exists t1. split.
    { rewrite E. f_equal. cbn [length]. lia. }
    split; [intros e'; rewrite H1; apply HS|].
    split; [intros e'; rewrite H2; apply HA|].
    split.
    { intros e' Hn. apply not_elem_of_cons in Hn as [Hne Hn]. rewrite (H3 _ Hn).
      subst t0. cbn [mem]. rewrite event_at_upd_wfmo. apply event_at_upd_event_ne. congruence. }
    split.
    { intros e' j Hnd Hj [ev' Hev'].
      apply NoDup_cons in Hnd as [Hni Hnd].
      destruct j as [|j]; cbn in Hj.
      - injection Hj as <-. rewrite (H3 _ Hni). subst t0. cbn [mem].
        rewrite event_at_upd_wfmo, (event_at_upd_event_eq _ _ _ _ Hev'),
          (event_at_lookup _ _ _ Hev'), Z.add_0_r. reflexivity.
      - assert (Hne : e <> e').
        { intros ->. apply Hni. eapply list_elem_of_lookup_2. exact Hj. }
        rewrite (HQ e' j Hnd Hj).
        + subst t0. cbn [mem]. rewrite event_at_upd_wfmo, event_at_upd_event_ne by exact Hne.
          do 3 f_equal. lia.
        + subst t0. cbn [mem]. rewrite events_upd_wfmo. unfold upd_event. cbn [events].
          rewrite list_lookup_alter_ne by exact Hne. eauto. }
    split.
    { intros w' Hne. rewrite (H4 _ Hne). subst t0. cbn [mem]. unfold upd_wfmo. cbn [wfmos].
      apply list_lookup_alter_ne. congruence. }
    split.
    { intros r Hr.
      destruct (H5 (incr_RefCount r)) as (r' & Hr' & A & B & C).
      { subst t0. cbn [mem]. apply cell_upd_wfmo. rewrite wfmos_upd_event. exact Hr. }
      exists r'. auto. }
    split.
    { rewrite H6. subst t0. cbn [mem]. unfold upd_wfmo. cbn [wfmos]. apply length_alter. }
    split; [rewrite H7; reflexivity|]. split; [rewrite H8; reflexivity|].
    rewrite H9. subst t0. cbn [trace]. rewrite waits_app. cbn. apply app_nil_r.
Qed.

(** ** Waits that are satisfied on entry *)

Lemma event_at_consumed_ne e h e' : e <> e' -> event_at (consumed e h) e' = event_at h e'.
Proof.
  intros Hne. unfold consumed. destruct (AutoReset _); [|reflexivity].
  apply event_at_upd_event_ne, Hne.
Qed.

Lemma State_consumed e h :
  State (event_at h e) = true ->
  State (event_at (consumed e h) e) = negb (AutoReset (event_at h e)).
Proof.
  intros Hs. unfold consumed. destruct (AutoReset (event_at h e)) eqn:Ha; [|exact Hs].
  destruct (events h !! e) as [ev|] eqn:Hev.
  - rewrite (event_at_upd_event_eq _ _ _ _ Hev). reflexivity.
  - rewrite (event_at_dangling _ _ Hev) in Hs. discriminate.
Qed.

Lemma AutoReset_consumed e h e' :
  AutoReset (event_at (consumed e h) e') = AutoReset (event_at h e').
Proof.
  unfold consumed. destruct (AutoReset (event_at h e)); [|reflexivity].
  unfold event_at, upd_event. cbn [events].
  destruct (decide (e = e')) as [->|Hne].
  - rewrite list_lookup_alter, decide_True by reflexivity.
    destruct (events h !! e'); reflexivity.
  - rewrite list_lookup_alter_ne by exact Hne. reflexivity.
Qed.

Lemma wfmos_consumed e h : wfmos (consumed e h) = wfmos h.
Proof. unfold consumed. destruct (AutoReset _); reflexivity. Qed.

(** The record that [WaitForMultipleEvents] builds. *)
Lemma constructed_cell count waitAll h :
  mjoin (wfmos (constructed count waitAll h) !! length (wfmos h)) =
  Some (mk_wfmo (if waitAll then count else -1) true 1 waitAll).
Proof.
  unfold constructed. cbn [wfmos]. rewrite list_lookup_middle by reflexivity. reflexivity.
Qed.

Lemma constructed_others count waitAll h w :
  w <> length (wfmos h) -> wfmos (constructed count waitAll h) !! w = wfmos h !! w.
Proof.
  intros Hne. unfold constructed. cbn [wfmos].
  destruct (Nat.lt_ge_cases w (length (wfmos h))) as [Hlt|Hge].
  - apply lookup_app_l, Hlt.
  - rewrite !lookup_ge_None_2; [reflexivity|lia|].
    rewrite length_app. cbn [length]. lia.
Qed.

(** The record once its waiter has dropped the only reference to it. *)
Lemma finalized_unshared w h r :
  mjoin (wfmos h !! w) = Some r -> RefCount r = 1 ->
  mjoin (wfmos (finalized w h) !! w) = None /\
  (forall w', w' <> w -> wfmos (finalized w h) !! w' = wfmos h !! w') /\
  finalize_calls w h =
    [pthread_mutex_destroy (WfmoObj w); pthread_cond_destroy (WfmoObj w); delete_wfmo w].
Proof.
  intros Hr Hrc.
  pose proof (cell_upd_wfmo _ _ decr_RefCount _
                (cell_upd_wfmo _ _ (set_StillWaiting false) _ Hr)) as Hc.
  unfold finalized, finalize_calls, released, release_calls.
  rewrite (wfmo_at_cell _ _ _ Hc).
  cbn [decr_RefCount set_RefCount set_StillWaiting RefCount]. rewrite Hrc.
  change (Int.decr 1 =? 0) with true. cbv iota.
  split; [|split; [|reflexivity]].
  - unfold free_wfmo. cbn [wfmos]. rewrite list_lookup_alter, decide_True by reflexivity.
    destruct (wfmos (upd_wfmo w decr_RefCount _) !! w); reflexivity.
  - intros w' Hne. unfold free_wfmo, upd_wfmo. cbn [wfmos].
    rewrite !list_lookup_alter_ne by congruence. reflexivity.
Qed.

(** X9.  A wait for any of several events that finds one signaled returns 0
    and the index of the first signaled event at once, whatever the timeout:
    no wakeup is consumed and no condition wait is made.  That event is taken
    if it is auto-reset; no other event changes state, and the events that
    come after it are not touched at all. *)
Theorem wait_any_returns_first_signaled (t : thread) (evs : list nat) (count : Z)
    (j : nat) (e : nat) (ms : Z) :
  (j < Z.to_nat count)%nat ->
  evs !! j = Some e ->
  Forall (fun e' => State (event_at (mem t) e') = false) (take j evs) ->
  State (event_at (mem t) e) = true ->
  let r := WaitForMultipleEvents evs count false ms t in
  returned r = Some (0, Z.of_nat j) /\
  sched (final r) = sched t /\
  waits (trace (final r)) = waits (trace t) /\
  State (event_at (mem (final r)) e) = negb (AutoReset (event_at (mem t) e)) /\
  (forall e', e' <> e ->
     State (event_at (mem (final r)) e') = State (event_at (mem t) e')) /\
  (forall e', e' ∉ take j evs -> e' <> e ->
     event_at (mem (final r)) e' = event_at (mem t) e').
Proof.
  intros Hj He Hpre Hs r. subst r.
  rewrite WaitForMultipleEvents_eq. cbv zeta. unfold registered.
  set (w := length (wfmos (mem t))).
  assert (Hsplit : take (Z.to_nat count) evs =
                   take j evs ++ e :: drop (S j) (take (Z.to_nat count) evs)).
  { rewrite <- (take_drop_middle (take (Z.to_nat count) evs) j e) at 1.
    - rewrite take_take, Nat.min_l by lia. reflexivity.
    - rewrite lookup_take_lt by exact Hj. exact He. }
  rewrite Hsplit.
  set (t0 := mk_thread _ _ _ _).
  destruct (register_waits_unsignaled w false (take j evs)
              (e :: drop (S j) (take (Z.to_nat count) evs)) 0 t0 Hpre)
    as (t1 & E & H1 & H2 & H3 & _ & H4 & H5 & H6 & H7 & H8 & H9).
  rewrite E, register_waits_cons, H1. subst t0. cbn [mem]. 
  change (event_at (constructed count false (mem t)) e) with (event_at (mem t) e).
  rewrite Hs. unfold wait_phase. cbn [mem clock sched trace returned final].
  destruct (H5 _ (constructed_cell count false (mem t))) as (r' & Hr' & A & B & C).
  pose proof (cell_upd_wfmo _ _ (set_Status (0 + Z.of_nat (length (take j evs)))) _
                (eq_trans (f_equal (fun l => mjoin (l !! w)) (wfmos_consumed e (mem t1))) Hr'))
    as Hc.
  rewrite (wfmo_at_cell _ _ _ Hc). cbn [set_Status Status].
  assert (Hlen : length (take j evs) = j).
  { apply length_take_le. apply lookup_lt_Some in He. lia. }
  rewrite Hlen, Z.add_0_l.
  split; [reflexivity|]. split; [exact H7|].
  split.
  { rewrite !waits_app. unfold finalize_calls. rewrite waits_release_calls, H9.
    cbn. rewrite !app_nil_r. cbn [trace]. rewrite waits_app. cbn. apply app_nil_r. }
  assert (Hev : forall e', event_at (finalized w
                   (upd_wfmo w (set_Status (0 + Z.of_nat (length (take j evs))))
                      (consumed e (mem t1)))) e' = event_at (consumed e (mem t1)) e').
  { intros e'. unfold event_at. rewrite events_finalized, events_upd_wfmo. reflexivity. }
  rewrite Hlen, Z.add_0_l in Hev.
  split; [|split].
  - rewrite Hev, State_consumed by (rewrite H1; exact Hs). rewrite H2. reflexivity.
  - intros e' Hne. rewrite Hev, event_at_consumed_ne by congruence. apply H1.
  - intros e' Hn Hne. rewrite Hev, event_at_consumed_ne by congruence. apply (H3 _ Hn).
Qed.

Lemma wait_any_returns_first_signaled_witness :
  let h := mk_heap [mk_event true false []; mk_event true true []; mk_event false true []] [] in
  let t := start h (mk_timeval 0 0) [mk_wakeup [OtherSetEvent 0] false] in
  let r := WaitForMultipleEvents [0%nat; 1%nat; 2%nat] 3 false 10 t in
  returned r = Some (0, 1) /\
  sched (final r) = sched t /\
  waits (trace (final r)) = [] /\
  events (mem (final r)) =
    [mk_event true false [mk_info 0 0]; mk_event true false []; mk_event false true []].
Proof.
  intros h t r.
  assert (Hj : (1 < Z.to_nat 3)%nat) by (vm_compute; lia).
  assert (He : [0%nat; 1%nat; 2%nat] !! 1%nat = Some 1%nat) by reflexivity.
  assert (Hpre : Forall (fun e' => State (event_at (mem t) e') = false)
                   (take 1 [0%nat; 1%nat; 2%nat])) by (repeat constructor).
  assert (Hs : State (event_at (mem t) 1) = true) by reflexivity.
  destruct (wait_any_returns_first_signaled t [0%nat; 1%nat; 2%nat] 3 1 1 10 Hj He Hpre Hs)
    as (A & B & C & _).
  split; [exact A|]. split; [exact B|]. split; [exact C|]. vm_compute. reflexivity.
Defined.

(** The registration loop of a wait for all over events that are signaled:
    it takes each of them and registers nowhere. *)
Lemma register_waits_all_signaled w es : forall i t r,
  NoDup es ->
  Forall (fun e => State (event_at (mem t) e) = true) es ->
  mjoin (wfmos (mem t) !! w) = Some r ->
  Z.of_nat (length es) <= Status r <= Int.max ->
  exists t1,
    register_waits w true i es t = Returned false t1 /\
    mjoin (wfmos (mem t1) !! w) = Some (set_Status (Status r - Z.of_nat (length es)) r) /\
    (forall w', w' <> w -> wfmos (mem t1) !! w' = wfmos (mem t) !! w') /\
    (forall e, e ∈ es ->
       State (event_at (mem t1) e) = negb (AutoReset (event_at (mem t) e))) /\
    (forall e, e ∉ es -> event_at (mem t1) e = event_at (mem t) e) /\
    sched t1 = sched t /\ clock t1 = clock t /\
    waits (trace t1) = waits (trace t) /\
    (assert_failed ∈ trace t1 -> assert_failed ∈ trace t).
Proof.
  induction es as [|e es IH]; intros i t r Hnd Hall Hr Hst.
  - exists t. cbn [register_waits ret length]. rewrite Z.sub_0_r.
    split; [reflexivity|]. split; [destruct r; exact Hr|].
    repeat split; auto. intros e He. apply elem_of_nil in He. contradiction.
  - apply NoDup_cons in Hnd as [Hni Hnd]. apply Forall_cons in Hall as [He Hall].
    cbn [length] in Hst.
    rewrite register_waits_cons, He. cbv zeta.
    pose proof (cell_upd_wfmo _ _ decr_Status _
                  (eq_trans (f_equal (fun l => mjoin (l !! w)) (wfmos_consumed e (mem t))) Hr))
      as Hc.
    rewrite (wfmo_at_cell _ _ _ Hc).
    assert (Hd : Int.decr (Status r) = Status r - 1) by (apply Int_decr_pos; lia).
    cbn [decr_Status set_Status Status]. rewrite Hd.
    replace (0 <=? Status r - 1) with true by (symmetry; apply Z.leb_le; lia).
    cbn [assert_calls]. rewrite app_nil_r.
    set (t0 := mk_thread _ _ _ _).
    destruct (IH (i + 1) t0 (decr_Status r)) as (t1 & E & H1 & H2 & H3 & H4 & H5 & H6 & H7 & H8).
    { exact Hnd. }
    { apply Forall_forall. intros e' He'. subst t0. cbn [mem].
      rewrite event_at_upd_wfmo, event_at_consumed_ne.
      - rewrite Forall_forall in Hall. apply Hall, He'.
      - intros ->. contradiction. }
    { exact Hc. }
    { cbn [decr_Status set_Status Status]. rewrite Hd.
      rewrite Nat2Z.inj_succ in Hst. lia. }
    exists t1. split; [exact E|]. split.
    { rewrite H1. f_equal. cbn [decr_Status set_Status Status StillWaiting RefCount WaitAll].
      rewrite Hd. unfold set_Status. f_equal. cbn [length]. rewrite Nat2Z.inj_succ. lia. }
    split.
    { intros w' Hne. rewrite (H2 _ Hne). subst t0. cbn [mem]. unfold upd_wfmo. cbn [wfmos].
      rewrite list_lookup_alter_ne by congruence. rewrite wfmos_consumed. reflexivity. }
    split.
    { intros e' He'. apply elem_of_cons in He' as [->|He'].
      - rewrite (H4 _ Hni). subst t0. cbn [mem]. rewrite event_at_upd_wfmo.
        apply State_consumed, He.
      - rewrite (H3 _ He'). subst t0. cbn [mem].
        rewrite event_at_upd_wfmo, AutoReset_consumed. reflexivity. }
    split.
    { intros e' Hn. apply not_elem_of_cons in Hn as [Hne Hn]. rewrite (H4 _ Hn).
      subst t0. cbn [mem]. rewrite event_at_upd_wfmo. apply event_at_consumed_ne. congruence. }
    split; [rewrite H5; reflexivity|]. split; [rewrite H6; reflexivity|].
    split.
    { rewrite H7. subst t0. cbn [trace]. rewrite waits_app. cbn. apply app_nil_r. }
    intros Hin. apply H8 in Hin. subst t0. cbn [trace] in Hin.
    apply elem_of_app in Hin as [Hin|Hin]; [exact Hin|].
    repeat (apply elem_of_cons in Hin as [Hin|Hin]; [discriminate|]).
    apply elem_of_nil in Hin. contradiction.
Qed.

(** X10.  A wait for all of [count] distinct events that are all signaled
    takes every one of them on entry (an auto-reset event is unsignaled
    afterwards, a manual-reset event stays signaled) and returns at once,
    with no condition wait and no wakeup consumed; its record is deleted.
    With a non-zero timeout it returns 0.  With the timeout 0 it returns
    [ETIMEDOUT] all the same after it has taken the events. *)
Theorem wait_all_on_signaled_events (t : thread) (evs : list nat) (count : Z) (ms : Z) :
  0 <= count <= Int.max ->
  (Z.to_nat count <= length evs)%nat ->
  NoDup (take (Z.to_nat count) evs) ->
  Forall (fun e => State (event_at (mem t) e) = true) (take (Z.to_nat count) evs) ->
  let r := WaitForMultipleEvents evs count true ms t in
  returned r = Some (if ms =? 0 then ETIMEDOUT else 0, 0) /\
  sched (final r) = sched t /\
  waits (trace (final r)) = waits (trace t) /\
  (forall e, e ∈ take (Z.to_nat count) evs ->
     State (event_at (mem (final r)) e) = negb (AutoReset (event_at (mem t) e))) /\
  (forall e, e ∉ take (Z.to_nat count) evs ->
     event_at (mem (final r)) e = event_at (mem t) e) /\
  mjoin (wfmos (mem (final r)) !! length (wfmos (mem t))) = None /\
  (forall w, w <> length (wfmos (mem t)) ->
     wfmos (mem (final r)) !! w = wfmos (mem t) !! w).
Proof.
  intros Hc Hlen Hnd Hall r. subst r.
  rewrite WaitForMultipleEvents_eq. cbv zeta. unfold registered.
  set (w := length (wfmos (mem t))).
  set (t0 := mk_thread _ _ _ _).
  assert (Hl : Z.of_nat (length (take (Z.to_nat count) evs)) = count).
  { rewrite length_take_le by exact Hlen. lia. }
  destruct (register_waits_all_signaled w (take (Z.to_nat count) evs) 0 t0
              (mk_wfmo count true 1 true) Hnd Hall (constructed_cell count true (mem t)))
    as (t1 & E & H1 & H2 & H3 & H4 & H5 & H6 & H7 & _).
  { cbn [Status]. lia. }
  rewrite E. rewrite Hl, Z.sub_diag in H1. cbn [set_Status Status StillWaiting RefCount WaitAll] in H1.
  assert (Hwait : wait_phase w true ms false t1 =
                  Returned (if ms =? 0 then ETIMEDOUT else 0) t1).
  { unfold wait_phase. destruct (ms =? 0); [reflexivity|].
    destruct (sched t1); cbn [wait_until_done]; rewrite (wfmo_at_cell _ _ _ H1); reflexivity. }
  rewrite Hwait. cbn [returned final mem sched trace].
  rewrite (wfmo_at_cell _ _ _ H1). cbn [Status].
  destruct (finalized_unshared w (mem t1) _ H1 eq_refl) as (F1 & F2 & F3).
  assert (Hev : forall e, event_at (finalized w (mem t1)) e = event_at (mem t1) e).
  { intros e. unfold event_at. rewrite events_finalized. reflexivity. }
  split; [reflexivity|]. split; [exact H5|]. split.
  { rewrite waits_app, F3, H7. subst t0. cbn [trace]. rewrite waits_app. cbn.
    rewrite !app_nil_r. reflexivity. }
  split; [intros e He; rewrite Hev; apply (H3 _ He)|].
  split; [intros e He; rewrite Hev; apply (H4 _ He)|].
  split; [exact F1|].
  intros w' Hne. rewrite (F2 _ Hne), (H2 _ Hne). subst t0. cbn [mem].
  apply constructed_others, Hne.
Qed.

Lemma wait_all_on_signaled_events_witness :
  let h := mk_heap [mk_event true true []; mk_event false true []] [] in
  let t := start h (mk_timeval 0 0) [] in
  returned (WaitForMultipleEvents [0%nat; 1%nat] 2 true 10 t) = Some (0, 0) /\
  returned (WaitForMultipleEvents [0%nat; 1%nat] 2 true 0 t) = Some (ETIMEDOUT, 0) /\
  events (mem (final (WaitForMultipleEvents [0%nat; 1%nat] 2 true 0 t))) =
    [mk_event true false []; mk_event false true []].
Proof.
  intros h t.
  assert (Hc : 0 <= 2 <= Int.max) by (vm_compute; split; discriminate).
  assert (Hlen : (Z.to_nat 2 <= length [0%nat; 1%nat])%nat) by (vm_compute; lia).
  assert (Hnd : NoDup (take (Z.to_nat 2) [0%nat; 1%nat])).
  { change (take (Z.to_nat 2) [0%nat; 1%nat]) with [0%nat; 1%nat].
    apply NoDup_cons. split; [|apply NoDup_singleton].
    intros H. apply list_elem_of_singleton in H. discriminate. }
  assert (Hall : Forall (fun e => State (event_at (mem t) e) = true)
                   (take (Z.to_nat 2) [0%nat; 1%nat])) by (repeat constructor).
  destruct (wait_all_on_signaled_events t [0%nat; 1%nat] 2 10 Hc Hlen Hnd Hall) as (A & _).
  destruct (wait_all_on_signaled_events t [0%nat; 1%nat] 2 0 Hc Hlen Hnd Hall) as (B & _).
  split; [exact A|]. split; [exact B|]. vm_compute. reflexivity.
Defined.

(** ** [DestroyEvent] *)

Lemma registrations_free_event w e ev h :
  events h !! e = Some ev ->
  (registrations w (free_event e h) + refs w (RegisteredWaits ev))%nat = registrations w h.
Proof.
  intros Hev. unfold registrations, free_event. cbn [events].
  pose proof (regs_in_alter w (fun _ => null_event) _ _ _ Hev) as H.
  unfold regs_in in H. cbv beta in H. cbn [RegisteredWaits null_event] in H.
  change (refs w []) with 0%nat in H. lia.
Qed.

(** X11.  [DestroyEvent] returns 0 after destroying the condition variable
    and the mutex of the event, which it never locks, and deleting the event;
    the other events and all the records are left as they are.  It does not
    walk the queue of the event: with an empty queue the reference counts
    stay exact, but every record registered in the queue keeps the references
    of the registrations that went with the event, so that its count stays
    above its number of references for good. *)
Theorem DestroyEvent_abandons_its_queue (owner : option nat) (t : thread) (e : nat)
    (ev : neosmart_event_t_) :
  events (mem t) !! e = Some ev ->
  refcount_ok owner (mem t) ->
  let r := DestroyEvent e t in
  returned r = Some 0 /\
  trace (final r) =
    trace t ++ [pthread_cond_destroy (EventObj e); pthread_mutex_destroy (EventObj e)] /\
  sched (final r) = sched t /\
  wfmos (mem (final r)) = wfmos (mem t) /\
  (forall e', e' <> e -> event_at (mem (final r)) e' = event_at (mem t) e') /\
  (RegisteredWaits ev = [] -> refcount_ok owner (mem (final r))) /\
  (forall w, (0 < refs w (RegisteredWaits ev))%nat ->
     exists c, wfmos (mem (final r)) !! w = Some (Some c) /\
       own owner w + Z.of_nat (registrations w (mem (final r))) < RefCount c).
Proof.
  intros Hev Hok r. subst r. unfold DestroyEvent. run.
  cbn [returned final trace sched mem].
  split; [reflexivity|]. split; [rewrite <- app_assoc; reflexivity|].
  split; [reflexivity|]. split; [reflexivity|].
  split; [|split].
  - intros e' Hne. unfold event_at, free_event. cbn [events].
    rewrite list_lookup_alter_ne by congruence. reflexivity.
  - intros Hq w. specialize (Hok w).
    pose proof (registrations_free_event w e ev (mem t) Hev) as Hreg.
    rewrite Hq in Hreg. change (refs w []) with 0%nat in Hreg.
    rewrite Nat.add_0_r in Hreg. rewrite Hreg. exact Hok.
  - intros w Hpos. specialize (Hok w).
    pose proof (registrations_free_event w e ev (mem t) Hev) as Hreg.
    pose proof (own_nonneg owner w) as Hown.
    change (wfmos (free_event e (mem t))) with (wfmos (mem t)).
    destruct (wfmos (mem t) !! w) as [[c|]|]; [|lia..].
    destruct Hok as (Hrc & _). exists c. split; [reflexivity|]. lia.
Qed.

Lemma DestroyEvent_abandons_its_queue_witness :
  let h := mk_heap [mk_event true false [mk_info 0 0]; mk_event false true []]
                   [Some (mk_wfmo (-1) false 1 false)] in
  let t := start h (mk_timeval 0 0) [] in
  let r := DestroyEvent 0 t in
  refcount_ok None h /\
  returned r = Some 0 /\
  mem (final r) = mk_heap [null_event; mk_event false true []]
                          [Some (mk_wfmo (-1) false 1 false)] /\
  registrations 0 (mem (final r)) = 0%nat /\
  (exists c, wfmos (mem (final r)) !! 0%nat = Some (Some c) /\
     own None 0 + Z.of_nat (registrations 0 (mem (final r))) < RefCount c).
Proof.
  intros h t r.
  assert (Hok : refcount_ok None (mem t)).
  { intros [|w]; vm_compute; repeat split; try discriminate; try reflexivity. }
  assert (Hev : events (mem t) !! 0%nat = Some (mk_event true false [mk_info 0 0]))
    by reflexivity.
  destruct (DestroyEvent_abandons_its_queue None t 0 _ Hev Hok) as (A & _ & _ & _ & _ & _ & F).
  split; [exact Hok|]. split; [exact A|]. split; [reflexivity|]. split; [reflexivity|].
  apply (F 0%nat). vm_compute. lia.
Defined.

(** ** [CreateEvent] *)

(** X12.  [CreateEvent] returns an address that was not in use, and adds
    there one event of the requested kind, signaled and with an empty queue;
    the events that exist and the records are left as they are, and no wakeup
    is consumed. *)
Theorem CreateEvent_adds_one_event (manualReset initialState : bool) (t : thread) :
  let r := CreateEvent manualReset initialState t in
  returned r = Some (length (events (mem t))) /\
  events (mem t) !! length (events (mem t)) = None /\
  events (mem (final r)) = events (mem t) ++ [mk_event (negb manualReset) true []] /\
  wfmos (mem (final r)) = wfmos (mem t) /\
  sched (final r) = sched t /\
  (forall e ev, events (mem t) !! e = Some ev -> event_at (mem (final r)) e = ev).
Proof.
  intros r. subst r. rewrite CreateEvent_eq. cbv zeta.
  set (e := length (events (mem t))).
  rewrite (SetEvent_fresh e (negb manualReset)).
  2:{ cbn [mem events]. apply list_lookup_middle. reflexivity. }
  cbn [returned final mem events wfmos sched].
  assert (Hins : <[e := mk_event (negb manualReset) true []]>
                   (events (mem t) ++ [mk_event (negb manualReset) false []]) =
                 events (mem t) ++ [mk_event (negb manualReset) true []]).
  { subst e. rewrite insert_app_r_alt by lia. rewrite Nat.sub_diag. reflexivity. }
  rewrite Hins.
  split; [reflexivity|]. split; [apply lookup_ge_None_2; subst e; lia|].
  split; [reflexivity|]. split; [reflexivity|]. split; [reflexivity|].
  intros e' ev Hev. unfold event_at. cbn [events].
  rewrite lookup_app_l by (eapply lookup_lt_Some; exact Hev). rewrite Hev. reflexivity.
Qed.

(** ** A blocked wait for any event and the [SetEvent] that ends it *)

(** The manual-reset loop over a queue whose only live record is the last. *)
Lemma SetEvent_manual_one_live i gone : forall t,
  Forall (fun i' => still_waiting (mem t) i' = false /\ Waiter i' <> Waiter i) gone ->
  still_waiting (mem t) i = true ->
  exists t', SetEvent_manual (gone ++ [i]) t = Returned tt t' /\
    events (mem t') = events (mem t) /\
    wfmo_at (mem t') (Waiter i) = signalled i (wfmo_at (mem t) (Waiter i)).
Proof.
  induction gone as [|i0 gone IH]; intros t Hgone Hi.
  - cbn [app]. destruct (SetEvent_manual_visit i [] t) as (tr & E & _).
    rewrite E. cbn [SetEvent_manual ret]. eexists. split; [reflexivity|]. cbn [mem].
    split; [apply events_visited|apply visited_signalled, Hi].
  - apply Forall_cons in Hgone as [[H0 Hne] Hgone].
    change ((i0 :: gone) ++ [i]) with (i0 :: (gone ++ [i])).
    destruct (SetEvent_manual_visit i0 (gone ++ [i]) t) as (tr & E & _).
    rewrite E. clear E.
    assert (Hsame : wfmo_at (visited i0 (mem t)) (Waiter i) = wfmo_at (mem t) (Waiter i)).
    { unfold wfmo_at. rewrite wfmos_visited_ne by exact Hne. reflexivity. }
    destruct (IH (mk_thread (visited i0 (mem t)) (clock t) (sched t) (trace t ++ tr)))
      as (t' & E & Hev & Hsig).
    + cbn [mem]. eapply Forall_impl; [exact Hgone|]. intros i' [Hs Hn]. split; [|exact Hn].
      unfold still_waiting in *. unfold visited. cbv zeta.
      rewrite StillWaiting_after_decr, H0.
      apply StillWaiting_released. rewrite StillWaiting_after_decr. exact Hs.
    + cbn [mem]. unfold still_waiting in *. rewrite Hsame. exact Hi.
    + cbn [mem] in *. exists t'. split; [exact E|].
      split; [rewrite Hev; apply events_visited|]. rewrite Hsig, Hsame. reflexivity.
Qed.

(** [SetEvent] on an event whose queue ends with the only record that is
    still waiting there: the record gets the signal, the stale registrations
    before it are dropped, and the event goes to the waiter if it is
    auto-reset. *)
Lemma SetEvent_hands_over t e ev gone i :
  events (mem t) !! e = Some ev ->
  RegisteredWaits ev = gone ++ [i] ->
  Forall (fun i' => still_waiting (mem t) i' = false /\ Waiter i' <> Waiter i) gone ->
  still_waiting (mem t) i = true ->
  exists t', SetEvent e t = Returned 0 t' /\
    wfmo_at (mem t') (Waiter i) = signalled i (wfmo_at (mem t) (Waiter i)) /\
    events (mem t') =
      <[e := mk_event (AutoReset ev) (negb (AutoReset ev)) []]> (events (mem t)).
Proof.
  intros Hev Hq Hgone Hi. destruct (AutoReset ev) eqn:Ha.
  - assert (Hg : Forall (fun i' => still_waiting (mem t) i' = false) gone).
    { eapply Forall_impl; [exact Hgone|]. intros i' [H _]. exact H. }
    destruct (SetEvent_auto_reset_spec t e ev gone Hev Ha Hg) as [_ H].
    destruct (H i [] Hq Hi) as (t' & E & A & _ & B & _).
    exists t'. auto.
  - unfold SetEvent. run.
    rewrite (event_at_upd_event_eq _ _ _ _ Hev). cbn [set_State AutoReset RegisteredWaits].
    rewrite Ha, Hq.
    match goal with |- context [SetEvent_manual _ ?t1] =>
      destruct (SetEvent_manual_one_live i gone t1 Hgone Hi) as (t2 & E & Hevs & Hsig) end.
    rewrite E. cbn [mem] in *. eexists. split; [reflexivity|]. cbn [mem].
    split.
    + rewrite wfmo_at_upd_event, Hsig, wfmo_at_upd_event. reflexivity.
    + unfold upd_event at 1. cbn [events]. rewrite Hevs. unfold upd_event. cbn [events].
      rewrite list_alter_alter_eq, (alter_as_insert _ _ _ _ Hev). f_equal.
      unfold compose, set_RegisteredWaits, set_State. cbn [AutoReset State].
      rewrite Ha. reflexivity.
Qed.

Lemma refcount_ok_fresh h : refcount_ok None h -> registrations (length (wfmos h)) h = 0%nat.
Proof.
  intros H. specialize (H (length (wfmos h))).
  rewrite lookup_ge_None_2, own_None in H by lia. lia.
Qed.

(** X13.  A wait for any of several distinct events, none of them signaled,
    blocks; when another thread then calls [SetEvent] on one of them, in
    whose queue no waiter stands that is still waiting, the
    waiter wakes up and returns the index of that event.  The event goes to
    the waiter: an auto-reset event is unsignaled after the call, a
    manual-reset event stays signaled, and the queue of the event is empty.
    If that wakeup is also the expiry of the timed wait, the call returns
    [ETIMEDOUT] although the event was handed to it: the out-parameter is the
    index of the event, and an auto-reset event is unsignaled all the same.
    The store may hold other waits in progress and any counts; the call is
    supposed to find no registration of the record that it is going to
    allocate, as in every store that the operations have made. *)
Theorem wait_any_wakes_on_SetEvent (t : thread) (evs : list nat) (count : Z)
    (j : nat) (e : nat) (ev : neosmart_event_t_) (ms : Z) (late : bool)
    (ws : list wakeup) :
  registrations (length (wfmos (mem t))) (mem t) = 0%nat ->
  Forall (fun i => still_waiting (mem t) i = false) (RegisteredWaits ev) ->
  NoDup (take (Z.to_nat count) evs) ->
  Forall (fun e' => State (event_at (mem t) e') = false) (take (Z.to_nat count) evs) ->
  take (Z.to_nat count) evs !! j = Some e ->
  events (mem t) !! e = Some ev ->
  ms <> 0 ->
  sched t = mk_wakeup [OtherSetEvent e] late :: ws ->
  let r := WaitForMultipleEvents evs count false ms t in
  let expired := negb (ms =? INFINITE) && late in
  returned r = Some (if expired then ETIMEDOUT else 0, Z.of_nat j) /\
  sched (final r) = ws /\
  waits (trace (final r)) =
    waits (trace t) ++
    [wait_call (WfmoObj (length (wfmos (mem t)))) (timeout_of (clock t) ms)] /\
  State (event_at (mem (final r)) e) = negb (AutoReset ev) /\
  RegisteredWaits (event_at (mem (final r)) e) = [].
Proof.
  intros Hfresh Hdead Hnd Hpre Hj Hev Hms Hsch r expired.
  set (w := length (wfmos (mem t))) in *.
  assert (Hrun : exists h2 tr,
            WaitForMultipleEvents evs count false ms t =
              Returned (if expired then ETIMEDOUT else 0, Z.of_nat j)
                (mk_thread (finalized w h2) (clock t) ws tr) /\
            waits tr = waits (trace t) ++ [wait_call (WfmoObj w) (timeout_of (clock t) ms)] /\
            event_at h2 e = mk_event (AutoReset ev) (negb (AutoReset ev)) []).
  { subst expired. rewrite WaitForMultipleEvents_eq. cbv zeta. unfold registered. fold w.
    set (t0 := mk_thread _ _ _ _).
    destruct (register_waits_unsignaled w false (take (Z.to_nat count) evs) [] 0 t0 Hpre)
      as (t1 & E & H1 & H2 & H3 & HQ & H4 & H5 & H6 & H7 & H8 & H9).
    rewrite app_nil_r in E. rewrite E. cbn [register_waits ret].
    destruct (H5 _ (constructed_cell count false (mem t))) as (r' & Hr' & A & B & C).
    cbn [Status StillWaiting WaitAll] in A, B, C.
    pose proof (wfmo_at_cell _ _ _ Hr') as Hat.
    (* the queue of [e] once the waiter is registered *)
    assert (Hev0 : events (mem t0) !! e = Some ev) by exact Hev.
    assert (Hq : RegisteredWaits (event_at (mem t1) e) =
                 RegisteredWaits ev ++ [mk_info w (Z.of_nat j)]).
    { rewrite (HQ e j Hnd Hj (ex_intro _ ev Hev0)), (event_at_lookup _ _ _ Hev0), Z.add_0_l.
      reflexivity. }
    assert (Hev1 : exists ev1, events (mem t1) !! e = Some ev1).
    { destruct (events (mem t1) !! e) as [ev1|] eqn:E1; [eauto|].
      rewrite (event_at_dangling _ _ E1) in Hq. cbn in Hq.
      destruct (RegisteredWaits ev); discriminate. }
    destruct Hev1 as [ev1 Hev1]. rewrite (event_at_lookup _ _ _ Hev1) in Hq.
    assert (Ha1 : AutoReset ev1 = AutoReset ev).
    { pose proof (H2 e) as H. rewrite (event_at_lookup _ _ _ Hev1),
        (event_at_lookup _ _ _ Hev0) in H. exact H. }
    (* the registrations found there are stale and belong to other records *)
    assert (Hgone : Forall (fun i' => still_waiting (mem t1) i' = false /\
                                      Waiter i' <> Waiter (mk_info w (Z.of_nat j)))
                      (RegisteredWaits ev)).
    { assert (Hrefs : refs w (RegisteredWaits ev) = 0%nat).
      { pose proof (refs_le_regs_in w _ _ _ Hev) as Hle.
        change (regs_in w (events (mem t))) with (registrations w (mem t)) in Hle. lia. }
      pose proof (refs_zero_not_in _ _ Hrefs) as Hnot.
      rewrite Forall_forall in Hnot, Hdead. apply Forall_forall. intros i' Hi'.
      pose proof (Hnot _ Hi') as Hne. split; [|exact Hne].
      unfold still_waiting, wfmo_at. rewrite (H4 _ Hne).
      subst t0. cbn [mem]. rewrite constructed_others by exact Hne. exact (Hdead _ Hi'). }
    assert (Hlive : still_waiting (mem t1) (mk_info w (Z.of_nat j)) = true).
    { unfold still_waiting. cbn [Waiter]. rewrite Hat. exact B. }
    destruct (SetEvent_hands_over (mk_thread (mem t1) (mk_timeval 0 0) [] []) e ev1
                (RegisteredWaits ev) (mk_info w (Z.of_nat j)) Hev1 Hq Hgone Hlive)
      as (t2 & E2 & Hsig & Hevs).
    cbn [mem Waiter] in Hsig, Hevs. rewrite Hat in Hsig.
    assert (Hst2 : Status (wfmo_at (mem t2) w) = Z.of_nat j).
    { rewrite Hsig. unfold signalled. cbn [decr_RefCount set_RefCount WaitAll].
      rewrite C. reflexivity. }
    assert (Hsat1 : satisfied false (wfmo_at (mem t1) w) = false).
    { rewrite Hat. unfold satisfied. rewrite A. reflexivity. }
    (* the wait *)
    unfold wait_phase. destruct (Z.eqb_spec ms 0) as [|_]; [contradiction|].
    rewrite H7. subst t0. cbn [sched]. rewrite Hsch. cbn [wait_until_done].
    rewrite Hsat1.
    unfold wake. cbn [others timed_out run_others fold_left run_other].
    rewrite E2. cbn [final mem]. rewrite is_Some_timeout_of, H8. cbn [clock].
    set (t3 := mk_thread (mem t2) _ ws _).
    assert (Hsat : satisfied false (wfmo_at (mem t3) w) = true).
    { subst t3. cbn [mem]. unfold satisfied. rewrite Hst2. cbn [andb orb negb].
      destruct (Z.eqb_spec (Z.of_nat j) (-1)); [lia|reflexivity]. }
    assert (Hres : (if negb ((if negb (ms =? INFINITE) && late then ETIMEDOUT else 0) =? 0)
                    then Returned (if negb (ms =? INFINITE) && late then ETIMEDOUT else 0) t3
                    else wait_until_done w false (timeout_of (clock t) ms)
                           (if negb (ms =? INFINITE) && late then ETIMEDOUT else 0) ws t3) =
                   Returned (if negb (ms =? INFINITE) && late then ETIMEDOUT else 0) t3).
    { destruct (negb (ms =? INFINITE) && late); [reflexivity|].
      cbn [Z.eqb negb]. destruct ws; cbn [wait_until_done]; rewrite Hsat; reflexivity. }
    rewrite Hres. subst t3. cbn [mem sched trace clock]. rewrite Hst2.
    eexists _, _. split; [reflexivity|]. split.
    - rewrite waits_app. unfold finalize_calls. rewrite waits_release_calls, app_nil_r.
      rewrite waits_app, waits_wait_call, H9. cbn [trace]. rewrite waits_app. cbn.
      rewrite app_nil_r. reflexivity.
    - unfold event_at. rewrite Hevs, list_lookup_insert_eq by (eapply lookup_lt_Some; exact Hev1).
      rewrite Ha1. reflexivity. }
  destruct Hrun as (h2 & tr & Hrun & Hw & Hcell). subst r. rewrite Hrun.
  cbn [returned final mem sched trace].
  assert (Hfin : event_at (finalized w h2) e = event_at h2 e).
  { unfold event_at. rewrite events_finalized. reflexivity. }
  rewrite Hfin, Hcell. repeat split. exact Hw.
Qed.

(** Another wait is in progress on event 2, and the queue of event 1 holds
    the registration of a wait that has left. *)
Lemma wait_any_wakes_on_SetEvent_witness :
  let h := mk_heap [mk_event true false []; mk_event false false [mk_info 0 1];
                    mk_event true false [mk_info 1 0]]
                   [Some (mk_wfmo (-1) false 1 false); Some (mk_wfmo (-1) true 2 false)] in
  let t := start h (mk_timeval 0 0) [mk_wakeup [OtherSetEvent 1] false] in
  let s := start h (mk_timeval 0 0) [mk_wakeup [OtherSetEvent 0] true] in
  registrations (length (wfmos h)) h = 0%nat /\
  still_waiting h (mk_info 1 0) = true /\
  returned (WaitForMultipleEvents [0%nat; 1%nat] 2 false INFINITE t) = Some (0, 1) /\
  State (event_at (mem (final (WaitForMultipleEvents [0%nat; 1%nat] 2 false INFINITE t))) 1)
    = true /\
  returned (WaitForMultipleEvents [0%nat; 1%nat] 2 false 30 s) = Some (ETIMEDOUT, 0) /\
  State (event_at (mem (final (WaitForMultipleEvents [0%nat; 1%nat] 2 false 30 s))) 0)
    = false.
Proof.
  intros h t s.
  assert (Hfresh : registrations (length (wfmos h)) h = 0%nat) by (vm_compute; reflexivity).
  assert (Hnd : NoDup (take (Z.to_nat 2) [0%nat; 1%nat])).
  { change (take (Z.to_nat 2) [0%nat; 1%nat]) with [0%nat; 1%nat].
    apply NoDup_cons. split; [|apply NoDup_singleton].
    intros H. apply list_elem_of_singleton in H. discriminate. }
  assert (Hpre : Forall (fun e' => State (event_at h e') = false)
                   (take (Z.to_nat 2) [0%nat; 1%nat])) by (repeat constructor).
  assert (H30 : 30 <> 0) by discriminate.
  assert (Hinf : INFINITE <> 0) by discriminate.
  assert (Hd1 : Forall (fun i => still_waiting h i = false) [mk_info 0 1])
    by (repeat constructor).
  assert (Hd0 : Forall (fun i => still_waiting h i = false) []) by constructor.
  destruct (wait_any_wakes_on_SetEvent t [0%nat; 1%nat] 2 1 1
              (mk_event false false [mk_info 0 1]) INFINITE false []
              Hfresh Hd1 Hnd Hpre eq_refl eq_refl Hinf eq_refl) as (A & _ & _ & B & _).
  destruct (wait_any_wakes_on_SetEvent s [0%nat; 1%nat] 2 0 0
              (mk_event true false []) 30 true []
              Hfresh Hd0 Hnd Hpre eq_refl eq_refl H30 eq_refl) as (C & _ & _ & D & _).
  split; [exact Hfresh|]. split; [reflexivity|].
  split; [exact A|]. split; [exact B|]. split; [exact C|exact D].
Defined.

(** ** [EventsLeft] and the assertions *)

Lemma not_failed_app (tr tr' : list pthread_call) :
  assert_failed ∉ tr' -> assert_failed ∈ tr ++ tr' -> assert_failed ∈ tr.
Proof. intros Hn H. apply elem_of_app in H as [H|H]; [exact H|contradiction]. Qed.

Lemma release_calls_not_failed w h : assert_failed ∉ release_calls w h.
Proof.
  unfold release_calls. intros H. destruct (_ =? _);
    repeat (apply elem_of_cons in H as [H|H]; [discriminate|]);
    apply elem_of_nil in H; exact H.
Qed.

Lemma events_left_ok_wfmos w h h' :
  wfmos h' = wfmos h -> events_left_ok w h -> events_left_ok w h'.
Proof. unfold events_left_ok, wfmo_at. intros ->. auto. Qed.

(** The registration loop of a wait for all: every event it takes is one
    event less, every event it registers on is one reference more. *)
Lemma register_waits_left w es : forall i t r,
  mjoin (wfmos (mem t) !! w) = Some r ->
  Status r = RefCount r - 1 + Z.of_nat (length es) ->
  1 <= RefCount r ->
  RefCount r + Z.of_nat (length es) <= Int.max ->
  exists t1 r1,
    register_waits w true i es t = Returned false t1 /\
    mjoin (wfmos (mem t1) !! w) = Some r1 /\
    Status r1 = RefCount r1 - 1 /\
    (assert_failed ∈ trace t1 -> assert_failed ∈ trace t).
Proof.
  induction es as [|e es IH]; intros i t r Hr Hst Hrc Hmax.
  - exists t, r. cbn [register_waits ret length] in *. repeat split; auto. lia.
  - cbn [length] in Hst, Hmax. rewrite Nat2Z.inj_succ in Hst, Hmax.
    rewrite register_waits_cons. cbv zeta.
    destruct (State (event_at (mem t) e)).
    + assert (Hr0 : mjoin (wfmos (consumed e (mem t)) !! w) = Some r).
      { unfold consumed. destruct (AutoReset _); exact Hr. }
      pose proof (cell_upd_wfmo _ _ decr_Status _ Hr0) as Hc.
      rewrite (wfmo_at_cell _ _ _ Hc).
      assert (Hd : Int.decr (Status r) = Status r - 1) by (apply Int_decr_pos; lia).
      cbn [decr_Status set_Status Status]. rewrite Hd.
      replace (0 <=? Status r - 1) with true by (symmetry; apply Z.leb_le; lia).
      cbn [assert_calls]. rewrite app_nil_r.
      match goal with |- context [register_waits w true (i + 1) es ?t0] =>
        destruct (IH (i + 1) t0 (decr_Status r)) as (t1 & r1 & E & H1 & H2 & H3) end.
      * exact Hc.
      * cbn [decr_Status set_Status Status RefCount]. rewrite Hd. lia.
      * exact Hrc.
      * cbn [decr_Status set_Status RefCount]. lia.
      * exists t1, r1. split; [exact E|]. split; [exact H1|]. split; [exact H2|].
        intros H. apply H3 in H. cbn [trace] in H. revert H. apply not_failed_app.
        intros H. repeat (apply elem_of_cons in H as [H|H]; [discriminate|]).
        apply elem_of_nil in H. exact H.
    + assert (Hr0 : mjoin (wfmos (upd_event e (push_back (mk_info w i)) (mem t)) !! w) = Some r)
        by exact Hr.
      pose proof (cell_upd_wfmo _ _ incr_RefCount _ Hr0) as Hc.
      assert (Hi : Int.incr (RefCount r) = RefCount r + 1) by (apply Int_incr_small; lia).
      match goal with |- context [register_waits w true (i + 1) es ?t0] =>
        destruct (IH (i + 1) t0 (incr_RefCount r)) as (t1 & r1 & E & H1 & H2 & H3) end.
      * exact Hc.
      * cbn [incr_RefCount set_RefCount Status RefCount]. rewrite Hi. lia.
      * cbn [incr_RefCount set_RefCount RefCount]. rewrite Hi. lia.
      * cbn [incr_RefCount set_RefCount RefCount]. rewrite Hi. lia.
      * exists t1, r1. split; [exact E|]. split; [exact H1|]. split; [exact H2|].
        intros H. apply H3 in H. cbn [trace] in H. revert H. apply not_failed_app.
        intros H. repeat (apply elem_of_cons in H as [H|H]; [discriminate|]).
        apply elem_of_nil in H. exact H.
Qed.

(** ** No record outlives the registrations *)

Lemma regs_in_cleared w l : regs_in w (map set_and_cleared l) = 0%nat.
Proof. induction l as [|ev l IH]; [reflexivity|]. unfold regs_in in *. cbn. exact IH. Qed.

Lemma SetEvent_each_quiescent h : refcount_ok None h ->
  forall k, (k <= length (events h))%nat ->
    refcount_ok None (run_others (map OtherSetEvent (seq 0 k)) h) /\
    events (run_others (map OtherSetEvent (seq 0 k)) h) =
      map set_and_cleared (take k (events h)) ++ drop k (events h).
Proof.
  intros Hok. induction k as [|k IH]; intros Hk.
  - cbn [seq map run_others fold_left]. rewrite take_0, drop_0. auto.
  - destruct IH as [Hokk Hevk]; [lia|].
    rewrite seq_S, map_app, run_others_app. cbn [map run_others fold_left Nat.add].
    set (hk := run_others (map OtherSetEvent (seq 0 k)) h) in *.
    destruct (lookup_lt_is_Some_2 (events h) k ltac:(lia)) as [ev Hev].
    assert (Hlen : length (map set_and_cleared (take k (events h))) = k).
    { rewrite length_map, length_take_le by lia. reflexivity. }
    assert (Hevk' : events hk !! k = Some ev).
    { rewrite Hevk, lookup_app_r by lia. rewrite Hlen, Nat.sub_diag, lookup_drop, Nat.add_0_r.
      exact Hev. }
    destruct (SetEvent_quiescent (mk_thread hk (mk_timeval 0 0) [] []) k ev Hokk Hevk')
      as (t' & E & _ & Hok' & Hevs & _).
    cbn [run_other]. rewrite E. cbn [final]. split; [exact Hok'|].
    rewrite Hevs. cbn [mem]. rewrite Hevk.
    rewrite insert_app_r_alt by lia. rewrite Hlen, Nat.sub_diag.
    rewrite (drop_S _ _ _ Hev). cbn [insert list_insert].
    rewrite (take_S_r _ _ _ Hev), map_app, <- app_assoc. reflexivity.
Qed.

(** X18.  No record outlives its registrations: in a store where no wait
    for several events is in progress, once [SetEvent] has been called on
    every event, every record has been deleted, and every event is signaled
    with an empty queue.  The registrations that waits leave behind cost
    memory only until the events they are on are set. *)
Theorem setting_every_event_frees_every_record (h : heap) :
  refcount_ok None h ->
  let h' := run_others (map OtherSetEvent (seq 0 (length (events h)))) h in
  (forall w, mjoin (wfmos h' !! w) = None) /\
  events h' = map set_and_cleared (events h) /\
  refcount_ok None h'.
Proof.
  intros Hok h'.
  destruct (SetEvent_each_quiescent h Hok (length (events h)) (Nat.le_refl _)) as [Hok' Hev].
  fold h' in Hok', Hev. rewrite firstn_all, drop_all, app_nil_r in Hev.
  split; [|auto].
  intros w. apply (refcount_ok_unregistered _ _ Hok').
  unfold registrations. rewrite Hev. apply regs_in_cleared.
Qed.

Lemma setting_every_event_frees_every_record_witness :
  let h := mk_heap [mk_event true false [mk_info 0 0; mk_info 1 1];
                    mk_event false true [mk_info 1 0]]
                   [Some (mk_wfmo 0 false 1 false); Some (mk_wfmo 1 false 2 true)] in
  let h' := run_others [OtherSetEvent 0; OtherSetEvent 1] h in
  refcount_ok None h /\
  h' = mk_heap [mk_event true true []; mk_event false true []] [None; None] /\
  (forall w, mjoin (wfmos h' !! w) = None).
Proof.
  intros h h'.
  assert (Hok : refcount_ok None h).
  { intros [|[|w]]; vm_compute; repeat split; try discriminate; try reflexivity. }
  destruct (setting_every_event_frees_every_record h Hok) as (A & _).
  split; [exact Hok|]. split; [vm_compute; reflexivity|exact A].
Defined.

(** ** The index a wait for any event returns *)

(** [SetEvent] only takes registrations away. *)
Lemma SetEvent_auto_queue event q : forall t,
  exists f, events (mem (final (SetEvent_auto event q t))) = alter f event (events (mem t)) /\
    forall ev i, i ∈ RegisteredWaits (f ev) -> i ∈ RegisteredWaits ev.
Proof.
  induction q as [|i q IH]; intros t.
  - exists (fun ev => ev). split; [|auto]. cbn. symmetry. apply list_alter_id. reflexivity.
  - rewrite SetEvent_auto_cons. cbv zeta. destruct (StillWaiting _).
    + exists (fun ev => pop_front (set_State false ev)). split.
      * cbn [final mem]. unfold upd_event at 1. cbn [events]. rewrite events_notified.
        unfold upd_event, after_decr. cbn [events]. rewrite list_alter_alter_eq. reflexivity.
      * intros ev j Hj. cbn in Hj. destruct (RegisteredWaits ev); [exact Hj|].
        apply list_elem_of_further, Hj.
    + match goal with |- context [SetEvent_auto event q ?t2] =>
        destruct (IH t2) as (f & E & Hf) end.
      exists (fun ev => f (pop_front ev)). split.
      * rewrite E. cbn [mem]. unfold upd_event. cbn [events]. rewrite events_released.
        unfold after_decr. rewrite events_upd_wfmo, list_alter_alter_eq. reflexivity.
      * intros ev j Hj. apply Hf in Hj. cbn in Hj. destruct (RegisteredWaits ev); [exact Hj|].
        apply list_elem_of_further, Hj.
Qed.

Lemma queue_shrinks_alter h h' e f :
  events h' = alter f e (events h) ->
  (forall ev i, i ∈ RegisteredWaits (f ev) -> i ∈ RegisteredWaits ev) ->
  forall e' i, i ∈ RegisteredWaits (event_at h' e') -> i ∈ RegisteredWaits (event_at h e').
Proof.
  intros He Hf e' i. unfold event_at. rewrite He.
  destruct (decide (e = e')) as [->|Hne].
  - rewrite list_lookup_alter, decide_True by reflexivity.
    destruct (events h !! e') as [ev|]; cbn; [apply Hf|auto].
  - rewrite list_lookup_alter_ne by exact Hne. auto.
Qed.

Lemma SetEvent_queues_shrink e t :
  forall e' i, i ∈ RegisteredWaits (event_at (mem (final (SetEvent e t))) e') ->
               i ∈ RegisteredWaits (event_at (mem t) e').
Proof.
  unfold SetEvent. run.
  assert (H1 : forall e' i,
            i ∈ RegisteredWaits (event_at (upd_event e (set_State true) (mem t)) e') ->
            i ∈ RegisteredWaits (event_at (mem t) e')).
  { apply (queue_shrinks_alter _ _ e (set_State true)); [reflexivity|]. intros ev i H. exact H. }
  destruct (AutoReset (event_at (upd_event e (set_State true) (mem t)) e)).
  - match goal with |- context [SetEvent_auto e ?q ?t1] =>
      destruct (SetEvent_auto_queue e q t1) as (f & E & Hf);
      pose proof (queue_shrinks_alter _ _ e f E Hf) as H2;
      destruct (SetEvent_auto e q t1) as [[r|] t2|t2] end; cbn [final mem] in H2 |- *.
    + run. intros e' i H. apply H1, H2, H.
    + run. destruct (State (event_at (mem t2) e)); run; intros e' i H; apply H1, H2, H.
    + intros e' i H. apply H1, H2, H.
  - match goal with |- context [SetEvent_manual ?q ?t1] =>
      pose proof (SetEvent_manual_events q t1) as E;
      destruct (SetEvent_manual q t1) as [r t2|t2] end; cbn [final mem] in E |- *.
    + run. intros e' i H. apply H1.
      revert e' i H. apply (queue_shrinks_alter _ _ e (set_RegisteredWaits [])).
      * cbn [mem]. unfold upd_event at 1. cbn [events]. rewrite E. reflexivity.
      * intros ev i H. cbn in H. apply elem_of_nil in H. contradiction.
    + intros e' i H. apply H1. unfold event_at in *. rewrite <- E. exact H.
Qed.

Lemma RegisteredWaits_consumed e h e' :
  RegisteredWaits (event_at (consumed e h) e') = RegisteredWaits (event_at h e').
Proof.
  unfold consumed. destruct (AutoReset (event_at h e)); [|reflexivity].
  unfold event_at, upd_event. cbn [events].
  destruct (decide (e = e')) as [->|Hne].
  - rewrite list_lookup_alter, decide_True by reflexivity.
    destruct (events h !! e'); reflexivity.
  - rewrite list_lookup_alter_ne by exact Hne. reflexivity.
Qed.

Lemma wait_any_of_nothing_witness :
  let h := mk_heap [mk_event true true []] [] in
  let ws := [mk_wakeup [OtherSetEvent 0] false; mk_wakeup [] true] in
  returned (WaitForMultipleEvents [0%nat] 0 false 20 (start h (mk_timeval 0 0) ws)) =
    Some (ETIMEDOUT, -1) /\
  returned (WaitForMultipleEvents [0%nat] 0 false INFINITE (start h (mk_timeval 0 0) ws)) =
    None.
Proof.
  intros h ws.
  assert (H20 : 20 <> 0) by discriminate.
  assert (Hinf : INFINITE <> 0) by discriminate.
  assert (Hreg : registrations (length (wfmos (mem (start h (mk_timeval 0 0) ws))))
                   (mem (start h (mk_timeval 0 0) ws)) = 0%nat) by reflexivity.
  split.
  - exact (wait_any_of_nothing [0%nat] 20 (start h (mk_timeval 0 0) ws) H20 Hreg).
  - exact (wait_any_of_nothing [0%nat] INFINITE (start h (mk_timeval 0 0) ws) Hinf Hreg).
Defined.

Lemma manual_reset_sticks_witness :
  let h := mk_heap [mk_event false true []; mk_event true false []] [] in
  let ws := [mk_wakeup [OtherSetEvent 0; OtherResetEvent 1] true] in
  let t := start h (mk_timeval 0 0) ws in
  sticky 0 (mem t) /\
  no_reset 0 (sched t) /\
  returned (WaitForEvent 0 INFINITE t) = Some 0 /\
  sticky 0 (mem (final (WaitForEvent 1 10 t))) /\
  sticky 0 (mem (final (WaitForMultipleEvents [1%nat; 0%nat] 2 true 10 t))).
Proof.
  intros h ws t.
  assert (Hs : sticky 0 (mem t)) by (split; reflexivity).
  assert (Hn : no_reset 0 (sched t)).
  { repeat constructor; discriminate. }
  destruct (manual_reset_sticks 0 t Hs Hn) as (A & _ & _ & B & C).
  split; [exact Hs|]. split; [exact Hn|]. split; [rewrite A; reflexivity|].
  split; [apply B|apply C].
Defined.

Lemma CreateEvent_adds_one_event_witness :
  let h := mk_heap [mk_event true false [mk_info 0 0]] [Some (mk_wfmo (-1) true 2 false)] in
  let r := CreateEvent true false (start h (mk_timeval 0 0) []) in
  returned r = Some 1%nat /\
  mem (final r) = mk_heap [mk_event true false [mk_info 0 0]; mk_event false true []]
                          [Some (mk_wfmo (-1) true 2 false)] /\
  event_at (mem (final r)) 0 = mk_event true false [mk_info 0 0].
Proof.
  intros h r.
  destruct (CreateEvent_adds_one_event true false (start h (mk_timeval 0 0) []))
    as (A & _ & _ & _ & _ & B).
  split; [exact A|]. split; [vm_compute; reflexivity|].
  apply (B 0%nat). reflexivity.
Defined.

(** * Stores with several waits in progress *)

(** ** The reference counts *)

Lemma owns_nonneg O w : 0 <= owns O w.
Proof. unfold owns. destruct (bool_decide _); lia. Qed.

Lemma owns_in O w : w ∈ O -> owns O w = 1.
Proof. intros H. unfold owns. rewrite bool_decide_eq_true_2; [reflexivity|exact H]. Qed.

Lemma owns_notin O w : w ∉ O -> owns O w = 0.
Proof. intros H. unfold owns. rewrite bool_decide_eq_false_2; [reflexivity|exact H]. Qed.

Lemma visited_counteds O base i q h :
  (forall w, 0 <= base w) ->
  (forall w, w ∈ O -> 1 <= base w) ->
  counteds O base (i :: q) h ->
  counteds O base q (visited i h).
Proof.
  intros Hbase Hown Hc w. specialize (Hc w).
  destruct (decide (Waiter i = w)) as [<-|Hne].
  - rewrite refs_cons_eq in Hc.
    destruct (wfmos h !! Waiter i) as [[r|]|] eqn:Hcell;
      [|specialize (Hbase (Waiter i)); lia..].
    destruct Hc as (Hrc & Hpos & Hsw).
    assert (Hj : mjoin (wfmos h !! Waiter i) = Some r) by (rewrite Hcell; reflexivity).
    pose proof (cell_upd_wfmo _ _ decr_RefCount _ Hj) as Hc1.
    fold (after_decr i h) in Hc1.
    unfold visited. cbv zeta. rewrite (wfmo_at_cell _ _ _ Hc1).
    cbn [decr_RefCount set_RefCount StillWaiting].
    destruct (StillWaiting r) eqn:Hs.
    + specialize (Hown _ (Hsw eq_refl)).
      unfold notified. rewrite (wfmo_at_cell _ _ _ Hc1). cbn [decr_RefCount set_RefCount WaitAll].
      destruct (WaitAll r).
      * pose proof (cell_upd_wfmo _ _ decr_Status _ Hc1) as Hc2.
        destruct (wfmos (upd_wfmo _ _ _) !! Waiter i) as [[r2|]|]; cbn in Hc2; try discriminate.
        injection Hc2 as ->. cbn. rewrite Int_decr_pos by assumption.
        repeat split; try lia; try (intros _; apply Hsw; reflexivity).
      * pose proof (cell_upd_wfmo _ _ (set_StillWaiting false) _
                      (cell_upd_wfmo _ _ (set_Status (WaitIndex i)) _ Hc1)) as Hc2.
        destruct (wfmos (upd_wfmo _ _ _) !! Waiter i) as [[r2|]|]; cbn in Hc2; try discriminate.
        injection Hc2 as ->. cbn. rewrite Int_decr_pos by assumption.
        repeat split; try lia; try discriminate.
    + unfold released. rewrite (wfmo_at_cell _ _ _ Hc1).
      cbn [decr_RefCount set_RefCount RefCount]. rewrite Int_decr_pos by assumption.
      destruct (Z.eqb_spec (RefCount r - 1) 0) as [Hz|Hz].
      * unfold free_wfmo. cbn [wfmos]. rewrite list_lookup_alter, decide_True by reflexivity.
        destruct (wfmos (after_decr i h) !! Waiter i) as [[r2|]|]; cbn; lia.
      * destruct (wfmos (after_decr i h) !! Waiter i) as [[r2|]|]; cbn in Hc1; try discriminate.
        injection Hc1 as ->. cbn. rewrite Int_decr_pos by assumption.
        repeat split; try lia; try congruence.
  - rewrite wfmos_visited_ne by assumption. rewrite refs_cons_ne in Hc by assumption. exact Hc.
Qed.

Lemma counteds_wfmos O base q h h' :
  wfmos h' = wfmos h -> counteds O base q h -> counteds O base q h'.
Proof. intros E H w. rewrite E. apply H. Qed.

Section Walks_several.
Variable O : list nat.
Variable base : nat -> Z.
Hypothesis base_nonneg : forall w, 0 <= base w.
Hypothesis base_owner : forall w, w ∈ O -> 1 <= base w.

Lemma SetEvent_manual_counteds q t :
  counteds O base q (mem t) ->
  exists t', SetEvent_manual q t = Returned tt t' /\
    counteds O base [] (mem t') /\
    events (mem t') = events (mem t) /\
    sched t' = sched t /\ clock t' = clock t.
Proof.
  revert t. induction q as [|i q IH]; intros t Hc.
  - exists t. repeat split; try reflexivity. exact Hc.
  - rewrite SetEvent_manual_cons. cbv zeta.
    pose proof (visited_counteds O base i q (mem t) base_nonneg base_owner Hc) as Hv.
    unfold visited in Hv. cbv zeta in Hv.
    destruct (StillWaiting (wfmo_at (after_decr i (mem t)) (Waiter i))).
    + match goal with |- context [SetEvent_manual q ?t2] =>
        destruct (IH t2 Hv) as (t' & E & Hc' & Hev & Hs & Hk) end.
      exists t'. split; [exact E|]. split; [exact Hc'|].
      cbn [mem sched clock] in *. rewrite Hev, events_notified. repeat split; assumption.
    + match goal with |- context [SetEvent_manual q ?t2] =>
        destruct (IH t2 Hv) as (t' & E & Hc' & Hev & Hs & Hk) end.
      exists t'. split; [exact E|]. split; [exact Hc'|].
      cbn [mem sched clock] in *. rewrite Hev, events_released. repeat split; assumption.
Qed.

Lemma SetEvent_auto_counteds event q t :
  counteds O base q (mem t) ->
  exists r t' q' f, SetEvent_auto event q t = Returned r t' /\
    counteds O base q' (mem t') /\
    events (mem t') = alter f event (events (mem t)) /\
    (forall ev, RegisteredWaits ev = q -> RegisteredWaits (f ev) = q') /\
    sched t' = sched t /\ clock t' = clock t /\
    exists p, q = p ++ q'.
Proof.
  revert t. induction q as [|i q IH]; intros t Hc.
  - exists None, t, [], (fun ev => ev).
    split; [reflexivity|]. split; [exact Hc|]. split; [|split; [tauto|]].
    + symmetry. apply list_alter_id. reflexivity.
    + split; [reflexivity|]. split; [reflexivity|]. exists []. reflexivity.
  - rewrite SetEvent_auto_cons. cbv zeta.
    pose proof (visited_counteds O base i q (mem t) base_nonneg base_owner Hc) as Hv.
    unfold visited in Hv. cbv zeta in Hv.
    destruct (StillWaiting (wfmo_at (after_decr i (mem t)) (Waiter i))).
    + eexists (Some 0), _, q, (fun ev => pop_front (set_State false ev)).
      split; [reflexivity|]. cbn [mem sched clock].
      split; [|split; [|split; [|split; [|split]]]]; try reflexivity.
      * eapply counteds_wfmos; [|exact Hv].
        rewrite wfmos_upd_event. apply wfmos_notified_upd_event.
      * unfold upd_event at 1. cbn [events]. rewrite events_notified.
        unfold upd_event. cbn [events]. rewrite list_alter_alter_eq. reflexivity.
      * intros ev Hq. cbn. rewrite Hq. reflexivity.
      * exists [i]. reflexivity.
    + match goal with |- context [SetEvent_auto event q ?t2] =>
        destruct (IH t2) as (r & t' & q' & f & E & Hc' & Hev & Hf & Hs & Hk & p & Hp) end.
      { cbn [mem]. eapply counteds_wfmos; [|exact Hv]. apply wfmos_upd_event. }
      exists r, t', q', (fun ev => f (pop_front ev)).
      split; [exact E|]. split; [exact Hc'|]. cbn [mem sched clock] in *.
      split; [|split; [|split; [|split]]]; try assumption.
      * rewrite Hev. unfold upd_event. cbn [events]. rewrite events_released.
        rewrite list_alter_alter_eq. reflexivity.
      * intros ev Hq. apply Hf. cbn. rewrite Hq. reflexivity.
      * exists (i :: p). rewrite Hp. reflexivity.
Qed.
End Walks_several.

Lemma SetEvent_refcounts_ok O event t :
  refcounts_ok O (mem t) ->
  exists t', SetEvent event t = Returned 0 t' /\
    refcounts_ok O (mem t') /\ sched t' = sched t /\ clock t' = clock t /\
    exists p, RegisteredWaits (event_at (mem t) event) =
                p ++ RegisteredWaits (event_at (mem t') event) /\
      forall w, registrations w (mem t) = (registrations w (mem t') + refs w p)%nat.
Proof.
  intros Hok. unfold SetEvent. run.
  destruct (events (mem t) !! event) as [ev|] eqn:Hev.
  2:{ rewrite (upd_event_dangling _ _ _ Hev), (event_at_dangling _ _ Hev). cbn.
      run. rewrite (upd_event_dangling _ _ _ Hev). eexists. split; [reflexivity|].
      cbn. split; [exact Hok|]. split; [reflexivity|]. split; [reflexivity|].
      exists []. rewrite (event_at_dangling _ _ Hev). split; [reflexivity|].
      intros w. change (refs w []) with 0%nat. lia. }
  rewrite (event_at_upd_event_eq _ _ _ _ Hev). cbn [set_State AutoReset RegisteredWaits].
  set (q := RegisteredWaits ev).
  set (base := fun w => owns O w + Z.of_nat (registrations w (mem t)) - Z.of_nat (refs w q)).
  assert (Hsplit : forall w, (refs w q <= registrations w (mem t))%nat).
  { intros w. exact (refs_le_regs_in w _ _ _ Hev). }
  assert (Hb0 : forall w, 0 <= base w).
  { intros w. subst base. cbn. pose proof (owns_nonneg O w). specialize (Hsplit w). lia. }
  assert (Hb1 : forall w, w ∈ O -> 1 <= base w).
  { intros w Hw. subst base. cbn. rewrite (owns_in _ _ Hw). specialize (Hsplit w). lia. }
  assert (Hc : counteds O base q (upd_event event (set_State true) (mem t))).
  { intros w. rewrite wfmos_upd_event. specialize (Hok w). subst base. cbn.
    destruct (wfmos (mem t) !! w) as [[r|]|]; [|specialize (Hsplit w); lia..].
    destruct Hok as (H1 & H2 & H3). specialize (Hsplit w).
    repeat split; try assumption; try lia. }
  assert (Hev1 : events (upd_event event (set_State true) (mem t)) !! event = Some (set_State true ev)).
  { unfold upd_event. cbn [events]. rewrite list_lookup_alter, decide_True by reflexivity.
    rewrite Hev. reflexivity. }
  assert (Hfinish : forall h' q' f,
    counteds O base q' h' ->
    events h' = alter f event (events (mem t)) ->
    RegisteredWaits (f ev) = q' ->
    (exists p, q = p ++ q') ->
    refcounts_ok O h' /\
    exists p, RegisteredWaits (event_at (mem t) event) = p ++ RegisteredWaits (event_at h' event) /\
      forall w, registrations w (mem t) = (registrations w h' + refs w p)%nat).
  { intros h' q' f Hc' He Hq [p Hp]. split.
    2:{ exists p. rewrite (event_at_lookup _ _ _ Hev). fold q.
        assert (Hq' : RegisteredWaits (event_at h' event) = q').
        { unfold event_at. rewrite He, list_lookup_alter, decide_True by reflexivity.
          rewrite Hev. exact Hq. }
        rewrite Hq'. split; [exact Hp|]. intros w. unfold registrations. rewrite He.
        pose proof (regs_in_alter w f (events (mem t)) event ev Hev) as Hr.
        rewrite Hq in Hr. fold q in Hr. unfold regs_in in Hr.
        rewrite Hp, refs_app in Hr. lia. }
    intros w. specialize (Hc' w). unfold registrations. rewrite He.
    pose proof (regs_in_alter w f (events (mem t)) event ev Hev) as Hr.
    rewrite Hq in Hr. fold q in Hr. unfold regs_in in Hr. subst base. cbn in Hc'.
    unfold registrations in Hc'.
    destruct (wfmos h' !! w) as [[r|]|]; [|lia..].
    destruct Hc' as (H1 & H2 & H3). repeat split; try assumption; lia. }
  destruct (AutoReset ev).
  - match goal with |- context [SetEvent_auto event q ?t1] =>
      destruct (SetEvent_auto_counteds O base Hb0 Hb1 event q t1 Hc)
        as (r & t' & q' & f & E & Hc' & He & Hf & Hs & Hk & Hp) end.
    rewrite E. cbn [mem sched clock] in *.
    pose proof (Hfinish (mem t') q' (fun ev => f (set_State true ev)) Hc') as Hok'.
    destruct Hok' as [A B]; [| |exact Hp|].
    { rewrite He. unfold upd_event. cbn [events]. apply list_alter_alter_eq. }
    { apply Hf. reflexivity. }
    destruct r as [r|].
    + assert (r = 0) as ->.
      { clear -E. revert E. generalize (mk_thread (upd_event event (set_State true) (mem t))
          (clock t) (sched t) (trace t ++ [pthread_mutex_lock (EventObj event)])).
        induction q as [|i q IH]; intros t1 E; [discriminate|].
        rewrite SetEvent_auto_cons in E. cbv zeta in E.
        destruct (StillWaiting _); [congruence|]. eapply IH. exact E. }
      run. eexists. split; [reflexivity|]. cbn [mem sched clock]. auto.
    + run. destruct (State (event_at (mem t') event)); run;
        (eexists; split; [reflexivity|]); cbn [mem sched clock]; auto.
  - match goal with |- context [SetEvent_manual q ?t1] =>
      destruct (SetEvent_manual_counteds O base Hb0 Hb1 q t1 Hc)
        as (t' & E & Hc' & He & Hs & Hk) end.
    rewrite E. cbn [mem sched clock] in *. run.
    eexists. split; [reflexivity|]. cbn [mem sched clock].
    destruct (Hfinish (upd_event event (set_RegisteredWaits []) (mem t')) []
                (fun ev => set_RegisteredWaits [] (set_State true ev))) as [A B]; [| | | |auto].
    + eapply counteds_wfmos; [|exact Hc']. apply wfmos_upd_event.
    + unfold upd_event at 1. cbn [events]. rewrite He. unfold upd_event. cbn [events].
      apply list_alter_alter_eq.
    + reflexivity.
    + exists q. rewrite app_nil_r. reflexivity.
Qed.

Lemma refcounts_ok_upd_event O e f h :
  (forall ev, RegisteredWaits (f ev) = RegisteredWaits ev) ->
  refcounts_ok O h -> refcounts_ok O (upd_event e f h).
Proof.
  intros Hf Hok w. specialize (Hok w). rewrite wfmos_upd_event.
  rewrite registrations_upd_event by assumption. exact Hok.
Qed.

Lemma refcounts_ok_consumed O e h :
  refcounts_ok O h -> refcounts_ok O (consumed e h).
Proof.
  intros H. unfold consumed. destruct (AutoReset _); [|exact H].
  apply refcounts_ok_upd_event; [reflexivity|exact H].
Qed.

Lemma refcounts_ok_upd_wfmo O w f h :
  (forall r, RefCount (f r) = RefCount r) ->
  (forall r, StillWaiting (f r) = true -> StillWaiting r = true) ->
  refcounts_ok O h -> refcounts_ok O (upd_wfmo w f h).
Proof.
  intros Hrc Hsw Hok w'. specialize (Hok w').
  change (registrations w' (upd_wfmo w f h)) with (registrations w' h).
  unfold upd_wfmo. cbn [wfmos]. rewrite list_lookup_alter.
  destruct (decide (w = w')) as [<-|]; [|exact Hok].
  destruct (wfmos h !! w) as [[r|]|]; cbn; try exact Hok.
  rewrite Hrc. destruct Hok as (H1 & H2 & H3).
  split; [exact H1|]. split; [exact H2|].
  intros H. apply H3, Hsw, H.
Qed.

Lemma run_other_refcounts_ok O op h :
  refcounts_ok O h -> refcounts_ok O (run_other h op).
Proof.
  intros H. destruct op as [e|e]; cbn [run_other].
  - destruct (SetEvent_refcounts_ok O e (mk_thread h (mk_timeval 0 0) [] []) H)
      as (t' & E & Hok & _). rewrite E. exact Hok.
  - rewrite ResetEvent_eq. cbn. apply refcounts_ok_upd_event; [reflexivity|exact H].
Qed.

Lemma run_others_refcounts_ok O ops h :
  refcounts_ok O h -> refcounts_ok O (run_others ops h).
Proof.
  revert h. induction ops as [|op ops IH]; intros h H; [exact H|].
  cbn. apply IH, run_other_refcounts_ok, H.
Qed.

Lemma wait_until_set_refcounts_ok O e ts ws t :
  refcounts_ok O (mem t) ->
  refcounts_ok O (mem (final (wait_until_set e ts ws t))).
Proof.
  revert t. induction ws as [|w ws IH]; intros t H; [exact H|].
  cbn [wait_until_set wake].
  match goal with |- context [if ?c then _ else _] => destruct c end.
  - apply IH. cbn. apply run_others_refcounts_ok, H.
  - cbn. apply run_others_refcounts_ok, H.
Qed.

Lemma UnlockedWaitForEvent_refcounts_ok O e ms t :
  refcounts_ok O (mem t) ->
  refcounts_ok O (mem (final (UnlockedWaitForEvent e ms t))).
Proof.
  intros H. destruct (State (event_at (mem t) e)) eqn:Hs.
  - unfold UnlockedWaitForEvent. run. rewrite Hs. cbn [negb].
    destruct (AutoReset _); run; [|exact H].
    apply refcounts_ok_upd_event; [reflexivity|exact H].
  - destruct (Z.eqb_spec ms 0) as [->|Hms].
    + rewrite UnlockedWaitForEvent_zero, Hs. exact H.
    + rewrite UnlockedWaitForEvent_wait by assumption.
      pose proof (wait_until_set_refcounts_ok O e (timeout_of (clock t) ms) (sched t) t H) as Hw.
      destruct (wait_until_set _ _ _ _) as [a t'|t']; cbn in Hw |- *; [|exact Hw].
      destruct (_ && _); [|exact Hw].
      apply refcounts_ok_upd_event; [reflexivity|exact Hw].
Qed.

Lemma WaitForEvent_refcounts_ok O e ms t :
  refcounts_ok O (mem t) ->
  refcounts_ok O (mem (final (WaitForEvent e ms t))).
Proof.
  intros H. unfold WaitForEvent. unfold bind at 1. unfold call at 1. unfold bind at 1.
  match goal with |- context [UnlockedWaitForEvent e ms ?t1] =>
    pose proof (UnlockedWaitForEvent_refcounts_ok O e ms t1 H) as Hu;
    destruct (UnlockedWaitForEvent e ms t1) as [a t'|t'] end; cbn in Hu |- *; exact Hu.
Qed.

Lemma owners_cell O w h :
  refcounts_ok O h -> w ∈ O -> exists r, wfmos h !! w = Some (Some r).
Proof.
  intros H Hw. specialize (H w). rewrite (owns_in _ _ Hw) in H.
  destruct (wfmos h !! w) as [[r|]|]; [eauto|lia..].
Qed.

Lemma refcounts_ok_same O O' h :
  (forall x, x ∈ O' <-> x ∈ O) -> refcounts_ok O h -> refcounts_ok O' h.
Proof.
  intros HO Hok w. specialize (Hok w).
  assert (E : owns O' w = owns O w).
  { unfold owns. destruct (decide (w ∈ O)) as [Hi|Hi].
    - rewrite !bool_decide_eq_true_2; [reflexivity|exact Hi|apply HO, Hi].
    - rewrite !bool_decide_eq_false_2; [reflexivity|exact Hi|].
      intros H. apply Hi, HO, H. }
  rewrite E. destruct (wfmos h !! w) as [[r|]|]; try exact Hok.
  destruct Hok as (A & B & C). split; [exact A|]. split; [exact B|].
  intros Hs. apply HO, C, Hs.
Qed.

(** The record that the next call will construct is not among those of the
    calls in progress. *)
Lemma owners_allocated O h w :
  refcounts_ok O h -> w ∈ O -> (w < length (wfmos h))%nat.
Proof.
  intros Hok Hw. destruct (owners_cell _ _ _ Hok Hw) as [r Hr].
  apply lookup_lt_Some in Hr. exact Hr.
Qed.

Lemma constructed_oks O count waitAll h :
  refcounts_ok O h ->
  refcounts_ok (length (wfmos h) :: O) (constructed count waitAll h) /\
  RefCount (wfmo_at (constructed count waitAll h) (length (wfmos h))) = 1.
Proof.
  intros Hok. split.
  - intros w. pose proof (Hok w) as Hw.
    change (registrations w (constructed count waitAll h)) with (registrations w h).
    unfold constructed. cbn [wfmos].
    assert (Hnew : length (wfmos h) ∉ O).
    { intros Hin. pose proof (owners_allocated _ _ _ Hok Hin). lia. }
    destruct (lt_eq_lt_dec w (length (wfmos h))) as [[Hlt| -> ]|Hgt].
    + rewrite lookup_app_l by assumption.
      assert (E : owns (length (wfmos h) :: O) w = owns O w).
      { unfold owns. destruct (decide (w ∈ O)) as [Hi|Hi].
        - rewrite !bool_decide_eq_true_2; [reflexivity|exact Hi|].
          apply elem_of_cons. right. exact Hi.
        - rewrite !bool_decide_eq_false_2; [reflexivity|exact Hi|].
          intros H. apply elem_of_cons in H as [H|H]; [lia|contradiction]. }
      rewrite E.
      destruct (wfmos h !! w) as [[r|]|]; [|exact Hw..].
      destruct Hw as (H1 & H2 & H3). split; [exact H1|]. split; [exact H2|].
      intros Hs. apply elem_of_cons. right. apply H3, Hs.
    + rewrite list_lookup_middle by reflexivity.
      rewrite owns_in by (apply elem_of_cons; left; reflexivity).
      rewrite lookup_ge_None_2 in Hw by lia. rewrite (owns_notin _ _ Hnew) in Hw.
      cbn. unfold Int.max. repeat split; try lia.
      intros _. apply elem_of_cons. left. reflexivity.
    + rewrite lookup_ge_None_2 by (rewrite length_app; cbn; lia).
      rewrite lookup_ge_None_2 in Hw by lia.
      rewrite owns_notin; [rewrite owns_notin in Hw; [exact Hw|]|].
      * intros Hin. pose proof (owners_allocated _ _ _ Hok Hin). lia.
      * intros H. apply elem_of_cons in H as [H|H]; [lia|].
        pose proof (owners_allocated _ _ _ Hok H). lia.
  - unfold wfmo_at, constructed. cbn [wfmos].
    rewrite list_lookup_middle by reflexivity. reflexivity.
Qed.

Lemma registered_oks O w i e h :
  (e < length (events h))%nat ->
  refcounts_ok O h -> w ∈ O ->
  RefCount (wfmo_at h w) < Int.max ->
  let h' := upd_wfmo w incr_RefCount (upd_event e (push_back (mk_info w i)) h) in
  refcounts_ok O h' /\ RefCount (wfmo_at h' w) = RefCount (wfmo_at h w) + 1.
Proof.
  intros He Hok Hin Hlt h'.
  destruct (lookup_lt_is_Some_2 _ _ He) as [ev Hev].
  destruct (owners_cell _ _ _ Hok Hin) as [r Hr].
  assert (Hat : wfmo_at h w = r) by (apply wfmo_at_lookup; exact Hr).
  rewrite Hat in Hlt.
  pose proof (Hok w) as Hw. rewrite Hr, (owns_in _ _ Hin) in Hw. destruct Hw as (H1 & H2 & H3).
  split.
  - intros w'. subst h'.
    change (registrations w' (upd_wfmo w incr_RefCount (upd_event e (push_back (mk_info w i)) h)))
      with (registrations w' (upd_event e (push_back (mk_info w i)) h)).
    rewrite (registrations_push_back _ _ _ _ _ Hev).
    unfold upd_wfmo. cbn [wfmos]. rewrite wfmos_upd_event, list_lookup_alter.
    destruct (decide (w = w')) as [<-|Hne].
    + rewrite Hr, (owns_in _ _ Hin), refs_single_eq. cbn [fmap option_fmap option_map incr_RefCount
        set_RefCount RefCount StillWaiting].
      rewrite Int_incr_small by lia. repeat split; try lia. intros _. exact Hin.
    + rewrite refs_single_ne by exact Hne. rewrite Nat.add_0_r. apply Hok.
  - subst h'. rewrite Hat.
    assert (Hj : mjoin (wfmos (upd_event e (push_back (mk_info w i)) h) !! w) = Some r).
    { rewrite wfmos_upd_event, Hr. reflexivity. }
    rewrite (wfmo_at_cell _ _ _ (cell_upd_wfmo _ _ incr_RefCount _ Hj)). cbn.
    apply Int_incr_small. lia.
Qed.

Lemma register_waits_oks O w waitAll es : forall i t,
  Forall (fun e => (e < length (events (mem t)))%nat) es ->
  refcounts_ok O (mem t) -> w ∈ O ->
  RefCount (wfmo_at (mem t) w) <= 1 + i ->
  0 <= i -> i + Z.of_nat (length es) < Int.max ->
  exists done t', register_waits w waitAll i es t = Returned done t' /\
    refcounts_ok O (mem t') /\
    sched t' = sched t /\ clock t' = clock t.
Proof.
  induction es as [|e es IH]; intros i t Hes Hok Hin Hrc Hi Hbound.
  - exists false, t. repeat split; try reflexivity. exact Hok.
  - inversion Hes as [|? ? He Hes']; subst.
    rewrite register_waits_cons. cbn [length] in Hbound.
    destruct (State (event_at (mem t) e)).
    + destruct waitAll.
      * cbv zeta.
        match goal with |- context [register_waits w true (i + 1) es ?t1] =>
          destruct (IH (i + 1) t1) as (done & t' & E & Hok' & Hs & Hk) end;
          cbn [mem sched clock].
        -- eapply Forall_impl; [exact Hes'|]. intros x Hx.
           rewrite events_upd_wfmo, length_events_consumed. exact Hx.
        -- apply refcounts_ok_upd_wfmo; [reflexivity|intros r H; exact H|].
           apply refcounts_ok_consumed, Hok.
        -- exact Hin.
        -- rewrite RefCount_upd_wfmo by reflexivity. rewrite wfmo_at_consumed. lia.
        -- lia.
        -- lia.
        -- exists done, t'. repeat split; assumption.
      * eexists true, _. split; [reflexivity|]. cbn [mem sched clock].
        repeat split; try reflexivity.
        apply refcounts_ok_upd_wfmo; [reflexivity|intros r H; exact H|].
        apply refcounts_ok_consumed, Hok.
    + destruct (registered_oks O w i e (mem t) He Hok Hin) as [Hok1 Hrc1]; [lia|].
      match goal with |- context [register_waits w waitAll (i + 1) es ?t1] =>
        destruct (IH (i + 1) t1) as (done & t' & E & Hok' & Hs & Hk) end;
        cbn [mem sched clock].
      * eapply Forall_impl; [exact Hes'|]. intros x Hx.
        rewrite events_upd_wfmo, length_events_upd_event. exact Hx.
      * exact Hok1.
      * exact Hin.
      * rewrite Hrc1. lia.
      * lia.
      * lia.
      * exists done, t'. repeat split; assumption.
Qed.

Lemma wait_until_done_oks O w waitAll ts r ws t :
  refcounts_ok O (mem t) ->
  refcounts_ok O (mem (final (wait_until_done w waitAll ts r ws t))).
Proof.
  revert r t. induction ws as [|k ws IH]; intros r t H; cbn [wait_until_done].
  - destruct (satisfied _ _); exact H.
  - destruct (satisfied _ _); [exact H|]. cbn [wake].
    destruct (negb _).
    + cbn. apply run_others_refcounts_ok, H.
    + apply IH. cbn. apply run_others_refcounts_ok, H.
Qed.

(** The waiter drops its reference: the count goes down by one, and the
    record is deleted exactly when that makes zero. *)
Lemma finalized_cell O w h :
  refcounts_ok O h -> w ∈ O ->
  exists r, wfmos h !! w = Some (Some r) /\
    RefCount r = 1 + Z.of_nat (registrations w h) /\
    wfmos (finalized w h) !! w =
      (if RefCount r =? 1 then Some None
       else Some (Some (decr_RefCount (set_StillWaiting false r)))) /\
    RefCount (decr_RefCount (set_StillWaiting false r)) = RefCount r - 1 /\
    (forall w', w <> w' -> wfmos (finalized w h) !! w' = wfmos h !! w') /\
    events (finalized w h) = events h.
Proof.
  intros Hok Hin. destruct (owners_cell _ _ _ Hok Hin) as [r Hr].
  pose proof (Hok w) as Hw. rewrite Hr, (owns_in _ _ Hin) in Hw. destruct Hw as (H1 & H2 & H3).
  exists r. split; [exact Hr|]. split; [exact H1|].
  assert (Hj : mjoin (wfmos h !! w) = Some r) by (rewrite Hr; reflexivity).
  pose proof (cell_upd_wfmo _ _ decr_RefCount _
                (cell_upd_wfmo _ _ (set_StillWaiting false) _ Hj)) as Hc.
  assert (Hdec : RefCount (decr_RefCount (set_StillWaiting false r)) = RefCount r - 1).
  { cbn [decr_RefCount set_RefCount set_StillWaiting RefCount]. apply Int_decr_pos. assumption. }
  unfold finalized, released. rewrite (wfmo_at_cell _ _ _ Hc), Hdec.
  set (h2 := upd_wfmo w decr_RefCount (upd_wfmo w (set_StillWaiting false) h)) in *.
  assert (Hne : forall w', w <> w' -> wfmos h2 !! w' = wfmos h !! w').
  { intros w' Hn. subst h2. unfold upd_wfmo. cbn [wfmos].
    rewrite !list_lookup_alter_ne by assumption. reflexivity. }
  assert (Hsame : wfmos h2 !! w = Some (Some (decr_RefCount (set_StillWaiting false r)))).
  { subst h2. unfold upd_wfmo. cbn [wfmos].
    rewrite !list_lookup_alter, !decide_True by reflexivity. rewrite Hr. reflexivity. }
  destruct (Z.eqb_spec (RefCount r - 1) 0) as [Hz|Hz].
  - replace (RefCount r =? 1) with true by (symmetry; apply Z.eqb_eq; lia).
    split; [|split; [reflexivity|split]].
    + unfold free_wfmo. cbn [wfmos]. rewrite list_lookup_alter, decide_True by reflexivity.
      rewrite Hsame. reflexivity.
    + intros w' Hn. unfold free_wfmo. cbn [wfmos].
      rewrite list_lookup_alter_ne by assumption. apply Hne, Hn.
    + reflexivity.
  - replace (RefCount r =? 1) with false by (symmetry; apply Z.eqb_neq; lia).
    split; [exact Hsame|]. split; [reflexivity|]. split; [exact Hne|reflexivity].
Qed.

Lemma finalized_oks O O' w h :
  refcounts_ok O h -> w ∈ O ->
  (forall x, x ∈ O' <-> x ∈ O /\ x <> w) ->
  refcounts_ok O' (finalized w h).
Proof.
  intros Hok Hin HO.
  destruct (finalized_cell _ _ _ Hok Hin) as (r & Hr & Hrc & Hcell & Hdec & Hne & Hev).
  pose proof (Hok w) as Hw. rewrite Hr, (owns_in _ _ Hin) in Hw. destruct Hw as (H1 & H2 & H3).
  intros w'. unfold registrations. rewrite Hev. fold (registrations w' h).
  destruct (decide (w = w')) as [<-|Hn].
  - rewrite Hcell. rewrite owns_notin by (intros H; apply HO in H as [_ H]; congruence).
    destruct (Z.eqb_spec (RefCount r) 1) as [Hz|Hz]; [lia|].
    rewrite Hdec. cbn [StillWaiting decr_RefCount set_RefCount set_StillWaiting].
    repeat split; try lia; try discriminate.
  - rewrite Hne by exact Hn. specialize (Hok w').
    assert (E : owns O' w' = owns O w').
    { unfold owns. destruct (decide (w' ∈ O)) as [Hi|Hi].
      - rewrite !bool_decide_eq_true_2; [reflexivity|exact Hi|].
        apply HO. split; [exact Hi|congruence].
      - rewrite !bool_decide_eq_false_2; [reflexivity|exact Hi|].
        intros H. apply HO in H as [H _]. contradiction. }
    rewrite E. destruct (wfmos h !! w') as [[r'|]|]; try exact Hok.
    destruct Hok as (A & B & C). split; [exact A|]. split; [exact B|].
    intros Hs. apply HO. split; [apply C, Hs|congruence].
Qed.

Lemma WaitForMultipleEvents_refcounts_ok O evs count waitAll ms t :
  refcounts_ok O (mem t) ->
  Forall (fun e => (e < length (events (mem t)))%nat) evs ->
  count < Int.max ->
  match WaitForMultipleEvents evs count waitAll ms t with
  | Returned _ t' => refcounts_ok O (mem t')
  | Blocked t' => refcounts_ok (length (wfmos (mem t)) :: O) (mem t')
  end.
Proof.
  intros Hok Hevs Hcount. rewrite WaitForMultipleEvents_eq. cbv zeta.
  destruct (constructed_oks O count waitAll _ Hok) as [Hok1 Hrc1].
  assert (Hin : length (wfmos (mem t)) ∈ length (wfmos (mem t)) :: O)
    by (apply elem_of_cons; left; reflexivity).
  assert (Hfin : forall h, refcounts_ok (length (wfmos (mem t)) :: O) h ->
                   refcounts_ok O (finalized (length (wfmos (mem t))) h)).
  { intros h Hh. apply (finalized_oks _ _ _ _ Hh Hin). intros x. split.
    - intros Hx. split; [apply elem_of_cons; right; exact Hx|].
      intros ->. pose proof (owners_allocated _ _ _ Hok Hx). lia.
    - intros [Hx Hn]. apply elem_of_cons in Hx as [Hx|Hx]; [contradiction|exact Hx]. }
  unfold registered.
  match goal with |- context [register_waits ?w waitAll 0 ?es ?t1] =>
    destruct (register_waits_oks (length (wfmos (mem t)) :: O) w waitAll es 0 t1) as (done & t2 & E & Hok2 & Hs & Hk) end;
    cbn [mem sched clock].
  - apply Forall_take. exact Hevs.
  - exact Hok1.
  - exact Hin.
  - rewrite Hrc1. lia.
  - lia.
  - rewrite length_take. unfold Int.max in *. lia.
  - rewrite E. unfold wait_phase.
    destruct done.
    + cbn. apply Hfin, Hok2.
    + destruct (ms =? 0).
      * cbn. apply Hfin, Hok2.
      * pose proof (wait_until_done_oks _ (length (wfmos (mem t))) waitAll
                      (timeout_of (clock t2) ms) 0 (sched t2) t2 Hok2) as Hw.
        destruct (wait_until_done _ _ _ _ _ _) as [r t3|t3]; cbn in Hw |- *.
        -- apply Hfin, Hw.
        -- exact Hw.
Qed.

Lemma CreateEvent_refcounts_ok O manualReset initialState t :
  refcounts_ok O (mem t) ->
  refcounts_ok O (mem (final (CreateEvent manualReset initialState t))).
Proof.
  intros H. rewrite CreateEvent_eq. cbv zeta.
  match goal with |- context [SetEvent ?e ?t1] =>
    destruct (SetEvent_refcounts_ok O e t1) as (t' & E & Hok & _) end.
  - intros w. specialize (H w). cbn [mem wfmos].
    replace (registrations w (mk_heap (events (mem t) ++ [mk_event (negb manualReset) false []])
                                (wfmos (mem t))))
      with (registrations w (mem t)); [exact H|].
    unfold registrations. cbn [events].
    change (sum_list_with (fun ev => refs w (RegisteredWaits ev))) with (regs_in w).
    rewrite regs_in_app. unfold regs_in at 3. cbn. lia.
  - rewrite E. exact Hok.
Qed.

Lemma registered_refcounts_ok O evs count waitAll t :
  refcounts_ok O (mem t) ->
  Forall (fun e => (e < length (events (mem t)))%nat) evs ->
  count < Int.max ->
  match registered evs count waitAll t with
  | Returned _ t2 =>
      refcounts_ok (length (wfmos (mem t)) :: O) (mem t2) /\
      RefCount (wfmo_at (mem t2) (length (wfmos (mem t)))) =
        1 + Z.of_nat (registrations (length (wfmos (mem t))) (mem t2))
  | Blocked _ => False
  end.
Proof.
  intros Hok Hevs Hcount.
  destruct (constructed_oks O count waitAll _ Hok) as [Hok1 Hrc1].
  assert (Hin : length (wfmos (mem t)) ∈ length (wfmos (mem t)) :: O)
    by (apply elem_of_cons; left; reflexivity).
  unfold registered.
  match goal with |- context [register_waits ?w waitAll 0 ?es ?t1] =>
    destruct (register_waits_oks (length (wfmos (mem t)) :: O) w waitAll es 0 t1) as (done & t2 & E & Hok2 & _) end;
    cbn [mem sched clock].
  - apply Forall_take. exact Hevs.
  - exact Hok1.
  - exact Hin.
  - rewrite Hrc1. lia.
  - lia.
  - rewrite length_take. unfold Int.max in *. lia.
  - rewrite E. split; [exact Hok2|].
    destruct (owners_cell _ _ _ Hok2 Hin) as [r Hr]. specialize (Hok2 (length (wfmos (mem t)))).
    rewrite Hr, (owns_in _ _ Hin) in Hok2. rewrite (wfmo_at_lookup _ _ _ Hr). tauto.
Qed.

(** With at most one call in progress the invariant is [refcount_ok]. *)
Lemma refcount_ok_several owner h :
  refcount_ok owner h <-> refcounts_ok (option_list owner) h.
Proof.
  assert (Hin : forall w, w ∈ option_list owner <-> owner = Some w).
  { intros w. destruct owner as [w0|]; cbn.
    - rewrite list_elem_of_singleton. split; congruence.
    - split; [intros H; apply elem_of_nil in H; contradiction|discriminate]. }
  assert (E : forall w, owns (option_list owner) w = own owner w).
  { intros w. unfold owns, own. destruct (decide (owner = Some w)) as [Hw|Hw].
    - rewrite !bool_decide_eq_true_2; [reflexivity|exact Hw|apply Hin, Hw].
    - rewrite !bool_decide_eq_false_2; [reflexivity|exact Hw|].
      intros H. apply Hw, Hin, H. }
  split; intros H w; specialize (H w); rewrite ?E in *;
    (destruct (wfmos h !! w) as [[r|]|]; [|rewrite <- ?E; rewrite ?E; exact H..]);
    destruct H as (A & B & C); (split; [exact A|]); (split; [exact B|]);
    intros Hs; apply Hin, C, Hs.
Qed.

Lemma DestroyEvent_refcounts_ok O e t :
  RegisteredWaits (event_at (mem t) e) = [] ->
  refcounts_ok O (mem t) -> refcounts_ok O (mem (final (DestroyEvent e t))).
Proof.
  intros Hq Hok. unfold DestroyEvent. run. cbn [final mem].
  intros w. specialize (Hok w).
  change (wfmos (free_event e (mem t))) with (wfmos (mem t)).
  replace (registrations w (free_event e (mem t))) with (registrations w (mem t)); [exact Hok|].
  destruct (events (mem t) !! e) as [ev|] eqn:Hev.
  - pose proof (registrations_free_event w e ev (mem t) Hev) as Hreg.
    rewrite (event_at_lookup _ _ _ Hev) in Hq. rewrite Hq in Hreg.
    change (refs w []) with 0%nat in Hreg. lia.
  - unfold registrations, free_event. cbn [events].
    rewrite (alter_dangling _ _ _ Hev). reflexivity.
Qed.

(** One visit of a signaler: the count goes down by one, and the record is
    deleted exactly when that makes zero, which it cannot for the record of
    a waiter that is still in its call. *)
Lemma visited_cell O e i h :
  refcounts_ok O h ->
  i ∈ RegisteredWaits (event_at h e) ->
  exists r, wfmos h !! Waiter i = Some (Some r) /\
    wfmos (visited i h) !! Waiter i =
      (if StillWaiting r then Some (Some (signalled i r))
       else if RefCount r =? 1 then Some None
       else Some (Some (decr_RefCount r))) /\
    RefCount (signalled i r) = RefCount r - 1 /\
    RefCount (decr_RefCount r) = RefCount r - 1 /\
    (StillWaiting r = true -> 1 < RefCount r) /\
    (forall w, w <> Waiter i -> wfmos (visited i h) !! w = wfmos h !! w) /\
    events (visited i h) = events h.
Proof.
  intros Hok Hi.
  assert (Hreg : (1 <= registrations (Waiter i) h)%nat).
  { destruct (events h !! e) as [ev|] eqn:Hev.
    - rewrite (event_at_lookup _ _ _ Hev) in Hi.
      pose proof (refs_le_regs_in (Waiter i) _ _ _ Hev) as Hle.
      change (regs_in (Waiter i) (events h)) with (registrations (Waiter i) h) in Hle.
      destruct (refs (Waiter i) (RegisteredWaits ev)) eqn:Hz; [|lia].
      pose proof (refs_zero_not_in _ _ Hz) as Hall. rewrite Forall_forall in Hall.
      exfalso. exact (Hall _ Hi eq_refl).
    - rewrite (event_at_dangling _ _ Hev) in Hi. apply elem_of_nil in Hi. contradiction. }
  pose proof (Hok (Waiter i)) as Hw. pose proof (owns_nonneg O (Waiter i)) as Hown.
  destruct (wfmos h !! Waiter i) as [[r|]|] eqn:Hcell; [|lia..].
  destruct Hw as (Hrc & Hpos & Hsw).
  exists r. split; [reflexivity|].
  assert (Hj : mjoin (wfmos h !! Waiter i) = Some r) by (rewrite Hcell; reflexivity).
  pose proof (cell_upd_wfmo _ _ decr_RefCount _ Hj) as Hc1.
  fold (after_decr i h) in Hc1.
  assert (Hd : RefCount (decr_RefCount r) = RefCount r - 1).
  { cbn [decr_RefCount set_RefCount RefCount]. apply Int_decr_pos. exact Hpos. }
  assert (Hs : RefCount (signalled i r) = RefCount r - 1).
  { unfold signalled. cbv zeta. destruct (WaitAll (decr_RefCount r)); cbn; apply Int_decr_pos, Hpos. }
  assert (Hlive : StillWaiting r = true -> 1 < RefCount r).
  { intros H. rewrite (owns_in _ _ (Hsw H)) in Hrc. lia. }
  assert (Hl1 : wfmos (after_decr i h) !! Waiter i = Some (Some (decr_RefCount r))).
  { unfold after_decr, upd_wfmo. cbn [wfmos].
    rewrite list_lookup_alter, decide_True by reflexivity. rewrite Hcell. reflexivity. }
  split; [|split; [exact Hs|split; [exact Hd|split; [exact Hlive|split]]]].
  - unfold visited. cbv zeta. rewrite (wfmo_at_cell _ _ _ Hc1).
    cbn [decr_RefCount set_RefCount StillWaiting].
    destruct (StillWaiting r) eqn:Hst.
    + unfold notified, signalled. cbv zeta. rewrite (wfmo_at_cell _ _ _ Hc1).
      destruct (WaitAll (decr_RefCount r)); unfold upd_wfmo; cbn [wfmos];
        rewrite !list_lookup_alter, !decide_True by reflexivity; rewrite Hl1; reflexivity.
    + unfold released. rewrite (wfmo_at_cell _ _ _ Hc1), Hd.
      destruct (Z.eqb_spec (RefCount r - 1) 0) as [Hz|Hz].
      * replace (RefCount r =? 1) with true by (symmetry; apply Z.eqb_eq; lia).
        unfold free_wfmo. cbn [wfmos]. rewrite list_lookup_alter, decide_True by reflexivity.
        rewrite Hl1. reflexivity.
      * replace (RefCount r =? 1) with false by (symmetry; apply Z.eqb_neq; lia).
        exact Hl1.
  - intros w Hne. apply wfmos_visited_ne. congruence.
  - apply events_visited.
Qed.

(** The loops of [SetEvent] apply [visited] to the registration at the head
    of the queue; the call that deletes the record is made there, by the
    thread whose decrement makes the count zero. *)
Lemma SetEvent_loops_visit e i q t :
  (exists tr, SetEvent_manual (i :: q) t =
      SetEvent_manual q (mk_thread (visited i (mem t)) (clock t) (sched t) (trace t ++ tr)) /\
      (delete_wfmo (Waiter i) ∈ tr <->
       RefCount (wfmo_at (after_decr i (mem t)) (Waiter i)) = 0 /\
       still_waiting (mem t) i = false)) /\
  (exists t2 tr, wfmos (mem t2) = wfmos (visited i (mem t)) /\ trace t2 = trace t ++ tr /\
      SetEvent_auto e (i :: q) t =
        (if still_waiting (mem t) i then Returned (Some 0) t2 else SetEvent_auto e q t2) /\
      (delete_wfmo (Waiter i) ∈ tr <->
       RefCount (wfmo_at (after_decr i (mem t)) (Waiter i)) = 0 /\
       still_waiting (mem t) i = false)).
Proof.
  assert (Hrel : forall h, delete_wfmo (Waiter i) ∈
                   pthread_mutex_lock (WfmoObj (Waiter i)) :: release_calls (Waiter i) h <->
                   RefCount (wfmo_at h (Waiter i)) = 0).
  { intros h. unfold release_calls. destruct (Z.eqb_spec (RefCount (wfmo_at h (Waiter i))) 0) as [Hz|Hz].
    - split; [intros _; exact Hz|]. intros _.
      apply elem_of_cons. right. apply elem_of_cons. right. apply elem_of_cons. right.
      apply list_elem_of_here.
    - split; [|intros H; contradiction]. intros H.
      repeat (apply elem_of_cons in H as [H|H]; [discriminate|]).
      apply elem_of_nil in H. contradiction. }
  assert (Hnot : forall h l, (forall c, c ∈ l -> c <> delete_wfmo (Waiter i)) ->
                   delete_wfmo (Waiter i) ∉
                   pthread_mutex_lock (WfmoObj (Waiter i)) :: notify_calls i h ++ l).
  { intros h l Hl H. apply elem_of_cons in H as [H|H]; [discriminate|].
    apply elem_of_app in H as [H|H].
    - unfold notify_calls in H. destruct (_ && _).
      + apply list_elem_of_singleton in H. discriminate.
      + apply elem_of_nil in H. exact H.
    - exact (Hl _ H eq_refl). }
  split.
  - rewrite SetEvent_manual_cons. cbv zeta. unfold visited, still_waiting. cbv zeta.
    rewrite StillWaiting_after_decr.
    destruct (StillWaiting (wfmo_at (mem t) (Waiter i))); eexists; (split; [reflexivity|]).
    + split; [|intros [_ H]; discriminate]. intros H. exfalso. revert H. apply Hnot.
      intros c Hc. repeat (apply elem_of_cons in Hc as [->|Hc]; [discriminate|]).
      apply elem_of_nil in Hc. contradiction.
    + rewrite Hrel. tauto.
  - rewrite SetEvent_auto_cons. cbv zeta. unfold visited, still_waiting. cbv zeta.
    rewrite StillWaiting_after_decr.
    destruct (StillWaiting (wfmo_at (mem t) (Waiter i))); eexists _, _;
      (split; [|split; [|split; [reflexivity|]]]); cbn [mem trace]; try reflexivity.
    + rewrite wfmos_upd_event. apply wfmos_notified_upd_event.
    + split; [|intros [_ H]; discriminate]. intros H. exfalso. revert H. apply Hnot.
      intros c Hc. repeat (apply elem_of_cons in Hc as [->|Hc]; [discriminate|]).
      apply elem_of_nil in Hc. contradiction.
    + rewrite Hrel. tauto.
Qed.

(** What one call of [SetEvent] does to the counts: [p] are the
    registrations it has visited. *)
Lemma SetEvent_decrements O e t :
  refcounts_ok O (mem t) ->
  exists t' p, SetEvent e t = Returned 0 t' /\
    refcounts_ok O (mem t') /\
    RegisteredWaits (event_at (mem t) e) = p ++ RegisteredWaits (event_at (mem t') e) /\
    forall w,
      match mjoin (wfmos (mem t) !! w) with
      | Some r =>
          if RefCount r =? Z.of_nat (refs w p)
          then mjoin (wfmos (mem t') !! w) = None
          else exists r', mjoin (wfmos (mem t') !! w) = Some r' /\
                 RefCount r' = RefCount r - Z.of_nat (refs w p)
      | None => mjoin (wfmos (mem t') !! w) = None
      end.
Proof.
  intros Hok.
  destruct (SetEvent_refcounts_ok O e t Hok) as (t' & E & Hok' & _ & _ & p & Hp & Hreg).
  exists t', p. split; [exact E|]. split; [exact Hok'|]. split; [exact Hp|].
  intros w. specialize (Hok w). specialize (Hok' w). specialize (Hreg w).
  pose proof (owns_nonneg O w) as Hown.
  destruct (wfmos (mem t) !! w) as [[r|]|]; destruct (wfmos (mem t') !! w) as [[r'|]|];
    cbn [mjoin option_join default id];
    try destruct Hok as (A & B & C); try destruct Hok' as (A' & B' & C');
    try reflexivity; try lia;
    destruct (Z.eqb_spec (RefCount r) (Z.of_nat (refs w p))); try reflexivity; try lia.
  exists r'. split; [reflexivity|lia].
Qed.

Lemma elem_of_without w O x : x ∈ without w O <-> x ∈ O /\ x <> w.
Proof.
  unfold without. rewrite !list_elem_of_In, filter_In.
  destruct (Nat.eqb_spec x w); cbn; split; intros [A B]; split; auto; try congruence.
Qed.

Lemma finalize_calls_delete O w h :
  refcounts_ok O h -> w ∈ O ->
  (delete_wfmo w ∈ finalize_calls w h <-> RefCount (wfmo_at h w) = 1).
Proof.
  intros Hok Hin. destruct (owners_cell _ _ _ Hok Hin) as [r Hr].
  pose proof (Hok w) as Hw. rewrite Hr, (owns_in _ _ Hin) in Hw. destruct Hw as (H1 & H2 & H3).
  assert (Hj : mjoin (wfmos h !! w) = Some r) by (rewrite Hr; reflexivity).
  pose proof (cell_upd_wfmo _ _ decr_RefCount _
                (cell_upd_wfmo _ _ (set_StillWaiting false) _ Hj)) as Hc.
  unfold finalize_calls, release_calls.
  rewrite (wfmo_at_cell _ _ _ Hc), (wfmo_at_cell _ _ _ Hj).
  cbn [decr_RefCount set_RefCount set_StillWaiting RefCount].
  rewrite Int_decr_pos by assumption.
  destruct (Z.eqb_spec (RefCount r - 1) 0) as [Hz|Hz].
  - split; [intros _; lia|]. intros _.
    apply elem_of_cons. right. apply elem_of_cons. right. apply list_elem_of_here.
  - split; [|intros H; lia]. intros H.
    apply list_elem_of_singleton in H. discriminate.
Qed.

(** C5, as it fails.  A wait that has timed out leaves its registration in
    the queue of the event; [DestroyEvent] deletes the event with its queue
    and decrements nothing, so that the record is left with the count 1 and
    no reference at all: the count is not the number of references, and the
    record is never reclaimed. *)
Lemma DestroyEvent_leaves_count_inexact :
  let t0 := start (mk_heap [] []) (mk_timeval 0 0) [] in
  let t1 := final (ResetEvent 0 (final (CreateEvent false false t0))) in
  let t2 := final (WaitForMultipleEvents [0%nat] 1 false 0 t1) in
  let t3 := final (DestroyEvent 0 t2) in
  returned (WaitForMultipleEvents [0%nat] 1 false 0 t1) = Some (ETIMEDOUT, -1) /\
  refcounts_ok [] (mem t2) /\
  RegisteredWaits (event_at (mem t2) 0) = [mk_info 0 0] /\
  returned (DestroyEvent 0 t2) = Some 0 /\
  wfmos (mem t3) = [Some (mk_wfmo (-1) false 1 false)] /\
  (forall w, registrations w (mem t3) = 0%nat) /\
  ~ refcounts_ok [] (mem t3).
Proof.
  cbv zeta. split; [vm_compute; reflexivity|]. split; [|split; [|split; [|split; [|split]]]].
  - intros [|w]; vm_compute; repeat split; try discriminate; try reflexivity.
  - vm_compute. reflexivity.
  - vm_compute. reflexivity.
  - vm_compute. reflexivity.
  - intros w. vm_compute. reflexivity.
  - intros H. specialize (H 0%nat). vm_compute in H. destruct H as (H & _). discriminate.
Qed.

(** C5, amended.  The reference count of a record is one for each call to
    [WaitForMultipleEvents] on it that has not finalized ([O] lists the
    records of the calls in progress, any number of them) plus one for each
    registration in a queue, and a record is in the store exactly as long as
    that number is positive.  In a store where this holds: the construction
    of a record gives it the count 1; appending a registration adds one; the
    registration loop ends with 1 plus the registrations made; the loops of
    [SetEvent] apply [visited] to the head of the queue, which takes one off
    the count and deletes the record exactly when that makes zero, in the
    trace of the thread that decrements; a whole call of [SetEvent] takes
    off the count of every record the number of its registrations visited;
    the waiter at finalize takes one off and deletes the record exactly when
    that makes zero.  The invariant is kept by [SetEvent], [ResetEvent],
    [WaitForEvent], [CreateEvent], the operations of the other threads, a
    whole call of [WaitForMultipleEvents] (which ends with the same calls in
    progress when it returns and with its own record among them when it is
    still blocked), and by [DestroyEvent] on an event with an empty queue. *)
Theorem reference_count_invariant
    (O : list nat) (s : thread) (evs : list nat) (count : Z) :
  refcounts_ok O (mem s) ->
  Forall (fun e => (e < length (events (mem s)))%nat) evs ->
  count < Int.max ->
  let new := length (wfmos (mem s)) in
  (forall waitAll,
     refcounts_ok (new :: O) (constructed count waitAll (mem s)) /\
     RefCount (wfmo_at (constructed count waitAll (mem s)) new) = 1) /\
  (forall w i e,
     w ∈ O -> (e < length (events (mem s)))%nat -> RefCount (wfmo_at (mem s) w) < Int.max ->
     let h' := upd_wfmo w incr_RefCount (upd_event e (push_back (mk_info w i)) (mem s)) in
     refcounts_ok O h' /\
     RefCount (wfmo_at h' w) = RefCount (wfmo_at (mem s) w) + 1 /\
     registrations w h' = S (registrations w (mem s))) /\
  (forall waitAll,
     match registered evs count waitAll s with
     | Returned _ s2 =>
         refcounts_ok (new :: O) (mem s2) /\
         RefCount (wfmo_at (mem s2) new) = 1 + Z.of_nat (registrations new (mem s2))
     | Blocked _ => False
     end) /\
  (forall e i q,
     (exists tr, SetEvent_manual (i :: q) s =
        SetEvent_manual q (mk_thread (visited i (mem s)) (clock s) (sched s) (trace s ++ tr)) /\
        (delete_wfmo (Waiter i) ∈ tr <->
         RefCount (wfmo_at (after_decr i (mem s)) (Waiter i)) = 0 /\
         still_waiting (mem s) i = false)) /\
     (exists s2 tr, wfmos (mem s2) = wfmos (visited i (mem s)) /\ trace s2 = trace s ++ tr /\
        SetEvent_auto e (i :: q) s =
          (if still_waiting (mem s) i then Returned (Some 0) s2 else SetEvent_auto e q s2) /\
        (delete_wfmo (Waiter i) ∈ tr <->
         RefCount (wfmo_at (after_decr i (mem s)) (Waiter i)) = 0 /\
         still_waiting (mem s) i = false))) /\
  (forall e i, i ∈ RegisteredWaits (event_at (mem s) e) ->
     exists r, wfmos (mem s) !! Waiter i = Some (Some r) /\
       wfmos (visited i (mem s)) !! Waiter i =
         (if StillWaiting r then Some (Some (signalled i r))
          else if RefCount r =? 1 then Some None
          else Some (Some (decr_RefCount r))) /\
       RefCount (signalled i r) = RefCount r - 1 /\
       RefCount (decr_RefCount r) = RefCount r - 1 /\
       (StillWaiting r = true -> 1 < RefCount r) /\
       (forall w, w <> Waiter i -> wfmos (visited i (mem s)) !! w = wfmos (mem s) !! w) /\
       events (visited i (mem s)) = events (mem s)) /\
  (forall e, exists s' p, SetEvent e s = Returned 0 s' /\
     refcounts_ok O (mem s') /\
     RegisteredWaits (event_at (mem s) e) = p ++ RegisteredWaits (event_at (mem s') e) /\
     forall w,
       match mjoin (wfmos (mem s) !! w) with
       | Some r =>
           if RefCount r =? Z.of_nat (refs w p)
           then mjoin (wfmos (mem s') !! w) = None
           else exists r', mjoin (wfmos (mem s') !! w) = Some r' /\
                  RefCount r' = RefCount r - Z.of_nat (refs w p)
       | None => mjoin (wfmos (mem s') !! w) = None
       end) /\
  (forall w, w ∈ O ->
     refcounts_ok (without w O) (finalized w (mem s)) /\
     (delete_wfmo w ∈ finalize_calls w (mem s) <-> RefCount (wfmo_at (mem s) w) = 1) /\
     exists r, wfmos (mem s) !! w = Some (Some r) /\
       RefCount r = 1 + Z.of_nat (registrations w (mem s)) /\
       wfmos (finalized w (mem s)) !! w =
         (if RefCount r =? 1 then Some None
          else Some (Some (decr_RefCount (set_StillWaiting false r)))) /\
       RefCount (decr_RefCount (set_StillWaiting false r)) = RefCount r - 1 /\
       (forall w', w <> w' -> wfmos (finalized w (mem s)) !! w' = wfmos (mem s) !! w') /\
       events (finalized w (mem s)) = events (mem s)) /\
  (forall waitAll ms,
     match WaitForMultipleEvents evs count waitAll ms s with
     | Returned _ s' => refcounts_ok O (mem s')
     | Blocked s' => refcounts_ok (new :: O) (mem s')
     end) /\
  (forall e, refcounts_ok O (mem (final (ResetEvent e s)))) /\
  (forall e ms, refcounts_ok O (mem (final (WaitForEvent e ms s)))) /\
  (forall manualReset initialState,
     refcounts_ok O (mem (final (CreateEvent manualReset initialState s)))) /\
  (forall ops, refcounts_ok O (run_others ops (mem s))) /\
  (forall e, RegisteredWaits (event_at (mem s) e) = [] ->
     refcounts_ok O (mem (final (DestroyEvent e s)))).
Proof.
  intros Hs Hevs Hcount new. subst new.
  split; [|split; [|split; [|split; [|split; [|split; [|split; [|split;
    [|split; [|split; [|split; [|split]]]]]]]]]]].
  - intros waitAll. apply constructed_oks, Hs.
  - intros w i e Hw He Hlt h'.
    destruct (registered_oks O w i e (mem s) He Hs Hw Hlt) as [A B].
    split; [exact A|]. split; [exact B|].
    destruct (lookup_lt_is_Some_2 _ _ He) as [ev Hev]. subst h'.
    change (registrations w (upd_wfmo w incr_RefCount (upd_event e (push_back (mk_info w i)) (mem s))))
      with (registrations w (upd_event e (push_back (mk_info w i)) (mem s))).
    rewrite (registrations_push_back _ _ _ _ _ Hev), refs_single_eq. lia.
  - intros waitAll. apply registered_refcounts_ok; assumption.
  - intros e i q. apply SetEvent_loops_visit.
  - intros e i Hi. exact (visited_cell O e i (mem s) Hs Hi).
  - intros e. apply SetEvent_decrements, Hs.
  - intros w Hw. split; [|split].
    + apply (finalized_oks O _ w _ Hs Hw). apply elem_of_without.
    + apply (finalize_calls_delete O); assumption.
    + apply (finalized_cell O); assumption.
  - intros waitAll ms. apply WaitForMultipleEvents_refcounts_ok; assumption.
  - intros e. rewrite ResetEvent_eq. cbn [final mem].
    apply refcounts_ok_upd_event; [reflexivity|exact Hs].
  - intros e ms. apply WaitForEvent_refcounts_ok, Hs.
  - intros m i. apply CreateEvent_refcounts_ok, Hs.
  - intros ops. apply run_others_refcounts_ok, Hs.
  - intros e Hq. apply DestroyEvent_refcounts_ok; assumption.
Qed.

(** Two waits for any event blocked on the same auto-reset event, and a
    third thread that calls [SetEvent]: the event goes to the first waiter,
    whose record keeps the reference of its thread, the second stays as it
    is, and the store keeps exact counts. *)
Lemma reference_count_invariant_witness :
  let t0 := start (mk_heap [] []) (mk_timeval 0 0) [] in
  let t1 := final (ResetEvent 0 (final (CreateEvent false false t0))) in
  let tA := final (WaitForMultipleEvents [0%nat] 1 false INFINITE t1) in
  let s := final (WaitForMultipleEvents [0%nat] 1 false INFINITE tA) in
  mem s = mk_heap [mk_event true false [mk_info 0 0; mk_info 1 0]]
                  [Some (mk_wfmo (-1) true 2 false); Some (mk_wfmo (-1) true 2 false)] /\
  refcounts_ok [1%nat; 0%nat] (mem s) /\
  (exists s', SetEvent 0 s = Returned 0 s' /\
     refcounts_ok [1%nat; 0%nat] (mem s') /\
     mem s' = mk_heap [mk_event true false [mk_info 1 0]]
                [Some (mk_wfmo 0 false 1 false); Some (mk_wfmo (-1) true 2 false)]) /\
  refcounts_ok [1%nat] (finalized 0 (mem s)) /\
  match WaitForMultipleEvents [0%nat] 1 false 0 s with
  | Returned r s' => r = (ETIMEDOUT, -1) /\ refcounts_ok [1%nat; 0%nat] (mem s')
  | Blocked _ => False
  end.
Proof.
  intros t0 t1 tA s.
  assert (Hmem : mem s = mk_heap [mk_event true false [mk_info 0 0; mk_info 1 0]]
                  [Some (mk_wfmo (-1) true 2 false); Some (mk_wfmo (-1) true 2 false)])
    by (vm_compute; reflexivity).
  assert (Hok : refcounts_ok [1%nat; 0%nat] (mem s)).
  { rewrite Hmem. intros [|[|w]]; cbn [wfmos lookup list_lookup].
    1,2: (split; [vm_compute; reflexivity|];
          split; [vm_compute; split; [reflexivity|discriminate]|];
          intros _; rewrite !elem_of_cons; auto).
    vm_compute. reflexivity. }
  assert (Hevs : Forall (fun e => (e < length (events (mem s)))%nat) [0%nat]).
  { rewrite Hmem. repeat constructor. }
  assert (Hc : 1 < Int.max) by reflexivity.
  destruct (reference_count_invariant [1%nat; 0%nat] s [0%nat] 1 Hok Hevs Hc)
    as (_ & _ & _ & _ & _ & Hset & Hfin & Hwait & _).
  split; [exact Hmem|]. split; [exact Hok|]. split; [|split].
  - destruct (Hset 0%nat) as (s' & p & E & Hok' & _).
    exists s'. split; [exact E|]. split; [exact Hok'|].
    assert (E' : mem (final (SetEvent 0 s)) =
                 mk_heap [mk_event true false [mk_info 1 0]]
                   [Some (mk_wfmo 0 false 1 false); Some (mk_wfmo (-1) true 2 false)])
      by (vm_compute; reflexivity).
    rewrite E in E'. exact E'.
  - destruct (Hfin 0%nat) as (A & _); [repeat constructor|]. exact A.
  - specialize (Hwait false 0).
    assert (E : returned (WaitForMultipleEvents [0%nat] 1 false 0 s) = Some (ETIMEDOUT, -1))
      by (vm_compute; reflexivity).
    destruct (WaitForMultipleEvents [0%nat] 1 false 0 s) as [r s'|s']; cbn in E; [|discriminate].
    injection E as ->. split; [reflexivity|exact Hwait].
Defined.

(** ** [EventsLeft] with several waits in progress *)

Section Left_several.
Variable O : list nat.
Variable base : nat -> Z.
Hypothesis base_nonneg : forall w, 0 <= base w.
Hypothesis base_owner : forall w, w ∈ O -> 1 <= base w.

(** A visit of the signaler keeps [EventsLeft] in step with the count, and
    the assertion that follows the decrement holds. *)
Lemma visited_events_left_several i q h :
  counteds O base (i :: q) h ->
  (forall w, events_left_ok w h) ->
  (forall w, events_left_ok w (visited i h)) /\
  (still_waiting h i = true -> notify_calls i (after_decr i h) = []).
Proof.
  intros Hc Hall.
  assert (Hme : events_left_ok (Waiter i) (visited i h) /\
                (still_waiting h i = true -> notify_calls i (after_decr i h) = [])).
  { specialize (Hc (Waiter i)). pose proof (Hall (Waiter i)) as Hinv.
    rewrite refs_cons_eq in Hc.
    destruct (wfmos h !! Waiter i) as [[r|]|] eqn:Hcell;
      [|specialize (base_nonneg (Waiter i)); lia..].
    destruct Hc as (Hrc & Hpos & Hsw).
    assert (Hj : mjoin (wfmos h !! Waiter i) = Some r) by (rewrite Hcell; reflexivity).
    pose proof (wfmo_at_cell _ _ _ Hj) as Hat.
    unfold events_left_ok in Hinv. rewrite Hat in Hinv.
    pose proof (cell_upd_wfmo _ _ decr_RefCount _ Hj) as Hc1.
    fold (after_decr i h) in Hc1.
    unfold visited, still_waiting, notify_calls. cbv zeta.
    rewrite (wfmo_at_cell _ _ _ Hc1), Hat.
    cbn [decr_RefCount set_RefCount StillWaiting WaitAll].
    destruct (StillWaiting r) eqn:Hs.
    + assert (Hrc2 : 2 <= RefCount r).
      { specialize (base_owner _ (Hsw eq_refl)). lia. }
      unfold notified. rewrite (wfmo_at_cell _ _ _ Hc1).
      cbn [decr_RefCount set_RefCount WaitAll].
      destruct (WaitAll r) eqn:Ha.
      * specialize (Hinv eq_refl eq_refl).
        pose proof (cell_upd_wfmo _ _ decr_Status _ Hc1) as Hc2.
        rewrite (wfmo_at_cell _ _ _ Hc2).
        cbn [decr_Status decr_RefCount set_Status set_RefCount Status RefCount].
        rewrite (Int_decr_pos (Status r)) by lia.
        split.
        -- unfold events_left_ok. rewrite (wfmo_at_cell _ _ _ Hc2).
           cbn [decr_Status decr_RefCount set_Status set_RefCount Status RefCount
                  WaitAll StillWaiting].
           intros _ _. rewrite !Int_decr_pos by lia. lia.
        -- intros _. replace (0 <=? Status r - 1) with true by (symmetry; apply Z.leb_le; lia).
           reflexivity.
      * split; [|intros _; reflexivity].
        unfold events_left_ok.
        rewrite (wfmo_at_cell _ _ _
                   (cell_upd_wfmo _ _ (set_StillWaiting false) _
                      (cell_upd_wfmo _ _ (set_Status (WaitIndex i)) _ Hc1))).
        cbn. intros _ H. discriminate.
    + split; [|intros H; discriminate].
      unfold events_left_ok. intros _ H.
      rewrite StillWaiting_released in H; [discriminate|].
      rewrite (wfmo_at_cell _ _ _ Hc1). exact Hs. }
  destruct Hme as [Hme Hn]. split; [|exact Hn].
  intros w. destruct (decide (Waiter i = w)) as [<-|Hne]; [exact Hme|].
  unfold events_left_ok, wfmo_at. rewrite wfmos_visited_ne by exact Hne. apply Hall.
Qed.

Lemma SetEvent_manual_left_several q : forall t,
  counteds O base q (mem t) ->
  (forall w, events_left_ok w (mem t)) ->
  exists t', SetEvent_manual q t = Returned tt t' /\
    (forall w, events_left_ok w (mem t')) /\
    (assert_failed ∈ trace t' -> assert_failed ∈ trace t).
Proof.
  induction q as [|i q IH]; intros t Hc Hinv.
  - exists t. cbn. auto.
  - rewrite SetEvent_manual_cons. cbv zeta.
    pose proof (visited_counteds O base i q (mem t) base_nonneg base_owner Hc) as Hv.
    destruct (visited_events_left_several i q (mem t) Hc Hinv) as [Hl Hn].
    unfold visited in Hv, Hl. cbv zeta in Hv, Hl.
    unfold still_waiting in Hn. rewrite <- (StillWaiting_after_decr i) in Hn.
    destruct (StillWaiting (wfmo_at (after_decr i (mem t)) (Waiter i))).
    + match goal with |- context [SetEvent_manual q ?t2] =>
        destruct (IH t2 Hv Hl) as (t' & E & Hl' & Ht) end.
      exists t'. split; [exact E|]. split; [exact Hl'|].
      intros H. apply Ht in H. cbn [trace] in H. rewrite (Hn eq_refl) in H.
      revert H. apply not_failed_app. intros H.
      repeat (apply elem_of_cons in H as [H|H]; [discriminate|]).
      apply elem_of_nil in H. exact H.
    + match goal with |- context [SetEvent_manual q ?t2] =>
        destruct (IH t2 Hv Hl) as (t' & E & Hl' & Ht) end.
      exists t'. split; [exact E|]. split; [exact Hl'|].
      intros H. apply Ht in H. cbn [trace] in H.
      revert H. apply not_failed_app. intros H.
      apply elem_of_cons in H as [H|H]; [discriminate|].
      exact (release_calls_not_failed _ _ H).
Qed.

Lemma SetEvent_auto_left_several event q : forall t,
  counteds O base q (mem t) ->
  (forall w, events_left_ok w (mem t)) ->
  exists r t', SetEvent_auto event q t = Returned r t' /\
    (forall w, events_left_ok w (mem t')) /\
    (assert_failed ∈ trace t' -> assert_failed ∈ trace t).
Proof.
  induction q as [|i q IH]; intros t Hc Hinv.
  - exists None, t. cbn. auto.
  - rewrite SetEvent_auto_cons. cbv zeta.
    pose proof (visited_counteds O base i q (mem t) base_nonneg base_owner Hc) as Hv.
    destruct (visited_events_left_several i q (mem t) Hc Hinv) as [Hl Hn].
    unfold visited in Hv, Hl. cbv zeta in Hv, Hl.
    unfold still_waiting in Hn. rewrite <- (StillWaiting_after_decr i) in Hn.
    destruct (StillWaiting (wfmo_at (after_decr i (mem t)) (Waiter i))).
    + eexists (Some 0), _. split; [reflexivity|]. cbn [mem trace]. split.
      * intros w. specialize (Hl w).
        unfold events_left_ok in *. rewrite !wfmo_at_upd_event.
        unfold wfmo_at in *. rewrite wfmos_notified_upd_event. exact Hl.
      * change (notify_calls i (upd_event event (set_State false) (after_decr i (mem t))))
          with (notify_calls i (after_decr i (mem t))).
        rewrite (Hn eq_refl). apply not_failed_app. intros H.
        repeat (apply elem_of_cons in H as [H|H]; [discriminate|]).
        apply elem_of_nil in H. exact H.
    + match goal with |- context [SetEvent_auto event q ?t2] =>
        destruct (IH t2) as (r & t' & E & Hl' & Ht) end.
      { cbn [mem]. eapply counteds_wfmos; [|exact Hv]. apply wfmos_upd_event. }
      { cbn [mem]. intros w. specialize (Hl w).
        unfold events_left_ok in *. rewrite !wfmo_at_upd_event. exact Hl. }
      exists r, t'. split; [exact E|]. split; [exact Hl'|].
      intros H. apply Ht in H. cbn [trace] in H.
      revert H. apply not_failed_app. intros H.
      apply elem_of_cons in H as [H|H]; [discriminate|].
      exact (release_calls_not_failed _ _ H).
Qed.
End Left_several.

Lemma SetEvent_left_several O event t :
  refcounts_ok O (mem t) ->
  (forall w, events_left_ok w (mem t)) ->
  exists t', SetEvent event t = Returned 0 t' /\
    refcounts_ok O (mem t') /\
    (forall w, events_left_ok w (mem t')) /\
    (assert_failed ∈ trace t' -> assert_failed ∈ trace t).
Proof.
  intros Hok Hinv.
  destruct (SetEvent_refcounts_ok O event t Hok) as (t' & E & Hok' & _).
  exists t'. split; [exact E|]. split; [exact Hok'|].
  assert (Hlock : forall tr, assert_failed ∈ trace t ++ [pthread_mutex_lock (EventObj event)] ++ tr ->
                             assert_failed ∉ tr -> assert_failed ∈ trace t).
  { intros tr H Hn. rewrite app_assoc in H. apply (not_failed_app _ _ Hn) in H.
    revert H. apply not_failed_app. intros H.
    apply list_elem_of_singleton in H. discriminate. }
  assert (Hnf2 : forall c d, c <> assert_failed -> d <> assert_failed ->
                   assert_failed ∉ [c; d]).
  { intros c d Hc Hd H. apply elem_of_cons in H as [H|H]; [congruence|].
    apply list_elem_of_singleton in H. congruence. }
  revert E. unfold SetEvent. run.
  destruct (events (mem t) !! event) as [ev|] eqn:Hev.
  2:{ rewrite (upd_event_dangling _ _ _ Hev), (event_at_dangling _ _ Hev). cbn.
      run. rewrite (upd_event_dangling _ _ _ Hev). intros E. injection E as <-.
      cbn [mem trace]. split; [exact Hinv|].
      rewrite <- !app_assoc. cbn [app]. intros H.
      apply (Hlock [pthread_mutex_unlock (EventObj event);
                    pthread_cond_broadcast (EventObj event)] H).
      apply Hnf2; discriminate. }
  rewrite (event_at_upd_event_eq _ _ _ _ Hev). cbn [set_State AutoReset RegisteredWaits].
  set (q := RegisteredWaits ev).
  set (base := fun w' => owns O w' + Z.of_nat (registrations w' (mem t))
                         - Z.of_nat (refs w' q)).
  assert (Hsplit : forall w', (refs w' q <= registrations w' (mem t))%nat).
  { intros w'. exact (refs_le_regs_in w' _ _ _ Hev). }
  assert (Hb0 : forall w', 0 <= base w').
  { intros w'. subst base. cbn. pose proof (owns_nonneg O w'). specialize (Hsplit w'). lia. }
  assert (Hb1 : forall w', w' ∈ O -> 1 <= base w').
  { intros w' Hw'. subst base. cbn. rewrite (owns_in _ _ Hw'). specialize (Hsplit w'). lia. }
  assert (Hc : counteds O base q (upd_event event (set_State true) (mem t))).
  { intros w'. rewrite wfmos_upd_event. specialize (Hok w'). subst base. cbn.
    destruct (wfmos (mem t) !! w') as [[r|]|]; [|specialize (Hsplit w'); lia..].
    destruct Hok as (H1 & H2 & H3). specialize (Hsplit w').
    repeat split; try assumption; try lia. }
  assert (Hinv1 : forall w, events_left_ok w (upd_event event (set_State true) (mem t))).
  { intros w. eapply events_left_ok_wfmos; [|apply Hinv]. apply wfmos_upd_event. }
  destruct (AutoReset ev).
  - match goal with |- context [SetEvent_auto event q ?t1] =>
      destruct (SetEvent_auto_left_several O base Hb0 Hb1 event q t1 Hc Hinv1)
        as (r & t2 & E2 & Hl & Ht) end.
    rewrite E2. cbn [mem trace] in *.
    assert (Ht' : assert_failed ∈ trace t2 -> assert_failed ∈ trace t).
    { intros H. apply Ht in H. revert H. apply not_failed_app. intros H.
      apply list_elem_of_singleton in H. discriminate. }
    destruct r as [r|].
    + run. intros E. injection E as _ <-. auto.
    + run. destruct (State (event_at (mem t2) event)); run; intros E; injection E as <-;
        cbn [mem trace]; (split; [exact Hl|]); [|exact Ht'].
      rewrite <- app_assoc. intros H. apply Ht'. revert H. apply not_failed_app.
      apply Hnf2; discriminate.
  - match goal with |- context [SetEvent_manual q ?t1] =>
      destruct (SetEvent_manual_left_several O base Hb0 Hb1 q t1 Hc Hinv1)
        as (t2 & E2 & Hl & Ht) end.
    rewrite E2. cbn [mem trace] in *. run. intros E. injection E as <-.
    cbn [mem trace]. split.
    + intros w. eapply events_left_ok_wfmos; [|apply Hl]. apply wfmos_upd_event.
    + rewrite <- app_assoc. intros H.
      assert (H2 : assert_failed ∈ trace t2).
      { revert H. apply not_failed_app. apply Hnf2; discriminate. }
      apply Ht in H2. revert H2. apply not_failed_app. intros H2.
      apply list_elem_of_singleton in H2. discriminate.
Qed.

Lemma run_others_left_several O ops : forall h,
  refcounts_ok O h -> (forall w, events_left_ok w h) ->
  refcounts_ok O (run_others ops h) /\ forall w, events_left_ok w (run_others ops h).
Proof.
  induction ops as [|op ops IH]; intros h Hok Hinv; [auto|].
  cbn [run_others fold_left]. apply IH.
  - apply run_other_refcounts_ok, Hok.
  - destruct op as [e|e]; cbn [run_other].
    + destruct (SetEvent_left_several O e (mk_thread h (mk_timeval 0 0) [] []) Hok Hinv)
        as (t' & -> & _ & Hl & _). exact Hl.
    + rewrite ResetEvent_eq. cbn [final mem]. intros w.
      eapply events_left_ok_wfmos; [|apply Hinv]. apply wfmos_upd_event.
Qed.

(** The registration loop touches no record but its own. *)
Lemma register_waits_others w waitAll es : forall i t done t1,
  register_waits w waitAll i es t = Returned done t1 ->
  forall w', w' <> w -> wfmos (mem t1) !! w' = wfmos (mem t) !! w'.
Proof.
  induction es as [|e es IH]; intros i t done t1 E w' Hne.
  - cbn in E. injection E as _ <-. reflexivity.
  - rewrite register_waits_cons in E.
    assert (Hc : forall f, wfmos (upd_wfmo w f (consumed e (mem t))) !! w' = wfmos (mem t) !! w').
    { intros f. unfold upd_wfmo. cbn [wfmos]. rewrite list_lookup_alter_ne by congruence.
      unfold consumed. destruct (AutoReset _); reflexivity. }
    destruct (State (event_at (mem t) e)).
    + destruct waitAll.
      * cbv zeta in E. rewrite (IH _ _ _ _ E w' Hne). cbn [mem]. apply Hc.
      * injection E as _ <-. cbn [mem]. apply Hc.
    + rewrite (IH _ _ _ _ E w' Hne). cbn [mem]. unfold upd_wfmo. cbn [wfmos].
      rewrite list_lookup_alter_ne by congruence. reflexivity.
Qed.

(** X17.  [EventsLeft] counts the events a blocked wait for all is still
    registered on, and the assertions [EventsLeft >= 0] never fail.  In a
    store with exact reference counts, whatever the number of waits in
    progress ([O] lists their records), in which every record of a wait for
    all that is still waiting has [EventsLeft = RefCount - 1]: the
    registration loop of a wait for all over [count] events leaves its own
    record so and the others as they are; [SetEvent] on any event, and
    whatever the other threads do, keeps this and the exact counts; neither
    the loop nor [SetEvent] fails an assertion.  With exact counts it says
    that [EventsLeft] is the number of registrations of the record. *)
Theorem EventsLeft_counts_pending_events (O : list nat) (s : thread) (evs : list nat)
    (count : Z) (event : nat) :
  refcounts_ok O (mem s) ->
  (forall w, events_left_ok w (mem s)) ->
  Forall (fun e => (e < length (events (mem s)))%nat) (take (Z.to_nat count) evs) ->
  0 <= count < Int.max ->
  (Z.to_nat count <= length evs)%nat ->
  (exists s1, registered evs count true s = Returned false s1 /\
     refcounts_ok (length (wfmos (mem s)) :: O) (mem s1) /\
     (forall w, events_left_ok w (mem s1)) /\
     (assert_failed ∈ trace s1 -> assert_failed ∈ trace s)) /\
  (exists s', SetEvent event s = Returned 0 s' /\
     refcounts_ok O (mem s') /\
     (forall w, events_left_ok w (mem s')) /\
     (assert_failed ∈ trace s' -> assert_failed ∈ trace s)) /\
  (forall ops, refcounts_ok O (run_others ops (mem s)) /\
               forall w, events_left_ok w (run_others ops (mem s))) /\
  (forall w, w ∈ O ->
     WaitAll (wfmo_at (mem s) w) = true -> StillWaiting (wfmo_at (mem s) w) = true ->
     Status (wfmo_at (mem s) w) = Z.of_nat (registrations w (mem s))).
Proof.
  intros Hoks Hinv Hvalid Hc Hlen. split; [|split; [|split]].
  - unfold registered. set (w0 := length (wfmos (mem s))).
    set (es := take (Z.to_nat count) evs) in *.
    set (s0 := mk_thread _ _ _ _).
    assert (Hl : Z.of_nat (length es) = count).
    { subst es. rewrite length_take_le by exact Hlen. lia. }
    assert (Hcell : mjoin (wfmos (mem s0) !! w0) = Some (mk_wfmo count true 1 true)).
    { subst s0 w0. cbn [mem]. unfold constructed. cbn [wfmos].
      rewrite list_lookup_middle by reflexivity. reflexivity. }
    destruct (register_waits_left w0 es 0 s0 _ Hcell) as (s1 & r1 & E & H1 & H2 & H3).
    { cbn [Status RefCount]. lia. }
    { cbn [RefCount]. lia. }
    { cbn [RefCount]. lia. }
    destruct (constructed_oks O count true _ Hoks) as [Hok1 Hrc1]. fold w0 in Hok1, Hrc1.
    assert (Hin : w0 ∈ w0 :: O) by (apply elem_of_cons; left; reflexivity).
    destruct (register_waits_oks (w0 :: O) w0 true es 0 s0) as (done & s1' & E' & Hok2 & _).
    { exact Hvalid. }
    { exact Hok1. }
    { exact Hin. }
    { subst s0. cbn [mem]. rewrite Hrc1. lia. }
    { lia. }
    { lia. }
    rewrite E in E'. injection E' as <- <-.
    exists s1. split; [exact E|]. split; [exact Hok2|]. split.
    + intros w. destruct (decide (w = w0)) as [->|Hne].
      * unfold events_left_ok. rewrite (wfmo_at_cell _ _ _ H1). intros _ _. exact H2.
      * pose proof (register_waits_others _ _ _ _ _ _ _ E w Hne) as Hsame.
        specialize (Hinv w). unfold events_left_ok, wfmo_at in *. rewrite Hsame.
        subst s0. cbn [mem]. unfold constructed. cbn [wfmos].
        destruct (decide (w < length (wfmos (mem s)))%nat) as [Hlt|Hge].
        -- rewrite lookup_app_l by exact Hlt. exact Hinv.
        -- rewrite lookup_ge_None_2 by (rewrite length_app; cbn; subst w0; lia).
           cbn. discriminate.
    + intros H. apply H3 in H. subst s0. cbn [trace] in H. revert H.
      apply not_failed_app. intros H.
      repeat (apply elem_of_cons in H as [H|H]; [discriminate|]).
      apply elem_of_nil in H. exact H.
  - apply SetEvent_left_several; assumption.
  - intros ops. apply run_others_left_several; assumption.
  - intros w Hw Ha Hs. rewrite (Hinv w Ha Hs).
    destruct (owners_cell _ _ _ Hoks Hw) as [r Hr]. specialize (Hoks w).
    rewrite Hr, (owns_in _ _ Hw) in Hoks. rewrite (wfmo_at_lookup _ _ _ Hr).
    destruct Hoks as (Hrc & _). lia.
Qed.

(** Two waits for all that have registered on the same three events, of
    which the second, a manual-reset event, was signaled; another thread
    sets event 2, which goes to the first of them. *)
Lemma EventsLeft_counts_pending_events_witness :
  let h := mk_heap [mk_event true false []; mk_event false true []; mk_event true false []] [] in
  let evs := [0%nat; 1%nat; 2%nat] in
  let sA := final (registered evs 3 true (start h (mk_timeval 0 0) [])) in
  let s := final (registered evs 3 true sA) in
  refcounts_ok [1%nat; 0%nat] (mem s) /\
  (forall w, events_left_ok w (mem s)) /\
  wfmo_at (mem s) 0 = mk_wfmo 2 true 3 true /\
  wfmo_at (mem s) 1 = mk_wfmo 2 true 3 true /\
  registrations 0 (mem s) = 2%nat /\
  wfmo_at (mem (final (SetEvent 2 s))) 0 = mk_wfmo 1 true 2 true /\
  (forall w, events_left_ok w (mem (final (SetEvent 2 s)))) /\
  (assert_failed ∈ trace (final (SetEvent 2 s)) -> assert_failed ∈ trace s).
Proof.
  intros h evs sA s.
  assert (Hmem : mem s =
            mk_heap [mk_event true false [mk_info 0 0; mk_info 1 0]; mk_event false true [];
                     mk_event true false [mk_info 0 2; mk_info 1 2]]
                    [Some (mk_wfmo 2 true 3 true); Some (mk_wfmo 2 true 3 true)])
    by (vm_compute; reflexivity).
  assert (Hok : refcounts_ok [1%nat; 0%nat] (mem s)).
  { rewrite Hmem. intros [|[|w]]; cbn [wfmos lookup list_lookup].
    1,2: (split; [vm_compute; reflexivity|];
          split; [vm_compute; split; [reflexivity|discriminate]|];
          intros _; rewrite !elem_of_cons; auto).
    vm_compute. reflexivity. }
  assert (Hinv : forall w, events_left_ok w (mem s)).
  { rewrite Hmem. intros [|[|w]] Ha Hs; try reflexivity.
    vm_compute in Hs. discriminate. }
  assert (Hvalid : Forall (fun e => (e < length (events (mem s)))%nat)
                     (take (Z.to_nat 3) evs)).
  { rewrite Hmem. change (take (Z.to_nat 3) evs) with [0%nat; 1%nat; 2%nat]. repeat constructor. }
  assert (Hc : 0 <= 3 < Int.max) by (vm_compute; split; [discriminate|reflexivity]).
  assert (Hlen : (Z.to_nat 3 <= length evs)%nat) by (vm_compute; lia).
  destruct (EventsLeft_counts_pending_events [1%nat; 0%nat] s evs 3 2 Hok Hinv Hvalid Hc Hlen)
    as (_ & (s' & E & _ & Hl & Hnf) & _ & _).
  split; [exact Hok|]. split; [exact Hinv|].
  split; [rewrite Hmem; reflexivity|]. split; [rewrite Hmem; reflexivity|].
  split; [rewrite Hmem; reflexivity|].
  split; [vm_compute; reflexivity|]. rewrite E. cbn [final]. split; [exact Hl|exact Hnf].
Defined.

(** ** A wait for any event and the operations of the others *)

Lemma visited_same i h h' :
  wfmos h !! Waiter i = wfmos h' !! Waiter i ->
  wfmos (visited i h) !! Waiter i = wfmos (visited i h') !! Waiter i.
Proof.
  intros H.
  assert (H1 : wfmos (after_decr i h) !! Waiter i = wfmos (after_decr i h') !! Waiter i).
  { unfold after_decr, upd_wfmo. cbn [wfmos].
    rewrite !list_lookup_alter, !decide_True by reflexivity. rewrite H. reflexivity. }
  assert (Hat : wfmo_at (after_decr i h) (Waiter i) = wfmo_at (after_decr i h') (Waiter i)).
  { unfold wfmo_at. rewrite H1. reflexivity. }
  unfold visited. cbv zeta. rewrite Hat.
  destruct (StillWaiting _).
  - unfold notified. rewrite Hat.
    destruct (WaitAll _); unfold upd_wfmo; cbn [wfmos];
      rewrite !list_lookup_alter, !decide_True by reflexivity; rewrite H1; reflexivity.
  - unfold released. rewrite Hat. destruct (_ =? _); [|exact H1].
    unfold free_wfmo. cbn [wfmos].
    rewrite !list_lookup_alter, !decide_True by reflexivity. rewrite H1. reflexivity.
Qed.

Lemma visited_agree w i h h' :
  Waiter i <> w ->
  (forall w', w' <> w -> wfmos h' !! w' = wfmos h !! w') ->
  (forall w', w' <> w -> wfmos (visited i h') !! w' = wfmos (visited i h) !! w') /\
  wfmos (visited i h') !! w = wfmos h' !! w /\
  still_waiting h' i = still_waiting h i.
Proof.
  intros Hne Hag. split; [|split].
  - intros w' Hw'. destruct (decide (Waiter i = w')) as [<-|Hn].
    + apply visited_same. apply Hag, Hne.
    + rewrite !wfmos_visited_ne by exact Hn. apply Hag, Hw'.
  - apply wfmos_visited_ne, Hne.
  - unfold still_waiting, wfmo_at. rewrite (Hag _ Hne). reflexivity.
Qed.

Lemma unfired_cell w h :
  unfired w h -> exists r, mjoin (wfmos h !! w) = Some r /\
    StillWaiting r = true /\ WaitAll r = false /\ Status r = -1.
Proof.
  unfold unfired, wfmo_at. destruct (mjoin (wfmos h !! w)) as [r|]; cbn.
  - intros H. exists r. auto.
  - intros [H _]. discriminate.
Qed.

Lemma served_wfmos w h h' : wfmos h' = wfmos h -> served w h -> served w h'.
Proof. unfold served, wfmo_at. intros ->. auto. Qed.

Lemma unfired_wfmos w h h' : wfmos h' !! w = wfmos h !! w -> unfired w h -> unfired w h'.
Proof. unfold unfired, wfmo_at. intros ->. auto. Qed.

Lemma visited_ours w i h :
  ours w i -> unfired w h -> served w (visited i h) /\ still_waiting h i = true.
Proof.
  intros [Hw Hi] Hu. subst w. destruct (unfired_cell _ _ Hu) as (r & Hj & Hs & Ha & Hst).
  pose proof (cell_upd_wfmo _ _ decr_RefCount _ Hj) as Hc1. fold (after_decr i h) in Hc1.
  split.
  - unfold visited. cbv zeta. rewrite (wfmo_at_cell _ _ _ Hc1).
    cbn [decr_RefCount set_RefCount StillWaiting]. rewrite Hs.
    unfold notified. rewrite (wfmo_at_cell _ _ _ Hc1).
    cbn [decr_RefCount set_RefCount WaitAll]. rewrite Ha.
    unfold served.
    rewrite (wfmo_at_cell _ _ _
               (cell_upd_wfmo _ _ (set_StillWaiting false) _
                  (cell_upd_wfmo _ _ (set_Status (WaitIndex i)) _ Hc1))).
    cbn. split; [exact Hi|reflexivity].
  - unfold still_waiting. rewrite (wfmo_at_cell _ _ _ Hj). exact Hs.
Qed.

Lemma Status_after_decr i h w :
  Status (wfmo_at (after_decr i h) w) = Status (wfmo_at h w).
Proof.
  unfold after_decr. rewrite wfmo_at_upd_wfmo. destruct (decide _) as [<-|]; [|reflexivity].
  unfold wfmo_at. destruct (mjoin _); reflexivity.
Qed.

Lemma visited_served w i h : served w h -> served w (visited i h).
Proof.
  intros [Hst Hs]. destruct (decide (Waiter i = w)) as [<-|Hne].
  - unfold visited. cbv zeta. rewrite StillWaiting_after_decr, Hs.
    unfold released. destruct (_ =? _).
    + unfold served. rewrite wfmo_at_free_wfmo, decide_True by reflexivity.
      cbn. split; [lia|reflexivity].
    + unfold served. rewrite Status_after_decr, StillWaiting_after_decr. auto.
  - unfold served, wfmo_at. rewrite wfmos_visited_ne by exact Hne. split; assumption.
Qed.

(** One iteration of the loop of the auto-reset branch. *)
Lemma SetEvent_auto_visit e i q t :
  exists t2,
    SetEvent_auto e (i :: q) t =
      (if still_waiting (mem t) i then Returned (Some 0) t2 else SetEvent_auto e q t2) /\
    wfmos (mem t2) = wfmos (visited i (mem t)) /\
    events (mem t2) =
      alter (fun ev => pop_front (if still_waiting (mem t) i then set_State false ev else ev))
        e (events (mem t)).
Proof.
  rewrite SetEvent_auto_cons. cbv zeta. unfold visited, still_waiting. cbv zeta.
  rewrite StillWaiting_after_decr.
  destruct (StillWaiting (wfmo_at (mem t) (Waiter i))); eexists;
    (split; [reflexivity|]); cbn [mem]; split.
  - rewrite wfmos_upd_event. apply wfmos_notified_upd_event.
  - unfold upd_event at 1. cbn [events]. rewrite events_notified.
    unfold upd_event, after_decr. cbn [events]. rewrite list_alter_alter_eq. reflexivity.
  - reflexivity.
  - unfold upd_event. cbn [events]. rewrite events_released. reflexivity.
Qed.

Lemma SetEvent_manual_served w q : forall t,
  served w (mem t) -> served w (mem (final (SetEvent_manual q t))).
Proof.
  induction q as [|i q IH]; intros t H; [exact H|].
  destruct (SetEvent_manual_visit i q t) as (tr & E & _). rewrite E.
  apply IH. cbn [mem]. apply visited_served, H.
Qed.

Lemma SetEvent_auto_served w e q : forall t,
  served w (mem t) -> served w (mem (final (SetEvent_auto e q t))).
Proof.
  induction q as [|i q IH]; intros t H; [exact H|].
  destruct (SetEvent_auto_visit e i q t) as (t2 & E & Hw & _). rewrite E.
  assert (H2 : served w (mem t2)).
  { eapply served_wfmos; [exact Hw|]. apply visited_served, H. }
  destruct (still_waiting (mem t) i); [exact H2|apply IH, H2].
Qed.

Lemma SetEvent_served w e t :
  served w (mem t) -> served w (mem (final (SetEvent e t))).
Proof.
  intros H. unfold SetEvent. run.
  destruct (AutoReset (event_at (upd_event e (set_State true) (mem t)) e)).
  - match goal with |- context [SetEvent_auto e ?q ?t1] =>
      pose proof (SetEvent_auto_served w e q t1 H) as H2;
      destruct (SetEvent_auto e q t1) as [[r|] t2|t2] end; cbn [final] in H2 |- *.
    + exact H2.
    + run. destruct (State (event_at (mem t2) e)); exact H2.
    + exact H2.
  - match goal with |- context [SetEvent_manual ?q ?t1] =>
      pose proof (SetEvent_manual_served w q t1 H) as H2;
      destruct (SetEvent_manual q t1) as [r t2|t2] end; cbn [final] in H2 |- *.
    + run. exact H2.
    + exact H2.
Qed.

Lemma run_others_served w ops : forall h,
  served w h -> served w (run_others ops h).
Proof.
  induction ops as [|op ops IH]; intros h H; [exact H|].
  cbn [run_others fold_left]. apply IH. destruct op as [e|e]; cbn [run_other].
  - apply SetEvent_served. exact H.
  - rewrite ResetEvent_eq. exact H.
Qed.

Lemma SetEvent_manual_app q o : forall t,
  exists t1, SetEvent_manual q t = Returned tt t1 /\
    SetEvent_manual (q ++ o) t = SetEvent_manual o t1.
Proof.
  induction q as [|i q IH]; intros t.
  - exists t. split; reflexivity.
  - cbn [app]. rewrite !SetEvent_manual_cons. cbv zeta.
    destruct (StillWaiting _); apply IH.
Qed.

(** [SetEvent], on the store. *)
Lemma SetEvent_mem e t :
  let t1 := mk_thread (upd_event e (set_State true) (mem t)) (clock t) (sched t)
              (trace t ++ [pthread_mutex_lock (EventObj e)]) in
  mem (final (SetEvent e t)) =
    if AutoReset (event_at (mem t1) e)
    then mem (final (SetEvent_auto e (RegisteredWaits (event_at (mem t1) e)) t1))
    else upd_event e (set_RegisteredWaits [])
           (mem (final (SetEvent_manual (RegisteredWaits (event_at (mem t1) e)) t1))).
Proof.
  intros t1. subst t1. cbn [mem]. unfold SetEvent. run.
  destruct (AutoReset (event_at (upd_event e (set_State true) (mem t)) e)).
  - destruct (SetEvent_auto e _ _) as [[r|] t2|t2]; cbn [final]; try reflexivity.
    run. destruct (State (event_at (mem t2) e)); reflexivity.
  - match goal with |- context [SetEvent_manual ?q ?t1] =>
      destruct (SetEvent_manual_app q [] t1) as (t2 & E & _) end.
    rewrite E. run. reflexivity.
Qed.

Lemma unserved_queue w h h' e :
  unserved w h h' ->
  AutoReset (event_at h' e) = AutoReset (event_at h e) /\
  State (event_at h' e) = State (event_at h e) /\
  Forall (fun i => Waiter i <> w) (RegisteredWaits (event_at h e)) /\
  exists o, RegisteredWaits (event_at h' e) = RegisteredWaits (event_at h e) ++ o /\
            Forall (ours w) o.
Proof.
  intros (Hev & _ & _). unfold event_at.
  destruct (events h !! e) as [ev|] eqn:E.
  - destruct (Forall2_lookup_l _ _ _ _ _ Hev E) as (ev' & E' & H). rewrite E'. exact H.
  - assert (E' : events h' !! e = None).
    { apply lookup_ge_None. apply lookup_ge_None in E.
      rewrite <- (Forall2_length _ _ _ Hev). exact E. }
    rewrite E'. cbn. repeat split; try constructor.
    exists []. split; [reflexivity|constructor].
Qed.

Lemma unserved_alter w e f f' h h' g g' :
  unserved w h h' ->
  (forall ev ev', events h !! e = Some ev -> events h' !! e = Some ev' ->
     event_unserved w ev ev' -> event_unserved w (f ev) (f' ev')) ->
  events g = alter f e (events h) ->
  events g' = alter f' e (events h') ->
  (forall w', w' <> w -> wfmos g' !! w' = wfmos g !! w') ->
  wfmos g' !! w = wfmos h' !! w ->
  unserved w g g'.
Proof.
  intros (Hev & Hag & Hu) Hf Eg Eg' Hag' Hw. split; [|split].
  - rewrite Eg, Eg'. apply Forall2_alter; [exact Hev|]. exact Hf.
  - exact Hag'.
  - eapply unfired_wfmos; [exact Hw|exact Hu].
Qed.

Lemma unserved_upd_event w e f h h' :
  (forall ev ev', event_unserved w ev ev' -> event_unserved w (f ev) (f ev')) ->
  unserved w h h' -> unserved w (upd_event e f h) (upd_event e f h').
Proof.
  intros Hf H. apply (unserved_alter w e f f h h' _ _ H); try reflexivity.
  - intros ev ev' _ _. apply Hf.
  - intros w' Hw'. rewrite !wfmos_upd_event. destruct H as (_ & Hag & _). apply Hag, Hw'.
Qed.

Lemma event_unserved_set_State w b ev ev' :
  event_unserved w ev ev' -> event_unserved w (set_State b ev) (set_State b ev').
Proof. intros (A & B & C & D). repeat split; assumption. Qed.

Lemma event_unserved_cleared w ev ev' :
  event_unserved w ev ev' ->
  event_unserved w (set_RegisteredWaits [] ev) (set_RegisteredWaits [] ev').
Proof.
  intros (A & B & C & D). split; [exact A|]. split; [exact B|]. split; [constructor|].
  exists []. split; [reflexivity|constructor].
Qed.

(** The manual-reset loop over the registrations of the others. *)
Lemma SetEvent_manual_others w q : forall t t',
  Forall (fun i => Waiter i <> w) q ->
  (forall w', w' <> w -> wfmos (mem t') !! w' = wfmos (mem t) !! w') ->
  (forall w', w' <> w ->
     wfmos (mem (final (SetEvent_manual q t'))) !! w' =
     wfmos (mem (final (SetEvent_manual q t))) !! w') /\
  wfmos (mem (final (SetEvent_manual q t'))) !! w = wfmos (mem t') !! w.
Proof.
  induction q as [|i q IH]; intros t t' Hq Hag; [auto|].
  apply Forall_cons in Hq as [Hi Hq].
  destruct (SetEvent_manual_visit i q t) as (tr & E & _).
  destruct (SetEvent_manual_visit i q t') as (tr' & E' & _).
  rewrite E, E'.
  destruct (visited_agree w i (mem t) (mem t') Hi Hag) as (A & B & _).
  match goal with |- context [SetEvent_manual q ?a] =>
    match goal with |- context [wfmos (mem (final (SetEvent_manual q ?b))) !! _ = wfmos (mem (final (SetEvent_manual q a))) !! _] =>
      destruct (IH a b Hq A) as [C D] end end.
  split; [exact C|]. rewrite D. exact B.
Qed.

(** The manual-reset loop on the registrations of the wait itself. *)
Lemma SetEvent_manual_ours w o : forall t,
  Forall (ours w) o -> o <> [] -> unfired w (mem t) ->
  served w (mem (final (SetEvent_manual o t))).
Proof.
  intros t Ho Hne Hu. destruct o as [|i o]; [contradiction|].
  apply Forall_cons in Ho as [Hi _].
  destruct (SetEvent_manual_visit i o t) as (tr & E & _). rewrite E.
  apply SetEvent_manual_served. cbn [mem].
  apply (visited_ours w i (mem t) Hi Hu).
Qed.

(** The auto-reset loop: both stores hand the event to the same waiter, or
    the wait is served. *)
Lemma SetEvent_auto_unserved w e q : forall t t',
  unserved w (mem t) (mem t') ->
  RegisteredWaits (event_at (mem t) e) = q ->
  served w (mem (final (SetEvent_auto e (RegisteredWaits (event_at (mem t') e)) t'))) \/
  unserved w (mem (final (SetEvent_auto e q t)))
             (mem (final (SetEvent_auto e (RegisteredWaits (event_at (mem t') e)) t'))).
Proof.
  induction q as [|i q IH]; intros t t' Hun Hq.
  - destruct (unserved_queue w _ _ e Hun) as (_ & _ & _ & o & Ho & Hours).
    rewrite Hq in Ho. cbn [app] in Ho. rewrite Ho.
    destruct o as [|i o]; [right; exact Hun|]. left.
    apply Forall_cons in Hours as [Hi _].
    destruct Hun as (_ & _ & Hu).
    destruct (visited_ours w i (mem t') Hi Hu) as [Hs Hl].
    destruct (SetEvent_auto_visit e i o t') as (t2 & E & Hw & _). rewrite E, Hl. cbn [final].
    eapply served_wfmos; [exact Hw|exact Hs].
  - destruct (unserved_queue w _ _ e Hun) as (_ & _ & Hoth & o & Ho & Hours).
    rewrite Hq in Ho, Hoth. cbn [app] in Ho. rewrite Ho.
    apply Forall_cons in Hoth as [Hi Hoth].
    pose proof Hun as (Hev & Hag & Hu).
    destruct (visited_agree w i (mem t) (mem t') Hi Hag) as (A & B & C).
    destruct (SetEvent_auto_visit e i q t) as (t2 & E & Hw & He).
    destruct (SetEvent_auto_visit e i (q ++ o) t') as (t2' & E' & Hw' & He').
    rewrite E, E', C.
    assert (Hun2 : unserved w (mem t2) (mem t2')).
    { eapply (unserved_alter w e _ _ _ _ _ _ Hun); [|exact He|exact He'| |].
      - rewrite C. intros ev ev' Hl Hl' (P1 & P2 & P3 & o' & P4 & P5).
        assert (Hqe : RegisteredWaits ev = i :: q).
        { rewrite <- Hq. unfold event_at. rewrite Hl. reflexivity. }
        rewrite Hqe in P3, P4. apply Forall_cons in P3 as [_ P3].
        destruct (still_waiting (mem t) i).
        + split; [exact P1|]. split; [reflexivity|]. cbn. rewrite Hqe, P4. cbn.
          split; [exact P3|]. exists o'. split; [reflexivity|exact P5].
        + split; [exact P1|]. split; [exact P2|]. cbn. rewrite Hqe, P4. cbn.
          split; [exact P3|]. exists o'. split; [reflexivity|exact P5].
      - intros w' Hne'. rewrite Hw, Hw'. apply A, Hne'.
      - rewrite Hw'. exact B. }
    destruct (still_waiting (mem t) i) eqn:Hlive; [right; exact Hun2|].
    assert (Hq2 : RegisteredWaits (event_at (mem t2) e) = q).
    { unfold event_at. rewrite He, list_lookup_alter, decide_True by reflexivity.
      assert (Hex : exists ev, events (mem t) !! e = Some ev).
      { unfold event_at in Hq. destruct (events (mem t) !! e) as [ev|]; [eauto|discriminate]. }
      destruct Hex as [ev Hl]. rewrite Hl. cbn.
      unfold event_at in Hq. rewrite Hl in Hq. cbn in Hq. rewrite Hq. reflexivity. }
    assert (Hq2' : RegisteredWaits (event_at (mem t2') e) = q ++ o).
    { rewrite C in He'.
      unfold event_at. rewrite He', list_lookup_alter, decide_True by reflexivity.
      assert (Hex : exists ev, events (mem t') !! e = Some ev).
      { unfold event_at in Ho. destruct (events (mem t') !! e) as [ev|]; [eauto|discriminate]. }
      destruct Hex as [ev Hl]. rewrite Hl. cbn.
      unfold event_at in Ho. rewrite Hl in Ho. cbn in Ho. rewrite Ho. reflexivity. }
    specialize (IH t2 t2' Hun2 Hq2). rewrite Hq2' in IH. exact IH.
Qed.

(** [SetEvent] by another thread: it does to both stores the same, or it
    serves the wait. *)
Lemma SetEvent_unserved w e t t' :
  unserved w (mem t) (mem t') ->
  served w (mem (final (SetEvent e t'))) \/
  unserved w (mem (final (SetEvent e t))) (mem (final (SetEvent e t'))).
Proof.
  intros Hun. rewrite (SetEvent_mem e t), (SetEvent_mem e t'). cbv zeta. cbn [mem].
  set (t1 := mk_thread (upd_event e (set_State true) (mem t)) _ _ _).
  set (t1' := mk_thread (upd_event e (set_State true) (mem t')) _ _ _).
  assert (Hun1 : unserved w (mem t1) (mem t1')).
  { apply unserved_upd_event; [apply event_unserved_set_State|exact Hun]. }
  change (upd_event e (set_State true) (mem t)) with (mem t1).
  change (upd_event e (set_State true) (mem t')) with (mem t1').
  destruct (unserved_queue w _ _ e Hun1) as (Ha & _ & Hoth & o & Ho & Hours).
  rewrite Ha. destruct (AutoReset (event_at (mem t1) e)).
  - apply SetEvent_auto_unserved; [exact Hun1|reflexivity].
  - rewrite Ho.
    destruct (SetEvent_manual_app (RegisteredWaits (event_at (mem t1) e)) o t1')
      as (t2' & E' & Eapp).
    rewrite Eapp.
    pose proof Hun1 as (Hev & Hag & Hu).
    destruct (SetEvent_manual_others w _ t1 t1' Hoth Hag) as [A B].
    rewrite E' in A, B. cbn [final] in A, B.
    assert (Hu2 : unfired w (mem t2')) by (eapply unfired_wfmos; [exact B|exact Hu]).
    destruct o as [|i o].
    + right. cbn [SetEvent_manual ret final].
      eapply (unserved_alter w e (set_RegisteredWaits []) (set_RegisteredWaits []) _ _ _ _ Hun1).
      * intros ev ev' _ _. apply event_unserved_cleared.
      * unfold upd_event. cbn [events]. rewrite SetEvent_manual_events. reflexivity.
      * unfold upd_event. cbn [events].
        pose proof (SetEvent_manual_events (RegisteredWaits (event_at (mem t1) e)) t1') as H.
        rewrite E' in H. cbn [final] in H. rewrite H. reflexivity.
      * intros w' Hw'. rewrite !wfmos_upd_event. apply A, Hw'.
      * rewrite wfmos_upd_event. exact B.
    + left. eapply served_wfmos; [apply wfmos_upd_event|].
      apply (SetEvent_manual_ours w (i :: o)); [exact Hours|discriminate|exact Hu2].
Qed.

Lemma run_others_unserved w ops : forall h h',
  unserved w h h' ->
  served w (run_others ops h') \/ unserved w (run_others ops h) (run_others ops h').
Proof.
  induction ops as [|op ops IH]; intros h h' H; [right; exact H|].
  cbn [run_others fold_left].
  assert (H1 : served w (run_other h' op) \/ unserved w (run_other h op) (run_other h' op)).
  { destruct op as [e|e]; cbn [run_other].
    - apply SetEvent_unserved. exact H.
    - right. rewrite !ResetEvent_eq. cbn [final mem].
      apply unserved_upd_event; [apply event_unserved_set_State|exact H]. }
  destruct H1 as [H1|H1].
  - left. apply (run_others_served w ops _ H1).
  - apply IH, H1.
Qed.

(** The registration loop of a wait for any event that finds no event
    signaled puts its registrations behind those of the others. *)
Lemma register_waits_unserved w es : forall i t t1 h0,
  0 <= i ->
  unserved w h0 (mem t) ->
  register_waits w false i es t = Returned false t1 ->
  unserved w h0 (mem t1).
Proof.
  induction es as [|e es IH]; intros i t t1 h0 Hi Hun E.
  - cbn in E. injection E as <-. exact Hun.
  - rewrite register_waits_cons in E.
    destruct (State (event_at (mem t) e)); [discriminate|].
    eapply (IH (i + 1)); [lia| |exact E]. cbn [mem].
    destruct Hun as (Hev & Hag & Hu). split; [|split].
    + rewrite events_upd_wfmo. unfold upd_event. cbn [events].
      apply Forall2_alter_r; [exact Hev|].
      intros ev ev' _ _ (P1 & P2 & P3 & o & P4 & P5).
      split; [exact P1|]. split; [exact P2|]. split; [exact P3|].
      exists (o ++ [mk_info w i]). cbn. rewrite P4, app_assoc. split; [reflexivity|].
      apply Forall_app. split; [exact P5|]. constructor; [|constructor].
      split; [reflexivity|exact Hi].
    + intros w' Hw'. unfold upd_wfmo. cbn [wfmos].
      rewrite list_lookup_alter_ne by congruence. rewrite wfmos_upd_event. apply Hag, Hw'.
    + destruct (unfired_cell _ _ Hu) as (r & Hj & Hs & Ha & Hst).
      assert (Hj' : mjoin (wfmos (upd_event e (push_back (mk_info w i)) (mem t)) !! w) = Some r)
        by exact Hj.
      pose proof (cell_upd_wfmo _ _ incr_RefCount _ Hj') as Hc.
      unfold unfired. rewrite (wfmo_at_cell _ _ _ Hc). cbn. auto.
Qed.

Lemma constructed_unserved count h :
  registrations (length (wfmos h)) h = 0%nat ->
  unserved (length (wfmos h)) h (constructed count false h).
Proof.
  intros Hfresh. split; [|split].
  - change (events (constructed count false h)) with (events h).
    apply Forall_Forall2_diag. apply Forall_lookup_2. intros e ev Hev.
    split; [reflexivity|]. split; [reflexivity|]. split.
    + apply refs_zero_not_in.
      pose proof (refs_le_regs_in (length (wfmos h)) _ _ _ Hev) as Hle.
      change (regs_in (length (wfmos h)) (events h)) with (registrations (length (wfmos h)) h) in Hle.
      lia.
    + exists []. rewrite app_nil_r. split; [reflexivity|constructor].
  - intros w' Hw'. unfold constructed. cbn [wfmos].
    destruct (decide (w' < length (wfmos h))%nat) as [Hlt|Hge].
    + apply lookup_app_l. exact Hlt.
    + rewrite !lookup_ge_None_2; [reflexivity|lia|rewrite length_app; cbn; lia].
  - unfold unfired. rewrite (wfmo_at_cell _ _ _ (constructed_cell count false h)). cbn. auto.
Qed.

(** A wait for any event that times out with -1 in the out-parameter has
    consumed nothing: every event is in the state in which the operations of
    the other threads alone leave it. *)
Lemma WaitForMultipleEvents_timeout_unserved s evs count ms idx s2 :
  registrations (length (wfmos (mem s))) (mem s) = 0%nat ->
  WaitForMultipleEvents evs count false ms s = Returned (ETIMEDOUT, idx) s2 ->
  idx = -1 ->
  exists k, sched s = k ++ sched s2 /\
    forall e, State (event_at (mem s2) e) =
              State (event_at (run_others (others_of k) (mem s)) e).
Proof.
  intros Hfresh. rewrite WaitForMultipleEvents_eq. cbv zeta.
  destruct (registered_frame evs count false s)
    as (done & sr & E & Hs & Hk & _ & _ & _).
  rewrite E. unfold wait_phase. destruct done; [discriminate|].
  assert (Hun : unserved (length (wfmos (mem s))) (mem s) (mem sr)).
  { unfold registered in E.
    eapply (register_waits_unserved _ _ 0); [lia| |exact E]. cbn [mem].
    apply constructed_unserved, Hfresh. }
  assert (Hfin : forall h h', unserved (length (wfmos (mem s))) h h' ->
            forall e, State (event_at (finalized (length (wfmos (mem s))) h') e) =
                      State (event_at h e)).
  { intros h h' H e. unfold event_at at 1. rewrite events_finalized.
    fold (event_at h' e). destruct (unserved_queue _ _ _ e H) as (_ & A & _). exact A. }
  destruct (ms =? 0).
  - intros [= _ <-] _. exists []. cbn [mem sched]. split; [symmetry; exact Hs|].
    apply Hfin, Hun.
  - destruct (wait_until_done_consumed (length (wfmos (mem s))) false
                (timeout_of (clock sr) ms) (sched sr) 0 sr eq_refl) as (k & Ek & Hm & _).
    destruct (wait_until_done _ _ _ _ _ _) as [a t3|t3]; [|discriminate].
    cbn [final] in Ek, Hm. intros [= _ Hidx <-] ->. cbn [mem sched].
    exists k. split; [rewrite <- Hs; exact Ek|].
    destruct (run_others_unserved _ (others_of k) _ _ Hun) as [[Hst _]|H].
    + rewrite <- Hm in Hst. lia.
    + rewrite Hm. apply Hfin, H.
Qed.

(** C3, amended.  A [WaitForEvent], and a [WaitForMultipleEvents] for any
    one event, that returns [ETIMEDOUT] has itself reset no event.  A single
    wait leaves the store as the other threads made it while it slept.  In a
    multiple wait the registration loop leaves the state of every event as it
    was, and afterwards the events are as the other threads made them; when
    the out-parameter is -1, so that no [SetEvent] has reached the waiter,
    nothing has been consumed for the call either: every event is in the
    state in which the operations of the other threads leave it when they
    are run on the store that the call found, without the call.  The call
    is supposed to find no registration of the record that it is going to
    allocate, as in every store that the operations have made. *)
Theorem timeout_consumes_nothing
    (t t1 : thread) (e : nat) (ms : Z)
    (s s2 : thread) (evs : list nat) (count ms' idx : Z) :
  WaitForEvent e ms t = Returned ETIMEDOUT t1 ->
  WaitForMultipleEvents evs count false ms' s = Returned (ETIMEDOUT, idx) s2 ->
  (exists k, sched t = k ++ sched t1 /\ mem t1 = run_others (others_of k) (mem t)) /\
  (exists sr k,
     registered evs count false s = Returned false sr /\
     (forall e', State (event_at (mem sr) e') = State (event_at (mem s) e')) /\
     sched s = k ++ sched s2 /\
     events (mem s2) = events (run_others (others_of k) (mem sr))) /\
  (registrations (length (wfmos (mem s))) (mem s) = 0%nat -> idx = -1 ->
   exists k, sched s = k ++ sched s2 /\
     forall e', State (event_at (mem s2) e') =
                State (event_at (run_others (others_of k) (mem s)) e')).
Proof.
  intros H1 H2. split; [|split].
  - exact (WaitForEvent_timeout_frame t e ms t1 H1).
  - exact (WaitForMultipleEvents_timeout_frame s evs count ms' idx s2 H2).
  - intros Hfresh Hidx.
    exact (WaitForMultipleEvents_timeout_unserved s evs count ms' idx s2 Hfresh H2 Hidx).
Qed.

(** A single wait and a wait for any event on an auto-reset event in whose
    queue another waiter stands first.  Another thread sets the event while
    they sleep; the event goes to that waiter, and both calls time out having
    consumed nothing. *)
Lemma timeout_consumes_nothing_witness :
  let h := mk_heap [mk_event true false [mk_info 0 0]]
                   [Some (mk_wfmo (-1) true 2 false)] in
  let t := start h (mk_timeval 0 0) [mk_wakeup [OtherSetEvent 0] true] in
  let t1 := final (WaitForEvent 0 7 t) in
  let s2 := final (WaitForMultipleEvents [0%nat] 1 false 7 t) in
  WaitForEvent 0 7 t = Returned ETIMEDOUT t1 /\
  WaitForMultipleEvents [0%nat] 1 false 7 t = Returned (ETIMEDOUT, -1) s2 /\
  registrations (length (wfmos (mem t))) (mem t) = 0%nat /\
  wfmo_at (mem s2) 0 = mk_wfmo 0 false 1 false /\
  (exists k, sched t = k ++ sched t1 /\ mem t1 = run_others (others_of k) (mem t)) /\
  (exists k, sched t = k ++ sched s2 /\
     forall e', State (event_at (mem s2) e') =
                State (event_at (run_others (others_of k) (mem t)) e')).
Proof.
  intros h t t1 s2.
  assert (E1 : WaitForEvent 0 7 t = Returned ETIMEDOUT t1) by (vm_compute; reflexivity).
  assert (E2 : WaitForMultipleEvents [0%nat] 1 false 7 t = Returned (ETIMEDOUT, -1) s2)
    by (vm_compute; reflexivity).
  assert (Hfresh : registrations (length (wfmos (mem t))) (mem t) = 0%nat)
    by (vm_compute; reflexivity).
  destruct (timeout_consumes_nothing t t1 0%nat 7 t s2 [0%nat] 1 7 (-1) E1 E2)
    as (A & _ & C).
  split; [exact E1|]. split; [exact E2|]. split; [exact Hfresh|].
  split; [vm_compute; reflexivity|]. split; [exact A|]. exact (C Hfresh eq_refl).
Defined.

(** ** A blocked wait for all events and the calls to [SetEvent] that end it *)

(** A record that has left its wait stays so under [SetEvent]. *)
Lemma visited_keeps_left x i h :
  StillWaiting (wfmo_at h x) = false -> StillWaiting (wfmo_at (visited i h) x) = false.
Proof.
  intros H. destruct (decide (Waiter i = x)) as [<-|Hne].
  - unfold visited. cbv zeta. rewrite StillWaiting_after_decr, H.
    apply StillWaiting_released. rewrite StillWaiting_after_decr. exact H.
  - unfold wfmo_at. rewrite wfmos_visited_ne by exact Hne. exact H.
Qed.

Lemma SetEvent_keeps_left x e t :
  StillWaiting (wfmo_at (mem t) x) = false ->
  StillWaiting (wfmo_at (mem (final (SetEvent e t))) x) = false.
Proof.
  intros H. rewrite SetEvent_mem. cbv zeta. cbn [mem].
  set (t1 := mk_thread _ _ _ _).
  assert (H1 : StillWaiting (wfmo_at (mem t1) x) = false) by exact H.
  clearbody t1. destruct (AutoReset _).
  - revert t1 H1. induction (RegisteredWaits _) as [|i q IH]; intros t1 H1; [exact H1|].
    destruct (SetEvent_auto_visit e i q t1) as (t2 & E & Hw & _). rewrite E.
    assert (H2 : StillWaiting (wfmo_at (mem t2) x) = false).
    { unfold wfmo_at. rewrite Hw. apply visited_keeps_left, H1. }
    destruct (still_waiting (mem t1) i); [exact H2|apply IH, H2].
  - rewrite wfmo_at_upd_event.
    revert t1 H1. induction (RegisteredWaits _) as [|i q IH]; intros t1 H1; [exact H1|].
    destruct (SetEvent_manual_visit i q t1) as (tr & E & _). rewrite E.
    apply IH. cbn [mem]. apply visited_keeps_left, H1.
Qed.

Lemma handed_over_step w h0 es k h e :
  NoDup es ->
  Z.of_nat (length es) <= Int.max ->
  handed_over w h0 es k h ->
  es !! k = Some e ->
  handed_over w h0 es (S k) (run_other h (OtherSetEvent e)).
Proof.
  intros Hnd Hmax (Hst & Hsw & Hwa & Hpend & Htaken) Hk.
  pose proof (lookup_lt_Some _ _ _ Hk) as Hlt.
  destruct (Hpend k e (Nat.le_refl k) Hk) as (ev & gone & Hev & Hs & Ha & Hq & Hgone).
  set (t := mk_thread h (mk_timeval 0 0) [] []).
  assert (Hgone' : Forall (fun i' => still_waiting (mem t) i' = false /\
                                     Waiter i' <> Waiter (mk_info w (Z.of_nat k))) gone).
  { eapply Forall_impl; [exact Hgone|]. intros i' [Hne Hd]. split; [exact Hd|exact Hne]. }
  destruct (SetEvent_hands_over t e ev gone (mk_info w (Z.of_nat k)) Hev Hq Hgone' Hsw)
    as (t' & E & Hsig & Hevs).
  pose proof (fun x => SetEvent_keeps_left x e t) as Hleft. rewrite E in Hleft.
  cbn [final] in Hleft.
  cbn [run_other]. fold t. rewrite E. cbn [final]. cbn [mem Waiter] in Hsig, Hevs.
  assert (Hrec : wfmo_at (mem t') w = decr_Status (decr_RefCount (wfmo_at h w))).
  { rewrite Hsig. unfold signalled. cbn [decr_RefCount set_RefCount WaitAll].
    change (mem t) with h. rewrite Hwa. reflexivity. }
  assert (Hother : forall e', e' <> e -> events (mem t') !! e' = events h !! e').
  { intros e' Hne. rewrite Hevs. apply list_lookup_insert_ne. congruence. }
  unfold handed_over. rewrite Hrec.
  cbn [decr_Status decr_RefCount set_Status set_RefCount Status StillWaiting WaitAll].
  split; [|split; [exact Hsw|split; [exact Hwa|split]]].
  - rewrite Hst, Int_decr_pos by lia. lia.
  - intros m e' Hm Hm'.
    assert (Hne : e' <> e).
    { intros ->. pose proof (NoDup_lookup _ _ _ _ Hnd Hm' Hk). lia. }
    destruct (Hpend m e' ltac:(lia) Hm') as (ev' & gone' & A & B & C & D & F).
    exists ev', gone'. rewrite (Hother _ Hne).
    split; [exact A|]. split; [exact B|]. split; [exact C|]. split; [exact D|].
    eapply Forall_impl; [exact F|]. intros i' [Hn Hd]. split; [exact Hn|].
    apply Hleft. exact Hd.
  - intros m e' Hm Hm'. unfold taken.
    destruct (decide (m = k)) as [->|Hmk].
    + rewrite Hk in Hm'. injection Hm' as <-.
      unfold event_at. rewrite Hevs, list_lookup_insert_eq by (eapply lookup_lt_Some; exact Hev).
      cbn [default]. rewrite Ha. reflexivity.
    + assert (Hne : e' <> e).
      { intros ->. pose proof (NoDup_lookup _ _ _ _ Hnd Hm' Hk). lia. }
      unfold event_at. rewrite (Hother _ Hne). apply (Htaken m e' ltac:(lia) Hm').
Qed.

Lemma handed_over_run w h0 es h :
  NoDup es ->
  Z.of_nat (length es) <= Int.max ->
  handed_over w h0 es 0 h ->
  forall k, (k <= length es)%nat ->
    handed_over w h0 es k (run_others (map OtherSetEvent (take k es)) h).
Proof.
  intros Hnd Hmax H0. induction k as [|k IH]; intros Hk.
  - rewrite take_0. exact H0.
  - destruct (lookup_lt_is_Some_2 es k ltac:(lia)) as [e He].
    rewrite (take_S_r _ _ _ He), map_app, run_others_app. cbn [map run_others fold_left].
    apply handed_over_step; auto. apply IH. lia.
Qed.

(** The registration loop of a wait for all over distinct events that are
    not signaled, and in whose queues no waiter stands that is still
    waiting, leaves the wait in progress with every event pending. *)
Lemma registered_pending (t : thread) (evs : list nat) (count : Z) :
  registrations (length (wfmos (mem t))) (mem t) = 0%nat ->
  Forall (fun e => Forall (fun i => still_waiting (mem t) i = false)
                     (RegisteredWaits (event_at (mem t) e)))
    (take (Z.to_nat count) evs) ->
  0 <= count < Int.max ->
  (Z.to_nat count <= length evs)%nat ->
  NoDup (take (Z.to_nat count) evs) ->
  Forall (fun e => (e < length (events (mem t)))%nat) (take (Z.to_nat count) evs) ->
  Forall (fun e => State (event_at (mem t) e) = false) (take (Z.to_nat count) evs) ->
  exists t1,
    registered evs count true t = Returned false t1 /\
    handed_over (length (wfmos (mem t))) (mem t) (take (Z.to_nat count) evs) 0 (mem t1) /\
    sched t1 = sched t /\ clock t1 = clock t /\
    waits (trace t1) = waits (trace t).
Proof.
  intros Hfresh Hdead Hc Hlen Hnd Hvalid Hpre. unfold registered.
  set (w := length (wfmos (mem t))) in *.
  set (es := take (Z.to_nat count) evs) in *.
  set (t0 := mk_thread _ _ _ _).
  assert (Hl : Z.of_nat (length es) = count).
  { subst es. rewrite length_take_le by exact Hlen. lia. }
  destruct (register_waits_unsignaled w true es [] 0 t0 Hpre)
    as (t1 & E & H1 & H2 & H3 & HQ & H4 & H5 & H6 & H7 & H8 & H9).
  rewrite app_nil_r in E. cbn [register_waits ret] in E.
  exists t1. split; [exact E|].
  destruct (H5 _ (constructed_cell count true (mem t))) as (r' & Hr' & A & B & C).
  cbn [Status StillWaiting WaitAll] in A, B, C.
  pose proof (wfmo_at_cell _ _ _ Hr') as Hat.
  split; [|split; [exact H7|split; [exact H8|]]].
  - unfold handed_over. rewrite Hat, A, B, C, Hl.
    split; [lia|]. split; [reflexivity|]. split; [reflexivity|]. split.
    + intros m e _ Hm.
      assert (Hin : e ∈ es) by (eapply list_elem_of_lookup_2; exact Hm).
      rewrite Forall_forall in Hvalid, Hpre, Hdead.
      destruct (lookup_lt_is_Some_2 (events (mem t)) e (Hvalid _ Hin)) as [ev Hev].
      assert (Hev0 : events (mem t0) !! e = Some ev) by exact Hev.
      pose proof (HQ e m Hnd Hm (ex_intro _ ev Hev0)) as Hq.
      rewrite (event_at_lookup _ _ _ Hev0), Z.add_0_l in Hq.
      destruct (events (mem t1) !! e) as [ev1|] eqn:E1.
      2:{ rewrite (event_at_dangling _ _ E1) in Hq. cbn in Hq.
          destruct (RegisteredWaits ev); discriminate. }
      rewrite (event_at_lookup _ _ _ E1) in Hq.
      exists ev1, (RegisteredWaits ev). split; [exact E1|].
      pose proof (H1 e) as HS. pose proof (H2 e) as HA.
      rewrite (event_at_lookup _ _ _ E1) in HS, HA.
      split; [rewrite HS; apply (Hpre _ Hin)|]. split; [exact HA|]. split; [exact Hq|].
      assert (Hnot : Forall (fun i => Waiter i <> w) (RegisteredWaits ev)).
      { apply refs_zero_not_in.
        pose proof (refs_le_regs_in w _ _ _ Hev) as Hle.
        change (regs_in w (events (mem t))) with (registrations w (mem t)) in Hle. lia. }
      pose proof (Hdead _ Hin) as Hd. rewrite (event_at_lookup _ _ _ Hev) in Hd.
      rewrite Forall_forall in Hnot, Hd. apply Forall_forall. intros i Hi.
      split; [exact (Hnot _ Hi)|].
      unfold still_waiting, wfmo_at. rewrite (H4 _ (Hnot _ Hi)).
      subst t0. cbn [mem]. rewrite constructed_others by exact (Hnot _ Hi).
      exact (Hd _ Hi).
    + intros m e Hm. lia.
  - rewrite H9. subst t0. cbn [trace]. rewrite waits_app. cbn. apply app_nil_r.
Qed.

(** X14.  A wait for all of several distinct events, none of them signaled
    and in none of whose queues a waiter stands that is still waiting,
    blocks, and takes the events one by one as other threads call [SetEvent]
    on them: each event so set goes to the waiter at once (an auto-reset
    event is unsignaled, a manual-reset event stays signaled, its queue is
    empty) while the others are still pending.  When the thread wakes up
    after the first [k] events have been set, it returns 0 if all have been
    set, and sleeps again if not; if the wakeup is the expiry of the timed
    wait it returns [ETIMEDOUT], with the number of events that are left in
    the out-parameter, and the events it took stay taken.  The store may
    hold other waits in progress and any counts; the call is supposed to
    find no registration of the record that it is going to allocate, as in
    every store that the operations have made. *)
Theorem wait_all_takes_events_as_they_are_set (t : thread) (evs : list nat)
    (count : Z) (k : nat) (ms : Z) (late : bool) :
  registrations (length (wfmos (mem t))) (mem t) = 0%nat ->
  Forall (fun e => Forall (fun i => still_waiting (mem t) i = false)
                     (RegisteredWaits (event_at (mem t) e)))
    (take (Z.to_nat count) evs) ->
  0 < count < Int.max ->
  (Z.to_nat count <= length evs)%nat ->
  NoDup (take (Z.to_nat count) evs) ->
  Forall (fun e => (e < length (events (mem t)))%nat) (take (Z.to_nat count) evs) ->
  Forall (fun e => State (event_at (mem t) e) = false) (take (Z.to_nat count) evs) ->
  ms <> 0 ->
  (k <= Z.to_nat count)%nat ->
  sched t = [mk_wakeup (map OtherSetEvent (take k evs)) late] ->
  let r := WaitForMultipleEvents evs count true ms t in
  let expired := negb (ms =? INFINITE) && late in
  returned r =
    (if expired then Some (ETIMEDOUT, count - Z.of_nat k)
     else if (k =? Z.to_nat count)%nat then Some (0, 0) else None) /\
  sched (final r) = [] /\
  (forall m e, (m < k)%nat -> evs !! m = Some e -> taken (mem t) (mem (final r)) e) /\
  (forall m e, (k <= m < Z.to_nat count)%nat -> evs !! m = Some e ->
     State (event_at (mem (final r)) e) = false).
Proof.
  intros Hfresh Hdead Hc Hlen Hnd Hvalid Hpre Hms Hk Hsch r expired.
  set (w := length (wfmos (mem t))) in *.
  set (es := take (Z.to_nat count) evs) in *.
  assert (Hl : Z.of_nat (length es) = count).
  { subst es. rewrite length_take_le by exact Hlen. lia. }
  assert (Hrun : exists tf,
            final r = tf /\ sched tf = [] /\
            returned r =
              (if expired then Some (ETIMEDOUT, count - Z.of_nat k)
               else if (k =? Z.to_nat count)%nat then Some (0, 0) else None) /\
            exists h, events (mem tf) = events h /\ handed_over w (mem t) es k h).
  { subst r expired. rewrite WaitForMultipleEvents_eq. cbv zeta. fold w.
    destruct (registered_pending t evs count Hfresh Hdead ltac:(lia) Hlen Hnd Hvalid Hpre)
      as (t1 & E & H0 & Hs1 & Hc1 & _).
    fold w es in H0. rewrite E.
    assert (Hmax : Z.of_nat (length es) <= Int.max) by lia.
    assert (Hk' : (k <= length es)%nat) by lia.
    pose proof (handed_over_run w (mem t) es (mem t1) Hnd Hmax H0 k Hk') as Hk1.
    assert (Htk : take k es = take k evs).
    { subst es. rewrite take_take, Nat.min_l by lia. reflexivity. }
    rewrite Htk in Hk1.
    set (h := run_others (map OtherSetEvent (take k evs)) (mem t1)) in *.
    destruct H0 as (Hst0 & _).
    assert (Hsat0 : satisfied true (wfmo_at (mem t1) w) = false).
    { unfold satisfied. rewrite Hst0, Hl. cbn [andb orb negb].
      destruct (Z.eqb_spec (count - Z.of_nat 0) 0); [lia|reflexivity]. }
    unfold wait_phase. destruct (Z.eqb_spec ms 0) as [|_]; [contradiction|].
    rewrite Hs1, Hsch. cbn [wait_until_done]. rewrite Hsat0.
    unfold wake. cbn [others timed_out]. fold h.
    rewrite is_Some_timeout_of, Hc1.
    pose proof Hk1 as (Hstk & Hswk & Hwak & Hpk & Htk').
    assert (HS : Status (wfmo_at h w) = count - Z.of_nat k) by (rewrite Hstk, Hl; reflexivity).
    destruct (negb (ms =? INFINITE) && late).
    - change (negb (ETIMEDOUT =? 0)) with true. cbv iota.
      cbn [returned final mem sched]. rewrite HS.
      eexists. split; [reflexivity|]. cbn [sched mem]. split; [reflexivity|].
      split; [reflexivity|]. exists h. split; [apply events_finalized|exact Hk1].
    - change (negb (0 =? 0)) with false. cbv iota. cbn [wait_until_done mem].
      unfold satisfied. rewrite HS. cbn [andb orb negb].
      destruct (Nat.eqb_spec k (Z.to_nat count)) as [Hkn|Hkn].
      + assert (Hz : count - Z.of_nat k = 0) by lia. rewrite Hz.
        cbn [Z.eqb orb returned final mem sched]. rewrite HS, Hz.
        eexists. split; [reflexivity|]. cbn [sched mem]. split; [reflexivity|].
        split; [reflexivity|]. exists h. split; [apply events_finalized|exact Hk1].
      + replace (count - Z.of_nat k =? 0) with false by (symmetry; apply Z.eqb_neq; lia).
        cbn [orb returned final sleep mem sched].
        eexists. split; [reflexivity|]. cbn [sched mem]. split; [reflexivity|].
        split; [reflexivity|]. exists h. split; [reflexivity|exact Hk1]. }
  destruct Hrun as (tf & -> & Hs & Hret & h & Hev & Hh).
  destruct Hh as (_ & _ & _ & Hpend & Htaken).
  assert (Hat : forall e, event_at (mem tf) e = event_at h e).
  { intros e. unfold event_at. rewrite Hev. reflexivity. }
  split; [exact Hret|]. split; [exact Hs|]. split.
  - intros m e Hm He. unfold taken. rewrite Hat. apply (Htaken m e Hm).
    subst es. rewrite lookup_take_lt by lia. exact He.
  - intros m e Hm He. rewrite Hat.
    destruct (Hpend m e ltac:(lia)) as (ev & gone & A & B & _).
    + subst es. rewrite lookup_take_lt by lia. exact He.
    + rewrite (event_at_lookup _ _ _ A). exact B.
Qed.

(** Another wait is in progress on event 2, its count is too high, and the
    queue of event 1 holds the registration of a wait that has left. *)
Lemma wait_all_takes_events_as_they_are_set_witness :
  let h := mk_heap [mk_event true false []; mk_event false false [mk_info 0 1];
                    mk_event true false [mk_info 1 0]]
                   [Some (mk_wfmo (-1) false 1 false); Some (mk_wfmo (-1) true 5 false)] in
  let evs := [0%nat; 1%nat] in
  let both := start h (mk_timeval 0 0) [mk_wakeup [OtherSetEvent 0; OtherSetEvent 1] false] in
  let one := start h (mk_timeval 0 0) [mk_wakeup [OtherSetEvent 0] false] in
  let late := start h (mk_timeval 0 0) [mk_wakeup [OtherSetEvent 0] true] in
  still_waiting h (mk_info 1 0) = true /\
  returned (WaitForMultipleEvents evs 2 true 50 both) = Some (0, 0) /\
  events (mem (final (WaitForMultipleEvents evs 2 true 50 both))) =
    [mk_event true false []; mk_event false true []; mk_event true false [mk_info 1 0]] /\
  returned (WaitForMultipleEvents evs 2 true 50 one) = None /\
  returned (WaitForMultipleEvents evs 2 true 50 late) = Some (ETIMEDOUT, 1) /\
  events (mem (final (WaitForMultipleEvents evs 2 true 50 late))) =
    [mk_event true false []; mk_event false false [mk_info 0 1; mk_info 2 1];
     mk_event true false [mk_info 1 0]].
Proof.
  intros h evs both one late.
  assert (Hfresh : registrations (length (wfmos h)) h = 0%nat) by (vm_compute; reflexivity).
  assert (Hdead : Forall (fun e => Forall (fun i => still_waiting h i = false)
                                     (RegisteredWaits (event_at h e)))
                    (take (Z.to_nat 2) evs)).
  { change (take (Z.to_nat 2) evs) with [0%nat; 1%nat]. repeat constructor. }
  assert (Hc : 0 < 2 < Int.max) by (vm_compute; split; reflexivity).
  assert (Hlen : (Z.to_nat 2 <= length evs)%nat) by (vm_compute; lia).
  assert (Hnd : NoDup (take (Z.to_nat 2) evs)).
  { change (take (Z.to_nat 2) evs) with [0%nat; 1%nat].
    apply NoDup_cons. split; [|apply NoDup_singleton].
    intros H. apply list_elem_of_singleton in H. discriminate. }
  assert (Hvalid : Forall (fun e => (e < length (events h))%nat) (take (Z.to_nat 2) evs)).
  { change (take (Z.to_nat 2) evs) with [0%nat; 1%nat]. repeat constructor. }
  assert (Hpre : Forall (fun e => State (event_at h e) = false) (take (Z.to_nat 2) evs))
    by (repeat constructor).
  assert (Hms : 50 <> 0) by discriminate.
  assert (H2 : (2 <= Z.to_nat 2)%nat) by (vm_compute; lia).
  assert (H1 : (1 <= Z.to_nat 2)%nat) by (vm_compute; lia).
  destruct (wait_all_takes_events_as_they_are_set both evs 2 2 50 false
              Hfresh Hdead Hc Hlen Hnd Hvalid Hpre Hms H2 eq_refl) as (A & _).
  destruct (wait_all_takes_events_as_they_are_set one evs 2 1 50 false
              Hfresh Hdead Hc Hlen Hnd Hvalid Hpre Hms H1 eq_refl) as (B & _).
  destruct (wait_all_takes_events_as_they_are_set late evs 2 1 50 true
              Hfresh Hdead Hc Hlen Hnd Hvalid Hpre Hms H1 eq_refl) as (C & _).
  split; [reflexivity|].
  split; [exact A|]. split; [vm_compute; reflexivity|]. split; [exact B|].
  split; [exact C|]. vm_compute. reflexivity.
Defined.

(** ** The index a wait for any event returns, in any store *)

Lemma unfired_or_answered_wfmos w n h h' :
  wfmos h' !! w = wfmos h !! w ->
  unfired w h \/ answered w n h -> unfired w h' \/ answered w n h'.
Proof. unfold unfired, answered, wfmo_at. intros ->. auto. Qed.

(** A visit of the signaler leaves [FiredEvent] at -1 or at the index of a
    registration, whatever the counts are. *)
Lemma visited_answer w n i h :
  (Waiter i = w -> 0 <= WaitIndex i < n) ->
  unfired w h \/ answered w n h ->
  unfired w (visited i h) \/ answered w n (visited i h).
Proof.
  intros Hi H. destruct (decide (Waiter i = w)) as [Hw|Hne].
  - specialize (Hi Hw). destruct H as [H|[Hs Hst]]; right.
    + destruct (visited_ours w i h) as [[A B] _]; [split; [exact Hw|lia]|exact H|].
      split; [exact B|].
      subst w. destruct (unfired_cell _ _ H) as (r & Hj & Hsw & Ha & _).
      pose proof (cell_upd_wfmo _ _ decr_RefCount _ Hj) as Hc1. fold (after_decr i h) in Hc1.
      unfold visited. cbv zeta. rewrite (wfmo_at_cell _ _ _ Hc1).
      cbn [decr_RefCount set_RefCount StillWaiting]. rewrite Hsw.
      unfold notified. rewrite (wfmo_at_cell _ _ _ Hc1).
      cbn [decr_RefCount set_RefCount WaitAll]. rewrite Ha.
      rewrite (wfmo_at_cell _ _ _
                 (cell_upd_wfmo _ _ (set_StillWaiting false) _
                    (cell_upd_wfmo _ _ (set_Status (WaitIndex i)) _ Hc1))).
      cbn. exact Hi.
    + subst w. unfold visited. cbv zeta. rewrite StillWaiting_after_decr, Hs.
      unfold released. destruct (_ =? _).
      * unfold answered. rewrite wfmo_at_free_wfmo, decide_True by reflexivity.
        cbn. split; [reflexivity|lia].
      * unfold answered. rewrite Status_after_decr, StillWaiting_after_decr. auto.
  - eapply unfired_or_answered_wfmos; [|exact H]. apply wfmos_visited_ne, Hne.
Qed.

Lemma SetEvent_manual_answer w n q : forall t,
  Forall (fun i => Waiter i = w -> 0 <= WaitIndex i < n) q ->
  unfired w (mem t) \/ answered w n (mem t) ->
  unfired w (mem (final (SetEvent_manual q t))) \/
  answered w n (mem (final (SetEvent_manual q t))).
Proof.
  induction q as [|i q IH]; intros t Hq H; [exact H|].
  apply Forall_cons in Hq as [Hi Hq].
  destruct (SetEvent_manual_visit i q t) as (tr & E & _). rewrite E.
  apply IH; [exact Hq|]. cbn [mem]. apply visited_answer; assumption.
Qed.

Lemma SetEvent_auto_answer w n e q : forall t,
  Forall (fun i => Waiter i = w -> 0 <= WaitIndex i < n) q ->
  unfired w (mem t) \/ answered w n (mem t) ->
  unfired w (mem (final (SetEvent_auto e q t))) \/
  answered w n (mem (final (SetEvent_auto e q t))).
Proof.
  induction q as [|i q IH]; intros t Hq H; [exact H|].
  apply Forall_cons in Hq as [Hi Hq].
  destruct (SetEvent_auto_visit e i q t) as (t2 & E & Hw & _). rewrite E.
  assert (H2 : unfired w (mem t2) \/ answered w n (mem t2)).
  { eapply unfired_or_answered_wfmos; [rewrite Hw; reflexivity|].
    apply visited_answer; assumption. }
  destruct (still_waiting (mem t) i); [exact H2|apply IH; assumption].
Qed.

Lemma SetEvent_answer w n e t :
  indices_ok w n (mem t) ->
  unfired w (mem t) \/ answered w n (mem t) ->
  unfired w (mem (final (SetEvent e t))) \/ answered w n (mem (final (SetEvent e t))).
Proof.
  intros Hidx H. rewrite SetEvent_mem. cbv zeta. cbn [mem].
  set (t1 := mk_thread _ _ _ _).
  assert (Hq : Forall (fun i => Waiter i = w -> 0 <= WaitIndex i < n)
                 (RegisteredWaits (event_at (upd_event e (set_State true) (mem t)) e))).
  { apply Forall_forall. intros i Hi. apply (Hidx e).
    revert Hi. apply (queue_shrinks_alter _ _ e (set_State true)); [reflexivity|].
    intros ev j Hj. exact Hj. }
  destruct (AutoReset _).
  - apply SetEvent_auto_answer; assumption.
  - eapply unfired_or_answered_wfmos; [rewrite wfmos_upd_event; reflexivity|].
    apply SetEvent_manual_answer; assumption.
Qed.

Lemma run_others_answer w n ops : forall h,
  indices_ok w n h ->
  unfired w h \/ answered w n h ->
  indices_ok w n (run_others ops h) /\
  (unfired w (run_others ops h) \/ answered w n (run_others ops h)).
Proof.
  induction ops as [|op ops IH]; intros h Hidx H; [auto|].
  cbn [run_others fold_left]. apply IH.
  - destruct op as [e|e]; cbn [run_other].
    + intros e' i Hi. apply (Hidx e'). apply SetEvent_queues_shrink in Hi. exact Hi.
    + rewrite ResetEvent_eq. cbn [final mem]. intros e' i Hi. apply (Hidx e').
      revert Hi. apply (queue_shrinks_alter _ _ e (set_State false)); [reflexivity|].
      intros ev j Hj. exact Hj.
  - destruct op as [e|e]; cbn [run_other].
    + apply SetEvent_answer; assumption.
    + rewrite ResetEvent_eq. exact H.
Qed.

Lemma wait_until_done_answer w n ts ws : forall r0 t,
  indices_ok w n (mem t) ->
  unfired w (mem t) \/ answered w n (mem t) ->
  match wait_until_done w false ts r0 ws t with
  | Returned a t' =>
      (a = 0 -> 0 <= Status (wfmo_at (mem t') w) < n) /\
      (Status (wfmo_at (mem t') w) = -1 \/ 0 <= Status (wfmo_at (mem t') w) < n)
  | Blocked _ => True
  end.
Proof.
  assert (Hrange : forall h, unfired w h \/ answered w n h ->
            Status (wfmo_at h w) = -1 \/ 0 <= Status (wfmo_at h w) < n).
  { intros h [(_ & _ & A)|[_ A]]; auto. }
  assert (Hsat : forall h, unfired w h \/ answered w n h ->
            satisfied false (wfmo_at h w) = true -> 0 <= Status (wfmo_at h w) < n).
  { intros h [(_ & _ & A)|[_ A]] Hs; [|exact A].
    unfold satisfied in Hs. rewrite A in Hs. discriminate. }
  induction ws as [|x ws IH]; intros r0 t Hidx H; cbn [wait_until_done];
    destruct (satisfied false (wfmo_at (mem t) w)) eqn:Hs.
  - split; [intros _; apply Hsat; assumption|apply Hrange, H].
  - exact I.
  - split; [intros _; apply Hsat; assumption|apply Hrange, H].
  - unfold wake.
    destruct (run_others_answer w n (others x) (mem t) Hidx H) as (Hidx' & H').
    destruct (bool_decide (is_Some ts) && timed_out x).
    + change (negb (ETIMEDOUT =? 0)) with true. cbv iota. cbn [mem].
      split; [discriminate|apply Hrange, H'].
    + change (negb (0 =? 0)) with false. cbv iota. apply IH; assumption.
Qed.

(** The registration loop of a wait for any: the indices it registers and
    the index it returns with are the positions of the events. *)
Lemma register_waits_answer w n es : forall i t,
  0 <= i -> i + Z.of_nat (length es) <= n ->
  indices_ok w n (mem t) ->
  unfired w (mem t) ->
  exists done t1,
    register_waits w false i es t = Returned done t1 /\
    indices_ok w n (mem t1) /\
    (if done then 0 <= Status (wfmo_at (mem t1) w) < n else unfired w (mem t1)).
Proof.
  induction es as [|e es IH]; intros i t Hi Hn Hidx Hu.
  - exists false, t. cbn [register_waits ret]. auto.
  - cbn [length] in Hn. rewrite Nat2Z.inj_succ in Hn.
    destruct (unfired_cell _ _ Hu) as (r & Hr & Hs & Ha & Hst).
    rewrite register_waits_cons. destruct (State (event_at (mem t) e)).
    + eexists true, _. split; [reflexivity|]. cbn [mem].
      assert (Hr0 : mjoin (wfmos (consumed e (mem t)) !! w) = Some r).
      { unfold consumed. destruct (AutoReset _); exact Hr. }
      pose proof (cell_upd_wfmo _ _ (set_Status i) _ Hr0) as Hc.
      split.
      * intros e' j Hj. apply (Hidx e'). unfold event_at in Hj. rewrite events_upd_wfmo in Hj.
        fold (event_at (consumed e (mem t)) e') in Hj.
        rewrite RegisteredWaits_consumed in Hj. exact Hj.
      * rewrite (wfmo_at_cell _ _ _ Hc). cbn. lia.
    + match goal with |- context [register_waits w false (i + 1) es ?t0] =>
        destruct (IH (i + 1) t0) as (done & t1 & E & H1 & H2) end.
      * lia.
      * lia.
      * cbn [mem]. intros e' j Hj Hw. unfold event_at in Hj. rewrite events_upd_wfmo in Hj.
        unfold upd_event in Hj. cbn [events] in Hj.
        destruct (decide (e = e')) as [->|Hne].
        -- rewrite list_lookup_alter, decide_True in Hj by reflexivity.
           destruct (events (mem t) !! e') as [ev|] eqn:Hev; cbn in Hj.
           ++ apply elem_of_app in Hj as [Hj|Hj].
              ** apply (Hidx e'); [|exact Hw]. rewrite (event_at_lookup _ _ _ Hev). exact Hj.
              ** apply list_elem_of_singleton in Hj. subst j. cbn. lia.
           ++ apply elem_of_nil in Hj. contradiction.
        -- rewrite list_lookup_alter_ne in Hj by exact Hne. apply (Hidx e'); assumption.
      * cbn [mem].
        assert (Hr' : mjoin (wfmos (upd_event e (push_back (mk_info w i)) (mem t)) !! w) = Some r)
          by exact Hr.
        pose proof (cell_upd_wfmo _ _ incr_RefCount _ Hr') as Hc.
        unfold unfired. rewrite (wfmo_at_cell _ _ _ Hc). cbn. auto.
      * exists done, t1. auto.
Qed.

(** X19.  The index that a wait for any event returns is a position of the
    array: whenever [WaitForMultipleEvents] with [waitAll] false returns 0,
    whatever the other threads did meanwhile and whatever the store holds
    (other waits in progress, counts that [DestroyEvent] has left inexact),
    the out-parameter is at least 0 and less than [count]; when it returns
    [ETIMEDOUT] the out-parameter is -1 or such an index.  The call is
    supposed to find no registration of the record that it is going to
    allocate, as in every store that the operations have made. *)
Theorem wait_any_index_in_range (t : thread) (evs : list nat) (count : Z) (ms : Z) :
  registrations (length (wfmos (mem t))) (mem t) = 0%nat ->
  0 <= count < Int.max ->
  match returned (WaitForMultipleEvents evs count false ms t) with
  | Some (r, idx) => (r = 0 -> 0 <= idx < count) /\ -1 <= idx < count
  | None => True
  end.
Proof.
  intros Hfresh Hc.
  rewrite WaitForMultipleEvents_eq. cbv zeta. unfold registered.
  set (w := length (wfmos (mem t))) in *.
  set (es := take (Z.to_nat count) evs) in *.
  set (t0 := mk_thread _ _ _ _).
  assert (Hl : Z.of_nat (length es) <= count).
  { subst es. rewrite length_take. lia. }
  destruct (constructed_unserved count (mem t) Hfresh) as (Hev & _ & Hu0). fold w in Hev, Hu0.
  assert (Hidx0 : indices_ok w count (mem t0)).
  { intros e i Hi Hw. exfalso. subst t0. cbn [mem] in Hi.
    change (event_at (constructed count false (mem t)) e) with (event_at (mem t) e) in Hi.
    destruct (events (mem t) !! e) as [ev|] eqn:Hev'.
    - rewrite (event_at_lookup _ _ _ Hev') in Hi.
      pose proof (refs_le_regs_in w _ _ _ Hev') as Hle.
      change (regs_in w (events (mem t))) with (registrations w (mem t)) in Hle.
      assert (Hz : refs w (RegisteredWaits ev) = 0%nat) by lia.
      pose proof (refs_zero_not_in _ _ Hz) as Hall. rewrite Forall_forall in Hall.
      exact (Hall _ Hi Hw).
    - rewrite (event_at_dangling _ _ Hev') in Hi. apply elem_of_nil in Hi. exact Hi. }
  destruct (register_waits_answer w count es 0 t0 ltac:(lia) ltac:(lia) Hidx0 Hu0)
    as (done & t1 & E & Hidx1 & H1).
  rewrite E. unfold wait_phase. destruct done.
  - cbn [returned]. split; [auto|lia].
  - destruct (ms =? 0).
    + cbn [returned]. split; [discriminate|]. destruct H1 as (_ & _ & A). rewrite A. lia.
    + pose proof (wait_until_done_answer w count (timeout_of (clock t1) ms) (sched t1) 0 t1
                    Hidx1 (or_introl H1)) as H2.
      destruct (wait_until_done _ _ _ _ _ _) as [a t2|t2]; cbn [returned] in *; [|exact I].
      destruct H2 as [A B]. split; [exact A|]. lia.
Qed.

(** The store holds the record of another wait, still in progress and with
    a count that is too high; its registration stands in the queue of event
    0.  The others reset event 0 and then set event 1, which the call takes. *)
Lemma wait_any_index_in_range_witness :
  let h := mk_heap [mk_event true false [mk_info 0 7]; mk_event false false []]
                   [Some (mk_wfmo (-1) true 5 false)] in
  let t := start h (mk_timeval 0 0)
             [mk_wakeup [OtherResetEvent 0] false; mk_wakeup [OtherSetEvent 1] false] in
  registrations (length (wfmos (mem t))) (mem t) = 0%nat /\
  returned (WaitForMultipleEvents [0%nat; 1%nat] 2 false 15 t) = Some (0, 1) /\
  (0 = 0 -> 0 <= 1 < 2).
Proof.
  intros h t.
  assert (Hfresh : registrations (length (wfmos (mem t))) (mem t) = 0%nat)
    by (vm_compute; reflexivity).
  assert (Hc : 0 <= 2 < Int.max) by (vm_compute; split; [discriminate|reflexivity]).
  pose proof (wait_any_index_in_range t [0%nat; 1%nat] 2 15 Hfresh Hc) as H.
  assert (E : returned (WaitForMultipleEvents [0%nat; 1%nat] 2 false 15 t) = Some (0, 1))
    by (vm_compute; reflexivity).
  rewrite E in H. destruct H as [A _].
  split; [exact Hfresh|]. split; [exact E|exact A].
Defined.

(** ** Registrations name allocated records *)

Lemma allocated_shrinks h h' :
  (forall e i, i ∈ RegisteredWaits (event_at h' e) -> i ∈ RegisteredWaits (event_at h e)) ->
  (length (wfmos h) <= length (wfmos h'))%nat ->
  allocated h -> allocated h'.
Proof. intros Hq Hl H e i Hi. specialize (H e i (Hq e i Hi)). lia. Qed.

Lemma allocated_upd_event e f h :
  (forall ev, RegisteredWaits (f ev) = RegisteredWaits ev) ->
  allocated h -> allocated (upd_event e f h).
Proof.
  intros Hf. apply allocated_shrinks; [|reflexivity].
  apply (queue_shrinks_alter _ _ e f); [reflexivity|].
  intros ev i Hi. rewrite Hf in Hi. exact Hi.
Qed.

Lemma allocated_wfmos h h' :
  events h' = events h -> length (wfmos h') = length (wfmos h) ->
  allocated h -> allocated h'.
Proof.
  intros He Hl. apply allocated_shrinks; [|lia].
  intros e i. unfold event_at. rewrite He. auto.
Qed.

Lemma length_wfmos_visited i h : length (wfmos (visited i h)) = length (wfmos h).
Proof.
  unfold visited. cbv zeta. destruct (StillWaiting _).
  - unfold notified. destruct (WaitAll _); unfold upd_wfmo, after_decr, upd_wfmo;
      cbn [wfmos]; rewrite !length_alter; reflexivity.
  - unfold released. destruct (_ =? _); unfold free_wfmo, after_decr, upd_wfmo;
      cbn [wfmos]; rewrite ?length_alter; reflexivity.
Qed.

Lemma length_wfmos_SetEvent e t :
  length (wfmos (mem (final (SetEvent e t)))) = length (wfmos (mem t)).
Proof.
  rewrite SetEvent_mem. cbv zeta. cbn [mem].
  set (t1 := mk_thread _ _ _ _).
  change (length (wfmos (mem t))) with (length (wfmos (mem t1))).
  clearbody t1. destruct (AutoReset _).
  - revert t1. induction (RegisteredWaits _) as [|i q IH]; intros t1; [reflexivity|].
    destruct (SetEvent_auto_visit e i q t1) as (t2 & E & Hw & _). rewrite E.
    assert (H2 : length (wfmos (mem t2)) = length (wfmos (mem t1))).
    { rewrite Hw. apply length_wfmos_visited. }
    destruct (still_waiting (mem t1) i); [exact H2|]. rewrite IH. exact H2.
  - rewrite wfmos_upd_event.
    revert t1. induction (RegisteredWaits _) as [|i q IH]; intros t1; [reflexivity|].
    destruct (SetEvent_manual_visit i q t1) as (tr & E & _). rewrite E, IH.
    apply length_wfmos_visited.
Qed.

Lemma SetEvent_allocated e t :
  allocated (mem t) -> allocated (mem (final (SetEvent e t))).
Proof.
  apply allocated_shrinks.
  - apply SetEvent_queues_shrink.
  - rewrite length_wfmos_SetEvent. reflexivity.
Qed.

Lemma run_others_allocated ops : forall h, allocated h -> allocated (run_others ops h).
Proof.
  induction ops as [|op ops IH]; intros h H; [exact H|].
  cbn [run_others fold_left]. apply IH. destruct op as [e|e]; cbn [run_other].
  - apply SetEvent_allocated. exact H.
  - rewrite ResetEvent_eq. cbn [final mem]. apply allocated_upd_event; [reflexivity|exact H].
Qed.

Lemma wait_until_set_allocated e ts ws : forall t,
  allocated (mem t) -> allocated (mem (final (wait_until_set e ts ws t))).
Proof.
  induction ws as [|w ws IH]; intros t H; [exact H|].
  cbn [wait_until_set wake].
  match goal with |- context [if ?c then _ else _] => destruct c end.
  - apply IH. cbn. apply run_others_allocated, H.
  - cbn. apply run_others_allocated, H.
Qed.

Lemma WaitForEvent_allocated e ms t :
  allocated (mem t) -> allocated (mem (final (WaitForEvent e ms t))).
Proof.
  intros H. rewrite WaitForEvent_eq. set (t0 := mk_thread _ _ _ _).
  assert (H0 : allocated (mem t0)) by exact H.
  assert (Hu : allocated (mem (final (UnlockedWaitForEvent e ms t0)))).
  { clearbody t0. destruct (State (event_at (mem t0) e)) eqn:Hs.
    - unfold UnlockedWaitForEvent. run. rewrite Hs. cbn [negb].
      destruct (AutoReset _); run; [|exact H0].
      apply allocated_upd_event; [reflexivity|exact H0].
    - destruct (Z.eqb_spec ms 0) as [->|Hms].
      + rewrite UnlockedWaitForEvent_zero, Hs. exact H0.
      + rewrite UnlockedWaitForEvent_wait by assumption.
        pose proof (wait_until_set_allocated e (timeout_of (clock t0) ms) (sched t0) t0 H0) as Hw.
        destruct (wait_until_set _ _ _ _) as [a t'|t']; cbn in Hw |- *; [|exact Hw].
        destruct (_ && _); [|exact Hw].
        apply allocated_upd_event; [reflexivity|exact Hw]. }
  destruct (UnlockedWaitForEvent e ms t0) as [a t'|t']; exact Hu.
Qed.

Lemma allocated_consumed e h : allocated h -> allocated (consumed e h).
Proof.
  intros H. unfold consumed. destruct (AutoReset _); [|exact H].
  apply allocated_upd_event; [reflexivity|exact H].
Qed.

Lemma allocated_upd_wfmo w f h : allocated h -> allocated (upd_wfmo w f h).
Proof.
  apply allocated_wfmos; [reflexivity|]. unfold upd_wfmo. cbn [wfmos]. apply length_alter.
Qed.

Lemma register_waits_allocated w waitAll es : forall i t,
  (w < length (wfmos (mem t)))%nat ->
  allocated (mem t) ->
  allocated (mem (final (register_waits w waitAll i es t))) /\
  length (wfmos (mem (final (register_waits w waitAll i es t)))) = length (wfmos (mem t)).
Proof.
  induction es as [|e es IH]; intros i t Hw H; [auto|].
  rewrite register_waits_cons.
  destruct (State (event_at (mem t) e)).
  - assert (Hl : forall f, length (wfmos (upd_wfmo w f (consumed e (mem t)))) =
                           length (wfmos (mem t))).
    { intros f. unfold upd_wfmo. cbn [wfmos]. rewrite length_alter.
      unfold consumed. destruct (AutoReset _); reflexivity. }
    destruct waitAll.
    + cbv zeta.
      match goal with |- context [register_waits w true (i + 1) es ?t1] =>
        destruct (IH (i + 1) t1) as [A B] end.
      * cbn [mem]. rewrite Hl. exact Hw.
      * cbn [mem]. apply allocated_upd_wfmo, allocated_consumed, H.
      * split; [exact A|]. rewrite B. cbn [mem]. apply Hl.
    + cbn [final mem]. split; [|apply Hl].
      apply allocated_upd_wfmo, allocated_consumed, H.
  - match goal with |- context [register_waits w waitAll (i + 1) es ?t1] =>
      destruct (IH (i + 1) t1) as [A B] end.
    + cbn [mem]. unfold upd_wfmo. cbn [wfmos]. rewrite length_alter, wfmos_upd_event. exact Hw.
    + cbn [mem]. apply allocated_upd_wfmo.
      intros e' j Hj. rewrite wfmos_upd_event.
      unfold event_at, upd_event in Hj. cbn [events] in Hj.
      destruct (decide (e = e')) as [->|Hne].
      * rewrite list_lookup_alter, decide_True in Hj by reflexivity.
        destruct (events (mem t) !! e') as [ev|] eqn:Hev; cbn in Hj.
        -- apply elem_of_app in Hj as [Hj|Hj].
           ++ apply (H e'). rewrite (event_at_lookup _ _ _ Hev). exact Hj.
           ++ apply list_elem_of_singleton in Hj. subst j. exact Hw.
        -- apply elem_of_nil in Hj. contradiction.
      * rewrite list_lookup_alter_ne in Hj by exact Hne. apply (H e'). exact Hj.
    + split; [exact A|]. rewrite B. cbn [mem]. unfold upd_wfmo. cbn [wfmos].
      rewrite length_alter, wfmos_upd_event. reflexivity.
Qed.

Lemma wait_until_done_allocated w waitAll ts r ws : forall t,
  allocated (mem t) -> allocated (mem (final (wait_until_done w waitAll ts r ws t))).
Proof.
  revert r. induction ws as [|k ws IH]; intros r t H; cbn [wait_until_done].
  - destruct (satisfied _ _); exact H.
  - destruct (satisfied _ _); [exact H|]. cbn [wake].
    destruct (negb _).
    + cbn. apply run_others_allocated, H.
    + apply IH. cbn. apply run_others_allocated, H.
Qed.

Lemma allocated_finalized w h : allocated h -> allocated (finalized w h).
Proof.
  apply allocated_wfmos; [apply events_finalized|].
  unfold finalized, released. destruct (_ =? _); unfold free_wfmo, upd_wfmo; cbn [wfmos];
    rewrite ?length_alter; reflexivity.
Qed.

Lemma WaitForMultipleEvents_allocated evs count waitAll ms t :
  allocated (mem t) ->
  allocated (mem (final (WaitForMultipleEvents evs count waitAll ms t))).
Proof.
  intros H. rewrite WaitForMultipleEvents_eq. cbv zeta. unfold registered.
  set (w := length (wfmos (mem t))).
  set (t0 := mk_thread _ _ _ _).
  assert (Hw : (w < length (wfmos (mem t0)))%nat).
  { subst t0 w. cbn [mem]. unfold constructed. cbn [wfmos]. rewrite length_app. cbn. lia. }
  assert (H0 : allocated (mem t0)).
  { subst t0. cbn [mem]. revert H. apply allocated_shrinks; [auto|].
    unfold constructed. cbn [wfmos]. rewrite length_app. lia. }
  destruct (register_waits_allocated w waitAll (take (Z.to_nat count) evs) 0 t0 Hw H0) as [A _].
  destruct (register_waits _ _ _ _ _) as [done t2|t2]; cbn [final] in A |- *; [|exact A].
  unfold wait_phase. destruct done; [cbn [final mem]; apply allocated_finalized, A|].
  destruct (ms =? 0); [cbn [final mem]; apply allocated_finalized, A|].
  pose proof (wait_until_done_allocated w waitAll (timeout_of (clock t2) ms) 0 (sched t2) t2 A)
    as B.
  destruct (wait_until_done _ _ _ _ _ _) as [r t3|t3]; cbn [final mem] in B |- *.
  - apply allocated_finalized, B.
  - exact B.
Qed.

Lemma CreateEvent_allocated manualReset initialState t :
  allocated (mem t) -> allocated (mem (final (CreateEvent manualReset initialState t))).
Proof.
  intros H. rewrite CreateEvent_eq. cbv zeta.
  match goal with |- context [SetEvent ?e ?t1] =>
    pose proof (SetEvent_allocated e t1) as Hs;
    destruct (SetEvent e t1) as [a t'|t'] end; cbn [final mem] in Hs |- *; apply Hs;
    (intros e i Hi; cbn [wfmos]; unfold event_at in Hi; cbn [events] in Hi;
     destruct (decide (e < length (events (mem t)))%nat) as [Hlt|Hge];
     [rewrite lookup_app_l in Hi by exact Hlt; apply (H e); exact Hi|];
     rewrite lookup_app_r in Hi by lia;
     destruct (e - length (events (mem t)))%nat; cbn in Hi;
     apply elem_of_nil in Hi; contradiction).
Qed.

Lemma DestroyEvent_allocated e t :
  allocated (mem t) -> allocated (mem (final (DestroyEvent e t))).
Proof.
  intros H. unfold DestroyEvent. run. cbn [final mem].
  revert H. apply allocated_shrinks; [|reflexivity].
  apply (queue_shrinks_alter _ _ e (fun _ => null_event)); [reflexivity|].
  intros ev i Hi. cbn in Hi. apply elem_of_nil in Hi. contradiction.
Qed.

Lemma allocated_fresh h : allocated h -> registrations (length (wfmos h)) h = 0%nat.
Proof.
  intros H. unfold registrations.
  change (sum_list_with (fun ev => refs (length (wfmos h)) (RegisteredWaits ev)))
    with (regs_in (length (wfmos h))).
  assert (Hall : forall e ev, events h !! e = Some ev ->
            refs (length (wfmos h)) (RegisteredWaits ev) = 0%nat).
  { intros e ev Hev. apply not_in_refs_zero. intros Hin.
    apply list_elem_of_In, in_map_iff in Hin as (i & Hw & Hi).
    apply list_elem_of_In in Hi.
    specialize (H e i). rewrite (event_at_lookup _ _ _ Hev) in H. specialize (H Hi). lia. }
  revert Hall. generalize (length (wfmos h)). intros w.
  induction (events h) as [|ev l IH]; intros Hall; [reflexivity|].
  unfold regs_in in *. cbn. rewrite (Hall 0%nat ev eq_refl).
  rewrite IH; [reflexivity|]. intros e ev' He. apply (Hall (S e)). exact He.
Qed.

(** X20.  Every registration in a queue names a record that has been
    allocated.  This holds in the empty store and every operation keeps it:
    [SetEvent], [ResetEvent], [WaitForEvent], [CreateEvent], [DestroyEvent],
    [WaitForMultipleEvents] whether it returns or is still blocked, and the
    operations of the other threads.  In such a store no queue holds a
    registration of the record that the next call to
    [WaitForMultipleEvents] allocates. *)
Theorem registrations_name_allocated_records (t : thread) :
  allocated (mk_heap [] []) /\
  (allocated (mem t) ->
   (forall e, allocated (mem (final (SetEvent e t)))) /\
   (forall e, allocated (mem (final (ResetEvent e t)))) /\
   (forall e ms, allocated (mem (final (WaitForEvent e ms t)))) /\
   (forall manualReset initialState,
      allocated (mem (final (CreateEvent manualReset initialState t)))) /\
   (forall e, allocated (mem (final (DestroyEvent e t)))) /\
   (forall evs count waitAll ms,
      allocated (mem (final (WaitForMultipleEvents evs count waitAll ms t)))) /\
   (forall ops, allocated (run_others ops (mem t))) /\
   registrations (length (wfmos (mem t))) (mem t) = 0%nat).
Proof.
  split.
  - intros e i Hi. unfold event_at in Hi. cbn in Hi. rewrite lookup_nil in Hi. cbn in Hi.
    apply elem_of_nil in Hi. contradiction.
  - intros H. split; [|split; [|split; [|split; [|split; [|split; [|split]]]]]].
    + intros e. apply SetEvent_allocated, H.
    + intros e. rewrite ResetEvent_eq. cbn [final mem].
      apply allocated_upd_event; [reflexivity|exact H].
    + intros e ms. apply WaitForEvent_allocated, H.
    + intros m i. apply CreateEvent_allocated, H.
    + intros e. apply DestroyEvent_allocated, H.
    + intros evs count waitAll ms. apply WaitForMultipleEvents_allocated, H.
    + intros ops. apply run_others_allocated, H.
    + apply allocated_fresh, H.
Qed.

(** A program from the empty store: an event is created and reset, a wait
    for any of it times out at once and leaves its registration, and the
    event is destroyed. *)
Lemma registrations_name_allocated_records_witness :
  let t0 := start (mk_heap [] []) (mk_timeval 0 0) [] in
  let t1 := final (ResetEvent 0 (final (CreateEvent false false t0))) in
  let t2 := final (WaitForMultipleEvents [0%nat] 1 false 0 t1) in
  allocated (mem t0) /\
  allocated (mem t1) /\
  allocated (mem t2) /\
  RegisteredWaits (event_at (mem t2) 0) = [mk_info 0 0] /\
  allocated (mem (final (DestroyEvent 0 t2))) /\
  registrations (length (wfmos (mem t2))) (mem t2) = 0%nat.
Proof.
  intros t0 t1 t2.
  destruct (registrations_name_allocated_records t0) as (H0 & F0).
  destruct (F0 H0) as (_ & _ & _ & Hc & _).
  assert (Hc1 : allocated (mem (final (CreateEvent false false t0)))) by apply Hc.
  destruct (registrations_name_allocated_records (final (CreateEvent false false t0)))
    as (_ & F1).
  destruct (F1 Hc1) as (_ & Hr & _).
  assert (H1 : allocated (mem t1)) by apply Hr.
  destruct (registrations_name_allocated_records t1) as (_ & F2).
  destruct (F2 H1) as (_ & _ & _ & _ & _ & Hw & _).
  assert (H2 : allocated (mem t2)) by apply Hw.
  destruct (registrations_name_allocated_records t2) as (_ & F3).
  destruct (F3 H2) as (_ & _ & _ & _ & Hd & _ & _ & Hf).
  split; [exact H0|]. split; [exact H1|]. split; [exact H2|].
  split; [vm_compute; reflexivity|]. split; [apply Hd|exact Hf].
Defined.
